(** * Wheel-speed malfunction detection and calibration core: shallow embedding

    The development follows the four C translation units of the ABS
    subsystem: [SpeedSensor_Swc.c], [ABS_MalfunctionDetection.c],
    [CalibrationManager.c] and [DiagnosticService.c].

    Modelling conventions.
    - [float32] values are modelled at two levels.  The four components are
      modelled with rationals ([Q]) for the properties that depend on
      comparisons of numbers and on control flow only; NaN, infinities and
      rounding are outside that level.  Where a result depends on what
      [float32] arithmetic produces (a NaN, a division by zero, a rounded
      value), the code is modelled again with IEEE 754 binary32 values
      (modules [Float32], [SpeedSensorFloat], [CalibrationManagerFloat]),
      every operation rounded to nearest-even as the C code performs it.
    - [uintN] values are integers ([Z]) with the wrap-around written out
      ([wrap]).
    - [boolean] is [bool] ([TRUE] = [true], [FALSE] = [false]).
    - every global array indexed by a wheel is a list of [WHEEL_MAX]
      elements read with [get] and written with [upd]; the file-scope
      globals of a translation unit are the fields of one state record that
      is threaded through its functions.
    - pointer parameters are passed by value and are never null.
    - the RTE ports (raw sensor read, NVM read/write, DTC signalling) are
      inputs or logs carried explicitly. *)

From Stdlib Require Import ZArith QArith Qabs List Bool Lia Lqa.
From Stdlib Require Import Permutation Sorted SpecFloat.
Import ListNotations.

Open Scope Z_scope.

(** ** Std_Types.h *)

Definition Std_ReturnType := Z.
Definition E_OK : Std_ReturnType := 0.
Definition E_NOT_OK : Std_ReturnType := 1.

Definition NVM_REQ_OK : Z := 0.
Definition NVM_REQ_NOT_OK : Z := 1.

Definition wrap (bits : Z) (z : Z) : Z := z mod 2 ^ bits.
Definition u8 := wrap 8.
Definition u16 := wrap 16.
Definition u32 := wrap 32.

(** Comparisons of [float32] values. *)
Definition Qleb (x y : Q) : bool := Qle_bool x y.
Definition Qltb (x y : Q) : bool := negb (Qle_bool y x).
Definition Qgtb (x y : Q) : bool := Qltb y x.
Definition Qgeb (x y : Q) : bool := Qleb y x.

(** ** Wheel-indexed arrays *)

Definition WHEEL_FRONT_LEFT : nat := 0.
Definition WHEEL_FRONT_RIGHT : nat := 1.
Definition WHEEL_REAR_LEFT : nat := 2.
Definition WHEEL_REAR_RIGHT : nat := 3.
Definition WHEEL_MAX : nat := 4.

Definition wheels : list nat :=
  [WHEEL_FRONT_LEFT; WHEEL_FRONT_RIGHT; WHEEL_REAR_LEFT; WHEEL_REAR_RIGHT].

Fixpoint upd {A : Type} (i : nat) (v : A) (l : list A) : list A :=
  match l, i with
  | [], _ => []
  | _ :: t, O => v :: t
  | x :: t, S j => x :: upd j v t
  end.

Definition get {A : Type} (d : A) (l : list A) (i : nat) : A := nth i l d.

(** ** SpeedSensor_Types.h and SpeedSensor_Swc.c *)

Module SpeedSensor.

Inductive SensorStatus_t :=
| SENSOR_STATUS_OK
| SENSOR_STATUS_SHORT_CIRCUIT
| SENSOR_STATUS_OPEN_CIRCUIT
| SENSOR_STATUS_OUT_OF_RANGE
| SENSOR_STATUS_CALIBRATION_ERROR
| SENSOR_STATUS_INVALID.

Definition status_is_ok (s : SensorStatus_t) : bool :=
  match s with SENSOR_STATUS_OK => true | _ => false end.

Record SpeedSensorRawData_t := mkRaw {
  pulseCount : Z;
  timeInterval : Z;
  status : SensorStatus_t;
  dataValid : bool }.

Record SpeedData_t := mkSpeed {
  wheelSpeed : Q;
  wheelSpeedRaw : Q;
  accelerationX : Q;
  speedValid : bool;
  qualityFactor : Z }.

Record SpeedSensorCalibration_t := mkCal {
  correctionFactor : Q;
  offsetValue : Q;
  pulsesPerRevolution : Z;
  wheelCircumference : Q;
  calibrationValid : bool;
  calibrationTimestamp : Z }.

Record SpeedSensorDiagnostics_t := mkDiag {
  totalPulseCount : Z;
  errorCount : Z;
  calibrationCycles : Z;
  lastStatus : SensorStatus_t;
  lastErrorTimestamp : Z }.

Record SpeedSensorData_t := mkData {
  wheelPosition : nat;
  rawData : SpeedSensorRawData_t;
  speedData : SpeedData_t;
  calibration : SpeedSensorCalibration_t;
  diagnostics : SpeedSensorDiagnostics_t }.

Definition SPEED_SENSOR_SAMPLE_RATE_MS : Z := 10.
Definition MAX_WHEEL_SPEED_KMH : Q := 300.

(** The all-zero image a [memset] leaves ([SENSOR_STATUS_OK] is 0). *)
Definition zero_raw : SpeedSensorRawData_t := mkRaw 0 0 SENSOR_STATUS_OK false.
Definition zero_speed : SpeedData_t := mkSpeed 0 0 0 false 0.
Definition zero_cal : SpeedSensorCalibration_t := mkCal 0 0 0 0 false 0.
Definition zero_diag : SpeedSensorDiagnostics_t := mkDiag 0 0 0 SENSOR_STATUS_OK 0.
Definition zero_data : SpeedSensorData_t :=
  mkData 0 zero_raw zero_speed zero_cal zero_diag.

(** File-scope state: [g_SpeedSensorData], [g_SpeedSensor_Initialized] and
    the function-static [lastSpeed] of [SpeedSensor_CalculateSpeed]. *)
Record State := mkState {
  g_SpeedSensorData : list SpeedSensorData_t;
  g_SpeedSensor_Initialized : bool;
  lastSpeed : list Q }.

Definition initial : State :=
  mkState (repeat zero_data WHEEL_MAX) false (repeat 0%Q WHEEL_MAX).

Definition sensor (st : State) (w : nat) : SpeedSensorData_t :=
  get zero_data (g_SpeedSensorData st) w.

Definition set_sensor (st : State) (w : nat) (d : SpeedSensorData_t) : State :=
  mkState (upd w d (g_SpeedSensorData st)) (g_SpeedSensor_Initialized st)
          (lastSpeed st).

Definition set_raw (d : SpeedSensorData_t) (r : SpeedSensorRawData_t) :=
  mkData (wheelPosition d) r (speedData d) (calibration d) (diagnostics d).
Definition set_speed (d : SpeedSensorData_t) (s : SpeedData_t) :=
  mkData (wheelPosition d) (rawData d) s (calibration d) (diagnostics d).
Definition set_cal (d : SpeedSensorData_t) (c : SpeedSensorCalibration_t) :=
  mkData (wheelPosition d) (rawData d) (speedData d) c (diagnostics d).
Definition set_diag (d : SpeedSensorData_t) (g : SpeedSensorDiagnostics_t) :=
  mkData (wheelPosition d) (rawData d) (speedData d) (calibration d) g.

Definition default_cal : SpeedSensorCalibration_t :=
  mkCal 1 0 60 (21 # 10) true 0.

Definition init_wheel (wheelIdx : nat) : SpeedSensorData_t :=
  mkData wheelIdx
         (mkRaw 0 0 SENSOR_STATUS_INVALID false)
         zero_speed
         default_cal
         zero_diag.

Definition SpeedSensor_Init (st : State) : Std_ReturnType * State :=
  if negb (g_SpeedSensor_Initialized st) then
    (E_OK, mkState (map init_wheel wheels) true (lastSpeed st))
  else (E_OK, st).

Definition SpeedSensor_GetSpeedData (st : State) (wheelPos : nat)
  : Std_ReturnType * SpeedData_t :=
  if (wheelPos <? WHEEL_MAX)%nat && g_SpeedSensor_Initialized st then
    (E_OK, speedData (sensor st wheelPos))
  else (E_NOT_OK, zero_speed).

(** The parameter check of [SpeedSensor_SetCalibration]: a strict band
    (0.5, 2.0) that is written into the function, a positive pulse count
    and a positive circumference. *)
Definition calibration_accepted (c : SpeedSensorCalibration_t) : bool :=
  Qgtb (correctionFactor c) (1 # 2) && Qltb (correctionFactor c) 2 &&
  (0 <? pulsesPerRevolution c) && Qgtb (wheelCircumference c) 0.

Definition SpeedSensor_SetCalibration (st : State) (wheelPos : nat)
    (cal : SpeedSensorCalibration_t) : Std_ReturnType * State :=
  if (wheelPos <? WHEEL_MAX)%nat && g_SpeedSensor_Initialized st then
    if calibration_accepted cal then
      let d := sensor st wheelPos in
      let c := mkCal (correctionFactor cal) (offsetValue cal)
                     (pulsesPerRevolution cal) (wheelCircumference cal)
                     true (calibrationTimestamp cal) in
      let g := diagnostics d in
      let g' := mkDiag (totalPulseCount g) (errorCount g)
                       (u16 (calibrationCycles g + 1)) (lastStatus g)
                       (lastErrorTimestamp g) in
      (E_OK, set_sensor st wheelPos (set_diag (set_cal d c) g'))
    else (E_NOT_OK, st)
  else (E_NOT_OK, st).

Definition SpeedSensor_GetCalibration (st : State) (wheelPos : nat)
  : Std_ReturnType * SpeedSensorCalibration_t :=
  if (wheelPos <? WHEEL_MAX)%nat && g_SpeedSensor_Initialized st then
    (E_OK, calibration (sensor st wheelPos))
  else (E_NOT_OK, zero_cal).

(** [Rte_Read_RawSensorData_XX_rawData]: the sensor collaborator, one read
    per wheel and cycle. *)
Definition RteRead := nat -> Std_ReturnType * SpeedSensorRawData_t.

Definition SpeedSensor_ProcessRawData (rte : RteRead) (st : State)
    (wheelPos : nat) : Std_ReturnType * State :=
  let '(retVal, raw) :=
    if (wheelPos <? WHEEL_MAX)%nat then rte wheelPos else (E_NOT_OK, zero_raw) in
  if retVal =? E_OK then
    (retVal, set_sensor st wheelPos (set_raw (sensor st wheelPos) raw))
  else (retVal, st).

Definition SpeedSensor_CalculateSpeed (st : State) (wheelPos : nat) : State :=
  let d := sensor st wheelPos in
  let r := rawData d in
  let c := calibration d in
  let s := speedData d in
  if (0 <? timeInterval r) && (0 <? pulsesPerRevolution c) then
    let timeInSeconds := (inject_Z (timeInterval r) / 1000)%Q in
    let rpm := (inject_Z (pulseCount r) / inject_Z (pulsesPerRevolution c)
                / timeInSeconds * 60)%Q in
    let rawSpeed := (rpm * wheelCircumference c * 60 / 1000)%Q in
    let speed := (rawSpeed * correctionFactor c + offsetValue c)%Q in
    let acc := ((speed - get 0%Q (lastSpeed st) wheelPos)
                / (inject_Z SPEED_SENSOR_SAMPLE_RATE_MS / 1000))%Q in
    let s' := mkSpeed speed rawSpeed acc (speedValid s) (qualityFactor s) in
    let g := diagnostics d in
    let g' := mkDiag (u32 (totalPulseCount g + pulseCount r)) (errorCount g)
                     (calibrationCycles g) (lastStatus g)
                     (lastErrorTimestamp g) in
    mkState (upd wheelPos (set_diag (set_speed d s') g') (g_SpeedSensorData st))
            (g_SpeedSensor_Initialized st)
            (upd wheelPos speed (lastSpeed st))
  else
    let s' := mkSpeed 0 0 0 (speedValid s) (qualityFactor s) in
    set_sensor st wheelPos (set_speed d s').

Definition SpeedSensor_ValidateSpeedData (st : State) (wheelPos : nat) : State :=
  let d := sensor st wheelPos in
  let s := speedData d in
  let speedValid0 := true in
  let qualityFactor0 := 100 in
  let '(speedValid1, qualityFactor1) :=
    if Qltb (wheelSpeed s) 0 || Qgtb (wheelSpeed s) MAX_WHEEL_SPEED_KMH
    then (false, 0) else (speedValid0, qualityFactor0) in
  let '(speedValid2, qualityFactor2) :=
    if negb (status_is_ok (status (rawData d)))
    then (false, 0) else (speedValid1, qualityFactor1) in
  let '(speedValid3, qualityFactor3) :=
    if negb (calibrationValid (calibration d))
    then (false, if 50 <? qualityFactor2 then 50 else qualityFactor2)
    else (speedValid2, qualityFactor2) in
  let qualityFactor4 :=
    if Qgtb (accelerationX s) 20 || Qltb (accelerationX s) (-20)
    then (if 30 <? qualityFactor3 then 30 else qualityFactor3)
    else qualityFactor3 in
  set_sensor st wheelPos
    (set_speed d (mkSpeed (wheelSpeed s) (wheelSpeedRaw s) (accelerationX s)
                          speedValid3 qualityFactor4)).

Definition SpeedSensor_UpdateDiagnostics (st : State) (wheelPos : nat) : State :=
  let d := sensor st wheelPos in
  let g := diagnostics d in
  let g1 :=
    if negb (status_is_ok (status (rawData d))) || negb (speedValid (speedData d))
    then mkDiag (totalPulseCount g) (u16 (errorCount g + 1))
                (calibrationCycles g) (lastStatus g) 0
    else g in
  let g2 := mkDiag (totalPulseCount g1) (errorCount g1) (calibrationCycles g1)
                   (status (rawData d)) (lastErrorTimestamp g1) in
  set_sensor st wheelPos (set_diag d g2).

(** One iteration of the wheel loop of [SpeedSensor_MainFunction]. *)
Definition process_wheel (rte : RteRead) (st : State) (wheelIdx : nat) : State :=
  let '(r, st1) := SpeedSensor_ProcessRawData rte st wheelIdx in
  if r =? E_OK then
    SpeedSensor_UpdateDiagnostics
      (SpeedSensor_ValidateSpeedData
         (SpeedSensor_CalculateSpeed st1 wheelIdx) wheelIdx) wheelIdx
  else st1.

Definition SpeedSensor_MainFunction (rte : RteRead) (st : State)
  : Std_ReturnType * State :=
  if g_SpeedSensor_Initialized st then
    (E_OK, fold_left (process_wheel rte) wheels st)
  else (E_NOT_OK, st).

(** *** Remaining services of the component

    A service that fills an out parameter returns the value beside its
    status; where the C function leaves the out parameter unwritten, the
    value returned is a placeholder. *)

Definition SpeedSensor_DeInit (st : State) : Std_ReturnType * State :=
  (E_OK, mkState (g_SpeedSensorData st) false (lastSpeed st)).

Definition SpeedSensor_ReadRawData (st : State) (wheelPos : nat)
  : Std_ReturnType * SpeedSensorRawData_t :=
  if (wheelPos <? WHEEL_MAX)%nat && g_SpeedSensor_Initialized st then
    (E_OK, rawData (sensor st wheelPos))
  else (E_NOT_OK, zero_raw).

Definition SpeedSensor_ValidateCalibration (st : State) (wheelPos : nat)
  : Std_ReturnType * bool :=
  if (wheelPos <? WHEEL_MAX)%nat && g_SpeedSensor_Initialized st then
    let cal := calibration (sensor st wheelPos) in
    (E_OK,
     Qgeb (correctionFactor cal) (4 # 5) && Qleb (correctionFactor cal) (6 # 5)
     && (30 <=? pulsesPerRevolution cal) && (pulsesPerRevolution cal <=? 120)
     && Qgeb (wheelCircumference cal) (3 # 2) && Qleb (wheelCircumference cal) 3
     && calibrationValid cal)
  else (E_NOT_OK, false).

Definition SpeedSensor_GetDiagnostics (st : State) (wheelPos : nat)
  : Std_ReturnType * SpeedSensorDiagnostics_t :=
  if (wheelPos <? WHEEL_MAX)%nat && g_SpeedSensor_Initialized st then
    (E_OK, diagnostics (sensor st wheelPos))
  else (E_NOT_OK, zero_diag).

Definition SpeedSensor_ClearErrors (st : State) (wheelPos : nat)
  : Std_ReturnType * State :=
  if (wheelPos <? WHEEL_MAX)%nat && g_SpeedSensor_Initialized st then
    let d := sensor st wheelPos in
    let g := diagnostics d in
    (E_OK,
     set_sensor st wheelPos
       (set_diag d (mkDiag (totalPulseCount g) 0 (calibrationCycles g)
                           (lastStatus g) 0)))
  else (E_NOT_OK, st).

(** The wheel loop of [SpeedSensor_CheckAllSensors] over the wheels [ws]
    still to visit; the loop is left at the first wheel that is not in
    order. *)
Fixpoint check_sensors_from (st : State) (ws : list nat) : bool :=
  match ws with
  | [] => true
  | wheelIdx :: ws' =>
      if negb (status_is_ok (status (rawData (sensor st wheelIdx))))
         || negb (speedValid (speedData (sensor st wheelIdx)))
      then false
      else check_sensors_from st ws'
  end.

Definition SpeedSensor_CheckAllSensors (st : State) : Std_ReturnType * bool :=
  if g_SpeedSensor_Initialized st then (E_OK, check_sensors_from st wheels)
  else (E_NOT_OK, false).

(** [Rte_Write_SpeedData_XX_speedData]: the samples the runnable wrote, as
    pairs of wheel port and sample, oldest first. *)
Definition publish_speed (st : State) (wheelPos : nat)
    (written : list (nat * SpeedData_t)) : list (nat * SpeedData_t) :=
  let '(r, speedData) := SpeedSensor_GetSpeedData st wheelPos in
  if r =? E_OK then written ++ [(wheelPos, speedData)] else written.

Definition RE_SpeedSensor_MainCyclic (rte : RteRead) (st : State)
  : State * list (nat * SpeedData_t) :=
  let st1 := snd (SpeedSensor_MainFunction rte st) in
  (st1,
   publish_speed st1 WHEEL_REAR_RIGHT
     (publish_speed st1 WHEEL_REAR_LEFT
        (publish_speed st1 WHEEL_FRONT_RIGHT
           (publish_speed st1 WHEEL_FRONT_LEFT [])))).

End SpeedSensor.

(** ** ABS_MalfunctionDetection.h and ABS_MalfunctionDetection.c *)

Module ABS.

Inductive ABS_MalfunctionType_t :=
| ABS_MALFUNCTION_NONE
| ABS_MALFUNCTION_SPEED_SENSOR_MISCALIBRATION
| ABS_MALFUNCTION_SPEED_SENSOR_FAILURE
| ABS_MALFUNCTION_WHEEL_SLIP_EXCESSIVE
| ABS_MALFUNCTION_SPEED_DIFFERENCE_EXCESSIVE
| ABS_MALFUNCTION_ACCELERATION_IMPLAUSIBLE
| ABS_MALFUNCTION_CALIBRATION_DRIFT
| ABS_MALFUNCTION_SYSTEM_ERROR.

Inductive ABS_MalfunctionSeverity_t :=
| ABS_SEVERITY_NONE
| ABS_SEVERITY_LOW
| ABS_SEVERITY_MEDIUM
| ABS_SEVERITY_HIGH
| ABS_SEVERITY_CRITICAL.

(** The enumerator values, for the comparison [severity >= ABS_SEVERITY_HIGH]. *)
Definition severity_value (s : ABS_MalfunctionSeverity_t) : Z :=
  match s with
  | ABS_SEVERITY_NONE => 0
  | ABS_SEVERITY_LOW => 1
  | ABS_SEVERITY_MEDIUM => 2
  | ABS_SEVERITY_HIGH => 3
  | ABS_SEVERITY_CRITICAL => 4
  end.

Record ABS_MalfunctionStatus_t := mkStatus {
  malfunctionType : ABS_MalfunctionType_t;
  severity : ABS_MalfunctionSeverity_t;
  affectedWheel : nat;
  isActive : bool;
  detectionTimestamp : Z;
  occurrenceCount : Z;
  deviationValue : Q;
  confirmedMalfunction : bool }.

Inductive ABS_SystemState_t :=
| ABS_STATE_INACTIVE
| ABS_STATE_MONITORING
| ABS_STATE_INTERVENTION
| ABS_STATE_MALFUNCTION
| ABS_STATE_DEGRADED.

Record ABS_DetectionParameters_t := mkParams {
  speedDifferenceThreshold : Q;
  accelerationThreshold : Q;
  calibrationDriftThreshold : Q;
  debounceTimeMs : Z;
  consecutiveErrorsThreshold : Z;
  enableMiscalibrationDetection : bool;
  enableSpeedPlausibilityCheck : bool;
  enableAccelerationCheck : bool }.

Record ABS_VehicleData_t := mkVehicle {
  wheelSpeeds : list SpeedSensor.SpeedData_t;
  vehicleReferenceSpeed : Q;
  longitudinalAcceleration : Q;
  lateralAcceleration : Q;
  brakePedalPressed : bool;
  vehicleStabilityActive : bool;
  systemState : ABS_SystemState_t }.

Definition ABS_DETECTION_CYCLE_MS : Z := 20.
Definition ABS_MAX_SPEED_DIFFERENCE : Q := 30.
Definition ABS_MAX_ACCELERATION : Q := 15.
Definition ABS_CALIBRATION_DRIFT_LIMIT : Q := 10.
Definition ABS_DEBOUNCE_TIME_MS : Z := 100.
Definition ABS_CONSECUTIVE_ERRORS_MAX : Z := 5.

Definition zero_status : ABS_MalfunctionStatus_t :=
  mkStatus ABS_MALFUNCTION_NONE ABS_SEVERITY_NONE 0 false 0 0 0 false.
Definition zero_params : ABS_DetectionParameters_t :=
  mkParams 0 0 0 0 0 false false false.
Definition zero_vehicle : ABS_VehicleData_t :=
  mkVehicle (repeat SpeedSensor.zero_speed WHEEL_MAX) 0 0 0 false false
            ABS_STATE_INACTIVE.

Record State := mkState {
  g_MalfunctionStatus : list ABS_MalfunctionStatus_t;
  g_DetectionParams : ABS_DetectionParameters_t;
  g_VehicleData : ABS_VehicleData_t;
  g_SystemState : ABS_SystemState_t;
  g_ABS_Initialized : bool;
  g_DebounceCounters : list Z;
  g_ConsecutiveErrorCount : list Z }.

Definition initial : State :=
  mkState (repeat zero_status WHEEL_MAX) zero_params zero_vehicle
          ABS_STATE_INACTIVE false (repeat 0 WHEEL_MAX) (repeat 0 WHEEL_MAX).

Definition malfunction (st : State) (w : nat) : ABS_MalfunctionStatus_t :=
  get zero_status (g_MalfunctionStatus st) w.
Definition debounce (st : State) (w : nat) : Z :=
  get 0 (g_DebounceCounters st) w.
Definition consecutive (st : State) (w : nat) : Z :=
  get 0 (g_ConsecutiveErrorCount st) w.
Definition wheel_speed (st : State) (w : nat) : SpeedSensor.SpeedData_t :=
  get SpeedSensor.zero_speed (wheelSpeeds (g_VehicleData st)) w.

Definition set_malfunction (st : State) (w : nat) (m : ABS_MalfunctionStatus_t) :=
  mkState (upd w m (g_MalfunctionStatus st)) (g_DetectionParams st)
          (g_VehicleData st) (g_SystemState st) (g_ABS_Initialized st)
          (g_DebounceCounters st) (g_ConsecutiveErrorCount st).
Definition set_debounce (st : State) (w : nat) (c : Z) :=
  mkState (g_MalfunctionStatus st) (g_DetectionParams st)
          (g_VehicleData st) (g_SystemState st) (g_ABS_Initialized st)
          (upd w c (g_DebounceCounters st)) (g_ConsecutiveErrorCount st).
Definition set_consecutive (st : State) (w : nat) (c : Z) :=
  mkState (g_MalfunctionStatus st) (g_DetectionParams st)
          (g_VehicleData st) (g_SystemState st) (g_ABS_Initialized st)
          (g_DebounceCounters st) (upd w c (g_ConsecutiveErrorCount st)).
Definition set_system_state (st : State) (s : ABS_SystemState_t) :=
  mkState (g_MalfunctionStatus st) (g_DetectionParams st)
          (g_VehicleData st) s (g_ABS_Initialized st)
          (g_DebounceCounters st) (g_ConsecutiveErrorCount st).

Definition ABS_InitDefaultParameters : ABS_DetectionParameters_t :=
  mkParams ABS_MAX_SPEED_DIFFERENCE ABS_MAX_ACCELERATION
           ABS_CALIBRATION_DRIFT_LIMIT ABS_DEBOUNCE_TIME_MS
           ABS_CONSECUTIVE_ERRORS_MAX true true true.

Definition init_status (wheelIdx : nat) : ABS_MalfunctionStatus_t :=
  mkStatus ABS_MALFUNCTION_NONE ABS_SEVERITY_NONE wheelIdx false 0 0 0 false.

Definition ABS_MalfunctionDetection_Init (st : State) : Std_ReturnType * State :=
  if negb (g_ABS_Initialized st) then
    (E_OK, mkState (map init_status wheels) ABS_InitDefaultParameters
                   zero_vehicle ABS_STATE_MONITORING true
                   (map (fun _ => 0) wheels) (map (fun _ => 0) wheels))
  else (E_OK, st).

Definition ABS_UpdateVehicleData (st : State) (vehicleData : ABS_VehicleData_t)
  : Std_ReturnType * State :=
  if g_ABS_Initialized st then
    (E_OK, mkState (g_MalfunctionStatus st) (g_DetectionParams st) vehicleData
                   (g_SystemState st) (g_ABS_Initialized st)
                   (g_DebounceCounters st) (g_ConsecutiveErrorCount st))
  else (E_NOT_OK, st).

Definition ABS_SetDetectionParameters (st : State)
    (params : ABS_DetectionParameters_t) : Std_ReturnType * State :=
  if g_ABS_Initialized st then
    (E_OK, mkState (g_MalfunctionStatus st) params (g_VehicleData st)
                   (g_SystemState st) (g_ABS_Initialized st)
                   (g_DebounceCounters st) (g_ConsecutiveErrorCount st))
  else (E_NOT_OK, st).

Definition ABS_GetMalfunctionStatus (st : State) (wheelPos : nat)
  : Std_ReturnType * ABS_MalfunctionStatus_t :=
  if (wheelPos <? WHEEL_MAX)%nat && g_ABS_Initialized st then
    (E_OK, malfunction st wheelPos)
  else (E_NOT_OK, zero_status).

Definition ABS_ClearMalfunctionStatus (st : State) (wheelPos : nat)
  : Std_ReturnType * State :=
  if (wheelPos <? WHEEL_MAX)%nat && g_ABS_Initialized st then
    let m := malfunction st wheelPos in
    let m' := mkStatus ABS_MALFUNCTION_NONE ABS_SEVERITY_NONE (affectedWheel m)
                       false (detectionTimestamp m) (occurrenceCount m)
                       (deviationValue m) false in
    (E_OK, set_consecutive (set_debounce (set_malfunction st wheelPos m')
                                         wheelPos 0) wheelPos 0)
  else (E_NOT_OK, st).

(** *** Reference speed *)

(** The collection loop: [validSpeeds[validCount++] = wheelSpeed] for every
    wheel whose [speedValid] is set; the list is the filled prefix of
    [validSpeeds], its length is [validCount]. *)
Definition collect_valid (vd : ABS_VehicleData_t) : list Q :=
  fold_left
    (fun validSpeeds wheelIdx =>
       let s := get SpeedSensor.zero_speed (wheelSpeeds vd) wheelIdx in
       if SpeedSensor.speedValid s
       then validSpeeds ++ [SpeedSensor.wheelSpeed s]
       else validSpeeds)
    wheels [].

(** Body of the inner loop: compare [validSpeeds[j]] with
    [validSpeeds[j+1]] and swap them through [temp]. *)
Definition swap_step (a : list Q) (j : nat) : list Q :=
  if Qgtb (get 0%Q a j) (get 0%Q a (S j)) then
    let temp := get 0%Q a j in
    upd (S j) temp (upd j (get 0%Q a (S j)) a)
  else a.

(** [for (j = j0; j < j0 + n; j++)]. *)
Fixpoint inner_loop (a : list Q) (j n : nat) : list Q :=
  match n with
  | O => a
  | S n' => inner_loop (swap_step a j) (S j) n'
  end.

(** [for (i = i0; i < i0 + n; i++)] around the inner loop, whose bound is
    [validCount - i - 1]. *)
Fixpoint outer_loop (validCount : nat) (a : list Q) (i n : nat) : list Q :=
  match n with
  | O => a
  | S n' =>
      outer_loop validCount (inner_loop a 0 (validCount - i - 1)) (S i) n'
  end.

Definition bubble_sort (a : list Q) : list Q :=
  let validCount := length a in
  outer_loop validCount a 0 (validCount - 1).

Definition median_of (validSpeeds : list Q) : Q :=
  let validCount := length validSpeeds in
  if (2 <=? validCount)%nat then
    let sorted := bubble_sort validSpeeds in
    if (validCount mod 2 =? 0)%nat then
      ((get 0%Q sorted (validCount / 2 - 1) + get 0%Q sorted (validCount / 2))
       / 2)%Q
    else get 0%Q sorted (validCount / 2)
  else 0%Q.

Definition ABS_CalculateMedianSpeed (st : State) : Q :=
  median_of (collect_valid (g_VehicleData st)).

(** *** The three checks *)

(** Every check returns its verdict and the value left in its out
    parameter; [dev] is the value the out parameter held at the call. *)
Definition ABS_CheckCalibrationDrift (ss : SpeedSensor.State) (st : State)
    (wheelPos : nat) (dev : Q) : bool * Q :=
  let expectedCorrectionFactor := 1%Q in
  let '(r, cal) := SpeedSensor.SpeedSensor_GetCalibration ss wheelPos in
  if r =? E_OK then
    let driftPercentage :=
      (Qabs ((SpeedSensor.correctionFactor cal - expectedCorrectionFactor)
             / expectedCorrectionFactor) * 100)%Q in
    (Qgtb driftPercentage (calibrationDriftThreshold (g_DetectionParams st)),
     driftPercentage)
  else (false, dev).

Definition ABS_CheckSpeedPlausibility (st : State) (wheelPos : nat)
  : bool * Q :=
  if SpeedSensor.speedValid (wheel_speed st wheelPos) then
    let wheelSpeed := SpeedSensor.wheelSpeed (wheel_speed st wheelPos) in
    let referenceSpeed := ABS_CalculateMedianSpeed st in
    let deviation := Qabs (wheelSpeed - referenceSpeed) in
    (negb (Qgtb deviation (speedDifferenceThreshold (g_DetectionParams st))),
     deviation)
  else (false, 0%Q).

Definition ABS_CheckAccelerationPlausibility (st : State) (wheelPos : nat)
  : bool * Q :=
  if SpeedSensor.speedValid (wheel_speed st wheelPos) then
    let acceleration :=
      Qabs (SpeedSensor.accelerationX (wheel_speed st wheelPos)) in
    (negb (Qgtb acceleration (accelerationThreshold (g_DetectionParams st))
           && negb (brakePedalPressed (g_VehicleData st))),
     acceleration)
  else (false, 0%Q).

Definition ABS_DetermineSeverity (type : ABS_MalfunctionType_t) (deviation : Q)
  : ABS_MalfunctionSeverity_t :=
  match type with
  | ABS_MALFUNCTION_SPEED_SENSOR_MISCALIBRATION =>
      if Qgtb deviation 15 then ABS_SEVERITY_CRITICAL
      else if Qgtb deviation 10 then ABS_SEVERITY_HIGH
      else if Qgtb deviation 5 then ABS_SEVERITY_MEDIUM
      else ABS_SEVERITY_LOW
  | ABS_MALFUNCTION_SPEED_DIFFERENCE_EXCESSIVE =>
      if Qgtb deviation 50 then ABS_SEVERITY_CRITICAL
      else if Qgtb deviation 30 then ABS_SEVERITY_HIGH
      else if Qgtb deviation 20 then ABS_SEVERITY_MEDIUM
      else ABS_SEVERITY_LOW
  | ABS_MALFUNCTION_ACCELERATION_IMPLAUSIBLE =>
      if Qgtb deviation 20 then ABS_SEVERITY_CRITICAL
      else if Qgtb deviation 15 then ABS_SEVERITY_HIGH
      else ABS_SEVERITY_MEDIUM
  | _ => ABS_SEVERITY_LOW
  end.

Definition ABS_UpdateMalfunctionStatus (st : State) (wheelPos : nat)
    (type : ABS_MalfunctionType_t) (sev : ABS_MalfunctionSeverity_t)
    (deviation : Q) : State :=
  let m := malfunction st wheelPos in
  set_malfunction st wheelPos
    (mkStatus type sev (affectedWheel m) true 0
              (u16 (occurrenceCount m + 1)) deviation
              (confirmedMalfunction m)).

(** The verdict of the three checks in their priority order: whether a
    malfunction was detected, its type, severity and deviation.  The local
    [deviation] is uninitialised at entry; it is only read after a check
    wrote it. *)
Definition detect (ss : SpeedSensor.State) (st : State) (wheelPos : nat)
  : bool * ABS_MalfunctionType_t * ABS_MalfunctionSeverity_t * Q :=
  let p := g_DetectionParams st in
  let r0 := (false, ABS_MALFUNCTION_NONE, ABS_SEVERITY_NONE, 0%Q) in
  let r1 :=
    let '(_, _, _, dev) := r0 in
    if enableMiscalibrationDetection p then
      let '(drifted, dev') := ABS_CheckCalibrationDrift ss st wheelPos dev in
      if drifted then
        (true, ABS_MALFUNCTION_SPEED_SENSOR_MISCALIBRATION,
         ABS_DetermineSeverity ABS_MALFUNCTION_SPEED_SENSOR_MISCALIBRATION dev',
         dev')
      else (false, ABS_MALFUNCTION_NONE, ABS_SEVERITY_NONE, dev')
    else r0 in
  let r2 :=
    let '(detected, _, _, _) := r1 in
    if enableSpeedPlausibilityCheck p && negb detected then
      let '(plausible, dev') := ABS_CheckSpeedPlausibility st wheelPos in
      if negb plausible then
        (true, ABS_MALFUNCTION_SPEED_DIFFERENCE_EXCESSIVE,
         ABS_DetermineSeverity ABS_MALFUNCTION_SPEED_DIFFERENCE_EXCESSIVE dev',
         dev')
      else (false, ABS_MALFUNCTION_NONE, ABS_SEVERITY_NONE, dev')
    else r1 in
  let r3 :=
    let '(detected, _, _, _) := r2 in
    if enableAccelerationCheck p && negb detected then
      let '(plausible, dev') := ABS_CheckAccelerationPlausibility st wheelPos in
      if negb plausible then
        (true, ABS_MALFUNCTION_ACCELERATION_IMPLAUSIBLE,
         ABS_DetermineSeverity ABS_MALFUNCTION_ACCELERATION_IMPLAUSIBLE dev',
         dev')
      else (false, ABS_MALFUNCTION_NONE, ABS_SEVERITY_NONE, dev')
    else r2 in
  r3.

Definition ABS_ProcessWheelMalfunctionDetection (ss : SpeedSensor.State)
    (st : State) (wheelPos : nat) : State :=
  let '(malfunctionDetected, malfunctionType, sev, deviation) :=
    detect ss st wheelPos in
  if malfunctionDetected then
    let st1 :=
      ABS_UpdateMalfunctionStatus st wheelPos malfunctionType sev deviation in
    set_consecutive st1 wheelPos (u8 (consecutive st1 wheelPos + 1))
  else
    let st1 := set_consecutive st wheelPos 0 in
    if isActive (malfunction st1 wheelPos)
    then set_debounce st1 wheelPos 0
    else st1.

Definition ABS_ProcessDebouncing (st : State) (wheelPos : nat) : State :=
  let m := malfunction st wheelPos in
  if isActive m then
    let st1 :=
      set_debounce st wheelPos (u16 (debounce st wheelPos + ABS_DETECTION_CYCLE_MS)) in
    if debounceTimeMs (g_DetectionParams st1) <=? debounce st1 wheelPos then
      set_malfunction st1 wheelPos
        (mkStatus (malfunctionType m) (severity m) (affectedWheel m)
                  (isActive m) (detectionTimestamp m) (occurrenceCount m)
                  (deviationValue m) true)
    else st1
  else
    set_malfunction (set_debounce st wheelPos 0) wheelPos
      (mkStatus (malfunctionType m) (severity m) (affectedWheel m)
                (isActive m) (detectionTimestamp m) (occurrenceCount m)
                (deviationValue m) false).

Definition ABS_UpdateSystemState (st : State) : State :=
  let '(criticalMalfunctions, activeMalfunctions) :=
    fold_left
      (fun '(crit, act) wheelIdx =>
         let m := malfunction st wheelIdx in
         if confirmedMalfunction m then
           (if 3 <=? severity_value (severity m) then u8 (crit + 1) else crit,
            u8 (act + 1))
         else (crit, act))
      wheels (0, 0) in
  if 0 <? criticalMalfunctions then set_system_state st ABS_STATE_MALFUNCTION
  else if 0 <? activeMalfunctions then set_system_state st ABS_STATE_DEGRADED
  else set_system_state st ABS_STATE_MONITORING.

(** One iteration of the wheel loop of the main function. *)
Definition cycle_wheel (ss : SpeedSensor.State) (st : State) (wheelIdx : nat)
  : State :=
  ABS_ProcessDebouncing
    (ABS_ProcessWheelMalfunctionDetection ss st wheelIdx) wheelIdx.

Definition ABS_MalfunctionDetection_MainFunction (ss : SpeedSensor.State)
    (st : State) : Std_ReturnType * State :=
  if g_ABS_Initialized st then
    (E_OK, ABS_UpdateSystemState (fold_left (cycle_wheel ss) wheels st))
  else (E_NOT_OK, st).

(** *** Remaining services of the detector *)

Definition ABS_MalfunctionDetection_DeInit (st : State) : Std_ReturnType * State :=
  (E_OK, mkState (g_MalfunctionStatus st) (g_DetectionParams st)
                 (g_VehicleData st) ABS_STATE_INACTIVE false
                 (g_DebounceCounters st) (g_ConsecutiveErrorCount st)).

Definition ABS_CheckSpeedSensorCalibration (ss : SpeedSensor.State) (st : State)
    (wheelPos : nat) : Std_ReturnType * bool :=
  if (wheelPos <? WHEEL_MAX)%nat && g_ABS_Initialized st then
    (E_OK, fst (ABS_CheckCalibrationDrift ss st wheelPos 0))
  else (E_NOT_OK, false).

(** The wheel loop of [ABS_DetectSpeedDifferences] over the wheels [ws]
    still to visit: [*excessiveDifference] and [*affectedWheel] at its end.
    The loop is left at the first valid wheel whose difference to the
    reference exceeds the threshold; [affectedWheel] is what the out
    parameter held at the call. *)
Fixpoint speed_difference_from (st : State) (referenceSpeed : Q)
    (ws : list nat) (affectedWheel : nat) : bool * nat :=
  match ws with
  | [] => (false, affectedWheel)
  | wheelIdx :: ws' =>
      if SpeedSensor.speedValid (wheel_speed st wheelIdx) then
        let speedDifference :=
          Qabs (SpeedSensor.wheelSpeed (wheel_speed st wheelIdx) - referenceSpeed) in
        if Qgtb speedDifference (speedDifferenceThreshold (g_DetectionParams st))
        then (true, wheelIdx)
        else speed_difference_from st referenceSpeed ws' affectedWheel
      else speed_difference_from st referenceSpeed ws' affectedWheel
  end.

Definition ABS_DetectSpeedDifferences (st : State)
    (excessiveDifference : bool) (affectedWheel : nat)
  : Std_ReturnType * bool * nat :=
  if g_ABS_Initialized st then
    let referenceSpeed := ABS_CalculateMedianSpeed st in
    let '(e, w) := speed_difference_from st referenceSpeed wheels affectedWheel in
    (E_OK, e, w)
  else (E_NOT_OK, excessiveDifference, affectedWheel).

Definition ABS_ValidateSpeedPlausibility (st : State) (wheelPos : nat)
  : Std_ReturnType * bool :=
  if (wheelPos <? WHEEL_MAX)%nat && g_ABS_Initialized st then
    (E_OK, fst (ABS_CheckSpeedPlausibility st wheelPos))
  else (E_NOT_OK, false).

Definition ABS_GetDetectionParameters (st : State)
  : Std_ReturnType * ABS_DetectionParameters_t :=
  if g_ABS_Initialized st then (E_OK, g_DetectionParams st)
  else (E_NOT_OK, zero_params).

Definition ABS_CheckSystemHealth (st : State)
  : Std_ReturnType * bool * ABS_SystemState_t :=
  if g_ABS_Initialized st then
    let malfunctionCount :=
      fold_left
        (fun count wheelIdx =>
           if isActive (malfunction st wheelIdx) then u8 (count + 1) else count)
        wheels 0 in
    (E_OK, malfunctionCount =? 0, g_SystemState st)
  else (E_NOT_OK, false, ABS_STATE_INACTIVE).

(** What [RE_ABS_MalfunctionDetection_MainCyclic] wrote to its ports: the
    status records on [Rte_Write_MalfunctionStatus_XX_status], as pairs of
    wheel port and record, oldest first, and the value on
    [Rte_Write_SystemState_state]. *)
Definition publish_status (st : State) (wheelPos : nat)
    (written : list (nat * ABS_MalfunctionStatus_t))
  : list (nat * ABS_MalfunctionStatus_t) :=
  let '(r, status) := ABS_GetMalfunctionStatus st wheelPos in
  if r =? E_OK then written ++ [(wheelPos, status)] else written.

Definition RE_ABS_MalfunctionDetection_MainCyclic (ss : SpeedSensor.State)
    (st : State)
  : State * list (nat * ABS_MalfunctionStatus_t) * ABS_SystemState_t :=
  let st1 := snd (ABS_MalfunctionDetection_MainFunction ss st) in
  (st1,
   publish_status st1 WHEEL_REAR_RIGHT
     (publish_status st1 WHEEL_REAR_LEFT
        (publish_status st1 WHEEL_FRONT_RIGHT
           (publish_status st1 WHEEL_FRONT_LEFT []))),
   g_SystemState st1).

End ABS.

(** ** CalibrationManager.h and CalibrationManager.c *)

Module CalibrationManager.

Inductive CalibrationResult_t :=
| CALIBRATION_RESULT_OK
| CALIBRATION_RESULT_NOT_OK
| CALIBRATION_RESULT_INVALID_PARAM
| CALIBRATION_RESULT_OUT_OF_RANGE
| CALIBRATION_RESULT_NVM_ERROR
| CALIBRATION_RESULT_VALIDATION_FAILED
| CALIBRATION_RESULT_IN_PROGRESS.

(** The enumerator values, for the places that return a result code as a
    [Std_ReturnType]. *)
Definition result_value (r : CalibrationResult_t) : Z :=
  match r with
  | CALIBRATION_RESULT_OK => 0
  | CALIBRATION_RESULT_NOT_OK => 1
  | CALIBRATION_RESULT_INVALID_PARAM => 2
  | CALIBRATION_RESULT_OUT_OF_RANGE => 3
  | CALIBRATION_RESULT_NVM_ERROR => 4
  | CALIBRATION_RESULT_VALIDATION_FAILED => 5
  | CALIBRATION_RESULT_IN_PROGRESS => 6
  end.

Definition result_is_ok (r : CalibrationResult_t) : bool :=
  match r with CALIBRATION_RESULT_OK => true | _ => false end.

Inductive CalibrationMethod_t :=
| CALIBRATION_METHOD_MANUAL
| CALIBRATION_METHOD_AUTOMATIC
| CALIBRATION_METHOD_REFERENCE_BASED
| CALIBRATION_METHOD_GPS_BASED
| CALIBRATION_METHOD_FACTORY_RESET.

Inductive CalibrationState_t :=
| CALIBRATION_STATE_IDLE
| CALIBRATION_STATE_REQUESTED
| CALIBRATION_STATE_IN_PROGRESS
| CALIBRATION_STATE_COMPLETED
| CALIBRATION_STATE_FAILED
| CALIBRATION_STATE_CANCELLED.

Definition state_is_completed (s : CalibrationState_t) : bool :=
  match s with CALIBRATION_STATE_COMPLETED => true | _ => false end.

Record CalibrationRequest_t := mkRequest {
  wheelPosition : nat;
  method : CalibrationMethod_t;
  referenceSpeed : Q;
  tolerancePercentage : Q;
  calibrationTimeMs : Z;
  forceCalibration : bool }.

Record CalibrationSession_t := mkSession {
  request : CalibrationRequest_t;
  state : CalibrationState_t;
  result : CalibrationResult_t;
  startTimestamp : Z;
  endTimestamp : Z;
  samplesCollected : Z;
  calculatedCorrectionFactor : Q;
  calculatedOffset : Q;
  measuredAccuracy : Q;
  sessionActive : bool }.

Record CalibrationHistoryEntry_t := mkEntry {
  timestamp : Z;
  entry_method : CalibrationMethod_t;
  entry_result : CalibrationResult_t;
  oldCorrectionFactor : Q;
  newCorrectionFactor : Q;
  accuracy : Q }.

Record CalibrationConfig_t := mkConfig {
  maxCalibrationSamples : Z;
  minCalibrationSamples : Z;
  maxCorrectionFactor : Q;
  minCorrectionFactor : Q;
  defaultTolerance : Q;
  calibrationTimeoutMs : Z;
  enableAutoCalibration : bool;
  autoCalibrationIntervalHours : Z }.

Definition CALIBRATION_MAX_SAMPLES : Z := 1000.
Definition CALIBRATION_MIN_SAMPLES : Z := 50.
Definition CALIBRATION_TIMEOUT_MS : Z := 30000.
Definition CALIBRATION_HISTORY_SIZE : Z := 10.
Definition CALIBRATION_AUTO_INTERVAL_MS : Z := 3600000.

Definition NVM_BLOCK_CALIBRATION_FL : Z := 0x1001.
Definition NVM_BLOCK_CALIBRATION_FR : Z := 0x1002.
Definition NVM_BLOCK_CALIBRATION_RL : Z := 0x1003.
Definition NVM_BLOCK_CALIBRATION_RR : Z := 0x1004.

Definition DTC_CALIBRATION_FAILED : Z := 0xC14187.
Definition DTC_CALIBRATION_OUT_OF_RANGE : Z := 0xC14287.
Definition DTC_CALIBRATION_NVM_ERROR : Z := 0xC14387.

(** [CalibrationSampleData_t]: the two sample arrays hold
    [CALIBRATION_MAX_SAMPLES] values each. *)
Record CalibrationSampleData_t := mkSamples {
  speedSamples : list Q;
  referenceSamples : list Q;
  sampleCount : Z;
  lastSampleTime : Z }.

Definition zero_request : CalibrationRequest_t :=
  mkRequest 0 CALIBRATION_METHOD_MANUAL 0 0 0 false.
Definition zero_session : CalibrationSession_t :=
  mkSession zero_request CALIBRATION_STATE_IDLE CALIBRATION_RESULT_OK
            0 0 0 0 0 0 false.
Definition zero_entry : CalibrationHistoryEntry_t :=
  mkEntry 0 CALIBRATION_METHOD_MANUAL CALIBRATION_RESULT_OK 0 0 0.
Definition zero_config : CalibrationConfig_t :=
  mkConfig 0 0 0 0 0 0 false 0.
(** What [memset(&g_SampleData[w], 0, sizeof ...)] leaves. *)
Definition zero_samples : CalibrationSampleData_t :=
  mkSamples (repeat 0%Q (Z.to_nat CALIBRATION_MAX_SAMPLES))
            (repeat 0%Q (Z.to_nat CALIBRATION_MAX_SAMPLES)) 0 0.
Definition zero_history : list CalibrationHistoryEntry_t :=
  repeat zero_entry (Z.to_nat CALIBRATION_HISTORY_SIZE).

(** File-scope state of the calibration manager, with the function-static
    [lastAutoCheckTime] of [CalibrationManager_AutoCalibrationCheck]. *)
Record State := mkState {
  g_CalibrationSessions : list CalibrationSession_t;
  g_CalibrationConfig : CalibrationConfig_t;
  g_CalibrationHistory : list (list CalibrationHistoryEntry_t);
  g_HistoryCount : list Z;
  g_CalibrationManager_Initialized : bool;
  g_SampleData : list CalibrationSampleData_t;
  lastAutoCheckTime : Z }.

Definition initial : State :=
  mkState (repeat zero_session WHEEL_MAX) zero_config
          (repeat zero_history WHEEL_MAX) (repeat 0 WHEEL_MAX) false
          (repeat zero_samples WHEEL_MAX) 0.

(** The persistence collaborator: [Rte_Call_NvmService_ReadBlock] returns a
    request status and the block it read, [Rte_Call_NvmService_WriteBlock]
    a request status. *)
Record Nvm := mkNvm {
  ReadBlock : Z -> Z * SpeedSensor.SpeedSensorCalibration_t;
  WriteBlock : Z -> SpeedSensor.SpeedSensorCalibration_t -> Z }.

(** What the calibration manager reads and writes: the speed sensor
    component, its own globals, and the calls it made on
    [Rte_Call_DiagnosticService_SetDTC] (most recent first; the port takes
    the code as a [uint16]). *)
Record World := mkWorld {
  ss : SpeedSensor.State;
  cm : State;
  dtc_calls : list (Z * bool) }.

Definition session (st : State) (w : nat) : CalibrationSession_t :=
  get zero_session (g_CalibrationSessions st) w.
Definition samples (st : State) (w : nat) : CalibrationSampleData_t :=
  get zero_samples (g_SampleData st) w.
Definition history (st : State) (w : nat) : list CalibrationHistoryEntry_t :=
  get zero_history (g_CalibrationHistory st) w.
Definition history_count (st : State) (w : nat) : Z :=
  get 0 (g_HistoryCount st) w.

Definition set_session (st : State) (w : nat) (s : CalibrationSession_t) :=
  mkState (upd w s (g_CalibrationSessions st)) (g_CalibrationConfig st)
          (g_CalibrationHistory st) (g_HistoryCount st)
          (g_CalibrationManager_Initialized st) (g_SampleData st)
          (lastAutoCheckTime st).
Definition set_samples (st : State) (w : nat) (d : CalibrationSampleData_t) :=
  mkState (g_CalibrationSessions st) (g_CalibrationConfig st)
          (g_CalibrationHistory st) (g_HistoryCount st)
          (g_CalibrationManager_Initialized st) (upd w d (g_SampleData st))
          (lastAutoCheckTime st).
Definition set_history (st : State) (w : nat)
    (h : list CalibrationHistoryEntry_t) (n : Z) :=
  mkState (g_CalibrationSessions st) (g_CalibrationConfig st)
          (upd w h (g_CalibrationHistory st)) (upd w n (g_HistoryCount st))
          (g_CalibrationManager_Initialized st) (g_SampleData st)
          (lastAutoCheckTime st).
Definition set_config (st : State) (c : CalibrationConfig_t) :=
  mkState (g_CalibrationSessions st) c
          (g_CalibrationHistory st) (g_HistoryCount st)
          (g_CalibrationManager_Initialized st) (g_SampleData st)
          (lastAutoCheckTime st).
Definition set_initialized (st : State) (b : bool) :=
  mkState (g_CalibrationSessions st) (g_CalibrationConfig st)
          (g_CalibrationHistory st) (g_HistoryCount st) b (g_SampleData st)
          (lastAutoCheckTime st).
Definition set_last_auto_check (st : State) (t : Z) :=
  mkState (g_CalibrationSessions st) (g_CalibrationConfig st)
          (g_CalibrationHistory st) (g_HistoryCount st)
          (g_CalibrationManager_Initialized st) (g_SampleData st) t.

Definition set_cm (w : World) (st : State) : World :=
  mkWorld (ss w) st (dtc_calls w).
Definition set_ss (w : World) (s : SpeedSensor.State) : World :=
  mkWorld s (cm w) (dtc_calls w).
Definition Rte_Call_DiagnosticService_SetDTC (w : World) (dtcId : Z)
    (active : bool) : World :=
  mkWorld (ss w) (cm w) ((u16 dtcId, active) :: dtc_calls w).

(** Field updates of a session. *)
Definition with_state (s : CalibrationSession_t) (x : CalibrationState_t) :=
  mkSession (request s) x (result s) (startTimestamp s) (endTimestamp s)
            (samplesCollected s) (calculatedCorrectionFactor s)
            (calculatedOffset s) (measuredAccuracy s) (sessionActive s).
Definition with_result (s : CalibrationSession_t) (x : CalibrationResult_t) :=
  mkSession (request s) (state s) x (startTimestamp s) (endTimestamp s)
            (samplesCollected s) (calculatedCorrectionFactor s)
            (calculatedOffset s) (measuredAccuracy s) (sessionActive s).
Definition with_samplesCollected (s : CalibrationSession_t) (x : Z) :=
  mkSession (request s) (state s) (result s) (startTimestamp s)
            (endTimestamp s) x (calculatedCorrectionFactor s)
            (calculatedOffset s) (measuredAccuracy s) (sessionActive s).
Definition with_calculated (s : CalibrationSession_t) (cf off acc : Q) :=
  mkSession (request s) (state s) (result s) (startTimestamp s)
            (endTimestamp s) (samplesCollected s) cf off acc (sessionActive s).
Definition with_end (s : CalibrationSession_t) (active : bool) (t : Z) :=
  mkSession (request s) (state s) (result s) (startTimestamp s) t
            (samplesCollected s) (calculatedCorrectionFactor s)
            (calculatedOffset s) (measuredAccuracy s) active.

Definition CalibrationManager_InitDefaultConfig : CalibrationConfig_t :=
  mkConfig CALIBRATION_MAX_SAMPLES CALIBRATION_MIN_SAMPLES (3 # 2) (1 # 2) 2
           CALIBRATION_TIMEOUT_MS true 24.

Definition CalibrationManager_GetNvmBlockId (wheelPos : nat) : Z :=
  match wheelPos with
  | 0%nat => NVM_BLOCK_CALIBRATION_FL
  | 1%nat => NVM_BLOCK_CALIBRATION_FR
  | 2%nat => NVM_BLOCK_CALIBRATION_RL
  | 3%nat => NVM_BLOCK_CALIBRATION_RR
  | _ => 0
  end.

Definition CalibrationManager_SetConfig (st : State) (config : CalibrationConfig_t)
  : Std_ReturnType * State :=
  if g_CalibrationManager_Initialized st then (E_OK, set_config st config)
  else (E_NOT_OK, st).

Definition CalibrationManager_StartCalibration (st : State)
    (req : CalibrationRequest_t) : Std_ReturnType * State :=
  if g_CalibrationManager_Initialized st then
    let wheelPos := wheelPosition req in
    if (wheelPos <? WHEEL_MAX)%nat then
      let s := session st wheelPos in
      if negb (sessionActive s) then
        let s' := mkSession req CALIBRATION_STATE_REQUESTED
                            CALIBRATION_RESULT_IN_PROGRESS 0 (endTimestamp s) 0
                            (calculatedCorrectionFactor s) (calculatedOffset s)
                            (measuredAccuracy s) true in
        (E_OK, set_samples (set_session st wheelPos s') wheelPos zero_samples)
      else (result_value CALIBRATION_RESULT_IN_PROGRESS, st)
    else (result_value CALIBRATION_RESULT_INVALID_PARAM, st)
  else (E_NOT_OK, st).

Definition CalibrationManager_CancelCalibration (st : State) (wheelPos : nat)
  : Std_ReturnType * State :=
  if (wheelPos <? WHEEL_MAX)%nat && g_CalibrationManager_Initialized st then
    let s := session st wheelPos in
    if sessionActive s then
      (E_OK, set_session st wheelPos
               (with_end (with_result (with_state s CALIBRATION_STATE_CANCELLED)
                                      CALIBRATION_RESULT_NOT_OK) false 0))
    else (E_NOT_OK, st)
  else (E_NOT_OK, st).

Definition CalibrationManager_AddHistoryEntry (st : State) (wheelPos : nat)
    (entry : CalibrationHistoryEntry_t) : State :=
  let h := history st wheelPos in
  let n := history_count st wheelPos in
  if n <? CALIBRATION_HISTORY_SIZE then
    set_history st wheelPos (upd (Z.to_nat n) entry h) (u8 (n + 1))
  else
    let shifted :=
      fold_left (fun a i => upd i (get zero_entry a (S i)) a)
                (seq 0 (Z.to_nat (CALIBRATION_HISTORY_SIZE - 1))) h in
    set_history st wheelPos
      (upd (Z.to_nat (CALIBRATION_HISTORY_SIZE - 1)) entry shifted) n.

Definition CalibrationManager_SaveToNvm (nvm : Nvm) (w : World) (wheelPos : nat)
  : Std_ReturnType * World :=
  if (wheelPos <? WHEEL_MAX)%nat && g_CalibrationManager_Initialized (cm w) then
    let nvmBlockId := CalibrationManager_GetNvmBlockId wheelPos in
    let '(r, calibration) := SpeedSensor.SpeedSensor_GetCalibration (ss w) wheelPos in
    if r =? E_OK then
      if WriteBlock nvm nvmBlockId calibration =? NVM_REQ_OK then (E_OK, w)
      else
        (E_NOT_OK, Rte_Call_DiagnosticService_SetDTC w DTC_CALIBRATION_NVM_ERROR true)
    else (E_NOT_OK, w)
  else (E_NOT_OK, w).

Definition CalibrationManager_ApplyCalibration (nvm : Nvm) (w : World)
    (wheelPos : nat) (saveToNvm : bool) : Std_ReturnType * World :=
  if (wheelPos <? WHEEL_MAX)%nat && g_CalibrationManager_Initialized (cm w) then
    let s := session (cm w) wheelPos in
    if state_is_completed (state s) && result_is_ok (result s) then
      let '(r, cal0) := SpeedSensor.SpeedSensor_GetCalibration (ss w) wheelPos in
      if r =? E_OK then
        let calibration :=
          SpeedSensor.mkCal (calculatedCorrectionFactor s) (calculatedOffset s)
                            (SpeedSensor.pulsesPerRevolution cal0)
                            (SpeedSensor.wheelCircumference cal0)
                            true (endTimestamp s) in
        let '(r', ss') :=
          SpeedSensor.SpeedSensor_SetCalibration (ss w) wheelPos calibration in
        if r' =? E_OK then
          let w1 := set_ss w ss' in
          let '(retVal, w2) :=
            if saveToNvm then CalibrationManager_SaveToNvm nvm w1 wheelPos
            else (E_OK, w1) in
          let historyEntry :=
            mkEntry (endTimestamp s) (method (request s)) (result s) 1
                    (calculatedCorrectionFactor s) (measuredAccuracy s) in
          (retVal,
           set_cm w2 (CalibrationManager_AddHistoryEntry (cm w2) wheelPos historyEntry))
        else (E_NOT_OK, w)
      else (E_NOT_OK, w)
    else (E_NOT_OK, w)
  else (E_NOT_OK, w).

Definition CalibrationManager_ValidateCalibration (w : World) (wheelPos : nat)
  : Std_ReturnType * bool * Q :=
  if (wheelPos <? WHEEL_MAX)%nat && g_CalibrationManager_Initialized (cm w) then
    let '(r, calibration) := SpeedSensor.SpeedSensor_GetCalibration (ss w) wheelPos in
    if r =? E_OK then
      let cfg := g_CalibrationConfig (cm w) in
      let isValid :=
        Qgeb (SpeedSensor.correctionFactor calibration) (minCorrectionFactor cfg)
        && Qleb (SpeedSensor.correctionFactor calibration) (maxCorrectionFactor cfg)
        && SpeedSensor.calibrationValid calibration in
      let deviation := Qabs (SpeedSensor.correctionFactor calibration - 1) in
      let acc := ((1 - deviation) * 100)%Q in
      (E_OK, isValid, if Qltb acc 0 then 0%Q else acc)
    else (E_NOT_OK, false, 0%Q)
  else (E_NOT_OK, false, 0%Q).

Definition factory_calibration : SpeedSensor.SpeedSensorCalibration_t :=
  SpeedSensor.mkCal 1 0 60 (21 # 10) true 0.

Definition CalibrationManager_ResetToFactory (nvm : Nvm) (w : World)
    (wheelPos : nat) : Std_ReturnType * World :=
  if (wheelPos <? WHEEL_MAX)%nat && g_CalibrationManager_Initialized (cm w) then
    let calibration := factory_calibration in
    let '(r, ss') :=
      SpeedSensor.SpeedSensor_SetCalibration (ss w) wheelPos calibration in
    if r =? E_OK then
      let '(retVal, w2) := CalibrationManager_SaveToNvm nvm (set_ss w ss') wheelPos in
      let historyEntry :=
        mkEntry (SpeedSensor.calibrationTimestamp calibration)
                CALIBRATION_METHOD_FACTORY_RESET CALIBRATION_RESULT_OK 0 1 100 in
      (retVal,
       set_cm w2 (CalibrationManager_AddHistoryEntry (cm w2) wheelPos historyEntry))
    else (E_NOT_OK, w)
  else (E_NOT_OK, w).

Definition CalibrationManager_LoadFromNvm (nvm : Nvm) (w : World)
    (wheelPos : nat) : Std_ReturnType * World :=
  if (wheelPos <? WHEEL_MAX)%nat && g_CalibrationManager_Initialized (cm w) then
    let nvmBlockId := CalibrationManager_GetNvmBlockId wheelPos in
    let '(r, calibration) := ReadBlock nvm nvmBlockId in
    if r =? NVM_REQ_OK then
      let cfg := g_CalibrationConfig (cm w) in
      if Qgeb (SpeedSensor.correctionFactor calibration) (minCorrectionFactor cfg)
         && Qleb (SpeedSensor.correctionFactor calibration) (maxCorrectionFactor cfg)
         && SpeedSensor.calibrationValid calibration
      then
        let '(r', ss') :=
          SpeedSensor.SpeedSensor_SetCalibration (ss w) wheelPos calibration in
        (r', set_ss w ss')
      else CalibrationManager_ResetToFactory nvm w wheelPos
    else
      CalibrationManager_ResetToFactory nvm
        (Rte_Call_DiagnosticService_SetDTC w DTC_CALIBRATION_NVM_ERROR true)
        wheelPos
  else (E_NOT_OK, w).

(** [CalibrationManager_Init] loads every wheel from NVM before it sets
    [g_CalibrationManager_Initialized]. *)
Definition CalibrationManager_Init (nvm : Nvm) (w : World)
  : Std_ReturnType * World :=
  if negb (g_CalibrationManager_Initialized (cm w)) then
    let st1 :=
      mkState (map (fun _ => zero_session) wheels)
              CalibrationManager_InitDefaultConfig
              (map (fun _ => zero_history) wheels)
              (map (fun _ => 0) wheels)
              (g_CalibrationManager_Initialized (cm w))
              (map (fun _ => zero_samples) wheels)
              (lastAutoCheckTime (cm w)) in
    let w2 :=
      fold_left (fun w' wheelIdx => snd (CalibrationManager_LoadFromNvm nvm w' wheelIdx))
                wheels (set_cm w st1) in
    (E_OK, set_cm w2 (set_initialized (cm w2) true))
  else (E_OK, w).

(** *** Session processing *)

Definition CalibrationManager_SetSessionResult (w : World) (wheelPos : nat)
    (res : CalibrationResult_t) : World :=
  let w1 :=
    set_cm w (set_session (cm w) wheelPos
                (with_result (session (cm w) wheelPos) res)) in
  match res with
  | CALIBRATION_RESULT_OK => w1
  | CALIBRATION_RESULT_OUT_OF_RANGE =>
      Rte_Call_DiagnosticService_SetDTC w1 DTC_CALIBRATION_OUT_OF_RANGE true
  | _ => Rte_Call_DiagnosticService_SetDTC w1 DTC_CALIBRATION_FAILED true
  end.

Definition CalibrationManager_CollectSample (w : World) (wheelPos : nat)
  : Std_ReturnType * World :=
  let sampleData := samples (cm w) wheelPos in
  let s := session (cm w) wheelPos in
  let '(r, speedData) := SpeedSensor.SpeedSensor_GetSpeedData (ss w) wheelPos in
  if r =? E_OK then
    if SpeedSensor.speedValid speedData
       && (sampleCount sampleData
           <? maxCalibrationSamples (g_CalibrationConfig (cm w)))
    then
      let k := Z.to_nat (sampleCount sampleData) in
      let sampleData' :=
        mkSamples (upd k (SpeedSensor.wheelSpeed speedData)
                       (speedSamples sampleData))
                  (upd k (referenceSpeed (request s))
                       (referenceSamples sampleData))
                  (u16 (sampleCount sampleData + 1))
                  (lastSampleTime sampleData) in
      (E_OK, set_cm w (set_samples (cm w) wheelPos sampleData'))
    else (E_NOT_OK, w)
  else (E_NOT_OK, w).

(** The gate [CalibrationManager_ValidateCalculatedCalibration] leaves in
    [*isValid]; the function itself always returns [E_OK]. *)
Definition CalibrationManager_ValidateCalculatedCalibration (st : State)
    (wheelPos : nat) : Std_ReturnType * bool :=
  let s := session st wheelPos in
  let cfg := g_CalibrationConfig st in
  let isValid :=
    if Qgeb (calculatedCorrectionFactor s) (minCorrectionFactor cfg)
       && Qleb (calculatedCorrectionFactor s) (maxCorrectionFactor cfg)
    then
      if Qgeb (measuredAccuracy s) (100 - tolerancePercentage (request s))
      then true else false
    else false in
  (E_OK, isValid).

(** The averaging loop over the first [sampleCount] samples:
    [(sumSpeed, sumReference, validSamples)]. *)
Definition sum_samples (sampleData : CalibrationSampleData_t) : Q * Q * Z :=
  fold_left
    (fun '(sumSpeed, sumReference, validSamples) i =>
       let x := get 0%Q (speedSamples sampleData) i in
       let y := get 0%Q (referenceSamples sampleData) i in
       if Qgtb x 0 && Qgtb y 0
       then ((sumSpeed + x)%Q, (sumReference + y)%Q, u16 (validSamples + 1))
       else (sumSpeed, sumReference, validSamples))
    (seq 0 (Z.to_nat (sampleCount sampleData)))
    (0%Q, 0%Q, 0).

(** With no usable sample and a configured minimum of 0 the averages
    divide by zero; that case is outside the rational level and is covered
    by [CalibrationManagerFloat]. *)
Definition CalibrationManager_CalculateCalibration (st : State) (wheelPos : nat)
  : Std_ReturnType * State :=
  let sampleData := samples st wheelPos in
  let s := session st wheelPos in
  let '(sumSpeed, sumReference, validSamples) := sum_samples sampleData in
  if minCalibrationSamples (g_CalibrationConfig st) <=? validSamples then
    let avgSpeed := (sumSpeed / inject_Z validSamples)%Q in
    let avgReference := (sumReference / inject_Z validSamples)%Q in
    let error := (Qabs (avgSpeed - avgReference) / avgReference * 100)%Q in
    let s' := with_calculated s (avgReference / avgSpeed)%Q 0%Q (100 - error)%Q in
    let st' := set_session st wheelPos s' in
    let '(r, isValid) :=
      CalibrationManager_ValidateCalculatedCalibration st' wheelPos in
    if (r =? E_OK) && isValid then (E_OK, st') else (E_NOT_OK, st')
  else (E_NOT_OK, st).

Definition set_session_state (w : World) (wheelPos : nat)
    (x : CalibrationState_t) : World :=
  set_cm w (set_session (cm w) wheelPos
              (with_state (session (cm w) wheelPos) x)).

Definition CalibrationManager_ProcessCalibrationSession (w : World)
    (wheelPos : nat) : Std_ReturnType * World :=
  let currentTime := 0 in
  match state (session (cm w) wheelPos) with
  | CALIBRATION_STATE_REQUESTED =>
      (E_OK, set_session_state w wheelPos CALIBRATION_STATE_IN_PROGRESS)
  | CALIBRATION_STATE_IN_PROGRESS =>
      let '(r, w1) := CalibrationManager_CollectSample w wheelPos in
      let w4 :=
        if r =? E_OK then
          let w2 :=
            set_cm w1 (set_session (cm w1) wheelPos
                         (with_samplesCollected (session (cm w1) wheelPos)
                            (sampleCount (samples (cm w1) wheelPos)))) in
          let s2 := session (cm w2) wheelPos in
          if minCalibrationSamples (g_CalibrationConfig (cm w2))
             <=? samplesCollected s2
          then
            if calibrationTimeMs (request s2)
               <=? u32 (currentTime - startTimestamp s2)
            then
              let '(rc, st3) :=
                CalibrationManager_CalculateCalibration (cm w2) wheelPos in
              let w3 := set_cm w2 st3 in
              if rc =? E_OK then
                CalibrationManager_SetSessionResult
                  (set_session_state w3 wheelPos CALIBRATION_STATE_COMPLETED)
                  wheelPos CALIBRATION_RESULT_OK
              else
                CalibrationManager_SetSessionResult
                  (set_session_state w3 wheelPos CALIBRATION_STATE_FAILED)
                  wheelPos CALIBRATION_RESULT_VALIDATION_FAILED
            else w2
          else w2
        else w1 in
      if calibrationTimeoutMs (g_CalibrationConfig (cm w4))
         <=? u32 (currentTime - startTimestamp (session (cm w4) wheelPos))
      then
        (E_OK,
         CalibrationManager_SetSessionResult
           (set_session_state w4 wheelPos CALIBRATION_STATE_FAILED)
           wheelPos CALIBRATION_RESULT_NOT_OK)
      else (E_OK, w4)
  | CALIBRATION_STATE_COMPLETED
  | CALIBRATION_STATE_FAILED
  | CALIBRATION_STATE_CANCELLED =>
      (E_OK,
       set_cm w (set_session (cm w) wheelPos
                   (with_end (session (cm w) wheelPos) false currentTime)))
  | CALIBRATION_STATE_IDLE => (E_OK, w)
  end.

Definition CalibrationManager_AutoCalibrationCheck (w : World)
  : Std_ReturnType * World :=
  let currentTime := 0 in
  if CALIBRATION_AUTO_INTERVAL_MS
     <=? u32 (currentTime - lastAutoCheckTime (cm w))
  then
    let w1 := set_cm w (set_last_auto_check (cm w) currentTime) in
    (E_OK,
     fold_left
       (fun w' wheelIdx =>
          let '(r, isValid, acc) :=
            CalibrationManager_ValidateCalibration w' wheelIdx in
          if r =? E_OK then
            if negb isValid || Qltb acc 90 then
              let req :=
                mkRequest wheelIdx CALIBRATION_METHOD_AUTOMATIC 50
                          (defaultTolerance (g_CalibrationConfig (cm w')))
                          10000 false in
              set_cm w' (snd (CalibrationManager_StartCalibration (cm w') req))
            else w'
          else w')
       wheels w1)
  else (E_OK, w).

Definition CalibrationManager_MainFunction (w : World)
  : Std_ReturnType * World :=
  if g_CalibrationManager_Initialized (cm w) then
    let w1 :=
      fold_left
        (fun w' wheelIdx =>
           if sessionActive (session (cm w') wheelIdx)
           then snd (CalibrationManager_ProcessCalibrationSession w' wheelIdx)
           else w')
        wheels w in
    if enableAutoCalibration (g_CalibrationConfig (cm w1))
    then (E_OK, snd (CalibrationManager_AutoCalibrationCheck w1))
    else (E_OK, w1)
  else (E_NOT_OK, w).

(** *** Remaining services of the manager *)

Definition CalibrationManager_DeInit (st : State) : Std_ReturnType * State :=
  if g_CalibrationManager_Initialized st then
    let st1 :=
      fold_left
        (fun st' wheelIdx =>
           if sessionActive (session st' wheelIdx)
           then snd (CalibrationManager_CancelCalibration st' wheelIdx)
           else st')
        wheels st in
    (E_OK, set_initialized st1 false)
  else (E_OK, st).

Definition CalibrationManager_GetSessionStatus (st : State) (wheelPos : nat)
  : Std_ReturnType * CalibrationSession_t :=
  if (wheelPos <? WHEEL_MAX)%nat && g_CalibrationManager_Initialized st then
    (E_OK, session st wheelPos)
  else (E_NOT_OK, zero_session).

(** [CalibrationManager_GetHistory]: [*count] and the entries the copy loop
    wrote to [history[0 .. count)]. *)
Definition CalibrationManager_GetHistory (st : State) (wheelPos : nat)
  : Std_ReturnType * list CalibrationHistoryEntry_t * Z :=
  if (wheelPos <? WHEEL_MAX)%nat && g_CalibrationManager_Initialized st then
    (E_OK,
     map (get zero_entry (history st wheelPos))
         (seq 0 (Z.to_nat (history_count st wheelPos))),
     history_count st wheelPos)
  else (E_NOT_OK, [], 0).

Definition CalibrationManager_ClearHistory (st : State) (wheelPos : nat)
  : Std_ReturnType * State :=
  if (wheelPos <? WHEEL_MAX)%nat && g_CalibrationManager_Initialized st then
    (E_OK, set_history st wheelPos zero_history 0)
  else (E_NOT_OK, st).

Definition CalibrationManager_GetConfig (st : State)
  : Std_ReturnType * CalibrationConfig_t :=
  if g_CalibrationManager_Initialized st then (E_OK, g_CalibrationConfig st)
  else (E_NOT_OK, zero_config).


End CalibrationManager.

(** ** DiagnosticService.h and DiagnosticService.c *)

Module DiagnosticService.

Definition UDS_SID_CLEAR_DIAGNOSTIC_INFORMATION : Z := 0x14.
Definition UDS_NRC_INCORRECT_MESSAGE_LENGTH : Z := 0x13.
Definition UDS_NRC_REQUEST_OUT_OF_RANGE : Z := 0x31.
Definition DIAG_MAX_DTC_COUNT : Z := 32.

Definition DTC_SPEED_SENSOR_FL_MISCALIBRATED : Z := 0xC14100.
Definition DTC_SPEED_SENSOR_FR_MISCALIBRATED : Z := 0xC14101.
Definition DTC_SPEED_SENSOR_RL_MISCALIBRATED : Z := 0xC14102.
Definition DTC_SPEED_SENSOR_RR_MISCALIBRATED : Z := 0xC14103.
Definition DTC_SPEED_SENSOR_FL_FAILURE : Z := 0xC14200.
Definition DTC_SPEED_SENSOR_FR_FAILURE : Z := 0xC14201.
Definition DTC_SPEED_SENSOR_RL_FAILURE : Z := 0xC14202.
Definition DTC_SPEED_SENSOR_RR_FAILURE : Z := 0xC14203.
Definition DTC_ABS_SYSTEM_MALFUNCTION : Z := 0xC14300.
Definition DTC_SPEED_PLAUSIBILITY_ERROR : Z := 0xC14400.

Inductive DiagSession_t :=
| DIAG_SESSION_DEFAULT
| DIAG_SESSION_PROGRAMMING
| DIAG_SESSION_EXTENDED
| DIAG_SESSION_SAFETY_SYSTEM.

(** The bit-field status byte, one flag per bit. *)
Record DTCStatus_t := mkDTCStatus {
  testFailed : bool;
  testFailedThisOperationCycle : bool;
  pendingDTC : bool;
  confirmedDTC : bool;
  testNotCompletedSinceLastClear : bool;
  testFailedSinceLastClear : bool;
  testNotCompletedThisOperationCycle : bool;
  warningIndicatorRequested : bool }.

Record DTCInfo_t := mkDTC {
  dtcNumber : Z;
  status : DTCStatus_t;
  severity : Z;
  functionalUnit : Z;
  affectedWheel : nat;
  occurrenceCount : Z;
  firstFailureTimestamp : Z;
  lastFailureTimestamp : Z;
  malfunctionType : ABS.ABS_MalfunctionType_t }.

Definition zero_dtc_status : DTCStatus_t :=
  mkDTCStatus false false false false false false false false.
Definition zero_dtc : DTCInfo_t :=
  mkDTC 0 zero_dtc_status 0 0 0 0 0 0 ABS.ABS_MALFUNCTION_NONE.

(** What a clear leaves in the status byte: [memset] to zero, then
    [testNotCompletedSinceLastClear = 1]. *)
Definition cleared_status : DTCStatus_t :=
  mkDTCStatus false false false false true false false false.

Definition with_status (e : DTCInfo_t) (s : DTCStatus_t) : DTCInfo_t :=
  mkDTC (dtcNumber e) s (severity e) (functionalUnit e) (affectedWheel e)
        (occurrenceCount e) (firstFailureTimestamp e) (lastFailureTimestamp e)
        (malfunctionType e).

Record State := mkState {
  g_DTCTable : list DTCInfo_t;
  g_ActiveDTCCount : Z;
  g_CurrentSession : DiagSession_t;
  g_DiagnosticService_Initialized : bool }.

Definition initial : State :=
  mkState (repeat zero_dtc (Z.to_nat DIAG_MAX_DTC_COUNT)) 0
          DIAG_SESSION_DEFAULT false.

Definition entry (st : State) (i : nat) : DTCInfo_t :=
  get zero_dtc (g_DTCTable st) i.
Definition set_table (st : State) (t : list DTCInfo_t) : State :=
  mkState t (g_ActiveDTCCount st) (g_CurrentSession st)
          (g_DiagnosticService_Initialized st).

Definition DiagnosticService_Init (st : State) : Std_ReturnType * State :=
  if negb (g_DiagnosticService_Initialized st) then
    (E_OK, mkState (repeat zero_dtc (Z.to_nat DIAG_MAX_DTC_COUNT)) 0
                   DIAG_SESSION_DEFAULT true)
  else (E_OK, st).

(** The search loop of [DiagnosticService_FindDTC] from slot [i] on: the
    index of the first slot whose number is [n], if any ([E_OK] and
    [*index]), else [None] ([E_NOT_OK]). *)
Fixpoint find_from (t : list DTCInfo_t) (n : Z) (i : nat) : option nat :=
  match t with
  | [] => None
  | e :: t' => if dtcNumber e =? n then Some i else find_from t' n (S i)
  end.

Definition DiagnosticService_FindDTC (st : State) (n : Z) : option nat :=
  find_from (g_DTCTable st) n 0.

Definition DiagnosticService_AddDTC (st : State) (n : Z) (wheelPos : nat)
    (type : ABS.ABS_MalfunctionType_t) : Std_ReturnType * State :=
  match find_from (g_DTCTable st) 0 0 with
  | Some i =>
      let e := entry st i in
      let s := status e in
      let s' := mkDTCStatus true true true (confirmedDTC s)
                            (testNotCompletedSinceLastClear s)
                            (testFailedSinceLastClear s)
                            (testNotCompletedThisOperationCycle s)
                            (warningIndicatorRequested s) in
      let e' := mkDTC n s' (severity e) (functionalUnit e) wheelPos 1 0 0 type in
      (E_OK,
       mkState (upd i e' (g_DTCTable st))
               (if g_ActiveDTCCount st <? DIAG_MAX_DTC_COUNT
                then u8 (g_ActiveDTCCount st + 1) else g_ActiveDTCCount st)
               (g_CurrentSession st) (g_DiagnosticService_Initialized st))
  | None => (E_NOT_OK, st)
  end.

Definition DiagnosticService_UpdateDTCStatus (st : State) (n : Z)
    (active : bool) : Std_ReturnType * State :=
  match DiagnosticService_FindDTC st n with
  | Some dtcIndex =>
      let e := entry st dtcIndex in
      let s := status e in
      if active then
        let occ := u32 (occurrenceCount e + 1) in
        let s' := mkDTCStatus true true (pendingDTC s)
                              (if 3 <=? occ then true else confirmedDTC s)
                              (testNotCompletedSinceLastClear s)
                              (testFailedSinceLastClear s)
                              (testNotCompletedThisOperationCycle s)
                              (warningIndicatorRequested s) in
        let e' := mkDTC (dtcNumber e) s' (severity e) (functionalUnit e)
                        (affectedWheel e) occ (firstFailureTimestamp e) 0
                        (malfunctionType e) in
        (E_OK, set_table st (upd dtcIndex e' (g_DTCTable st)))
      else
        let s' := mkDTCStatus false (testFailedThisOperationCycle s)
                              (pendingDTC s) (confirmedDTC s)
                              (testNotCompletedSinceLastClear s)
                              (testFailedSinceLastClear s)
                              (testNotCompletedThisOperationCycle s)
                              (warningIndicatorRequested s) in
        (E_OK, set_table st (upd dtcIndex (with_status e s') (g_DTCTable st)))
  | None => (E_NOT_OK, st)
  end.

Definition DiagnosticService_SetDTC (st : State) (n : Z) (active : bool)
    (wheelPos : nat) : Std_ReturnType * State :=
  if g_DiagnosticService_Initialized st then
    match DiagnosticService_FindDTC st n with
    | Some _ => DiagnosticService_UpdateDTCStatus st n active
    | None =>
        if active
        then DiagnosticService_AddDTC st n wheelPos ABS.ABS_MALFUNCTION_NONE
        else (E_NOT_OK, st)
    end
  else (E_NOT_OK, st).

Definition DiagnosticService_ClearDTC (st : State) (n : Z)
  : Std_ReturnType * State :=
  if g_DiagnosticService_Initialized st then
    match DiagnosticService_FindDTC st n with
    | Some dtcIndex =>
        (E_OK,
         set_table st (upd dtcIndex (with_status (entry st dtcIndex) cleared_status)
                           (g_DTCTable st)))
    | None => (E_NOT_OK, st)
    end
  else (E_NOT_OK, st).

(** Body of the loop of [DiagnosticService_ClearAllDTCs] on one slot. *)
Definition clear_slot (e : DTCInfo_t) : DTCInfo_t :=
  if negb (dtcNumber e =? 0) then with_status e cleared_status else e.

Definition DiagnosticService_ClearAllDTCs (st : State) : Std_ReturnType * State :=
  if g_DiagnosticService_Initialized st then
    (E_OK, set_table st (map clear_slot (g_DTCTable st)))
  else (E_NOT_OK, st).

Definition DiagnosticService_GetDTCInfo (st : State) (n : Z)
  : Std_ReturnType * DTCInfo_t :=
  if g_DiagnosticService_Initialized st then
    match DiagnosticService_FindDTC st n with
    | Some dtcIndex => (E_OK, entry st dtcIndex)
    | None => (E_NOT_OK, zero_dtc)
    end
  else (E_NOT_OK, zero_dtc).

Definition DiagnosticService_GetDTCForMalfunction
    (type : ABS.ABS_MalfunctionType_t) (wheelPos : nat) : Z :=
  match type with
  | ABS.ABS_MALFUNCTION_SPEED_SENSOR_MISCALIBRATION =>
      match wheelPos with
      | 0%nat => DTC_SPEED_SENSOR_FL_MISCALIBRATED
      | 1%nat => DTC_SPEED_SENSOR_FR_MISCALIBRATED
      | 2%nat => DTC_SPEED_SENSOR_RL_MISCALIBRATED
      | 3%nat => DTC_SPEED_SENSOR_RR_MISCALIBRATED
      | _ => 0
      end
  | ABS.ABS_MALFUNCTION_SPEED_SENSOR_FAILURE =>
      match wheelPos with
      | 0%nat => DTC_SPEED_SENSOR_FL_FAILURE
      | 1%nat => DTC_SPEED_SENSOR_FR_FAILURE
      | 2%nat => DTC_SPEED_SENSOR_RL_FAILURE
      | 3%nat => DTC_SPEED_SENSOR_RR_FAILURE
      | _ => 0
      end
  | ABS.ABS_MALFUNCTION_SPEED_DIFFERENCE_EXCESSIVE => DTC_SPEED_PLAUSIBILITY_ERROR
  | _ => DTC_ABS_SYSTEM_MALFUNCTION
  end.

Definition DiagnosticService_MonitorMalfunctions (abs : ABS.State) (st : State)
  : State :=
  fold_left
    (fun st' wheelIdx =>
       let '(r, malfunctionStatus) := ABS.ABS_GetMalfunctionStatus abs wheelIdx in
       if r =? E_OK then
         if ABS.confirmedMalfunction malfunctionStatus then
           let n :=
             DiagnosticService_GetDTCForMalfunction
               (ABS.malfunctionType malfunctionStatus)
               (ABS.affectedWheel malfunctionStatus) in
           if negb (n =? 0)
           then snd (DiagnosticService_SetDTC st' n true
                       (ABS.affectedWheel malfunctionStatus))
           else st'
         else st'
       else st')
    wheels st.

Definition DiagnosticService_MainFunction (abs : ABS.State) (st : State)
  : Std_ReturnType * State :=
  if g_DiagnosticService_Initialized st
  then (E_OK, DiagnosticService_MonitorMalfunctions abs st)
  else (E_OK, st).

(** *** The clear-diagnostics handler *)

(** The part of [UDSMessage_t] the handler reads from the request (payload
    and length field) and the part it reads and writes in the response.
    [responseData] is modelled by the bytes the handler left in
    [responseData[0 .. responseDataLength)]. *)
Record UDSRequest := mkRequest {
  requestData : list Z;
  requestDataLength : Z }.

Record UDSResponse := mkResponse {
  responseData : list Z;
  responseDataLength : Z;
  maxResponseLength : Z }.

Definition DiagnosticService_PrepareErrorResponse (response : UDSResponse)
    (serviceId nrc : Z) : UDSResponse :=
  mkResponse [0x7F; serviceId; nrc] 3 (maxResponseLength response).

Definition positive_clear_response (response : UDSResponse) : UDSResponse :=
  mkResponse [UDS_SID_CLEAR_DIAGNOSTIC_INFORMATION + 0x40] 1
             (maxResponseLength response).

Definition clear_malfunctions (abs : ABS.State) : ABS.State :=
  let abs1 := snd (ABS.ABS_ClearMalfunctionStatus abs WHEEL_FRONT_LEFT) in
  let abs2 := snd (ABS.ABS_ClearMalfunctionStatus abs1 WHEEL_FRONT_RIGHT) in
  let abs3 := snd (ABS.ABS_ClearMalfunctionStatus abs2 WHEEL_REAR_LEFT) in
  snd (ABS.ABS_ClearMalfunctionStatus abs3 WHEEL_REAR_RIGHT).

Definition UDS_ClearDiagnosticInformation (abs : ABS.State) (st : State)
    (req : UDSRequest) (response : UDSResponse)
  : Std_ReturnType * ABS.State * State * UDSResponse :=
  if (3 <=? requestDataLength req) && (1 <=? maxResponseLength response) then
    let byte i := get 0 (requestData req) i in
    let dtcGroupToDelete :=
      Z.lor (Z.lor (u32 (Z.shiftl (byte 0%nat) 16)) (u32 (Z.shiftl (byte 1%nat) 8)))
            (byte 2%nat) in
    if dtcGroupToDelete =? 0xFFFFFF then
      let '(r, st') := DiagnosticService_ClearAllDTCs st in
      if r =? E_OK then
        (E_OK, clear_malfunctions abs, st', positive_clear_response response)
      else
        (E_OK, abs, st',
         DiagnosticService_PrepareErrorResponse response
           UDS_SID_CLEAR_DIAGNOSTIC_INFORMATION UDS_NRC_REQUEST_OUT_OF_RANGE)
    else
      let '(r, st') := DiagnosticService_ClearDTC st dtcGroupToDelete in
      if r =? E_OK then (E_OK, abs, st', positive_clear_response response)
      else
        (E_OK, abs, st',
         DiagnosticService_PrepareErrorResponse response
           UDS_SID_CLEAR_DIAGNOSTIC_INFORMATION UDS_NRC_REQUEST_OUT_OF_RANGE)
  else
    (E_OK, abs, st,
     DiagnosticService_PrepareErrorResponse response
       UDS_SID_CLEAR_DIAGNOSTIC_INFORMATION UDS_NRC_INCORRECT_MESSAGE_LENGTH).

(** *** Remaining services and the request dispatcher *)

Definition UDS_SID_DIAGNOSTIC_SESSION_CONTROL : Z := 0x10.
Definition UDS_SID_ECU_RESET : Z := 0x11.
Definition UDS_SID_READ_DTC_INFORMATION : Z := 0x19.
Definition UDS_SID_READ_DATA_BY_IDENTIFIER : Z := 0x22.
Definition UDS_SID_WRITE_DATA_BY_IDENTIFIER : Z := 0x2E.
Definition UDS_SID_IO_CONTROL_BY_IDENTIFIER : Z := 0x2F.
Definition UDS_SID_ROUTINE_CONTROL : Z := 0x31.

Definition UDS_NRC_SERVICE_NOT_SUPPORTED : Z := 0x11.
Definition UDS_NRC_SUBFUNCTION_NOT_SUPPORTED : Z := 0x12.
Definition UDS_NRC_CONDITIONS_NOT_CORRECT : Z := 0x22.

Definition DID_SPEED_SENSOR_FL_DATA : Z := 0xF100.
Definition DID_SPEED_SENSOR_RR_DATA : Z := 0xF103.
Definition DID_CALIBRATION_FL_PARAMS : Z := 0xF110.
Definition DID_CALIBRATION_RR_PARAMS : Z := 0xF113.
Definition DID_ABS_SYSTEM_STATUS : Z := 0xF120.
Definition DID_MALFUNCTION_COUNTER : Z := 0xF121.

Definition RID_START_CALIBRATION_FL : Z := 0x0201.
Definition RID_START_CALIBRATION_RR : Z := 0x0204.
Definition RID_VALIDATE_CALIBRATION : Z := 0x0210.
Definition RID_RESET_CALIBRATION_ALL : Z := 0x0220.
Definition RID_ABS_SELF_TEST : Z := 0x0230.

(** The enumerator values of [DiagSession_t], and the session a request
    byte names once the handler has checked its range. *)
Definition session_value (s : DiagSession_t) : Z :=
  match s with
  | DIAG_SESSION_DEFAULT => 0x01
  | DIAG_SESSION_PROGRAMMING => 0x02
  | DIAG_SESSION_EXTENDED => 0x03
  | DIAG_SESSION_SAFETY_SYSTEM => 0x04
  end.

Definition session_of_value (v : Z) : DiagSession_t :=
  if v =? 0x02 then DIAG_SESSION_PROGRAMMING
  else if v =? 0x03 then DIAG_SESSION_EXTENDED
  else if v =? 0x04 then DIAG_SESSION_SAFETY_SYSTEM
  else DIAG_SESSION_DEFAULT.

Definition set_current_session (st : State) (s : DiagSession_t) : State :=
  mkState (g_DTCTable st) (g_ActiveDTCCount st) s
          (g_DiagnosticService_Initialized st).

Definition DiagnosticService_DeInit (st : State) : Std_ReturnType * State :=
  (E_OK, mkState (g_DTCTable st) (g_ActiveDTCCount st) (g_CurrentSession st)
                 false).

(** The collection loop of [DiagnosticService_GetActiveDTCs] over the
    slots [t] still to visit; [dtcList] holds the [count] numbers stored so
    far. *)
Fixpoint active_dtcs_from (t : list DTCInfo_t) (maxDtcs : Z) (dtcList : list Z)
  : list Z :=
  match t with
  | [] => dtcList
  | e :: t' =>
      if Z.of_nat (length dtcList) <? maxDtcs then
        if negb (dtcNumber e =? 0)
           && (testFailed (status e) || confirmedDTC (status e))
        then active_dtcs_from t' maxDtcs (dtcList ++ [dtcNumber e])
        else active_dtcs_from t' maxDtcs dtcList
      else dtcList
  end.

Definition DiagnosticService_GetActiveDTCs (st : State) (maxDtcs : Z)
  : Std_ReturnType * list Z * Z :=
  if g_DiagnosticService_Initialized st then
    let dtcList := active_dtcs_from (g_DTCTable st) maxDtcs [] in
    (E_OK, dtcList, Z.of_nat (length dtcList))
  else (E_NOT_OK, [], 0).

Definition UDS_DiagnosticSessionControl (st : State) (req : UDSRequest)
    (response : UDSResponse) : Std_ReturnType * State * UDSResponse :=
  if (1 <=? requestDataLength req) && (6 <=? maxResponseLength response) then
    let requestedSession := get 0 (requestData req) 0 in
    if (session_value DIAG_SESSION_DEFAULT <=? requestedSession)
       && (requestedSession <=? session_value DIAG_SESSION_SAFETY_SYSTEM)
    then
      (E_OK, set_current_session st (session_of_value requestedSession),
       mkResponse [UDS_SID_DIAGNOSTIC_SESSION_CONTROL + 0x40; requestedSession;
                   0x00; 0x32; 0x01; 0xF4] 6 (maxResponseLength response))
    else
      (E_OK, st,
       DiagnosticService_PrepareErrorResponse response
         UDS_SID_DIAGNOSTIC_SESSION_CONTROL UDS_NRC_SUBFUNCTION_NOT_SUPPORTED)
  else
    (E_OK, st,
     DiagnosticService_PrepareErrorResponse response
       UDS_SID_DIAGNOSTIC_SESSION_CONTROL UDS_NRC_INCORRECT_MESSAGE_LENGTH).

Definition session_is (s s' : DiagSession_t) : bool :=
  session_value s =? session_value s'.

Definition UDS_ECUReset (st : State) (req : UDSRequest) (response : UDSResponse)
  : Std_ReturnType * UDSResponse :=
  if (1 <=? requestDataLength req) && (2 <=? maxResponseLength response) then
    let resetType := get 0 (requestData req) 0 in
    if (resetType =? 0x01)
       && session_is (g_CurrentSession st) DIAG_SESSION_PROGRAMMING
    then
      (E_OK,
       mkResponse [UDS_SID_ECU_RESET + 0x40; resetType] 2
                  (maxResponseLength response))
    else
      (E_OK,
       DiagnosticService_PrepareErrorResponse response UDS_SID_ECU_RESET
         UDS_NRC_CONDITIONS_NOT_CORRECT)
  else
    (E_OK,
     DiagnosticService_PrepareErrorResponse response UDS_SID_ECU_RESET
       UDS_NRC_INCORRECT_MESSAGE_LENGTH).

(** The status byte the report reads through [*(uint8* )&status]: the
    bit-fields in declaration order from the least significant bit, the
    layout of the usual little-endian ABIs. *)
Definition status_byte (s : DTCStatus_t) : Z :=
  (if testFailed s then 0x01 else 0)
  + (if testFailedThisOperationCycle s then 0x02 else 0)
  + (if pendingDTC s then 0x04 else 0)
  + (if confirmedDTC s then 0x08 else 0)
  + (if testNotCompletedSinceLastClear s then 0x10 else 0)
  + (if testFailedSinceLastClear s then 0x20 else 0)
  + (if testNotCompletedThisOperationCycle s then 0x40 else 0)
  + (if warningIndicatorRequested s then 0x80 else 0).

(** The three bytes a report writes for a code. *)
Definition dtc_bytes (n : Z) : list Z :=
  [u8 (Z.shiftr n 16); u8 (Z.shiftr n 8); u8 n].

(** The loops of the two reports over the slots [t] still to visit; [out]
    holds the bytes [responseData[0 .. responseIndex)].  The bound is
    computed in [int], so it may be negative; [responseIndex] stays below
    it and never wraps. *)
Fixpoint report_by_mask (t : list DTCInfo_t) (statusMask maxResponseLength : Z)
    (out : list Z) : list Z :=
  match t with
  | [] => out
  | e :: t' =>
      if Z.of_nat (length out) <? maxResponseLength - 4 then
        if negb (dtcNumber e =? 0) then
          let dtcStatus := status_byte (status e) in
          if negb (Z.land dtcStatus statusMask =? 0) then
            report_by_mask t' statusMask maxResponseLength
              (out ++ dtc_bytes (dtcNumber e) ++ [dtcStatus])
          else report_by_mask t' statusMask maxResponseLength out
        else report_by_mask t' statusMask maxResponseLength out
      else out
  end.

Fixpoint report_supported (t : list DTCInfo_t) (maxResponseLength : Z)
    (out : list Z) : list Z :=
  match t with
  | [] => out
  | e :: t' =>
      if Z.of_nat (length out) <? maxResponseLength - 3 then
        if negb (dtcNumber e =? 0)
        then report_supported t' maxResponseLength (out ++ dtc_bytes (dtcNumber e))
        else report_supported t' maxResponseLength out
      else out
  end.

Definition UDS_ReadDTCInformation (st : State) (req : UDSRequest)
    (response : UDSResponse) : Std_ReturnType * UDSResponse :=
  if (1 <=? requestDataLength req) && (3 <=? maxResponseLength response) then
    let subFunction := get 0 (requestData req) 0 in
    let header := [UDS_SID_READ_DTC_INFORMATION + 0x40; subFunction] in
    if subFunction =? 0x02 then
      if 2 <=? requestDataLength req then
        let statusMask := get 0 (requestData req) 1 in
        let out :=
          report_by_mask (g_DTCTable st) statusMask (maxResponseLength response)
                         (header ++ [statusMask]) in
        (E_OK, mkResponse out (Z.of_nat (length out)) (maxResponseLength response))
      else (E_NOT_OK, mkResponse header 2 (maxResponseLength response))
    else if subFunction =? 0x0A then
      let out :=
        report_supported (g_DTCTable st) (maxResponseLength response) header in
      (E_OK, mkResponse out (Z.of_nat (length out)) (maxResponseLength response))
    else
      (E_OK,
       DiagnosticService_PrepareErrorResponse response
         UDS_SID_READ_DTC_INFORMATION UDS_NRC_SUBFUNCTION_NOT_SUPPORTED)
  else
    (E_OK,
     DiagnosticService_PrepareErrorResponse response
       UDS_SID_READ_DTC_INFORMATION UDS_NRC_INCORRECT_MESSAGE_LENGTH).

Definition UDS_InputOutputControlByIdentifier (req : UDSRequest)
    (response : UDSResponse) : Std_ReturnType * UDSResponse :=
  (E_OK,
   DiagnosticService_PrepareErrorResponse response
     UDS_SID_IO_CONTROL_BY_IDENTIFIER UDS_NRC_SERVICE_NOT_SUPPORTED).

(** The data and routine functions are declared in [DiagnosticService.h]
    and defined outside these translation units.  A handler either answers
    the request itself or hands it over to one of them; what happens after
    the hand-over is outside the model. *)
Inductive Routine :=
| DID_ReadSpeedSensorData
| DID_ReadCalibrationParams
| DID_ReadABSSystemStatus
| DID_ReadMalfunctionCounter
| DID_WriteCalibrationParams
| RID_StartCalibration
| RID_ValidateCalibration
| RID_ResetCalibrationAll
| RID_ABSSelfTest.

Inductive Handled (A : Type) :=
| Answered (a : A)
| HandedOver (r : Routine).

Arguments Answered {A} a.
Arguments HandedOver {A} r.

(** [((uint16)requestData[i] << 8) | requestData[i + 1]]. *)
Definition identifier (req : UDSRequest) (i : nat) : Z :=
  u16 (Z.lor (Z.shiftl (get 0 (requestData req) i) 8)
             (get 0 (requestData req) (S i))).

Definition UDS_ReadDataByIdentifier (req : UDSRequest) (response : UDSResponse)
  : Handled (Std_ReturnType * UDSResponse) :=
  if (2 <=? requestDataLength req) && (3 <=? maxResponseLength response) then
    let dataId := identifier req 0 in
    if (DID_SPEED_SENSOR_FL_DATA <=? dataId) && (dataId <=? DID_SPEED_SENSOR_RR_DATA)
    then HandedOver DID_ReadSpeedSensorData
    else if (DID_CALIBRATION_FL_PARAMS <=? dataId)
            && (dataId <=? DID_CALIBRATION_RR_PARAMS)
    then HandedOver DID_ReadCalibrationParams
    else if dataId =? DID_ABS_SYSTEM_STATUS
    then HandedOver DID_ReadABSSystemStatus
    else if dataId =? DID_MALFUNCTION_COUNTER
    then HandedOver DID_ReadMalfunctionCounter
    else
      Answered
        (E_OK,
         DiagnosticService_PrepareErrorResponse response
           UDS_SID_READ_DATA_BY_IDENTIFIER UDS_NRC_REQUEST_OUT_OF_RANGE)
  else
    Answered
      (E_OK,
       DiagnosticService_PrepareErrorResponse response
         UDS_SID_READ_DATA_BY_IDENTIFIER UDS_NRC_INCORRECT_MESSAGE_LENGTH).

Definition UDS_WriteDataByIdentifier (st : State) (req : UDSRequest)
    (response : UDSResponse) : Handled (Std_ReturnType * UDSResponse) :=
  if (3 <=? requestDataLength req) && (3 <=? maxResponseLength response) then
    let dataId := identifier req 0 in
    if session_is (g_CurrentSession st) DIAG_SESSION_EXTENDED then
      if (DID_CALIBRATION_FL_PARAMS <=? dataId)
         && (dataId <=? DID_CALIBRATION_RR_PARAMS)
      then HandedOver DID_WriteCalibrationParams
      else
        Answered
          (E_OK,
           DiagnosticService_PrepareErrorResponse response
             UDS_SID_WRITE_DATA_BY_IDENTIFIER UDS_NRC_REQUEST_OUT_OF_RANGE)
    else
      Answered
        (E_OK,
         DiagnosticService_PrepareErrorResponse response
           UDS_SID_WRITE_DATA_BY_IDENTIFIER UDS_NRC_CONDITIONS_NOT_CORRECT)
  else
    Answered
      (E_OK,
       DiagnosticService_PrepareErrorResponse response
         UDS_SID_WRITE_DATA_BY_IDENTIFIER UDS_NRC_INCORRECT_MESSAGE_LENGTH).

Definition UDS_RoutineControl (st : State) (req : UDSRequest)
    (response : UDSResponse) : Handled (Std_ReturnType * UDSResponse) :=
  if (4 <=? requestDataLength req) && (4 <=? maxResponseLength response) then
    let subFunction := get 0 (requestData req) 0 in
    let routineId := identifier req 1 in
    if session_is (g_CurrentSession st) DIAG_SESSION_EXTENDED then
      if subFunction =? 0x01 then
        if (RID_START_CALIBRATION_FL <=? routineId)
           && (routineId <=? RID_START_CALIBRATION_RR)
        then HandedOver RID_StartCalibration
        else if routineId =? RID_VALIDATE_CALIBRATION
        then HandedOver RID_ValidateCalibration
        else if routineId =? RID_RESET_CALIBRATION_ALL
        then HandedOver RID_ResetCalibrationAll
        else if routineId =? RID_ABS_SELF_TEST
        then HandedOver RID_ABSSelfTest
        else
          Answered
            (E_OK,
             DiagnosticService_PrepareErrorResponse response
               UDS_SID_ROUTINE_CONTROL UDS_NRC_REQUEST_OUT_OF_RANGE)
      else
        Answered
          (E_OK,
           DiagnosticService_PrepareErrorResponse response
             UDS_SID_ROUTINE_CONTROL UDS_NRC_SUBFUNCTION_NOT_SUPPORTED)
    else
      Answered
        (E_OK,
         DiagnosticService_PrepareErrorResponse response
           UDS_SID_ROUTINE_CONTROL UDS_NRC_CONDITIONS_NOT_CORRECT)
  else
    Answered
      (E_OK,
       DiagnosticService_PrepareErrorResponse response
         UDS_SID_ROUTINE_CONTROL UDS_NRC_INCORRECT_MESSAGE_LENGTH).

(** [UDSServiceHandler_t]: a handler reads the request and the two
    components and leaves its status, the components and the response. *)
Definition UDSServiceHandler_t : Type :=
  ABS.State -> State -> UDSRequest -> UDSResponse ->
  Handled (Std_ReturnType * ABS.State * State * UDSResponse).

Definition lift_handled {A B : Type} (f : A -> B) (h : Handled A) : Handled B :=
  match h with
  | Answered a => Answered (f a)
  | HandedOver r => HandedOver r
  end.

Definition g_UDSServiceTable : list (Z * UDSServiceHandler_t) :=
  [ (UDS_SID_DIAGNOSTIC_SESSION_CONTROL,
     fun abs st req response =>
       let '(r, st', response') := UDS_DiagnosticSessionControl st req response in
       Answered (r, abs, st', response'));
    (UDS_SID_ECU_RESET,
     fun abs st req response =>
       let '(r, response') := UDS_ECUReset st req response in
       Answered (r, abs, st, response'));
    (UDS_SID_CLEAR_DIAGNOSTIC_INFORMATION,
     fun abs st req response =>
       Answered (UDS_ClearDiagnosticInformation abs st req response));
    (UDS_SID_READ_DTC_INFORMATION,
     fun abs st req response =>
       let '(r, response') := UDS_ReadDTCInformation st req response in
       Answered (r, abs, st, response'));
    (UDS_SID_READ_DATA_BY_IDENTIFIER,
     fun abs st req response =>
       lift_handled (fun '(r, response') => (r, abs, st, response'))
                    (UDS_ReadDataByIdentifier req response));
    (UDS_SID_WRITE_DATA_BY_IDENTIFIER,
     fun abs st req response =>
       lift_handled (fun '(r, response') => (r, abs, st, response'))
                    (UDS_WriteDataByIdentifier st req response));
    (UDS_SID_IO_CONTROL_BY_IDENTIFIER,
     fun abs st req response =>
       let '(r, response') := UDS_InputOutputControlByIdentifier req response in
       Answered (r, abs, st, response'));
    (UDS_SID_ROUTINE_CONTROL,
     fun abs st req response =>
       lift_handled (fun '(r, response') => (r, abs, st, response'))
                    (UDS_RoutineControl st req response)) ].

(** The search loop of [DiagnosticService_GetServiceHandler]. *)
Fixpoint find_handler (t : list (Z * UDSServiceHandler_t)) (serviceId : Z)
  : option UDSServiceHandler_t :=
  match t with
  | [] => None
  | (sid, handler) :: t' =>
      if sid =? serviceId then Some handler else find_handler t' serviceId
  end.

Definition DiagnosticService_GetServiceHandler (serviceId : Z)
  : option UDSServiceHandler_t :=
  find_handler g_UDSServiceTable serviceId.

(** [request->serviceId] is passed beside the part of the request the
    handlers read. *)
Definition DiagnosticService_ProcessUDSRequest (abs : ABS.State) (st : State)
    (serviceId : Z) (req : UDSRequest) (response : UDSResponse)
  : Handled (Std_ReturnType * ABS.State * State * UDSResponse) :=
  if g_DiagnosticService_Initialized st then
    match DiagnosticService_GetServiceHandler serviceId with
    | Some handler => handler abs st req response
    | None =>
        Answered
          (E_OK, abs, st,
           DiagnosticService_PrepareErrorResponse response serviceId
             UDS_NRC_SERVICE_NOT_SUPPORTED)
    end
  else Answered (E_NOT_OK, abs, st, response).

Definition RE_DiagnosticService_MainCyclic (abs : ABS.State) (st : State) : State :=
  snd (DiagnosticService_MainFunction abs st).

(** *** The width of [uint32]

    [Std_Types.h] declares [uint32] as [unsigned long], a type of 32 bits
    or more: 32 on the ILP32 targets, 64 on an LP64 host.  The definitions
    above take the 32 bits of the name.  The occurrence counter is the
    [uint32] of this component whose wrap-around decides a result, so its
    update and the call that reaches it are given again with the width
    [bits] of [unsigned long] as a parameter; at [bits = 32] they are the
    definitions above. *)
Definition DiagnosticService_UpdateDTCStatus_at (bits : Z) (st : State) (n : Z)
    (active : bool) : Std_ReturnType * State :=
  match DiagnosticService_FindDTC st n with
  | Some dtcIndex =>
      let e := entry st dtcIndex in
      let s := status e in
      if active then
        let occ := wrap bits (occurrenceCount e + 1) in
        let s' := mkDTCStatus true true (pendingDTC s)
                              (if 3 <=? occ then true else confirmedDTC s)
                              (testNotCompletedSinceLastClear s)
                              (testFailedSinceLastClear s)
                              (testNotCompletedThisOperationCycle s)
                              (warningIndicatorRequested s) in
        let e' := mkDTC (dtcNumber e) s' (severity e) (functionalUnit e)
                        (affectedWheel e) occ (firstFailureTimestamp e) 0
                        (malfunctionType e) in
        (E_OK, set_table st (upd dtcIndex e' (g_DTCTable st)))
      else
        let s' := mkDTCStatus false (testFailedThisOperationCycle s)
                              (pendingDTC s) (confirmedDTC s)
                              (testNotCompletedSinceLastClear s)
                              (testFailedSinceLastClear s)
                              (testNotCompletedThisOperationCycle s)
                              (warningIndicatorRequested s) in
        (E_OK, set_table st (upd dtcIndex (with_status e s') (g_DTCTable st)))
  | None => (E_NOT_OK, st)
  end.

Definition DiagnosticService_SetDTC_at (bits : Z) (st : State) (n : Z)
    (active : bool) (wheelPos : nat) : Std_ReturnType * State :=
  if g_DiagnosticService_Initialized st then
    match DiagnosticService_FindDTC st n with
    | Some _ => DiagnosticService_UpdateDTCStatus_at bits st n active
    | None =>
        if active
        then DiagnosticService_AddDTC st n wheelPos ABS.ABS_MALFUNCTION_NONE
        else (E_NOT_OK, st)
    end
  else (E_NOT_OK, st).

End DiagnosticService.


(** ** [float32] as IEEE 754 binary32

    The values and operations of [float32] ([float] in [Std_Types.h]):
    binary32 with one NaN, each arithmetic operation rounded to
    nearest-even, comparisons false on NaN.  An expression is evaluated in
    [float32], operation by operation in the order the C code writes it,
    with no fused multiply-add. *)

Module Float32.

Definition prec : Z := 24.
Definition emax : Z := 128.

Definition float32 : Type := spec_float.

Definition fadd : float32 -> float32 -> float32 := SFadd prec emax.
Definition fsub : float32 -> float32 -> float32 := SFsub prec emax.
Definition fmul : float32 -> float32 -> float32 := SFmul prec emax.
Definition fdiv : float32 -> float32 -> float32 := SFdiv prec emax.
Definition fneg : float32 -> float32 := SFopp.
Definition fabsf : float32 -> float32 := SFabs.

(** [x < y], [x <= y], [x > y], [x >= y]. *)
Definition fltb (x y : float32) : bool := SFltb x y.
Definition fleb (x y : float32) : bool := SFleb x y.
Definition fgtb (x y : float32) : bool := SFltb y x.
Definition fgeb (x y : float32) : bool := SFleb y x.

Definition is_nan (x : float32) : bool :=
  match x with S754_nan => true | _ => false end.

(** [(float32)z] for an integer [z]. *)
Definition of_int (z : Z) : float32 := binary_normalize prec emax z 0 false.

(** The literal that writes the decimal [num / den]: the binary32 value
    nearest to it, which is the rounded quotient of the two integers. *)
Definition literal (num den : Z) : float32 := fdiv (of_int num) (of_int den).

(** [0.0f], also the all-zero image a [memset] leaves. *)
Definition fzero : float32 := S754_zero false.

End Float32.

(** ** SpeedSensor_Swc.c over binary32

    The component as in module [SpeedSensor], with its [float32] fields
    and operations in binary32.  The raw data, the diagnostics, the status
    type and the sensor collaborator hold no [float32] and are those of
    [SpeedSensor]. *)

Module SpeedSensorFloat.
Import Float32.
Import SpeedSensor.

Record SpeedData_t := mkSpeed {
  wheelSpeed : float32;
  wheelSpeedRaw : float32;
  accelerationX : float32;
  speedValid : bool;
  qualityFactor : Z }.

Record SpeedSensorCalibration_t := mkCal {
  correctionFactor : float32;
  offsetValue : float32;
  pulsesPerRevolution : Z;
  wheelCircumference : float32;
  calibrationValid : bool;
  calibrationTimestamp : Z }.

Record SpeedSensorData_t := mkData {
  wheelPosition : nat;
  rawData : SpeedSensorRawData_t;
  speedData : SpeedData_t;
  calibration : SpeedSensorCalibration_t;
  diagnostics : SpeedSensorDiagnostics_t }.

(** [300.0f]. *)
Definition MAX_WHEEL_SPEED_KMH : float32 := of_int 300.

Definition zero_speed : SpeedData_t := mkSpeed fzero fzero fzero false 0.
Definition zero_cal : SpeedSensorCalibration_t :=
  mkCal fzero fzero 0 fzero false 0.
Definition zero_data : SpeedSensorData_t :=
  mkData 0 zero_raw zero_speed zero_cal zero_diag.

Record State := mkState {
  g_SpeedSensorData : list SpeedSensorData_t;
  g_SpeedSensor_Initialized : bool;
  lastSpeed : list float32 }.

Definition initial : State :=
  mkState (repeat zero_data WHEEL_MAX) false (repeat fzero WHEEL_MAX).

Definition sensor (st : State) (w : nat) : SpeedSensorData_t :=
  get zero_data (g_SpeedSensorData st) w.

Definition set_sensor (st : State) (w : nat) (d : SpeedSensorData_t) : State :=
  mkState (upd w d (g_SpeedSensorData st)) (g_SpeedSensor_Initialized st)
          (lastSpeed st).

Definition set_raw (d : SpeedSensorData_t) (r : SpeedSensorRawData_t) :=
  mkData (wheelPosition d) r (speedData d) (calibration d) (diagnostics d).
Definition set_speed (d : SpeedSensorData_t) (s : SpeedData_t) :=
  mkData (wheelPosition d) (rawData d) s (calibration d) (diagnostics d).
Definition set_cal (d : SpeedSensorData_t) (c : SpeedSensorCalibration_t) :=
  mkData (wheelPosition d) (rawData d) (speedData d) c (diagnostics d).
Definition set_diag (d : SpeedSensorData_t) (g : SpeedSensorDiagnostics_t) :=
  mkData (wheelPosition d) (rawData d) (speedData d) (calibration d) g.

(** [1.0f], [0.0f], 60 pulses, [2.1f]. *)
Definition default_cal : SpeedSensorCalibration_t :=
  mkCal (of_int 1) fzero 60 (literal 21 10) true 0.

Definition init_wheel (wheelIdx : nat) : SpeedSensorData_t :=
  mkData wheelIdx
         (mkRaw 0 0 SENSOR_STATUS_INVALID false)
         zero_speed
         default_cal
         zero_diag.

Definition SpeedSensor_Init (st : State) : Std_ReturnType * State :=
  if negb (g_SpeedSensor_Initialized st) then
    (E_OK, mkState (map init_wheel wheels) true (lastSpeed st))
  else (E_OK, st).

Definition SpeedSensor_GetSpeedData (st : State) (wheelPos : nat)
  : Std_ReturnType * SpeedData_t :=
  if (wheelPos <? WHEEL_MAX)%nat && g_SpeedSensor_Initialized st then
    (E_OK, speedData (sensor st wheelPos))
  else (E_NOT_OK, zero_speed).

(** The parameter check of [SpeedSensor_SetCalibration]:
    [correctionFactor > 0.5f && correctionFactor < 2.0f
     && pulsesPerRevolution > 0 && wheelCircumference > 0.0f].  The offset
    is not looked at. *)
Definition calibration_accepted (c : SpeedSensorCalibration_t) : bool :=
  fgtb (correctionFactor c) (literal 1 2) && fltb (correctionFactor c) (of_int 2)
  && (0 <? pulsesPerRevolution c) && fgtb (wheelCircumference c) fzero.

Definition SpeedSensor_SetCalibration (st : State) (wheelPos : nat)
    (cal : SpeedSensorCalibration_t) : Std_ReturnType * State :=
  if (wheelPos <? WHEEL_MAX)%nat && g_SpeedSensor_Initialized st then
    if calibration_accepted cal then
      let d := sensor st wheelPos in
      let c := mkCal (correctionFactor cal) (offsetValue cal)
                     (pulsesPerRevolution cal) (wheelCircumference cal)
                     true (calibrationTimestamp cal) in
      let g := diagnostics d in
      let g' := mkDiag (totalPulseCount g) (errorCount g)
                       (u16 (calibrationCycles g + 1)) (lastStatus g)
                       (lastErrorTimestamp g) in
      (E_OK, set_sensor st wheelPos (set_diag (set_cal d c) g'))
    else (E_NOT_OK, st)
  else (E_NOT_OK, st).

Definition SpeedSensor_GetCalibration (st : State) (wheelPos : nat)
  : Std_ReturnType * SpeedSensorCalibration_t :=
  if (wheelPos <? WHEEL_MAX)%nat && g_SpeedSensor_Initialized st then
    (E_OK, calibration (sensor st wheelPos))
  else (E_NOT_OK, zero_cal).

Definition SpeedSensor_ValidateCalibration (st : State) (wheelPos : nat)
  : Std_ReturnType * bool :=
  if (wheelPos <? WHEEL_MAX)%nat && g_SpeedSensor_Initialized st then
    let cal := calibration (sensor st wheelPos) in
    (E_OK,
     fgeb (correctionFactor cal) (literal 8 10)
     && fleb (correctionFactor cal) (literal 12 10)
     && (30 <=? pulsesPerRevolution cal) && (pulsesPerRevolution cal <=? 120)
     && fgeb (wheelCircumference cal) (literal 15 10)
     && fleb (wheelCircumference cal) (of_int 3)
     && calibrationValid cal)
  else (E_NOT_OK, false).

Definition SpeedSensor_ProcessRawData (rte : RteRead) (st : State)
    (wheelPos : nat) : Std_ReturnType * State :=
  let '(retVal, raw) :=
    if (wheelPos <? WHEEL_MAX)%nat then rte wheelPos else (E_NOT_OK, zero_raw) in
  if retVal =? E_OK then
    (retVal, set_sensor st wheelPos (set_raw (sensor st wheelPos) raw))
  else (retVal, st).

(** [timeInSeconds = (float32)timeInterval / 1000.0f];
    [rpm = ((float32)pulseCount / (float32)pulsesPerRevolution)
           / timeInSeconds * 60.0f];
    [rawSpeed = rpm * wheelCircumference * 60.0f / 1000.0f];
    [wheelSpeed = rawSpeed * correctionFactor + offsetValue];
    [accelerationX = (wheelSpeed - lastSpeed[wheelPos])
                     / (SPEED_SENSOR_SAMPLE_RATE_MS / 1000.0f)]. *)
Definition SpeedSensor_CalculateSpeed (st : State) (wheelPos : nat) : State :=
  let d := sensor st wheelPos in
  let r := rawData d in
  let c := calibration d in
  let s := speedData d in
  if (0 <? timeInterval r) && (0 <? pulsesPerRevolution c) then
    let timeInSeconds := fdiv (of_int (timeInterval r)) (of_int 1000) in
    let rpm :=
      fmul (fdiv (fdiv (of_int (pulseCount r)) (of_int (pulsesPerRevolution c)))
                 timeInSeconds)
           (of_int 60) in
    let rawSpeed :=
      fdiv (fmul (fmul rpm (wheelCircumference c)) (of_int 60)) (of_int 1000) in
    let speed := fadd (fmul rawSpeed (correctionFactor c)) (offsetValue c) in
    let acc :=
      fdiv (fsub speed (get fzero (lastSpeed st) wheelPos))
           (fdiv (of_int SPEED_SENSOR_SAMPLE_RATE_MS) (of_int 1000)) in
    let s' := mkSpeed speed rawSpeed acc (speedValid s) (qualityFactor s) in
    let g := diagnostics d in
    let g' := mkDiag (u32 (totalPulseCount g + pulseCount r)) (errorCount g)
                     (calibrationCycles g) (lastStatus g)
                     (lastErrorTimestamp g) in
    mkState (upd wheelPos (set_diag (set_speed d s') g') (g_SpeedSensorData st))
            (g_SpeedSensor_Initialized st)
            (upd wheelPos speed (lastSpeed st))
  else
    let s' := mkSpeed fzero fzero fzero (speedValid s) (qualityFactor s) in
    set_sensor st wheelPos (set_speed d s').

Definition SpeedSensor_ValidateSpeedData (st : State) (wheelPos : nat) : State :=
  let d := sensor st wheelPos in
  let s := speedData d in
  let speedValid0 := true in
  let qualityFactor0 := 100 in
  let '(speedValid1, qualityFactor1) :=
    if fltb (wheelSpeed s) fzero || fgtb (wheelSpeed s) MAX_WHEEL_SPEED_KMH
    then (false, 0) else (speedValid0, qualityFactor0) in
  let '(speedValid2, qualityFactor2) :=
    if negb (status_is_ok (status (rawData d)))
    then (false, 0) else (speedValid1, qualityFactor1) in
  let '(speedValid3, qualityFactor3) :=
    if negb (calibrationValid (calibration d))
    then (false, if 50 <? qualityFactor2 then 50 else qualityFactor2)
    else (speedValid2, qualityFactor2) in
  let qualityFactor4 :=
    if fgtb (accelerationX s) (of_int 20)
       || fltb (accelerationX s) (fneg (of_int 20))
    then (if 30 <? qualityFactor3 then 30 else qualityFactor3)
    else qualityFactor3 in
  set_sensor st wheelPos
    (set_speed d (mkSpeed (wheelSpeed s) (wheelSpeedRaw s) (accelerationX s)
                          speedValid3 qualityFactor4)).

Definition SpeedSensor_UpdateDiagnostics (st : State) (wheelPos : nat) : State :=
  let d := sensor st wheelPos in
  let g := diagnostics d in
  let g1 :=
    if negb (status_is_ok (status (rawData d))) || negb (speedValid (speedData d))
    then mkDiag (totalPulseCount g) (u16 (errorCount g + 1))
                (calibrationCycles g) (lastStatus g) 0
    else g in
  let g2 := mkDiag (totalPulseCount g1) (errorCount g1) (calibrationCycles g1)
                   (status (rawData d)) (lastErrorTimestamp g1) in
  set_sensor st wheelPos (set_diag d g2).

(** One iteration of the wheel loop of [SpeedSensor_MainFunction]. *)
Definition process_wheel (rte : RteRead) (st : State) (wheelIdx : nat) : State :=
  let '(r, st1) := SpeedSensor_ProcessRawData rte st wheelIdx in
  if r =? E_OK then
    SpeedSensor_UpdateDiagnostics
      (SpeedSensor_ValidateSpeedData
         (SpeedSensor_CalculateSpeed st1 wheelIdx) wheelIdx) wheelIdx
  else st1.

Definition SpeedSensor_MainFunction (rte : RteRead) (st : State)
  : Std_ReturnType * State :=
  if g_SpeedSensor_Initialized st then
    (E_OK, fold_left (process_wheel rte) wheels st)
  else (E_NOT_OK, st).

(** [Rte_Write_SpeedData_XX_speedData]: the samples the runnable wrote, as
    pairs of wheel port and sample, oldest first. *)
Definition publish_speed (st : State) (wheelPos : nat)
    (written : list (nat * SpeedData_t)) : list (nat * SpeedData_t) :=
  let '(r, speedData) := SpeedSensor_GetSpeedData st wheelPos in
  if r =? E_OK then written ++ [(wheelPos, speedData)] else written.

Definition RE_SpeedSensor_MainCyclic (rte : RteRead) (st : State)
  : State * list (nat * SpeedData_t) :=
  let st1 := snd (SpeedSensor_MainFunction rte st) in
  (st1,
   publish_speed st1 WHEEL_REAR_RIGHT
     (publish_speed st1 WHEEL_REAR_LEFT
        (publish_speed st1 WHEEL_FRONT_RIGHT
           (publish_speed st1 WHEEL_FRONT_LEFT [])))).

End SpeedSensorFloat.

(** ** The calibration sessions of CalibrationManager over binary32

    The session processing of the calibration manager as in module
    [CalibrationManager], with its [float32] fields and operations in
    binary32: the averages, the correction factor and the accuracy are
    computed operation by operation, a division of zero by zero gives a
    NaN, and a comparison with a NaN is false.  The enumerations, the
    codes and the limits hold no [float32] and are those of
    [CalibrationManager]. *)

Module CalibrationManagerFloat.
Import Float32.
Import CalibrationManager.

Record CalibrationRequest_t := mkRequest {
  wheelPosition : nat;
  method : CalibrationMethod_t;
  referenceSpeed : float32;
  tolerancePercentage : float32;
  calibrationTimeMs : Z;
  forceCalibration : bool }.

Record CalibrationSession_t := mkSession {
  request : CalibrationRequest_t;
  state : CalibrationState_t;
  result : CalibrationResult_t;
  startTimestamp : Z;
  endTimestamp : Z;
  samplesCollected : Z;
  calculatedCorrectionFactor : float32;
  calculatedOffset : float32;
  measuredAccuracy : float32;
  sessionActive : bool }.

Record CalibrationHistoryEntry_t := mkEntry {
  timestamp : Z;
  entry_method : CalibrationMethod_t;
  entry_result : CalibrationResult_t;
  oldCorrectionFactor : float32;
  newCorrectionFactor : float32;
  accuracy : float32 }.

Record CalibrationConfig_t := mkConfig {
  maxCalibrationSamples : Z;
  minCalibrationSamples : Z;
  maxCorrectionFactor : float32;
  minCorrectionFactor : float32;
  defaultTolerance : float32;
  calibrationTimeoutMs : Z;
  enableAutoCalibration : bool;
  autoCalibrationIntervalHours : Z }.

Record CalibrationSampleData_t := mkSamples {
  speedSamples : list float32;
  referenceSamples : list float32;
  sampleCount : Z;
  lastSampleTime : Z }.

Definition zero_request : CalibrationRequest_t :=
  mkRequest 0 CALIBRATION_METHOD_MANUAL fzero fzero 0 false.
Definition zero_session : CalibrationSession_t :=
  mkSession zero_request CALIBRATION_STATE_IDLE CALIBRATION_RESULT_OK
            0 0 0 fzero fzero fzero false.
Definition zero_entry : CalibrationHistoryEntry_t :=
  mkEntry 0 CALIBRATION_METHOD_MANUAL CALIBRATION_RESULT_OK fzero fzero fzero.
Definition zero_config : CalibrationConfig_t :=
  mkConfig 0 0 fzero fzero fzero 0 false 0.
Definition zero_samples : CalibrationSampleData_t :=
  mkSamples (repeat fzero (Z.to_nat CALIBRATION_MAX_SAMPLES))
            (repeat fzero (Z.to_nat CALIBRATION_MAX_SAMPLES)) 0 0.
Definition zero_history : list CalibrationHistoryEntry_t :=
  repeat zero_entry (Z.to_nat CALIBRATION_HISTORY_SIZE).

Record State := mkState {
  g_CalibrationSessions : list CalibrationSession_t;
  g_CalibrationConfig : CalibrationConfig_t;
  g_CalibrationHistory : list (list CalibrationHistoryEntry_t);
  g_HistoryCount : list Z;
  g_CalibrationManager_Initialized : bool;
  g_SampleData : list CalibrationSampleData_t;
  lastAutoCheckTime : Z }.

Definition initial : State :=
  mkState (repeat zero_session WHEEL_MAX) zero_config
          (repeat zero_history WHEEL_MAX) (repeat 0 WHEEL_MAX) false
          (repeat zero_samples WHEEL_MAX) 0.

(** What the session processing reads and writes: the speed sensor
    component, the globals of the manager, and the calls it made on
    [Rte_Call_DiagnosticService_SetDTC] (most recent first). *)
Record World := mkWorld {
  ss : SpeedSensorFloat.State;
  cm : State;
  dtc_calls : list (Z * bool) }.

Definition session (st : State) (w : nat) : CalibrationSession_t :=
  get zero_session (g_CalibrationSessions st) w.
Definition samples (st : State) (w : nat) : CalibrationSampleData_t :=
  get zero_samples (g_SampleData st) w.

Definition set_session (st : State) (w : nat) (s : CalibrationSession_t) :=
  mkState (upd w s (g_CalibrationSessions st)) (g_CalibrationConfig st)
          (g_CalibrationHistory st) (g_HistoryCount st)
          (g_CalibrationManager_Initialized st) (g_SampleData st)
          (lastAutoCheckTime st).
Definition set_samples (st : State) (w : nat) (d : CalibrationSampleData_t) :=
  mkState (g_CalibrationSessions st) (g_CalibrationConfig st)
          (g_CalibrationHistory st) (g_HistoryCount st)
          (g_CalibrationManager_Initialized st) (upd w d (g_SampleData st))
          (lastAutoCheckTime st).
Definition set_config (st : State) (c : CalibrationConfig_t) :=
  mkState (g_CalibrationSessions st) c
          (g_CalibrationHistory st) (g_HistoryCount st)
          (g_CalibrationManager_Initialized st) (g_SampleData st)
          (lastAutoCheckTime st).

Definition set_cm (w : World) (st : State) : World :=
  mkWorld (ss w) st (dtc_calls w).
Definition Rte_Call_DiagnosticService_SetDTC (w : World) (dtcId : Z)
    (active : bool) : World :=
  mkWorld (ss w) (cm w) ((u16 dtcId, active) :: dtc_calls w).

(** Field updates of a session. *)
Definition with_state (s : CalibrationSession_t) (x : CalibrationState_t) :=
  mkSession (request s) x (result s) (startTimestamp s) (endTimestamp s)
            (samplesCollected s) (calculatedCorrectionFactor s)
            (calculatedOffset s) (measuredAccuracy s) (sessionActive s).
Definition with_result (s : CalibrationSession_t) (x : CalibrationResult_t) :=
  mkSession (request s) (state s) x (startTimestamp s) (endTimestamp s)
            (samplesCollected s) (calculatedCorrectionFactor s)
            (calculatedOffset s) (measuredAccuracy s) (sessionActive s).
Definition with_samplesCollected (s : CalibrationSession_t) (x : Z) :=
  mkSession (request s) (state s) (result s) (startTimestamp s)
            (endTimestamp s) x (calculatedCorrectionFactor s)
            (calculatedOffset s) (measuredAccuracy s) (sessionActive s).
Definition with_calculated (s : CalibrationSession_t) (cf off acc : float32) :=
  mkSession (request s) (state s) (result s) (startTimestamp s)
            (endTimestamp s) (samplesCollected s) cf off acc (sessionActive s).
Definition with_end (s : CalibrationSession_t) (active : bool) (t : Z) :=
  mkSession (request s) (state s) (result s) (startTimestamp s) t
            (samplesCollected s) (calculatedCorrectionFactor s)
            (calculatedOffset s) (measuredAccuracy s) active.

(** [1.5f], [0.5f], [2.0f]. *)
Definition CalibrationManager_InitDefaultConfig : CalibrationConfig_t :=
  mkConfig CALIBRATION_MAX_SAMPLES CALIBRATION_MIN_SAMPLES (literal 15 10)
           (literal 5 10) (of_int 2) CALIBRATION_TIMEOUT_MS true 24.

Definition CalibrationManager_SetConfig (st : State) (config : CalibrationConfig_t)
  : Std_ReturnType * State :=
  if g_CalibrationManager_Initialized st then (E_OK, set_config st config)
  else (E_NOT_OK, st).

Definition CalibrationManager_StartCalibration (st : State)
    (req : CalibrationRequest_t) : Std_ReturnType * State :=
  if g_CalibrationManager_Initialized st then
    let wheelPos := wheelPosition req in
    if (wheelPos <? WHEEL_MAX)%nat then
      let s := session st wheelPos in
      if negb (sessionActive s) then
        let s' := mkSession req CALIBRATION_STATE_REQUESTED
                            CALIBRATION_RESULT_IN_PROGRESS 0 (endTimestamp s) 0
                            (calculatedCorrectionFactor s) (calculatedOffset s)
                            (measuredAccuracy s) true in
        (E_OK, set_samples (set_session st wheelPos s') wheelPos zero_samples)
      else (result_value CALIBRATION_RESULT_IN_PROGRESS, st)
    else (result_value CALIBRATION_RESULT_INVALID_PARAM, st)
  else (E_NOT_OK, st).

Definition CalibrationManager_SetSessionResult (w : World) (wheelPos : nat)
    (res : CalibrationResult_t) : World :=
  let w1 :=
    set_cm w (set_session (cm w) wheelPos
                (with_result (session (cm w) wheelPos) res)) in
  match res with
  | CALIBRATION_RESULT_OK => w1
  | CALIBRATION_RESULT_OUT_OF_RANGE =>
      Rte_Call_DiagnosticService_SetDTC w1 DTC_CALIBRATION_OUT_OF_RANGE true
  | _ => Rte_Call_DiagnosticService_SetDTC w1 DTC_CALIBRATION_FAILED true
  end.

Definition CalibrationManager_CollectSample (w : World) (wheelPos : nat)
  : Std_ReturnType * World :=
  let sampleData := samples (cm w) wheelPos in
  let s := session (cm w) wheelPos in
  let '(r, speedData) :=
    SpeedSensorFloat.SpeedSensor_GetSpeedData (ss w) wheelPos in
  if r =? E_OK then
    if SpeedSensorFloat.speedValid speedData
       && (sampleCount sampleData
           <? maxCalibrationSamples (g_CalibrationConfig (cm w)))
    then
      let k := Z.to_nat (sampleCount sampleData) in
      let sampleData' :=
        mkSamples (upd k (SpeedSensorFloat.wheelSpeed speedData)
                       (speedSamples sampleData))
                  (upd k (referenceSpeed (request s))
                       (referenceSamples sampleData))
                  (u16 (sampleCount sampleData + 1))
                  (lastSampleTime sampleData) in
      (E_OK, set_cm w (set_samples (cm w) wheelPos sampleData'))
    else (E_NOT_OK, w)
  else (E_NOT_OK, w).

(** The gate [CalibrationManager_ValidateCalculatedCalibration] leaves in
    [*isValid]; the function itself always returns [E_OK]. *)
Definition CalibrationManager_ValidateCalculatedCalibration (st : State)
    (wheelPos : nat) : Std_ReturnType * bool :=
  let s := session st wheelPos in
  let cfg := g_CalibrationConfig st in
  let isValid :=
    if fgeb (calculatedCorrectionFactor s) (minCorrectionFactor cfg)
       && fleb (calculatedCorrectionFactor s) (maxCorrectionFactor cfg)
    then
      if fgeb (measuredAccuracy s)
              (fsub (of_int 100) (tolerancePercentage (request s)))
      then true else false
    else false in
  (E_OK, isValid).

(** The averaging loop over the first [sampleCount] samples:
    [(sumSpeed, sumReference, validSamples)]. *)
Definition sum_samples (sampleData : CalibrationSampleData_t)
  : float32 * float32 * Z :=
  fold_left
    (fun '(sumSpeed, sumReference, validSamples) i =>
       let x := get fzero (speedSamples sampleData) i in
       let y := get fzero (referenceSamples sampleData) i in
       if fgtb x fzero && fgtb y fzero
       then (fadd sumSpeed x, fadd sumReference y, u16 (validSamples + 1))
       else (sumSpeed, sumReference, validSamples))
    (seq 0 (Z.to_nat (sampleCount sampleData)))
    (fzero, fzero, 0).

(** The two averages divide by [validSamples], converted to [float32];
    with no usable sample and a minimum of 0 that is [0.0f / 0.0f]. *)
Definition CalibrationManager_CalculateCalibration (st : State) (wheelPos : nat)
  : Std_ReturnType * State :=
  let sampleData := samples st wheelPos in
  let s := session st wheelPos in
  let '(sumSpeed, sumReference, validSamples) := sum_samples sampleData in
  if minCalibrationSamples (g_CalibrationConfig st) <=? validSamples then
    let avgSpeed := fdiv sumSpeed (of_int validSamples) in
    let avgReference := fdiv sumReference (of_int validSamples) in
    let error :=
      fmul (fdiv (fabsf (fsub avgSpeed avgReference)) avgReference)
           (of_int 100) in
    let s' := with_calculated s (fdiv avgReference avgSpeed) fzero
                              (fsub (of_int 100) error) in
    let st' := set_session st wheelPos s' in
    let '(r, isValid) :=
      CalibrationManager_ValidateCalculatedCalibration st' wheelPos in
    if (r =? E_OK) && isValid then (E_OK, st') else (E_NOT_OK, st')
  else (E_NOT_OK, st).

Definition set_session_state (w : World) (wheelPos : nat)
    (x : CalibrationState_t) : World :=
  set_cm w (set_session (cm w) wheelPos
              (with_state (session (cm w) wheelPos) x)).

Definition CalibrationManager_ProcessCalibrationSession (w : World)
    (wheelPos : nat) : Std_ReturnType * World :=
  let currentTime := 0 in
  match state (session (cm w) wheelPos) with
  | CALIBRATION_STATE_REQUESTED =>
      (E_OK, set_session_state w wheelPos CALIBRATION_STATE_IN_PROGRESS)
  | CALIBRATION_STATE_IN_PROGRESS =>
      let '(r, w1) := CalibrationManager_CollectSample w wheelPos in
      let w4 :=
        if r =? E_OK then
          let w2 :=
            set_cm w1 (set_session (cm w1) wheelPos
                         (with_samplesCollected (session (cm w1) wheelPos)
                            (sampleCount (samples (cm w1) wheelPos)))) in
          let s2 := session (cm w2) wheelPos in
          if minCalibrationSamples (g_CalibrationConfig (cm w2))
             <=? samplesCollected s2
          then
            if calibrationTimeMs (request s2)
               <=? u32 (currentTime - startTimestamp s2)
            then
              let '(rc, st3) :=
                CalibrationManager_CalculateCalibration (cm w2) wheelPos in
              let w3 := set_cm w2 st3 in
              if rc =? E_OK then
                CalibrationManager_SetSessionResult
                  (set_session_state w3 wheelPos CALIBRATION_STATE_COMPLETED)
                  wheelPos CALIBRATION_RESULT_OK
              else
                CalibrationManager_SetSessionResult
                  (set_session_state w3 wheelPos CALIBRATION_STATE_FAILED)
                  wheelPos CALIBRATION_RESULT_VALIDATION_FAILED
            else w2
          else w2
        else w1 in
      if calibrationTimeoutMs (g_CalibrationConfig (cm w4))
         <=? u32 (currentTime - startTimestamp (session (cm w4) wheelPos))
      then
        (E_OK,
         CalibrationManager_SetSessionResult
           (set_session_state w4 wheelPos CALIBRATION_STATE_FAILED)
           wheelPos CALIBRATION_RESULT_NOT_OK)
      else (E_OK, w4)
  | CALIBRATION_STATE_COMPLETED
  | CALIBRATION_STATE_FAILED
  | CALIBRATION_STATE_CANCELLED =>
      (E_OK,
       set_cm w (set_session (cm w) wheelPos
                   (with_end (session (cm w) wheelPos) false currentTime)))
  | CALIBRATION_STATE_IDLE => (E_OK, w)
  end.

End CalibrationManagerFloat.

(** * Specification-side definitions

    Predicates in which the properties are stated, and the concrete inputs
    at which the code is evaluated. *)

Module SpeedSensorSpec.
Import SpeedSensor.

(** Both wheel arrays of the component have [WHEEL_MAX] elements. *)
Definition wf (st : State) : Prop :=
  length (g_SpeedSensorData st) = WHEEL_MAX /\ length (lastSpeed st) = WHEEL_MAX.

Definition in_speed_range (v : Q) : Prop :=
  (0 <= v)%Q /\ (v <= MAX_WHEEL_SPEED_KMH)%Q.

(** The verdict [SpeedSensor_ValidateSpeedData] reaches: the calibrated
    speed is within range, the hardware status is OK and the calibration
    is marked valid. *)
Definition verdict (d : SpeedSensorData_t) : bool :=
  negb (Qltb (wheelSpeed (speedData d)) 0
        || Qgtb (wheelSpeed (speedData d)) MAX_WHEEL_SPEED_KMH)
  && status_is_ok (status (rawData d))
  && calibrationValid (calibration d).

(** What one iteration of the wheel loop leaves in the wheel it
    processed. *)
Definition processed (raw : SpeedSensorRawData_t)
    (cal : SpeedSensorCalibration_t) (d : SpeedSensorData_t) : Prop :=
  speedValid (speedData d) = verdict d
  /\ rawData d = raw
  /\ calibration d = cal
  /\ (timeInterval raw <= 0 \/ pulsesPerRevolution cal <= 0 ->
      wheelSpeed (speedData d) = 0%Q).

(** The component after [SpeedSensor_Init]. *)
Definition started : State := snd (SpeedSensor_Init initial).

(** A cycle in which every wheel reports 10 pulses over an elapsed time of
    zero, with status OK. *)
Definition zero_interval_cycle : RteRead :=
  fun _ => (E_OK, mkRaw 10 0 SENSOR_STATUS_OK true).

(** A cycle in which every wheel reports 10 pulses in 21 ms (60 km/h with
    the default calibration), with status OK. *)
Definition cruise_cycle : RteRead :=
  fun _ => (E_OK, mkRaw 10 21 SENSOR_STATUS_OK true).

End SpeedSensorSpec.

Module ABSSpec.
Import ABS.

(** The per-wheel arrays of the detector and the wheel speeds of the
    vehicle data have [WHEEL_MAX] elements. *)
Definition wf (st : State) : Prop :=
  length (g_MalfunctionStatus st) = WHEEL_MAX
  /\ length (g_DebounceCounters st) = WHEEL_MAX
  /\ length (g_ConsecutiveErrorCount st) = WHEEL_MAX
  /\ length (wheelSpeeds (g_VehicleData st)) = WHEEL_MAX.

(** The speeds of the wheels whose sample is valid, in wheel order. *)
Definition valid_speeds (vd : ABS_VehicleData_t) : list Q :=
  map SpeedSensor.wheelSpeed
      (filter SpeedSensor.speedValid
              (map (get SpeedSensor.zero_speed (wheelSpeeds vd)) wheels)).

(** One pass of the sort over the first [m + 1] values of a list: what
    the inner loop does, by recursion on the list. *)
Fixpoint pass (m : nat) (l : list Q) : list Q :=
  match m with
  | O => l
  | S m' =>
      match l with
      | x :: y :: t =>
          if Qgtb x y then y :: pass m' (x :: t) else x :: pass m' (y :: t)
      | _ => l
      end
  end.

(** The invariant of the outer loop: the last [k] values are sorted and
    no value before them is larger than any of them. *)
Definition settled (k : nat) (l : list Q) : Prop :=
  exists p s, l = p ++ s /\ length s = k /\ Sorted Qle s
              /\ Forall (fun x => Forall (Qle x) s) p.

(** The middle of a sorted list: the middle element of an odd number of
    values, the average of the two middle elements of an even number. *)
Definition middle (s : list Q) : Q :=
  let n := length s in
  if Nat.even n
  then ((nth (n / 2 - 1) s 0 + nth (n / 2) s 0) / 2)%Q
  else nth (n / 2) s 0%Q.

(** [m] is the median of [l]: the middle of a sorted arrangement of [l]. *)
Definition is_median (m : Q) (l : list Q) : Prop :=
  exists s, Permutation l s /\ Sorted Qle s /\ m = middle s.


(** The vehicle data with the sample of one wheel replaced. *)
Definition with_wheel_speed (st : State) (w : nat) (s : SpeedSensor.SpeedData_t)
  : State :=
  let vd := g_VehicleData st in
  mkState (g_MalfunctionStatus st) (g_DetectionParams st)
          (mkVehicle (upd w s (wheelSpeeds vd)) (vehicleReferenceSpeed vd)
                     (longitudinalAcceleration vd) (lateralAcceleration vd)
                     (brakePedalPressed vd) (vehicleStabilityActive vd)
                     (systemState vd))
          (g_SystemState st) (g_ABS_Initialized st)
          (g_DebounceCounters st) (g_ConsecutiveErrorCount st).

(** Whether the three checks detected a malfunction on a wheel. *)
Definition detected (ss : SpeedSensor.State) (st : State) (w : nat) : bool :=
  fst (fst (fst (detect ss st w))).

(** A run of detection cycles, one speed sensor state per cycle. *)
Definition run (sss : list SpeedSensor.State) (st : State) : State :=
  fold_left (fun st' ss => snd (ABS_MalfunctionDetection_MainFunction ss st'))
            sss st.

(** Vehicle data built from four samples. *)
Definition vehicle (s0 s1 s2 s3 : SpeedSensor.SpeedData_t) : ABS_VehicleData_t :=
  mkVehicle [s0; s1; s2; s3] 0 0 0 false false ABS_STATE_MONITORING.

Definition valid_sample (v : Q) : SpeedSensor.SpeedData_t :=
  SpeedSensor.mkSpeed v v 0 true 100.
Definition invalid_sample (v : Q) : SpeedSensor.SpeedData_t :=
  SpeedSensor.mkSpeed v v 0 false 0.

(** The detector after [ABS_MalfunctionDetection_Init], fed with vehicle
    data. *)
Definition started_with (vd : ABS_VehicleData_t) : State :=
  snd (ABS_UpdateVehicleData (snd (ABS_MalfunctionDetection_Init initial)) vd).

(** Four valid wheels at 60 km/h. *)
Definition cruising : State :=
  started_with (vehicle (valid_sample 60) (valid_sample 60)
                        (valid_sample 60) (valid_sample 60)).


(** The front-left sample is invalid; the others read 10, 50 and 100 km/h. *)
Definition front_left_invalid : State :=
  started_with (vehicle (invalid_sample 0) (valid_sample 10)
                        (valid_sample 50) (valid_sample 100)).

(** The speed sensor component with the front-left correction factor set
    to 1.15 (a drift of 15 %), and with the default factor 1.0. *)
Definition ss_drift : SpeedSensor.State :=
  snd (SpeedSensor.SpeedSensor_SetCalibration SpeedSensorSpec.started 0
         (SpeedSensor.mkCal (23 # 20) 0 60 (21 # 10) true 0)).
Definition ss_nominal : SpeedSensor.State := SpeedSensorSpec.started.

End ABSSpec.

Module CalibrationSpec.
Import CalibrationManager.

(** The per-wheel arrays of the calibration manager have [WHEEL_MAX]
    elements. *)
Definition wf (st : State) : Prop :=
  length (g_CalibrationSessions st) = WHEEL_MAX
  /\ length (g_CalibrationHistory st) = WHEEL_MAX
  /\ length (g_HistoryCount st) = WHEEL_MAX
  /\ length (g_SampleData st) = WHEEL_MAX.

Definition wf_world (w : World) : Prop :=
  SpeedSensorSpec.wf (ss w) /\ wf (cm w).

(** The session-busy indication of [CalibrationManager_StartCalibration]:
    the result code [CALIBRATION_RESULT_IN_PROGRESS], returned in place of
    [E_OK]. *)
Definition SESSION_BUSY : Std_ReturnType :=
  result_value CALIBRATION_RESULT_IN_PROGRESS.

(** The coefficient set [CalibrationManager_ApplyCalibration] passes to
    [SpeedSensor_SetCalibration]: the live set with the computed factor
    and offset of the session. *)
Definition candidate (w : World) (wheelPos : nat)
  : SpeedSensor.SpeedSensorCalibration_t :=
  let s := session (cm w) wheelPos in
  let cal0 := SpeedSensor.calibration (SpeedSensor.sensor (ss w) wheelPos) in
  SpeedSensor.mkCal (calculatedCorrectionFactor s) (calculatedOffset s)
                    (SpeedSensor.pulsesPerRevolution cal0)
                    (SpeedSensor.wheelCircumference cal0)
                    true (endTimestamp s).

(** The persistence write of a wheel fails, whatever is written. *)
Definition write_fails (nvm : Nvm) (wheelPos : nat) : Prop :=
  forall c, WriteBlock nvm (CalibrationManager_GetNvmBlockId wheelPos) c
            <> NVM_REQ_OK.

(** The band [SpeedSensor_SetCalibration] enforces on what it stores. *)
Definition accepted_band (c : SpeedSensor.SpeedSensorCalibration_t) : Prop :=
  (1 # 2 < SpeedSensor.correctionFactor c)%Q
  /\ (SpeedSensor.correctionFactor c < 2)%Q
  /\ 0 < SpeedSensor.pulsesPerRevolution c
  /\ (0 < SpeedSensor.wheelCircumference c)%Q.

(** The configured band of the calibration manager. *)
Definition configured_band (cfg : CalibrationConfig_t)
    (c : SpeedSensor.SpeedSensorCalibration_t) : Prop :=
  (minCorrectionFactor cfg <= SpeedSensor.correctionFactor c)%Q
  /\ (SpeedSensor.correctionFactor c <= maxCorrectionFactor cfg)%Q.

(** Every coefficient set that is marked valid lies in the band of
    [SpeedSensor_SetCalibration]. *)
Definition coefficients_sound (s : SpeedSensor.State) : Prop :=
  SpeedSensorSpec.wf s
  /\ forall wheelPos, (wheelPos < WHEEL_MAX)%nat ->
       SpeedSensor.calibrationValid
         (SpeedSensor.calibration (SpeedSensor.sensor s wheelPos)) = true ->
       accepted_band (SpeedSensor.calibration (SpeedSensor.sensor s wheelPos)).

(** The operations of the speed sensor component and of the calibration
    manager, as steps of the world they share. *)
Inductive step : World -> World -> Prop :=
| step_sensor_init w :
    step w (set_ss w (snd (SpeedSensor.SpeedSensor_Init (ss w))))
| step_sensor_cycle rte w :
    step w (set_ss w (snd (SpeedSensor.SpeedSensor_MainFunction rte (ss w))))
| step_set_calibration wheelPos cal w :
    step w (set_ss w (snd (SpeedSensor.SpeedSensor_SetCalibration
                             (ss w) wheelPos cal)))
| step_manager_init nvm w :
    step w (snd (CalibrationManager_Init nvm w))
| step_set_config cfg w :
    step w (set_cm w (snd (CalibrationManager_SetConfig (cm w) cfg)))
| step_start req w :
    step w (set_cm w (snd (CalibrationManager_StartCalibration (cm w) req)))
| step_cancel wheelPos w :
    step w (set_cm w (snd (CalibrationManager_CancelCalibration (cm w) wheelPos)))
| step_apply nvm wheelPos saveToNvm w :
    step w (snd (CalibrationManager_ApplyCalibration nvm w wheelPos saveToNvm))
| step_reset nvm wheelPos w :
    step w (snd (CalibrationManager_ResetToFactory nvm w wheelPos))
| step_load nvm wheelPos w :
    step w (snd (CalibrationManager_LoadFromNvm nvm w wheelPos))
| step_manager_cycle w :
    step w (snd (CalibrationManager_MainFunction w)).

Definition initial_world : World :=
  mkWorld SpeedSensor.initial initial [].

Inductive reachable : World -> Prop :=
| reachable_initial : reachable initial_world
| reachable_step w w' : reachable w -> step w w' -> reachable w'.

(** A persistence collaborator on which every request fails, and one that
    accepts every write and reads back the factory block. *)
Definition nvm_failing : Nvm :=
  mkNvm (fun _ => (NVM_REQ_NOT_OK, SpeedSensor.zero_cal))
        (fun _ _ => NVM_REQ_NOT_OK).
Definition nvm_working : Nvm :=
  mkNvm (fun _ => (NVM_REQ_OK, factory_calibration))
        (fun _ _ => NVM_REQ_OK).

(** Both components initialised, with one cycle of the speed sensor at
    60 km/h on every wheel. *)
Definition started : World :=
  let w1 := set_ss initial_world
              (snd (SpeedSensor.SpeedSensor_Init (ss initial_world))) in
  let w2 := snd (CalibrationManager_Init nvm_working w1) in
  set_ss w2 (snd (SpeedSensor.SpeedSensor_MainFunction
                    SpeedSensorSpec.cruise_cycle (ss w2))).

(** [started] after a correction factor of 1.8 was set on the front-left
    wheel through [SpeedSensor_SetCalibration]. *)
Definition factor_set_to_1_8 : World :=
  set_ss started
    (snd (SpeedSensor.SpeedSensor_SetCalibration (ss started) WHEEL_FRONT_LEFT
            (SpeedSensor.mkCal (9 # 5) 0 60 (21 # 10) true 0))).

(** A request on the front-left wheel: reference speed [ref], tolerance
    2 %, no sampling time. *)
Definition request_front_left (ref : Q) : CalibrationRequest_t :=
  mkRequest WHEEL_FRONT_LEFT CALIBRATION_METHOD_REFERENCE_BASED ref 2 0 false.

(** [started], configured to compute after a single sample, with a session
    on the front-left wheel that has just entered sampling. *)
Definition sampling (ref : Q) : World :=
  let cfg := mkConfig CALIBRATION_MAX_SAMPLES 1 (3 # 2) (1 # 2) 2
                      CALIBRATION_TIMEOUT_MS false 24 in
  let w1 := set_cm started (snd (CalibrationManager_SetConfig (cm started) cfg)) in
  let w2 := set_cm w1 (snd (CalibrationManager_StartCalibration
                              (cm w1) (request_front_left ref))) in
  snd (CalibrationManager_MainFunction w2).

(** The session of [sampling] after the cycle that computes it. *)
Definition computed (ref : Q) : World :=
  snd (CalibrationManager_MainFunction (sampling ref)).

End CalibrationSpec.

Module DiagnosticSpec.
Import DiagnosticService.

(** The 24-bit code a clear request carries in its first three bytes, as
    the handler assembles it. *)
Definition group_code (req : UDSRequest) : Z :=
  Z.lor (Z.lor (u32 (Z.shiftl (get 0 (requestData req) 0%nat) 16))
               (u32 (Z.shiftl (get 0 (requestData req) 1%nat) 8)))
        (get 0 (requestData req) 2%nat).

Definition CLEAR_ALL : Z := 0xFFFFFF.

(** The request is long enough and the response buffer large enough for
    the handler to run. *)
Definition well_sized (req : UDSRequest) (response : UDSResponse) : Prop :=
  3 <= requestDataLength req /\ 1 <= maxResponseLength response.

(** A DTC entry exists for a code: a slot in use (its number is not 0)
    carries the code. *)
Definition entry_exists (st : State) (n : Z) : Prop :=
  exists e, In e (g_DTCTable st) /\ dtcNumber e <> 0 /\ dtcNumber e = n.

(** The negative response with reason request-out-of-range. *)
Definition out_of_range_response : list Z :=
  [0x7F; UDS_SID_CLEAR_DIAGNOSTIC_INFORMATION; UDS_NRC_REQUEST_OUT_OF_RANGE].
Definition positive_response : list Z :=
  [UDS_SID_CLEAR_DIAGNOSTIC_INFORMATION + 0x40].

(** A wheel's malfunction record is cleared. *)
Definition record_cleared (abs : ABS.State) (w : nat) : Prop :=
  ABS.isActive (ABS.malfunction abs w) = false
  /\ ABS.confirmedMalfunction (ABS.malfunction abs w) = false
  /\ ABS.malfunctionType (ABS.malfunction abs w) = ABS.ABS_MALFUNCTION_NONE
  /\ ABS.severity (ABS.malfunction abs w) = ABS.ABS_SEVERITY_NONE
  /\ ABS.debounce abs w = 0
  /\ ABS.consecutive abs w = 0.

(** The handler's results, by name. *)
Definition abs_after (r : Std_ReturnType * ABS.State * State * UDSResponse) :=
  snd (fst (fst r)).
Definition diag_after (r : Std_ReturnType * ABS.State * State * UDSResponse) :=
  snd (fst r).
Definition response_after (r : Std_ReturnType * ABS.State * State * UDSResponse) :=
  snd r.

Definition clear_request (b0 b1 b2 : Z) : UDSRequest := mkRequest [b0; b1; b2] 3.
Definition response_buffer : UDSResponse := mkResponse [] 0 4095.

(** The service after [DiagnosticService_Init]: no DTC is stored. *)
Definition started : State := snd (DiagnosticService_Init initial).

(** The confirmation threshold of [DiagnosticService_UpdateDTCStatus]. *)
Definition CONFIRMATION_THRESHOLD : Z := 3.

(** Everything of an entry but its status byte is as in [e], and the
    status byte is the cleared one. *)
Definition cleared_from (e e' : DTCInfo_t) : Prop :=
  status e' = cleared_status
  /\ dtcNumber e' = dtcNumber e
  /\ occurrenceCount e' = occurrenceCount e
  /\ severity e' = severity e
  /\ firstFailureTimestamp e' = firstFailureTimestamp e
  /\ lastFailureTimestamp e' = lastFailureTimestamp e
  /\ functionalUnit e' = functionalUnit e
  /\ affectedWheel e' = affectedWheel e
  /\ malfunctionType e' = malfunctionType e.

(** The status byte of a DTC that failed in this cycle and is confirmed. *)
Definition confirmed_status : DTCStatus_t :=
  mkDTCStatus true true true true false true false false.

(** The service after [k] reports of the code [n] as failed on a freshly
    initialised service, [unsigned long] being [bits] wide. *)
Definition reported (bits n : Z) (wheelPos : nat) (k : nat) : State :=
  Nat.iter k
    (fun st => snd (DiagnosticService_SetDTC_at bits st n true wheelPos))
    started.

(** The largest value of an [unsigned long] of [bits] bits. *)
Definition ULONG_MAX (bits : Z) : Z := 2 ^ bits - 1.

End DiagnosticSpec.

(** ** Predicates and inputs for the remaining services *)

Module SensorServiceSpec.
Import SpeedSensor SpeedSensorSpec.

(** A wheel is in order: its hardware status is OK and its sample valid. *)
Definition in_order (st : State) (w : nat) : Prop :=
  status (rawData (sensor st w)) = SENSOR_STATUS_OK
  /\ speedValid (speedData (sensor st w)) = true.

(** The speed in km/h of a wheel of circumference [c] metres that gave
    [pulses] pulses in [ms] milliseconds with [ppr] pulses per turn. *)
Definition pulses_to_kmh (pulses ppr ms : Z) (c : Q) : Q :=
  (inject_Z pulses * c * 3600 / (inject_Z ppr * inject_Z ms))%Q.

(** The component after one cycle at 60 km/h on every wheel. *)
Definition after_cruise_cycle : State :=
  snd (SpeedSensor_MainFunction cruise_cycle started).

(** A cycle in which the read of the front-left wheel fails; the other
    wheels report 10 pulses in 21 ms. *)
Definition front_left_read_fails : RteRead :=
  fun w => match w with
           | O => (E_NOT_OK, mkRaw 0 0 SENSOR_STATUS_OK false)
           | _ => (E_OK, mkRaw 10 21 SENSOR_STATUS_OK true)
           end.

(** A cycle in which every wheel reports an open circuit. *)
Definition open_circuit_cycle : RteRead :=
  fun _ => (E_OK, mkRaw 10 21 SENSOR_STATUS_OPEN_CIRCUIT true).

End SensorServiceSpec.

Module DetectorServiceSpec.
Import ABS ABSSpec.

(** A wheel is valid and its speed differs from the reference speed by
    more than the configured threshold. *)
Definition exceeds (st : State) (w : nat) : bool :=
  SpeedSensor.speedValid (wheel_speed st w)
  && Qgtb (Qabs (SpeedSensor.wheelSpeed (wheel_speed st w)
                 - ABS_CalculateMedianSpeed st))
          (speedDifferenceThreshold (g_DetectionParams st)).

(** A wheel holds a confirmed malfunction; one of severity high or
    critical. *)
Definition confirmed (st : State) (w : nat) : bool :=
  confirmedMalfunction (malfunction st w).
Definition confirmed_high (st : State) (w : nat) : bool :=
  confirmed st w && (3 <=? severity_value (severity (malfunction st w))).

(** Two detector states hold the same parameters and vehicle data. *)
Definition same_inputs (st st' : State) : Prop :=
  g_DetectionParams st' = g_DetectionParams st
  /\ g_VehicleData st' = g_VehicleData st
  /\ g_ABS_Initialized st' = g_ABS_Initialized st.

(** The first three wheels at 60 km/h, the rear-right wheel at 120 km/h. *)
Definition rear_right_fast : State :=
  started_with (vehicle (valid_sample 60) (valid_sample 60)
                        (valid_sample 60) (valid_sample 120)).

(** Four valid wheels at 60 km/h, the front-left one with an acceleration
    of 30, the brake pedal pressed. *)
Definition braking_hard : State :=
  started_with
    (mkVehicle [SpeedSensor.mkSpeed 60 60 30 true 100; valid_sample 60;
                valid_sample 60; valid_sample 60]
               0 0 0 true false ABS_STATE_MONITORING).

End DetectorServiceSpec.

Module ManagerServiceSpec.
Import CalibrationManager CalibrationSpec.

(** The history entries [CalibrationManager_GetHistory] hands out. *)
Definition recorded (st : State) (w : nat) : list CalibrationHistoryEntry_t :=
  snd (fst (CalibrationManager_GetHistory st w)).

(** The last [CALIBRATION_HISTORY_SIZE] entries of a list. *)
Definition latest (l : list CalibrationHistoryEntry_t)
  : list CalibrationHistoryEntry_t :=
  skipn (length l - Z.to_nat CALIBRATION_HISTORY_SIZE) l.

(** The history buffer of a wheel has its [CALIBRATION_HISTORY_SIZE] slots
    and a count within them. *)
Definition history_wf (st : State) (w : nat) : Prop :=
  length (history st w) = Z.to_nat CALIBRATION_HISTORY_SIZE
  /\ 0 <= history_count st w <= CALIBRATION_HISTORY_SIZE.




(** The live coefficient set of a wheel. *)
Definition live (w : World) (wheelPos : nat) : SpeedSensor.SpeedSensorCalibration_t :=
  SpeedSensor.calibration (SpeedSensor.sensor (ss w) wheelPos).

(** The block of a wheel as the persistence collaborator reads it, and
    whether the read succeeds. *)
Definition stored (nvm : Nvm) (wheelPos : nat) : SpeedSensor.SpeedSensorCalibration_t :=
  snd (ReadBlock nvm (CalibrationManager_GetNvmBlockId wheelPos)).
Definition read_ok (nvm : Nvm) (wheelPos : nat) : bool :=
  fst (ReadBlock nvm (CalibrationManager_GetNvmBlockId wheelPos)) =? NVM_REQ_OK.

(** The check [CalibrationManager_LoadFromNvm] makes on a block it read. *)
Definition loadable (cfg : CalibrationConfig_t)
    (c : SpeedSensor.SpeedSensorCalibration_t) : bool :=
  Qgeb (SpeedSensor.correctionFactor c) (minCorrectionFactor cfg)
  && Qleb (SpeedSensor.correctionFactor c) (maxCorrectionFactor cfg)
  && SpeedSensor.calibrationValid c.

(** A persistence collaborator that reads back a factor of 1.2 for every
    wheel and accepts every write. *)
Definition nvm_factor_1_2 : Nvm :=
  mkNvm (fun _ => (NVM_REQ_OK, SpeedSensor.mkCal (6 # 5) 0 60 (21 # 10) true 5))
        (fun _ _ => NVM_REQ_OK).

(** [started] with a session on the front-left wheel that asks for 10 s of
    sampling. *)
Definition timed_request : CalibrationRequest_t :=
  mkRequest WHEEL_FRONT_LEFT CALIBRATION_METHOD_REFERENCE_BASED 60 2 10000 false.
Definition timed_session : World :=
  set_cm started (snd (CalibrationManager_StartCalibration (cm started) timed_request)).

End ManagerServiceSpec.

Module DiagnosticProtocolSpec.
Import DiagnosticService DiagnosticSpec.

(** The table has its [DIAG_MAX_DTC_COUNT] slots. *)
Definition table_wf (st : State) : Prop :=
  length (g_DTCTable st) = Z.to_nat DIAG_MAX_DTC_COUNT.

(** A slot counts as active: it is in use and its test failed or its code
    is confirmed. *)
Definition active (e : DTCInfo_t) : bool :=
  negb (dtcNumber e =? 0) && (testFailed (status e) || confirmedDTC (status e)).

(** The codes of the active slots, in table order. *)
Definition active_numbers (st : State) : list Z :=
  map dtcNumber (filter active (g_DTCTable st)).

(** The slots in use, in table order. *)
Definition in_use (e : DTCInfo_t) : bool := negb (dtcNumber e =? 0).
Definition stored_entries (st : State) : list DTCInfo_t :=
  filter in_use (g_DTCTable st).

(** The slots in use whose status byte shares a bit with the mask. *)
Definition matches (statusMask : Z) (e : DTCInfo_t) : bool :=
  in_use e && negb (Z.land (status_byte (status e)) statusMask =? 0).

(** What the reports write for a slot. *)
Definition status_record (e : DTCInfo_t) : list Z :=
  dtc_bytes (dtcNumber e) ++ [status_byte (status e)].
Definition code_record (e : DTCInfo_t) : list Z := dtc_bytes (dtcNumber e).

(** No slot of the table is free. *)
Definition table_full (st : State) : Prop :=
  DiagnosticService_FindDTC st 0 = None.

(** The code is stored and marked as failed. *)
Definition stored_failed (st : State) (n : Z) : Prop :=
  exists i, DiagnosticService_FindDTC st n = Some i
            /\ testFailed (status (entry st i)) = true
            /\ testFailedThisOperationCycle (status (entry st i)) = true.

(** The code [DiagnosticService_MonitorMalfunctions] derives from the
    malfunction record of a wheel. *)
Definition code_of (abs : ABS.State) (w : nat) : Z :=
  DiagnosticService_GetDTCForMalfunction
    (ABS.malfunctionType (ABS.malfunction abs w))
    (ABS.affectedWheel (ABS.malfunction abs w)).

(** The services of [g_UDSServiceTable]. *)
Definition supported_services : list Z :=
  [UDS_SID_DIAGNOSTIC_SESSION_CONTROL; UDS_SID_ECU_RESET;
   UDS_SID_CLEAR_DIAGNOSTIC_INFORMATION; UDS_SID_READ_DTC_INFORMATION;
   UDS_SID_READ_DATA_BY_IDENTIFIER; UDS_SID_WRITE_DATA_BY_IDENTIFIER;
   UDS_SID_IO_CONTROL_BY_IDENTIFIER; UDS_SID_ROUTINE_CONTROL].

(** The functions that only read. *)
Definition reads_only (r : Routine) : bool :=
  match r with
  | DID_ReadSpeedSensorData | DID_ReadCalibrationParams
  | DID_ReadABSSystemStatus | DID_ReadMalfunctionCounter => true
  | _ => false
  end.

(** A table with three stored codes: the first failed, the second
    cleared, the third confirmed. *)
Definition three_codes : State :=
  mkState
    (upd 0 (mkDTC DTC_SPEED_SENSOR_FL_MISCALIBRATED
                  (mkDTCStatus true true true false false false false false)
                  0 0 WHEEL_FRONT_LEFT 1 0 0 ABS.ABS_MALFUNCTION_NONE)
       (upd 1 (mkDTC DTC_SPEED_SENSOR_FR_FAILURE cleared_status
                     0 0 WHEEL_FRONT_RIGHT 2 0 0 ABS.ABS_MALFUNCTION_NONE)
          (upd 2 (mkDTC DTC_SPEED_PLAUSIBILITY_ERROR confirmed_status
                        0 0 WHEEL_REAR_LEFT 5 0 0 ABS.ABS_MALFUNCTION_NONE)
             (g_DTCTable started))))
    3 DIAG_SESSION_DEFAULT true.

(** A detector whose rear-left record holds a confirmed sensor failure. *)
Definition rear_left_failed : ABS.State :=
  ABS.set_malfunction ABSSpec.cruising WHEEL_REAR_LEFT
    (ABS.mkStatus ABS.ABS_MALFUNCTION_SPEED_SENSOR_FAILURE ABS.ABS_SEVERITY_HIGH
                  WHEEL_REAR_LEFT true 0 1 0 true).

End DiagnosticProtocolSpec.

(** ** Predicates and inputs for the binary32 level *)

Module SpeedSensorFloatSpec.
Import Float32 SpeedSensor SpeedSensorFloat.

(** Both wheel arrays of the component have [WHEEL_MAX] elements. *)
Definition wf (st : State) : Prop :=
  length (g_SpeedSensorData st) = WHEEL_MAX /\ length (lastSpeed st) = WHEEL_MAX.

(** The speed is a number within [0, MAX_WHEEL_SPEED_KMH]: both
    comparisons [0.0f <= v] and [v <= MAX_WHEEL_SPEED_KMH] hold. *)
Definition in_speed_range (v : float32) : Prop :=
  fleb fzero v = true /\ fleb v MAX_WHEEL_SPEED_KMH = true.

(** The two comparisons of the range check of
    [SpeedSensor_ValidateSpeedData]: [v < 0.0f || v > MAX_WHEEL_SPEED_KMH]. *)
Definition out_of_range (v : float32) : bool :=
  fltb v fzero || fgtb v MAX_WHEEL_SPEED_KMH.

(** The two comparisons of its acceleration check:
    [a > 20.0f || a < -20.0f]. *)
Definition unreasonable (a : float32) : bool :=
  fgtb a (of_int 20) || fltb a (fneg (of_int 20)).

(** The verdict [SpeedSensor_ValidateSpeedData] reaches. *)
Definition verdict (d : SpeedSensorData_t) : bool :=
  negb (out_of_range (wheelSpeed (speedData d)))
  && status_is_ok (status (rawData d))
  && calibrationValid (calibration d).

(** The plausibility band of [SpeedSensor_ValidateCalibration]:
    the factor within [0.8f, 1.2f], 30 to 120 pulses, the circumference
    within [1.5f, 3.0f], the set marked valid. *)
Definition plausible (c : SpeedSensorCalibration_t) : Prop :=
  fleb (literal 8 10) (correctionFactor c) = true
  /\ fleb (correctionFactor c) (literal 12 10) = true
  /\ 30 <= pulsesPerRevolution c <= 120
  /\ fleb (literal 15 10) (wheelCircumference c) = true
  /\ fleb (wheelCircumference c) (of_int 3) = true
  /\ calibrationValid c = true.

(** The component after [SpeedSensor_Init]. *)
Definition started : State := snd (SpeedSensor_Init initial).

(** [started] after one cycle at 10 pulses in 21 ms on every wheel. *)
Definition after_cruise_cycle : State :=
  snd (SpeedSensor_MainFunction SpeedSensorSpec.cruise_cycle started).

(** The default coefficients with an offset that is not a number, and
    the component after they were set on the front-left wheel. *)
Definition nan_offset : SpeedSensorCalibration_t :=
  mkCal (of_int 1) S754_nan 60 (literal 21 10) true 0.
Definition with_nan_offset : State :=
  snd (SpeedSensor_SetCalibration started WHEEL_FRONT_LEFT nan_offset).

(** The default coefficients with a correction factor of [0.6f], and a
    cycle of 60 pulses in 21 ms on every wheel. *)
Definition factor_0_6 : SpeedSensorCalibration_t :=
  mkCal (literal 6 10) fzero 60 (literal 21 10) true 0.
Definition fast_cycle : RteRead :=
  fun _ => (E_OK, mkRaw 60 21 SENSOR_STATUS_OK true).

End SpeedSensorFloatSpec.

Module CalibrationFloatSpec.
Import Float32 CalibrationManager CalibrationManagerFloat.

(** The per-wheel arrays of the calibration manager have [WHEEL_MAX]
    elements. *)
Definition wf (st : State) : Prop :=
  length (g_CalibrationSessions st) = WHEEL_MAX
  /\ length (g_CalibrationHistory st) = WHEEL_MAX
  /\ length (g_HistoryCount st) = WHEEL_MAX
  /\ length (g_SampleData st) = WHEEL_MAX.

Definition wf_world (w : World) : Prop :=
  SpeedSensorFloatSpec.wf (ss w) /\ wf (cm w).


(** The cycle is one in which the session computes its calibration: it is
    sampling, the sample of the cycle was stored, the minimum sample count
    is reached and the requested sampling time has elapsed. *)
Definition calculation_due (w : World) (wheelPos : nat) : Prop :=
  state (session (cm w) wheelPos) = CALIBRATION_STATE_IN_PROGRESS
  /\ fst (CalibrationManager_CollectSample w wheelPos) = E_OK
  /\ minCalibrationSamples (g_CalibrationConfig (cm w))
     <= sampleCount (samples (cm (snd (CalibrationManager_CollectSample w wheelPos)))
                             wheelPos)
  /\ calibrationTimeMs (request (session (cm w) wheelPos))
     <= u32 (0 - startTimestamp (session (cm w) wheelPos)).

(** The globals of the manager as the body of [CalibrationManager_Init]
    sets them: sessions, history and sample data zeroed, the default
    configuration, the manager initialised. *)
Definition initialised : State :=
  mkState (map (fun _ => zero_session) wheels)
          CalibrationManager_InitDefaultConfig
          (map (fun _ => zero_history) wheels)
          (map (fun _ => 0) wheels)
          true
          (map (fun _ => zero_samples) wheels)
          0.

(** A request on the front-left wheel: reference speed [ref], tolerance
    2 %, no sampling time. *)
Definition request_front_left (ref : float32) : CalibrationRequest_t :=
  mkRequest WHEEL_FRONT_LEFT CALIBRATION_METHOD_REFERENCE_BASED ref (of_int 2)
            0 false.

(** The manager initialised over the speed sensor state [s], configured
    with a minimum of [min] samples, with a session on the front-left
    wheel that has just entered sampling. *)
Definition sampling (s : SpeedSensorFloat.State) (min : Z) (ref : float32)
  : World :=
  let cfg := mkConfig CALIBRATION_MAX_SAMPLES min (literal 15 10) (literal 5 10)
                      (of_int 2) CALIBRATION_TIMEOUT_MS false 24 in
  let st1 := snd (CalibrationManager_SetConfig initialised cfg) in
  let st2 := snd (CalibrationManager_StartCalibration st1 (request_front_left ref)) in
  snd (CalibrationManager_ProcessCalibrationSession (mkWorld s st2 []) 0).

(** The session of [sampling] after the cycle that computes it. *)
Definition computed (s : SpeedSensorFloat.State) (min : Z) (ref : float32)
  : World :=
  snd (CalibrationManager_ProcessCalibrationSession (sampling s min ref) 0).

(** The speed sensor after one cycle at 60 km/h on every wheel, and after
    one cycle at standstill (a zero elapsed time, status OK). *)
Definition at_60_kmh : SpeedSensorFloat.State :=
  SpeedSensorFloatSpec.after_cruise_cycle.
Definition standstill : SpeedSensorFloat.State :=
  snd (SpeedSensorFloat.SpeedSensor_MainFunction
         SpeedSensorSpec.zero_interval_cycle SpeedSensorFloatSpec.started).

End CalibrationFloatSpec.

(** * Properties *)

(** ** Arrays and comparisons *)

Lemma length_upd {A : Type} (i : nat) (v : A) (l : list A) :
  length (upd i v l) = length l.
Proof.
  revert i; induction l as [|x t IH]; intros [|j]; simpl; auto.
Qed.

Lemma get_upd_same {A : Type} (d : A) (i : nat) (v : A) (l : list A) :
  (i < length l)%nat -> get d (upd i v l) i = v.
Proof.
  unfold get; revert i; induction l as [|x t IH]; intros [|j] H; simpl in *;
    try lia; auto.
  apply IH; lia.
Qed.

Lemma get_upd_other {A : Type} (d : A) (i j : nat) (v : A) (l : list A) :
  i <> j -> get d (upd i v l) j = get d l j.
Proof.
  unfold get; revert i j; induction l as [|x t IH]; intros [|i] [|j] H; simpl;
    auto; try congruence.
Qed.


Lemma Qltb_true (x y : Q) : Qltb x y = true <-> (x < y)%Q.
Proof.
  unfold Qltb. rewrite negb_true_iff. split.
  - intros H. apply Qnot_le_lt. intros Hle.
    apply Qle_bool_iff in Hle. congruence.
  - intros H. destruct (Qle_bool y x) eqn:E; auto.
    apply Qle_bool_iff in E. exfalso. apply (Qlt_not_le _ _ H E).
Qed.

Lemma Qltb_false (x y : Q) : Qltb x y = false <-> (y <= x)%Q.
Proof.
  unfold Qltb. rewrite negb_false_iff. apply Qle_bool_iff.
Qed.

Lemma Qleb_true (x y : Q) : Qleb x y = true <-> (x <= y)%Q.
Proof. apply Qle_bool_iff. Qed.

Lemma Qleb_false (x y : Q) : Qleb x y = false <-> (y < x)%Q.
Proof.
  unfold Qleb. rewrite <- (Qltb_true y x). unfold Qltb.
  now rewrite negb_true_iff.
Qed.

(** Turns the boolean comparisons of the hypotheses into order facts. *)
Ltac qcmp :=
  repeat match goal with
  | H : Qgtb _ _ = _ |- _ => unfold Qgtb in H
  | H : Qgeb _ _ = _ |- _ => unfold Qgeb in H
  | H : Qltb _ _ = true |- _ => apply Qltb_true in H
  | H : Qltb _ _ = false |- _ => apply Qltb_false in H
  | H : Qleb _ _ = true |- _ => apply Qleb_true in H
  | H : Qleb _ _ = false |- _ => apply Qleb_false in H
  end.

(** ** Speed sensor component *)

Module SpeedSensorFacts.
Import SpeedSensor SpeedSensorSpec.

Lemma sensor_set_same st w d :
  (w < length (g_SpeedSensorData st))%nat -> sensor (set_sensor st w d) w = d.
Proof. intros H. unfold sensor, set_sensor; simpl. now apply get_upd_same. Qed.

Lemma sensor_set_other st w w' d :
  w <> w' -> sensor (set_sensor st w d) w' = sensor st w'.
Proof. intros H. unfold sensor, set_sensor; simpl. now apply get_upd_other. Qed.

Lemma sensor_mk_same l b ls w d :
  (w < length l)%nat -> sensor (mkState (upd w d l) b ls) w = d.
Proof. intros H. unfold sensor; simpl. now apply get_upd_same. Qed.

Lemma sensor_mk_other l b ls w w' d :
  w <> w' -> sensor (mkState (upd w d l) b ls) w' = get zero_data l w'.
Proof. intros H. unfold sensor; simpl. now apply get_upd_other. Qed.

Lemma wf_set_sensor st w d : wf st -> wf (set_sensor st w d).
Proof. unfold wf, set_sensor; simpl. now rewrite length_upd. Qed.

Lemma wf_started : wf started.
Proof. split; reflexivity. Qed.

Lemma wf_calculate st w : wf st -> wf (SpeedSensor_CalculateSpeed st w).
Proof.
  intros [H1 H2]. unfold SpeedSensor_CalculateSpeed.
  destruct (_ && _); [|now apply wf_set_sensor].
  split; simpl; now rewrite length_upd.
Qed.

Lemma sensor_calculate_other st w w' :
  w <> w' -> sensor (SpeedSensor_CalculateSpeed st w) w' = sensor st w'.
Proof.
  intros H. unfold SpeedSensor_CalculateSpeed.
  destruct (_ && _); [|now apply sensor_set_other].
  now rewrite sensor_mk_other.
Qed.

(** [SpeedSensor_CalculateSpeed] writes the speed sample of its wheel
    only; with a zero elapsed time or pulse count per revolution the
    calibrated speed it leaves is 0. *)
Lemma sensor_calculate_same st w :
  wf st -> (w < WHEEL_MAX)%nat ->
  rawData (sensor (SpeedSensor_CalculateSpeed st w) w) = rawData (sensor st w)
  /\ calibration (sensor (SpeedSensor_CalculateSpeed st w) w)
     = calibration (sensor st w)
  /\ (timeInterval (rawData (sensor st w)) <= 0
      \/ pulsesPerRevolution (calibration (sensor st w)) <= 0 ->
      wheelSpeed (speedData (sensor (SpeedSensor_CalculateSpeed st w) w)) = 0%Q).
Proof.
  intros [H1 H2] Hw. unfold SpeedSensor_CalculateSpeed.
  destruct (0 <? timeInterval (rawData (sensor st w))) eqn:E1;
  destruct (0 <? pulsesPerRevolution (calibration (sensor st w))) eqn:E2;
    cbn [andb].
  1: rewrite sensor_mk_same by lia; cbn.
  2-4: rewrite sensor_set_same by lia; cbn.
  all: repeat split; auto; intros [H|H]; auto;
    try apply Z.ltb_lt in E1; try apply Z.ltb_lt in E2;
    try apply Z.ltb_ge in E1; try apply Z.ltb_ge in E2; lia.
Qed.

(** [SpeedSensor_ValidateSpeedData] rewrites the speed sample of its
    wheel with the verdict and some quality factor. *)
Lemma validate_unfold st w :
  exists q,
    SpeedSensor_ValidateSpeedData st w =
    set_sensor st w
      (set_speed (sensor st w)
         (mkSpeed (wheelSpeed (speedData (sensor st w)))
                  (wheelSpeedRaw (speedData (sensor st w)))
                  (accelerationX (speedData (sensor st w)))
                  (verdict (sensor st w)) q)).
Proof.
  unfold SpeedSensor_ValidateSpeedData, verdict.
  destruct (Qltb _ 0 || Qgtb _ _);
  destruct (status_is_ok _); destruct (calibrationValid _);
  cbv beta iota zeta; cbn [negb andb]; eexists; reflexivity.
Qed.

Lemma sensor_validate_same st w :
  wf st -> (w < WHEEL_MAX)%nat ->
  rawData (sensor (SpeedSensor_ValidateSpeedData st w) w) = rawData (sensor st w)
  /\ calibration (sensor (SpeedSensor_ValidateSpeedData st w) w)
     = calibration (sensor st w)
  /\ wheelSpeed (speedData (sensor (SpeedSensor_ValidateSpeedData st w) w))
     = wheelSpeed (speedData (sensor st w))
  /\ speedValid (speedData (sensor (SpeedSensor_ValidateSpeedData st w) w))
     = verdict (sensor st w).
Proof.
  intros [H1 H2] Hw. destruct (validate_unfold st w) as [q ->].
  rewrite sensor_set_same by lia; cbn; auto.
Qed.

Lemma sensor_update_diag_same st w :
  wf st -> (w < WHEEL_MAX)%nat ->
  rawData (sensor (SpeedSensor_UpdateDiagnostics st w) w) = rawData (sensor st w)
  /\ calibration (sensor (SpeedSensor_UpdateDiagnostics st w) w)
     = calibration (sensor st w)
  /\ speedData (sensor (SpeedSensor_UpdateDiagnostics st w) w)
     = speedData (sensor st w).
Proof.
  intros [H1 H2] Hw. unfold SpeedSensor_UpdateDiagnostics.
  rewrite sensor_set_same by lia. cbn. auto.
Qed.

Lemma wf_validate st w : wf st -> wf (SpeedSensor_ValidateSpeedData st w).
Proof.
  intros H. destruct (validate_unfold st w) as [q ->]. now apply wf_set_sensor.
Qed.

Lemma process_wheel_unfold rte st w :
  (w < WHEEL_MAX)%nat -> fst (rte w) = E_OK ->
  process_wheel rte st w =
  SpeedSensor_UpdateDiagnostics
    (SpeedSensor_ValidateSpeedData
       (SpeedSensor_CalculateSpeed
          (set_sensor st w (set_raw (sensor st w) (snd (rte w)))) w) w) w.
Proof.
  intros Hw Hr. unfold process_wheel, SpeedSensor_ProcessRawData.
  apply Nat.ltb_lt in Hw. rewrite Hw.
  destruct (rte w) as [r raw]. simpl in Hr. subst r. reflexivity.
Qed.

Lemma wf_process_wheel rte st w : wf st -> wf (process_wheel rte st w).
Proof.
  intros H. unfold process_wheel, SpeedSensor_ProcessRawData.
  destruct (if (w <? WHEEL_MAX)%nat then rte w else (E_NOT_OK, zero_raw))
    as [r raw].
  destruct (r =? E_OK) eqn:E; rewrite ?E; [|exact H].
  unfold SpeedSensor_UpdateDiagnostics. apply wf_set_sensor.
  apply wf_validate, wf_calculate. now apply wf_set_sensor.
Qed.

(** Processing a wheel leaves the data of every other wheel alone. *)
Lemma process_wheel_other rte st w w' :
  w <> w' -> sensor (process_wheel rte st w) w' = sensor st w'.
Proof.
  intros H. unfold process_wheel, SpeedSensor_ProcessRawData.
  destruct (if (w <? WHEEL_MAX)%nat then rte w else (E_NOT_OK, zero_raw))
    as [r raw].
  destruct (r =? E_OK) eqn:E; rewrite ?E; [|reflexivity].
  unfold SpeedSensor_UpdateDiagnostics.
  rewrite sensor_set_other by exact H.
  destruct (validate_unfold (SpeedSensor_CalculateSpeed
                               (set_sensor st w (set_raw (sensor st w) raw)) w) w)
    as [q ->].
  rewrite sensor_set_other by exact H.
  rewrite sensor_calculate_other by exact H.
  now apply sensor_set_other.
Qed.

Lemma process_wheel_same rte st w :
  wf st -> (w < WHEEL_MAX)%nat -> fst (rte w) = E_OK ->
  processed (snd (rte w)) (calibration (sensor st w))
            (sensor (process_wheel rte st w) w).
Proof.
  intros Hwf Hw Hr. rewrite process_wheel_unfold by assumption.
  set (st1 := set_sensor st w _).
  assert (W1 : wf st1) by now apply wf_set_sensor.
  assert (D1 : sensor st1 w = set_raw (sensor st w) (snd (rte w))).
  { unfold st1. apply sensor_set_same. destruct Hwf as [-> _]. exact Hw. }
  pose proof (sensor_calculate_same st1 w W1 Hw) as (A1 & A2 & A3).
  set (st2 := SpeedSensor_CalculateSpeed st1 w) in *.
  assert (W2 : wf st2) by now apply wf_calculate.
  pose proof (sensor_validate_same st2 w W2 Hw) as (B1 & B2 & B3 & B4).
  set (st3 := SpeedSensor_ValidateSpeedData st2 w) in *.
  assert (W3 : wf st3) by now apply wf_validate.
  pose proof (sensor_update_diag_same st3 w W3 Hw) as (C1 & C2 & C3).
  simpl in *. rewrite D1 in *. simpl in *.
  unfold processed. rewrite C3, C1, C2, B4, B1, B2, A1, A2.
  repeat split.
  - unfold verdict. now rewrite C1, C2, C3, B1, B2, B3.
  - intros H. rewrite B3. now apply A3.
Qed.

Lemma verdict_true d :
  verdict d = true <->
  in_speed_range (wheelSpeed (speedData d))
  /\ status (rawData d) = SENSOR_STATUS_OK
  /\ calibrationValid (calibration d) = true.
Proof.
  unfold verdict, in_speed_range.
  rewrite !andb_true_iff, negb_true_iff, orb_false_iff.
  unfold Qgtb. rewrite !Qltb_false.
  destruct (status (rawData d)); simpl; intuition congruence.
Qed.

End SpeedSensorFacts.

(** ** Malfunction detector: the reference speed *)

Module ABSMedian.
Import ABS ABSSpec.

Lemma collect_valid_eq vd : collect_valid vd = valid_speeds vd.
Proof.
  unfold collect_valid, valid_speeds. cbn [fold_left wheels map filter].
  repeat match goal with
         | |- context [SpeedSensor.speedValid ?s] =>
             destruct (SpeedSensor.speedValid s)
         end; reflexivity.
Qed.


Lemma upd_app {A} (pre : list A) (v x : A) (rest : list A) :
  upd (length pre) v (pre ++ x :: rest) = pre ++ v :: rest.
Proof. induction pre as [|p pre IH]; cbn; [reflexivity|now rewrite IH]. Qed.

Lemma get_app {A} (d : A) (pre : list A) (x : A) (rest : list A) :
  get d (pre ++ x :: rest) (length pre) = x.
Proof. unfold get. induction pre as [|p pre IH]; cbn; auto. Qed.

(** The body of the inner loop, on a list split at the index. *)
Lemma swap_step_app pre x y t :
  swap_step (pre ++ x :: y :: t) (length pre)
  = pre ++ (if Qgtb x y then y :: x :: t else x :: y :: t).
Proof.
  unfold swap_step.
  assert (G1 : get 0%Q (pre ++ x :: y :: t) (length pre) = x) by apply get_app.
  assert (G2 : get 0%Q (pre ++ x :: y :: t) (S (length pre)) = y).
  { change (pre ++ x :: y :: t) with (pre ++ [x] ++ y :: t).
    rewrite app_assoc.
    replace (S (length pre)) with (length (pre ++ [x]))
      by (rewrite length_app; cbn; lia).
    apply get_app. }
  rewrite G1, G2. destruct (Qgtb x y); [|reflexivity].
  rewrite upd_app.
  change (pre ++ y :: y :: t) with (pre ++ [y] ++ y :: t).
  rewrite app_assoc.
  replace (S (length pre)) with (length (pre ++ [y]))
    by (rewrite length_app; cbn; lia).
  rewrite upd_app. rewrite <- app_assoc. reflexivity.
Qed.

(** The inner loop from index [length pre] is a pass over the rest. *)
Lemma inner_loop_pass m : forall pre l,
  (m < length l)%nat ->
  inner_loop (pre ++ l) (length pre) m = pre ++ pass m l.
Proof.
  induction m as [|m IH]; intros pre l H; cbn [inner_loop pass]; [reflexivity|].
  destruct l as [|x [|y t]]; cbn in H; try lia.
  rewrite swap_step_app.
  destruct (Qgtb x y).
  - change (pre ++ y :: x :: t) with (pre ++ [y] ++ x :: t).
    rewrite app_assoc.
    replace (S (length pre)) with (length (pre ++ [y]))
      by (rewrite length_app; cbn; lia).
    rewrite IH by (cbn; lia). now rewrite <- app_assoc.
  - change (pre ++ x :: y :: t) with (pre ++ [x] ++ y :: t).
    rewrite app_assoc.
    replace (S (length pre)) with (length (pre ++ [x]))
      by (rewrite length_app; cbn; lia).
    rewrite IH by (cbn; lia). now rewrite <- app_assoc.
Qed.

(** A pass touches the first [m + 1] values only. *)
Lemma pass_app m : forall p s, (m < length p)%nat -> pass m (p ++ s) = pass m p ++ s.
Proof.
  induction m as [|m IH]; intros p s H; cbn [pass]; [reflexivity|].
  destruct p as [|x [|y t]]; cbn in H; try lia.
  cbn [app]. destruct (Qgtb x y).
  - change (x :: t ++ s) with ((x :: t) ++ s). rewrite IH by (cbn; lia). reflexivity.
  - change (y :: t ++ s) with ((y :: t) ++ s). rewrite IH by (cbn; lia). reflexivity.
Qed.

(** A full pass moves a largest value to the end. *)
Lemma pass_max m : forall x t,
  length t = m ->
  exists q mx, pass m (x :: t) = q ++ [mx]
               /\ Permutation (x :: t) (q ++ [mx])
               /\ Forall (fun z => z <= mx)%Q q.
Proof.
  induction m as [|m IH]; intros x t H.
  - destruct t; [|discriminate]. exists [], x. cbn. auto.
  - destruct t as [|y t]; [discriminate|]. cbn in H. injection H as H.
    cbn [pass]. destruct (Qgtb x y) eqn:E.
    + destruct (IH x t H) as (q & mx & E1 & P & F).
      exists (y :: q), mx. rewrite E1. split; [reflexivity|]. split.
      * cbn. rewrite perm_swap. now apply perm_skip.
      * constructor; [|exact F].
        unfold Qgtb in E. apply Qltb_true in E.
        assert (I : In x (q ++ [mx])) by (eapply Permutation_in; [exact P|now left]).
        apply in_app_or in I. destruct I as [I|[<-|[]]].
        -- rewrite Forall_forall in F. apply F in I. lra.
        -- lra.
    + destruct (IH y t H) as (q & mx & E1 & P & F).
      exists (x :: q), mx. rewrite E1. split; [reflexivity|]. split.
      * cbn. now apply perm_skip.
      * constructor; [|exact F].
        unfold Qgtb in E. apply Qltb_false in E.
        assert (I : In y (q ++ [mx])) by (eapply Permutation_in; [exact P|now left]).
        apply in_app_or in I. destruct I as [I|[<-|[]]].
        -- rewrite Forall_forall in F. apply F in I. lra.
        -- lra.
Qed.

(** Every iteration of the outer loop settles one more value. *)
Lemma outer_loop_sorts n : forall a i,
  (i + n = length a - 1)%nat -> settled i a ->
  Permutation a (outer_loop (length a) a i n)
  /\ Sorted Qle (outer_loop (length a) a i n).
Proof.
  induction n as [|n IH]; intros a i H (p & s & E & L & Hs & F).
  - cbn [outer_loop]. split; [reflexivity|].
    subst a. rewrite length_app in H.
    destruct p as [|x [|y p]]; cbn in H; try lia.
    + exact Hs.
    + cbn. constructor; [exact Hs|]. inversion F as [|? ? Fx _]; subst.
      destruct s; constructor. now inversion Fx.
  - cbn [outer_loop].
    assert (Lp : (length a - i - 1 < length p)%nat /\ (length a - i - 1 = length p - 1)%nat).
    { subst a. rewrite length_app in *. lia. }
    destruct Lp as [Lp Lp'].
    assert (Ea : inner_loop a 0 (length a - i - 1) = pass (length a - i - 1) p ++ s).
    { rewrite (inner_loop_pass _ [] a) by (subst a; rewrite length_app in *; lia).
      cbn [app]. subst a. now apply pass_app. }
    destruct p as [|x t]; [cbn in Lp; lia|].
    destruct (pass_max (length a - i - 1) x t) as (q & mx & E1 & P & Fq).
    { cbn in Lp'. lia. }
    rewrite Ea, E1.
    assert (Pa : Permutation a ((q ++ [mx]) ++ s)).
    { subst a. now apply Permutation_app_tail. }
    assert (La : length ((q ++ [mx]) ++ s) = length a)
      by (symmetry; now apply Permutation_length).
    rewrite <- La.
    destruct (IH ((q ++ [mx]) ++ s) (S i)) as [P' S'].
    + rewrite La. lia.
    + exists q, (mx :: s). split; [now rewrite <- app_assoc|].
      split; [cbn; lia|].
      assert (Fp : forall z, In z (q ++ [mx]) -> Forall (Qle z) s).
      { intros z Hz. rewrite Forall_forall in F. apply F.
        eapply Permutation_in; [symmetry; exact P|exact Hz]. }
      split.
      * constructor; [exact Hs|].
        assert (Fm : Forall (Qle mx) s) by (apply Fp, in_or_app; right; now left).
        destruct s; constructor. now inversion Fm.
      * rewrite Forall_forall. intros z Hz. constructor.
        -- rewrite Forall_forall in Fq. now apply Fq.
        -- apply Fp, in_or_app. now left.
    + split; [|exact S']. now rewrite Pa at 1.
Qed.

(** The sort of [ABS_CalculateMedianSpeed] sorts its array. *)
Lemma bubble_sort_correct (l : list Q) :
  Permutation l (bubble_sort l) /\ Sorted Qle (bubble_sort l).
Proof.
  unfold bubble_sort. apply outer_loop_sorts; [lia|].
  exists l, []. rewrite app_nil_r. repeat split; auto.
  apply Forall_forall. intros x _. constructor.
Qed.

Lemma even_mod2 n : Nat.even n = (n mod 2 =? 0)%nat.
Proof.
  destruct (Nat.even n) eqn:E; symmetry.
  - apply Nat.even_spec in E. destruct E as [k ->]. apply Nat.eqb_eq.
    rewrite Nat.mul_comm. apply Nat.Div0.mod_mul.
  - apply Nat.eqb_neq. intros H. apply Nat.Div0.mod_divides in H.
    destruct H as [k ->].
    assert (T : Nat.even (2 * k) = true) by (apply Nat.even_spec; now exists k).
    congruence.
Qed.

Lemma median_of_middle (v : list Q) :
  (2 <= length v)%nat -> median_of v = middle (bubble_sort v).
Proof.
  intros H2. destruct (bubble_sort_correct v) as [P _].
  unfold median_of, middle, get. rewrite <- (Permutation_length P).
  apply Nat.leb_le in H2. rewrite H2, even_mod2. reflexivity.
Qed.

Example middle_of_four a b c d : middle [a; b; c; d] = ((b + c) / 2)%Q.
Proof. reflexivity. Qed.

Example middle_of_three a b c : middle [a; b; c] = b.
Proof. reflexivity. Qed.

(** Whenever the median is computed (at least two valid speeds), the
    result is the middle of a sorted arrangement of the speeds. *)
Lemma median_of_is_median (v : list Q) :
  (2 <= length v)%nat -> is_median (median_of v) v.
Proof.
  intros B. destruct (bubble_sort_correct v) as [P S].
  exists (bubble_sort v). repeat split; auto. now apply median_of_middle.
Qed.


(** With four valid wheels the reference speed is the average of the two
    middle values of their sorted speeds. *)
Corollary reference_speed_four_valid (st : State) s0 s1 s2 s3 :
  wheelSpeeds (g_VehicleData st) = [s0; s1; s2; s3] ->
  SpeedSensor.speedValid s0 = true -> SpeedSensor.speedValid s1 = true ->
  SpeedSensor.speedValid s2 = true -> SpeedSensor.speedValid s3 = true ->
  exists a b c d,
    Permutation [SpeedSensor.wheelSpeed s0; SpeedSensor.wheelSpeed s1;
                 SpeedSensor.wheelSpeed s2; SpeedSensor.wheelSpeed s3]
                [a; b; c; d]
    /\ Sorted Qle [a; b; c; d]
    /\ ABS_CalculateMedianSpeed st = ((b + c) / 2)%Q.
Proof.
  intros E V0 V1 V2 V3.
  assert (V : valid_speeds (g_VehicleData st)
              = [SpeedSensor.wheelSpeed s0; SpeedSensor.wheelSpeed s1;
                 SpeedSensor.wheelSpeed s2; SpeedSensor.wheelSpeed s3])
    by (unfold valid_speeds; rewrite E; cbn; now rewrite V0, V1, V2, V3).
  unfold ABS_CalculateMedianSpeed. rewrite collect_valid_eq, V.
  destruct (median_of_is_median
              [SpeedSensor.wheelSpeed s0; SpeedSensor.wheelSpeed s1;
               SpeedSensor.wheelSpeed s2; SpeedSensor.wheelSpeed s3])
    as (s & P & S & M); [cbn; lia|].
  pose proof (Permutation_length P) as L.
  destruct s as [|a [|b [|c [|d [|e s]]]]]; cbn in L; try lia.
  exists a, b, c, d. auto.
Qed.

(** With exactly one wheel invalid the reference speed is the middle
    value of the three remaining speeds; shown for each position of the
    invalid wheel through the valid speeds the code collects. *)
Corollary reference_speed_three_valid (st : State) x y z :
  valid_speeds (g_VehicleData st) = [x; y; z] ->
  exists a b c,
    Permutation [x; y; z] [a; b; c] /\ Sorted Qle [a; b; c]
    /\ ABS_CalculateMedianSpeed st = b.
Proof.
  intros E. unfold ABS_CalculateMedianSpeed.
  rewrite collect_valid_eq, E.
  destruct (median_of_is_median [x; y; z]) as (s & P & S & M);
    [cbn; lia|].
  pose proof (Permutation_length P) as L.
  destruct s as [|a [|b [|c [|e s]]]]; cbn in L; try lia.
  exists a, b, c. auto.
Qed.

Lemma valid_speeds_one_invalid s0 s1 s2 s3 k :
  (k < WHEEL_MAX)%nat ->
  (forall i, (i < WHEEL_MAX)%nat ->
             SpeedSensor.speedValid (nth i [s0; s1; s2; s3] SpeedSensor.zero_speed)
             = negb (i =? k)%nat) ->
  valid_speeds (vehicle s0 s1 s2 s3) =
  map SpeedSensor.wheelSpeed
      (firstn k [s0; s1; s2; s3] ++ skipn (S k) [s0; s1; s2; s3]).
Proof.
  unfold WHEEL_MAX. intros Hk H.
  pose proof (H 0%nat ltac:(lia)) as H0. pose proof (H 1%nat ltac:(lia)) as H1.
  pose proof (H 2%nat ltac:(lia)) as H2. pose proof (H 3%nat ltac:(lia)) as H3.
  cbn [nth] in *. unfold valid_speeds. cbn.
  rewrite H0, H1, H2, H3.
  destruct k as [|[|[|[|k]]]]; try lia; reflexivity.
Qed.


End ABSMedian.

(** ** Malfunction detector: classification and debouncing *)

Module ABSFacts.
Import ABS ABSSpec.

Lemma malfunction_set_same st w m :
  (w < length (g_MalfunctionStatus st))%nat ->
  malfunction (set_malfunction st w m) w = m.
Proof. intros H. unfold malfunction; simpl. now apply get_upd_same. Qed.

Lemma malfunction_set_other st w w' m :
  w <> w' -> malfunction (set_malfunction st w m) w' = malfunction st w'.
Proof. intros H. unfold malfunction; simpl. now apply get_upd_other. Qed.

Lemma malfunction_set_debounce st w c w' :
  malfunction (set_debounce st w c) w' = malfunction st w'.
Proof. reflexivity. Qed.

Lemma malfunction_set_consecutive st w c w' :
  malfunction (set_consecutive st w c) w' = malfunction st w'.
Proof. reflexivity. Qed.


Lemma wf_set_malfunction st w m : wf st -> wf (set_malfunction st w m).
Proof. unfold wf; simpl. now rewrite length_upd. Qed.

Lemma wf_set_debounce st w c : wf st -> wf (set_debounce st w c).
Proof. unfold wf; simpl. now rewrite length_upd. Qed.

Lemma wf_set_consecutive st w c : wf st -> wf (set_consecutive st w c).
Proof. unfold wf; simpl. now rewrite length_upd. Qed.

Lemma wf_started_with vd :
  length (wheelSpeeds vd) = WHEEL_MAX -> wf (started_with vd).
Proof. intros H. repeat split; auto. Qed.

(** *** Invalid samples *)

(** The verdict of the checks on a wheel whose sample is invalid, when the
    plausibility check is enabled and the drift check did not trip. *)
Lemma detect_invalid ss st w :
  SpeedSensor.speedValid (wheel_speed st w) = false ->
  enableSpeedPlausibilityCheck (g_DetectionParams st) = true ->
  enableMiscalibrationDetection (g_DetectionParams st) = false
  \/ fst (ABS_CheckCalibrationDrift ss st w 0) = false ->
  detect ss st w =
  (true, ABS_MALFUNCTION_SPEED_DIFFERENCE_EXCESSIVE, ABS_SEVERITY_LOW, 0%Q).
Proof.
  intros Hv He Hd. unfold detect. rewrite He.
  assert (P : ABS_CheckSpeedPlausibility st w = (false, 0%Q))
    by (unfold ABS_CheckSpeedPlausibility; now rewrite Hv).
  destruct (enableMiscalibrationDetection (g_DetectionParams st)).
  - destruct Hd as [Hd|Hd]; [discriminate|].
    destruct (ABS_CheckCalibrationDrift ss st w 0) as [drifted dev'].
    cbn in Hd. subst drifted. cbn. rewrite P.
    destruct (enableAccelerationCheck (g_DetectionParams st)); reflexivity.
  - cbn. rewrite P.
    destruct (enableAccelerationCheck (g_DetectionParams st)); reflexivity.
Qed.

(** The reference speed does not read the sample of an invalid wheel. *)
Lemma reference_ignores_invalid st w s :
  wf st -> (w < WHEEL_MAX)%nat ->
  SpeedSensor.speedValid (wheel_speed st w) = false ->
  SpeedSensor.speedValid s = false ->
  ABS_CalculateMedianSpeed (with_wheel_speed st w s) = ABS_CalculateMedianSpeed st.
Proof.
  intros (_ & _ & _ & L) Hw Hv Hs. unfold ABS_CalculateMedianSpeed.
  rewrite !ABSMedian.collect_valid_eq. f_equal.
  unfold valid_speeds, with_wheel_speed, wheel_speed in *. cbn [g_VehicleData wheelSpeeds].
  destruct (wheelSpeeds (g_VehicleData st)) as [|a [|b [|c [|d [|e l]]]]];
    try discriminate L.
  unfold WHEEL_MAX in Hw.
  destruct w as [|[|[|[|w]]]]; try lia; cbn in *; rewrite Hv, Hs; reflexivity.
Qed.

(** C3, as amended.  For a wheel whose sample is invalid, when the speed
    plausibility check is enabled and the calibration-drift check did not
    trip first, the detector records an excessive speed difference with a
    deviation of 0 and severity low, and marks the record active; and the
    reference speed does not depend on what the invalid sample holds. *)
Theorem invalid_wheel_classification ss st w :
  wf st -> (w < WHEEL_MAX)%nat ->
  SpeedSensor.speedValid (wheel_speed st w) = false ->
  enableSpeedPlausibilityCheck (g_DetectionParams st) = true ->
  enableMiscalibrationDetection (g_DetectionParams st) = false
  \/ fst (ABS_CheckCalibrationDrift ss st w 0) = false ->
  let m := malfunction (ABS_ProcessWheelMalfunctionDetection ss st w) w in
  malfunctionType m = ABS_MALFUNCTION_SPEED_DIFFERENCE_EXCESSIVE
  /\ deviationValue m = 0%Q
  /\ severity m = ABS_SEVERITY_LOW
  /\ isActive m = true
  /\ forall s, SpeedSensor.speedValid s = false ->
       ABS_CalculateMedianSpeed (with_wheel_speed st w s)
       = ABS_CalculateMedianSpeed st.
Proof.
  intros Hwf Hw Hv He Hd. cbv zeta.
  unfold ABS_ProcessWheelMalfunctionDetection.
  rewrite (detect_invalid ss st w Hv He Hd).
  rewrite malfunction_set_consecutive. unfold ABS_UpdateMalfunctionStatus.
  rewrite malfunction_set_same by (destruct Hwf as [-> _]; exact Hw).
  cbn. repeat split; auto.
  intros s Hs. now apply reference_ignores_invalid.
Qed.

Lemma invalid_wheel_classification_witness :
  let m := malfunction (ABS_ProcessWheelMalfunctionDetection
                          ss_nominal front_left_invalid 0) 0 in
  malfunctionType m = ABS_MALFUNCTION_SPEED_DIFFERENCE_EXCESSIVE
  /\ deviationValue m = 0%Q.
Proof.
  pose proof (invalid_wheel_classification ss_nominal front_left_invalid 0) as H.
  cbv zeta in H. 
  assert (W : wf front_left_invalid) by (apply wf_started_with; reflexivity).
  assert (L : (0 < WHEEL_MAX)%nat) by (unfold WHEEL_MAX; lia).
  destruct (H W L eq_refl eq_refl (or_intror eq_refl)) as (A & B & _).
  split; assumption.
Defined.

(** C3, as stated, fails: the deviation recorded for the invalid wheel is
    0, the smallest there is, and its severity is low, while a valid wheel
    of the same cycle is recorded with a deviation of 50 km/h. *)
Lemma invalid_wheel_deviation_is_zero :
  let st := snd (ABS_MalfunctionDetection_MainFunction ss_nominal front_left_invalid) in
  SpeedSensor.speedValid (wheel_speed front_left_invalid 0) = false
  /\ malfunctionType (malfunction st 0) = ABS_MALFUNCTION_SPEED_DIFFERENCE_EXCESSIVE
  /\ (deviationValue (malfunction st 0) == 0)%Q
  /\ severity (malfunction st 0) = ABS_SEVERITY_LOW
  /\ (deviationValue (malfunction st 3) == 50)%Q
  /\ (deviationValue (malfunction st 0) < deviationValue (malfunction st 3))%Q.
Proof. vm_compute. repeat split; reflexivity || discriminate. Qed.

(** When the drift check trips on the same wheel, it wins: the invalid
    wheel is recorded as miscalibrated, with the drift as its deviation. *)
Example invalid_wheel_with_drift_is_miscalibrated :
  let st := snd (ABS_MalfunctionDetection_MainFunction ss_drift front_left_invalid) in
  malfunctionType (malfunction st 0) = ABS_MALFUNCTION_SPEED_SENSOR_MISCALIBRATION
  /\ (deviationValue (malfunction st 0) == 15)%Q.
Proof. vm_compute. split; reflexivity. Qed.

(** *** Debouncing *)

Lemma wf_detection_step ss st w :
  wf st -> wf (ABS_ProcessWheelMalfunctionDetection ss st w).
Proof.
  intros H. unfold ABS_ProcessWheelMalfunctionDetection.
  destruct (detect ss st w) as [[[det ty] sev] dev]. destruct det.
  - apply wf_set_consecutive. unfold ABS_UpdateMalfunctionStatus.
    now apply wf_set_malfunction.
  - destruct (isActive _); [apply wf_set_debounce|]; now apply wf_set_consecutive.
Qed.

Lemma wf_debouncing st w : wf st -> wf (ABS_ProcessDebouncing st w).
Proof.
  intros H. unfold ABS_ProcessDebouncing. destruct (isActive _).
  - destruct (_ <=? _); [apply wf_set_malfunction|]; now apply wf_set_debounce.
  - apply wf_set_malfunction. now apply wf_set_debounce.
Qed.

Lemma wf_cycle_wheel ss st w : wf st -> wf (cycle_wheel ss st w).
Proof. intros H. now apply wf_debouncing, wf_detection_step. Qed.

(** One iteration of the wheel loop leaves the records of the other
    wheels alone. *)
Lemma cycle_wheel_other ss st w w' :
  w <> w' -> malfunction (cycle_wheel ss st w) w' = malfunction st w'.
Proof.
  intros H. unfold cycle_wheel.
  assert (P : malfunction (ABS_ProcessWheelMalfunctionDetection ss st w) w'
              = malfunction st w').
  { unfold ABS_ProcessWheelMalfunctionDetection.
    destruct (detect ss st w) as [[[det ty] sev] dev]. destruct det.
    - rewrite malfunction_set_consecutive. unfold ABS_UpdateMalfunctionStatus.
      now apply malfunction_set_other.
    - destruct (isActive _); reflexivity. }
  rewrite <- P. unfold ABS_ProcessDebouncing. destruct (isActive _).
  - destruct (_ <=? _); [now rewrite malfunction_set_other|reflexivity].
  - now rewrite malfunction_set_other.
Qed.

(** The detection step never clears [isActive], and keeps [confirmed]. *)
Lemma process_wheel_keeps_active ss st w :
  wf st -> (w < WHEEL_MAX)%nat ->
  isActive (malfunction st w) = true ->
  isActive (malfunction (ABS_ProcessWheelMalfunctionDetection ss st w) w) = true
  /\ confirmedMalfunction
       (malfunction (ABS_ProcessWheelMalfunctionDetection ss st w) w)
     = confirmedMalfunction (malfunction st w).
Proof.
  intros Hwf Hw Ha. unfold ABS_ProcessWheelMalfunctionDetection.
  destruct (detect ss st w) as [[[det ty] sev] dev]. destruct det.
  - rewrite malfunction_set_consecutive. unfold ABS_UpdateMalfunctionStatus.
    rewrite malfunction_set_same by (destruct Hwf as [-> _]; exact Hw).
    split; reflexivity.
  - rewrite malfunction_set_consecutive, Ha.
    rewrite malfunction_set_debounce, malfunction_set_consecutive. auto.
Qed.

(** With [isActive] set, the debouncing step can only set [confirmed]. *)
Lemma debouncing_keeps_confirmed st w :
  wf st -> (w < WHEEL_MAX)%nat ->
  isActive (malfunction st w) = true ->
  isActive (malfunction (ABS_ProcessDebouncing st w) w) = true
  /\ (confirmedMalfunction (malfunction st w) = true ->
      confirmedMalfunction (malfunction (ABS_ProcessDebouncing st w) w) = true).
Proof.
  intros Hwf Hw Ha. unfold ABS_ProcessDebouncing. rewrite Ha.
  destruct (_ <=? _).
  - rewrite malfunction_set_same
      by (cbn; destruct Hwf as [-> _]; exact Hw).
    cbn. auto.
  - rewrite malfunction_set_debounce. auto.
Qed.

Lemma cycle_wheel_sticky ss st w :
  wf st -> (w < WHEEL_MAX)%nat ->
  isActive (malfunction st w) = true ->
  isActive (malfunction (cycle_wheel ss st w) w) = true
  /\ (confirmedMalfunction (malfunction st w) = true ->
      confirmedMalfunction (malfunction (cycle_wheel ss st w) w) = true).
Proof.
  intros Hwf Hw Ha. unfold cycle_wheel.
  destruct (process_wheel_keeps_active ss st w Hwf Hw Ha) as [A C].
  destruct (debouncing_keeps_confirmed _ w (wf_detection_step ss st w Hwf) Hw A)
    as [A' C'].
  split; [exact A'|]. intros H. apply C'. now rewrite C.
Qed.

Lemma malfunction_update_system_state st w :
  malfunction (ABS_UpdateSystemState st) w = malfunction st w.
Proof.
  unfold ABS_UpdateSystemState.
  destruct (fold_left _ wheels (0, 0)) as [crit act].
  destruct (0 <? crit); [reflexivity|]. destruct (0 <? act); reflexivity.
Qed.

Lemma cycle_wheels_sticky ss (l : list nat) st w (c : bool) :
  wf st -> (w < WHEEL_MAX)%nat ->
  isActive (malfunction st w) = true ->
  (c = true -> confirmedMalfunction (malfunction st w) = true) ->
  isActive (malfunction (fold_left (cycle_wheel ss) l st) w) = true
  /\ (c = true ->
      confirmedMalfunction (malfunction (fold_left (cycle_wheel ss) l st) w)
      = true).
Proof.
  intros Hwf Hw. revert st Hwf.
  induction l as [|j l IH]; intros st Hwf Ha Hc; cbn [fold_left]; [auto|].
  apply IH.
  - now apply wf_cycle_wheel.
  - destruct (Nat.eq_dec j w) as [->|Hj].
    + now apply cycle_wheel_sticky.
    + now rewrite cycle_wheel_other.
  - intros E. destruct (Nat.eq_dec j w) as [->|Hj].
    + apply cycle_wheel_sticky; auto.
    + rewrite cycle_wheel_other; auto.
Qed.

(** Once a record is active, no detection cycle deactivates it, and once
    it is confirmed no detection cycle clears the confirmation, whatever
    the checks find: the only path back is [ABS_ClearMalfunctionStatus]. *)
Lemma confirmed_is_sticky ss st w :
  wf st -> (w < WHEEL_MAX)%nat ->
  isActive (malfunction st w) = true ->
  let st' := snd (ABS_MalfunctionDetection_MainFunction ss st) in
  isActive (malfunction st' w) = true
  /\ (confirmedMalfunction (malfunction st w) = true ->
      confirmedMalfunction (malfunction st' w) = true).
Proof.
  intros Hwf Hw Ha. cbv zeta. unfold ABS_MalfunctionDetection_MainFunction.
  destruct (g_ABS_Initialized st); [|cbn; auto].
  cbn [snd]. rewrite malfunction_update_system_state.
  destruct (confirmedMalfunction (malfunction st w)) eqn:C.
  - destruct (cycle_wheels_sticky ss wheels st w true Hwf Hw Ha) as [A B]; auto.
  - destruct (cycle_wheels_sticky ss wheels st w false Hwf Hw Ha) as [A B];
      [discriminate|]. split; [exact A|discriminate].
Qed.

(** The part of the debounce invariant the code keeps: the debouncing
    step sets [confirmed] only in a cycle in which the debounce counter
    has reached the configured debounce time. *)
Lemma confirmed_only_at_debounce_time st w :
  wf st -> (w < WHEEL_MAX)%nat ->
  confirmedMalfunction (malfunction st w) = false ->
  confirmedMalfunction (malfunction (ABS_ProcessDebouncing st w) w) = true ->
  debounceTimeMs (g_DetectionParams st)
  <= debounce (ABS_ProcessDebouncing st w) w.
Proof.
  intros Hwf Hw Hc. unfold ABS_ProcessDebouncing.
  destruct (isActive (malfunction st w)).
  - destruct (_ <=? _) eqn:E.
    + intros _. apply Z.leb_le in E. exact E.
    + rewrite malfunction_set_debounce. congruence.
  - rewrite malfunction_set_same
      by (cbn; destruct Hwf as [-> _]; exact Hw).
    cbn. discriminate.
Qed.

(** C1: the code at the failing input.  The front-left correction factor
    is off by 15 % for five detection cycles, which confirms the
    miscalibration record when the debounce counter reaches 100 ms.  In
    the sixth cycle the factor is back at 1.0 and no check detects a
    fault on that wheel, yet the record stays active and confirmed. *)
Theorem confirmed_survives_fault_free_cycle :
  let st4 := run (repeat ss_drift 4) cruising in
  let st5 := run (repeat ss_drift 5) cruising in
  let st6 := run [ss_nominal] st5 in
  confirmedMalfunction (malfunction st4 0) = false
  /\ confirmedMalfunction (malfunction st5 0) = true
  /\ debounce st5 0 = 100
  /\ detected ss_nominal st5 0 = false
  /\ isActive (malfunction st6 0) = true
  /\ confirmedMalfunction (malfunction st6 0) = true.
Proof. vm_compute. repeat split; reflexivity. Qed.

(** The same defect on the way up: after one faulty cycle and one
    fault-free cycle, four more faulty cycles (80 ms of continuous fault)
    are enough to confirm, because the fault-free cycle leaves the record
    active and restarts the counter at one cycle time. *)
Example confirmed_after_four_continuous_cycles :
  let st2 := run [ss_drift; ss_nominal] cruising in
  let st6 := run (repeat ss_drift 4) st2 in
  detected ss_nominal (run [ss_drift] cruising) 0 = false
  /\ debounce st2 0 = 20
  /\ confirmedMalfunction (malfunction st2 0) = false
  /\ confirmedMalfunction (malfunction st6 0) = true.
Proof. vm_compute. repeat split; reflexivity. Qed.

End ABSFacts.

(** ** Calibration manager *)

Module CalibrationFacts.
Import CalibrationManager CalibrationSpec.

Lemma session_set_same st w s :
  (w < length (g_CalibrationSessions st))%nat ->
  session (set_session st w s) w = s.
Proof. intros H. unfold session; simpl. now apply get_upd_same. Qed.

Lemma session_set_other st w w' s :
  w <> w' -> session (set_session st w s) w' = session st w'.
Proof. intros H. unfold session; simpl. now apply get_upd_other. Qed.

Lemma samples_set_same st w d :
  (w < length (g_SampleData st))%nat -> samples (set_samples st w d) w = d.
Proof. intros H. unfold samples; simpl. now apply get_upd_same. Qed.

Lemma samples_set_other st w w' d :
  w <> w' -> samples (set_samples st w d) w' = samples st w'.
Proof. intros H. unfold samples; simpl. now apply get_upd_other. Qed.

Lemma wf_set_session st w s : wf st -> wf (set_session st w s).
Proof. unfold wf; simpl. now rewrite length_upd. Qed.


Lemma wf_world_started : wf_world started.
Proof. repeat split; reflexivity. Qed.

(** C6.  With the manager initialised and a wheel in range: if a session
    is already active for the wheel of the request, the call returns the
    session-busy code and the state of the manager is unchanged;
    otherwise it returns [E_OK], the session holds the request, is in the
    requested state and marked active, the sample buffer of the wheel is
    all zeroes, and the sessions and buffers of the other wheels are
    untouched. *)
Theorem start_calibration_busy_or_requested st req :
  wf st -> g_CalibrationManager_Initialized st = true ->
  (wheelPosition req < WHEEL_MAX)%nat ->
  let wheelPos := wheelPosition req in
  let r := fst (CalibrationManager_StartCalibration st req) in
  let st' := snd (CalibrationManager_StartCalibration st req) in
  (sessionActive (session st wheelPos) = true ->
   r = SESSION_BUSY /\ r <> E_OK /\ st' = st)
  /\ (sessionActive (session st wheelPos) = false ->
      r = E_OK
      /\ state (session st' wheelPos) = CALIBRATION_STATE_REQUESTED
      /\ sessionActive (session st' wheelPos) = true
      /\ request (session st' wheelPos) = req
      /\ samples st' wheelPos = zero_samples
      /\ forall w', w' <> wheelPos ->
           session st' w' = session st w' /\ samples st' w' = samples st w').
Proof.
  intros (L1 & L2 & L3 & L4) Hi Hw. cbv zeta.
  unfold CalibrationManager_StartCalibration. rewrite Hi.
  apply Nat.ltb_lt in Hw. rewrite Hw. apply Nat.ltb_lt in Hw.
  split; intros Ha; rewrite Ha; cbn [negb fst snd].
  - repeat split. discriminate.
  - split; [reflexivity|].
    assert (S : session (set_samples (set_session st (wheelPosition req)
                  (mkSession req CALIBRATION_STATE_REQUESTED
                     CALIBRATION_RESULT_IN_PROGRESS 0
                     (endTimestamp (session st (wheelPosition req))) 0
                     (calculatedCorrectionFactor (session st (wheelPosition req)))
                     (calculatedOffset (session st (wheelPosition req)))
                     (measuredAccuracy (session st (wheelPosition req))) true))
                  (wheelPosition req) zero_samples) (wheelPosition req)
                = mkSession req CALIBRATION_STATE_REQUESTED
                     CALIBRATION_RESULT_IN_PROGRESS 0
                     (endTimestamp (session st (wheelPosition req))) 0
                     (calculatedCorrectionFactor (session st (wheelPosition req)))
                     (calculatedOffset (session st (wheelPosition req)))
                     (measuredAccuracy (session st (wheelPosition req))) true).
    { change (session (set_samples ?s ?w ?d) ?v) with (session s v).
      apply session_set_same. rewrite L1. exact Hw. }
    rewrite S. cbn [state sessionActive request].
    repeat split.
    + apply samples_set_same. cbn. rewrite L4. exact Hw.
    + change (session (set_samples ?s ?w ?d) ?v) with (session s v).
      apply session_set_other. congruence.
    + rewrite samples_set_other by congruence. reflexivity.
Qed.

Lemma start_calibration_witness :
  fst (CalibrationManager_StartCalibration (cm started) (request_front_left 60))
  = E_OK
  /\ state (session (snd (CalibrationManager_StartCalibration
                            (cm started) (request_front_left 60))) 0)
     = CALIBRATION_STATE_REQUESTED.
Proof.
  assert (W : wf (cm started)) by apply wf_world_started.
  assert (L : (wheelPosition (request_front_left 60) < WHEEL_MAX)%nat)
    by (vm_compute; lia).
  destruct (start_calibration_busy_or_requested
              (cm started) (request_front_left 60) W eq_refl L) as [_ H].
  destruct (H eq_refl) as (A & B & _). split; assumption.
Defined.

(** *** Applying a calibration *)

Lemma set_calibration_result st wheelPos cal :
  SpeedSensorSpec.wf st -> (wheelPos < WHEEL_MAX)%nat ->
  (fst (SpeedSensor.SpeedSensor_SetCalibration st wheelPos cal) = E_OK
   /\ SpeedSensor.g_SpeedSensor_Initialized st = true
   /\ SpeedSensor.calibration_accepted cal = true
   /\ SpeedSensor.calibration
        (SpeedSensor.sensor
           (snd (SpeedSensor.SpeedSensor_SetCalibration st wheelPos cal)) wheelPos)
      = SpeedSensor.mkCal (SpeedSensor.correctionFactor cal)
          (SpeedSensor.offsetValue cal) (SpeedSensor.pulsesPerRevolution cal)
          (SpeedSensor.wheelCircumference cal) true
          (SpeedSensor.calibrationTimestamp cal))
  \/ (fst (SpeedSensor.SpeedSensor_SetCalibration st wheelPos cal) = E_NOT_OK
      /\ (SpeedSensor.g_SpeedSensor_Initialized st = false
          \/ SpeedSensor.calibration_accepted cal = false)
      /\ snd (SpeedSensor.SpeedSensor_SetCalibration st wheelPos cal) = st).
Proof.
  intros [L _] Hw. unfold SpeedSensor.SpeedSensor_SetCalibration.
  apply Nat.ltb_lt in Hw. rewrite Hw. apply Nat.ltb_lt in Hw.
  destruct (SpeedSensor.g_SpeedSensor_Initialized st); cbn [andb]; [|now auto].
  destruct (SpeedSensor.calibration_accepted cal); [|now auto].
  left. cbn [fst snd]. repeat split.
  rewrite SpeedSensorFacts.sensor_set_same by (rewrite L; exact Hw).
  reflexivity.
Qed.

(** The same, in the shape the invariant of the coefficients needs. *)
Lemma set_calibration_result_aux st wheelPos cal :
  SpeedSensorSpec.wf st -> (wheelPos < WHEEL_MAX)%nat ->
  (SpeedSensor.calibration_accepted cal = true
   /\ SpeedSensor.calibration
        (SpeedSensor.sensor
           (snd (SpeedSensor.SpeedSensor_SetCalibration st wheelPos cal)) wheelPos)
      = SpeedSensor.mkCal (SpeedSensor.correctionFactor cal)
          (SpeedSensor.offsetValue cal) (SpeedSensor.pulsesPerRevolution cal)
          (SpeedSensor.wheelCircumference cal) true
          (SpeedSensor.calibrationTimestamp cal))
  \/ snd (SpeedSensor.SpeedSensor_SetCalibration st wheelPos cal) = st.
Proof.
  intros Hwf Hw.
  destruct (set_calibration_result st wheelPos cal Hwf Hw)
    as [(_ & _ & A & E)|(_ & _ & E)]; auto.
Qed.

Lemma save_keeps_components nvm w wheelPos :
  ss (snd (CalibrationManager_SaveToNvm nvm w wheelPos)) = ss w
  /\ cm (snd (CalibrationManager_SaveToNvm nvm w wheelPos)) = cm w.
Proof.
  unfold CalibrationManager_SaveToNvm.
  destruct (_ && _); [|now auto].
  destruct (SpeedSensor.SpeedSensor_GetCalibration (ss w) wheelPos) as [r c].
  destruct (r =? E_OK); [|now auto].
  destruct (_ =? NVM_REQ_OK); now auto.
Qed.


Lemma save_fails nvm w wheelPos :
  write_fails nvm wheelPos ->
  fst (CalibrationManager_SaveToNvm nvm w wheelPos) = E_NOT_OK.
Proof.
  intros F. unfold CalibrationManager_SaveToNvm.
  destruct (_ && _); [|now auto].
  destruct (SpeedSensor.SpeedSensor_GetCalibration (ss w) wheelPos) as [r c].
  destruct (r =? E_OK); [|now auto].
  destruct (_ =? NVM_REQ_OK) eqn:E; [|now auto].
  apply Z.eqb_eq in E. now apply F in E.
Qed.

(** What [CalibrationManager_ApplyCalibration] does once it is past its
    guards. *)
Lemma apply_unfold nvm w wheelPos saveToNvm :
  (wheelPos < WHEEL_MAX)%nat ->
  g_CalibrationManager_Initialized (cm w) = true ->
  state (session (cm w) wheelPos) = CALIBRATION_STATE_COMPLETED ->
  result (session (cm w) wheelPos) = CALIBRATION_RESULT_OK ->
  SpeedSensor.g_SpeedSensor_Initialized (ss w) = true ->
  SpeedSensor.calibration_accepted (candidate w wheelPos) = true ->
  let w1 := set_ss w (snd (SpeedSensor.SpeedSensor_SetCalibration
                             (ss w) wheelPos (candidate w wheelPos))) in
  fst (CalibrationManager_ApplyCalibration nvm w wheelPos saveToNvm)
  = (if saveToNvm then fst (CalibrationManager_SaveToNvm nvm w1 wheelPos)
     else E_OK)
  /\ ss (snd (CalibrationManager_ApplyCalibration nvm w wheelPos saveToNvm))
     = ss w1.
Proof.
  intros Hw Hi Hs Hr Hsi Ha. cbv zeta.
  unfold CalibrationManager_ApplyCalibration.
  apply Nat.ltb_lt in Hw. rewrite Hw, Hi, Hs, Hr.
  cbn [andb state_is_completed result_is_ok].
  unfold SpeedSensor.SpeedSensor_GetCalibration. rewrite Hw, Hsi.
  cbn [andb]. change (E_OK =? E_OK) with true. cbv iota beta.
  fold (candidate w wheelPos).
  assert (R : fst (SpeedSensor.SpeedSensor_SetCalibration
                     (ss w) wheelPos (candidate w wheelPos)) = E_OK)
    by (unfold SpeedSensor.SpeedSensor_SetCalibration;
        rewrite Hw, Hsi, Ha; reflexivity).
  destruct (SpeedSensor.SpeedSensor_SetCalibration
              (ss w) wheelPos (candidate w wheelPos)) as [r' ss'].
  cbn [fst snd] in *. subst r'. change (E_OK =? E_OK) with true. cbv iota beta.
  destruct saveToNvm.
  - pose proof (save_keeps_components nvm (set_ss w ss') wheelPos) as [K1 K2].
    destruct (CalibrationManager_SaveToNvm nvm (set_ss w ss') wheelPos)
      as [rv w2].
    cbn [fst snd] in *. split; [reflexivity|]. exact K1.
  - cbn. split; reflexivity.
Qed.

(** Past its guards is the only place where the call returns [E_OK]. *)
Lemma apply_ok_guards nvm w wheelPos saveToNvm :
  fst (CalibrationManager_ApplyCalibration nvm w wheelPos saveToNvm) = E_OK ->
  (wheelPos < WHEEL_MAX)%nat
  /\ g_CalibrationManager_Initialized (cm w) = true
  /\ state (session (cm w) wheelPos) = CALIBRATION_STATE_COMPLETED
  /\ result (session (cm w) wheelPos) = CALIBRATION_RESULT_OK
  /\ SpeedSensor.g_SpeedSensor_Initialized (ss w) = true
  /\ SpeedSensor.calibration_accepted (candidate w wheelPos) = true.
Proof.
  unfold CalibrationManager_ApplyCalibration.
  destruct (wheelPos <? WHEEL_MAX)%nat eqn:Hw; [|discriminate].
  destruct (g_CalibrationManager_Initialized (cm w)); [|discriminate].
  cbn [andb].
  destruct (state (session (cm w) wheelPos)); try discriminate.
  destruct (result (session (cm w) wheelPos)); try discriminate.
  cbn [andb state_is_completed result_is_ok].
  unfold SpeedSensor.SpeedSensor_GetCalibration. rewrite Hw.
  destruct (SpeedSensor.g_SpeedSensor_Initialized (ss w)) eqn:Hsi;
    [|discriminate].
  cbn [andb]. change (E_OK =? E_OK) with true. cbv iota beta.
  fold (candidate w wheelPos).
  unfold SpeedSensor.SpeedSensor_SetCalibration. rewrite Hw, Hsi. cbn [andb].
  destruct (SpeedSensor.calibration_accepted (candidate w wheelPos));
    [|discriminate].
  intros _. apply Nat.ltb_lt in Hw. repeat split; auto.
Qed.

Lemma live_after_apply w wheelPos :
  SpeedSensorSpec.wf (ss w) -> (wheelPos < WHEEL_MAX)%nat ->
  SpeedSensor.g_SpeedSensor_Initialized (ss w) = true ->
  SpeedSensor.calibration_accepted (candidate w wheelPos) = true ->
  SpeedSensor.calibration
    (SpeedSensor.sensor
       (snd (SpeedSensor.SpeedSensor_SetCalibration
               (ss w) wheelPos (candidate w wheelPos))) wheelPos)
  = candidate w wheelPos.
Proof.
  intros Hwf Hw Hsi Ha.
  destruct (set_calibration_result (ss w) wheelPos (candidate w wheelPos) Hwf Hw)
    as [(_ & _ & _ & E)|(_ & [E|E] & _)]; [exact E|congruence|congruence].
Qed.

(** C7.  The call returns [E_OK] only when the session of the wheel is
    completed with an OK result, and then the live coefficients of the
    speed sensor hold the computed correction factor and offset and are
    marked valid.  When the session is completed with an OK result, the
    speed sensor accepts the coefficients, persistence is requested and
    the persistence write fails, the call returns [E_NOT_OK] while the
    live coefficients are the newly applied ones. *)
Theorem apply_calibration_outcomes nvm w wheelPos saveToNvm :
  wf_world w -> (wheelPos < WHEEL_MAX)%nat ->
  let r := fst (CalibrationManager_ApplyCalibration nvm w wheelPos saveToNvm) in
  let w' := snd (CalibrationManager_ApplyCalibration nvm w wheelPos saveToNvm) in
  let s := session (cm w) wheelPos in
  let live := SpeedSensor.calibration (SpeedSensor.sensor (ss w') wheelPos) in
  (r = E_OK ->
   state s = CALIBRATION_STATE_COMPLETED /\ result s = CALIBRATION_RESULT_OK
   /\ SpeedSensor.correctionFactor live = calculatedCorrectionFactor s
   /\ SpeedSensor.offsetValue live = calculatedOffset s
   /\ SpeedSensor.calibrationValid live = true)
  /\ (g_CalibrationManager_Initialized (cm w) = true ->
      SpeedSensor.g_SpeedSensor_Initialized (ss w) = true ->
      state s = CALIBRATION_STATE_COMPLETED ->
      result s = CALIBRATION_RESULT_OK ->
      SpeedSensor.calibration_accepted (candidate w wheelPos) = true ->
      saveToNvm = true -> write_fails nvm wheelPos ->
      r = E_NOT_OK
      /\ SpeedSensor.correctionFactor live = calculatedCorrectionFactor s
      /\ SpeedSensor.offsetValue live = calculatedOffset s
      /\ SpeedSensor.calibrationValid live = true).
Proof.
  intros [Hwf _] Hw. cbv zeta. split.
  - intros Hr.
    destruct (apply_ok_guards nvm w wheelPos saveToNvm Hr)
      as (_ & Hi & Hs & Hres & Hsi & Ha).
    destruct (apply_unfold nvm w wheelPos saveToNvm Hw Hi Hs Hres Hsi Ha)
      as [_ E].
    rewrite E. cbn [ss set_ss].
    rewrite (live_after_apply w wheelPos Hwf Hw Hsi Ha).
    repeat split; auto.
  - intros Hi Hsi Hs Hres Ha Hsave F.
    destruct (apply_unfold nvm w wheelPos saveToNvm Hw Hi Hs Hres Hsi Ha)
      as [R E].
    rewrite R, E, Hsave. cbn [ss set_ss].
    rewrite (live_after_apply w wheelPos Hwf Hw Hsi Ha).
    split; [now apply save_fails|]. repeat split; auto.
Qed.

Lemma wf_computed : wf_world (computed 60).
Proof. repeat split; vm_compute; reflexivity. Qed.

Lemma apply_calibration_witness :
  fst (CalibrationManager_ApplyCalibration nvm_failing (computed 60) 0 true)
  = E_NOT_OK
  /\ SpeedSensor.correctionFactor
       (SpeedSensor.calibration
          (SpeedSensor.sensor
             (ss (snd (CalibrationManager_ApplyCalibration
                         nvm_failing (computed 60) 0 true))) 0))
     = calculatedCorrectionFactor (session (cm (computed 60)) 0).
Proof.
  assert (L : (0 < WHEEL_MAX)%nat) by (unfold WHEEL_MAX; lia).
  destruct (apply_calibration_outcomes nvm_failing (computed 60) 0 true
              wf_computed L) as [_ H].
  assert (F : write_fails nvm_failing 0) by (intros c; discriminate).
  destruct H as (A & B & _);
    try exact F; try (vm_compute; reflexivity).
  split; assumption.
Defined.

End CalibrationFacts.

(** ** The band of the stored coefficients *)

Module CoefficientFacts.
Import CalibrationManager CalibrationSpec.

Lemma accepted_iff c :
  SpeedSensor.calibration_accepted c = true <-> accepted_band c.
Proof.
  unfold SpeedSensor.calibration_accepted, accepted_band.
  rewrite !andb_true_iff. unfold Qgtb. rewrite !Qltb_true, Z.ltb_lt. tauto.
Qed.

Lemma sound_init s :
  coefficients_sound s -> coefficients_sound (snd (SpeedSensor.SpeedSensor_Init s)).
Proof.
  intros H. unfold SpeedSensor.SpeedSensor_Init.
  destruct (SpeedSensor.g_SpeedSensor_Initialized s); [exact H|].
  cbn [negb snd]. split.
  - split; [reflexivity|apply H].
  - intros w Hw _. unfold WHEEL_MAX in Hw.
    destruct w as [|[|[|[|w]]]]; try lia;
      (apply accepted_iff; reflexivity).
Qed.

Lemma sound_set_calibration s wheelPos cal :
  coefficients_sound s ->
  coefficients_sound (snd (SpeedSensor.SpeedSensor_SetCalibration s wheelPos cal)).
Proof.
  intros [Hwf H].
  destruct (Nat.lt_ge_cases wheelPos WHEEL_MAX) as [Hw|Hw].
  - destruct (CalibrationFacts.set_calibration_result_aux s wheelPos cal Hwf Hw)
      as [(A & E)|E]; [|rewrite E; now split].
    split.
    + unfold SpeedSensor.SpeedSensor_SetCalibration.
      destruct (_ && _); [|exact Hwf].
      destruct (SpeedSensor.calibration_accepted cal); [|exact Hwf].
      now apply SpeedSensorFacts.wf_set_sensor.
    + intros w' Hw' V. destruct (Nat.eq_dec wheelPos w') as [<-|N].
      * rewrite E. apply accepted_iff in A. exact A.
      * revert V. unfold SpeedSensor.SpeedSensor_SetCalibration.
        destruct (_ && _); [|now apply H].
        destruct (SpeedSensor.calibration_accepted cal); [|now apply H].
        cbn [snd]. rewrite SpeedSensorFacts.sensor_set_other by exact N.
        now apply H.
  - unfold SpeedSensor.SpeedSensor_SetCalibration.
    apply Nat.ltb_ge in Hw. rewrite Hw. now split.
Qed.

(** A cycle of the speed sensor never writes the coefficients. *)
Lemma process_wheel_calibration rte s j w :
  SpeedSensorSpec.wf s ->
  SpeedSensor.calibration (SpeedSensor.sensor (SpeedSensor.process_wheel rte s j) w)
  = SpeedSensor.calibration (SpeedSensor.sensor s w).
Proof.
  intros Hwf. destruct (Nat.eq_dec j w) as [->|N].
  - destruct (Nat.lt_ge_cases w WHEEL_MAX) as [Hw|Hw].
    + destruct (Z.eq_dec (fst (rte w)) E_OK) as [Hr|Hr].
      * now destruct (SpeedSensorFacts.process_wheel_same rte s w Hwf Hw Hr)
          as (_ & _ & C & _).
      * unfold SpeedSensor.process_wheel, SpeedSensor.SpeedSensor_ProcessRawData.
        apply Nat.ltb_lt in Hw. rewrite Hw. destruct (rte w) as [r raw].
        cbn [fst] in Hr. apply Z.eqb_neq in Hr. rewrite Hr. cbv iota beta.
        now rewrite Hr.
    + unfold SpeedSensor.process_wheel, SpeedSensor.SpeedSensor_ProcessRawData.
      apply Nat.ltb_ge in Hw. now rewrite Hw.
  - now rewrite SpeedSensorFacts.process_wheel_other.
Qed.

Lemma sound_process_wheels rte (l : list nat) s :
  coefficients_sound s ->
  coefficients_sound (fold_left (SpeedSensor.process_wheel rte) l s).
Proof.
  revert s. induction l as [|j l IH]; intros s H; cbn [fold_left]; [exact H|].
  apply IH. destruct H as [Hwf H]. split.
  - now apply SpeedSensorFacts.wf_process_wheel.
  - intros w Hw. rewrite process_wheel_calibration by exact Hwf. now apply H.
Qed.

Lemma sound_sensor_cycle rte s :
  coefficients_sound s ->
  coefficients_sound (snd (SpeedSensor.SpeedSensor_MainFunction rte s)).
Proof.
  intros H. unfold SpeedSensor.SpeedSensor_MainFunction.
  destruct (SpeedSensor.g_SpeedSensor_Initialized s); [|exact H].
  now apply sound_process_wheels.
Qed.

(** The operations of the calibration manager store coefficients through
    [SpeedSensor_SetCalibration] only. *)
Lemma sound_reset nvm w wheelPos :
  coefficients_sound (ss w) ->
  coefficients_sound (ss (snd (CalibrationManager_ResetToFactory nvm w wheelPos))).
Proof.
  intros H. unfold CalibrationManager_ResetToFactory.
  destruct (_ && _); [|exact H].
  pose proof (sound_set_calibration (ss w) wheelPos factory_calibration H) as S.
  destruct (SpeedSensor.SpeedSensor_SetCalibration (ss w) wheelPos
              factory_calibration) as [r ss'].
  cbn [snd] in S. destruct (r =? E_OK); [|exact H].
  pose proof (CalibrationFacts.save_keeps_components nvm (set_ss w ss') wheelPos)
    as [K _].
  destruct (CalibrationManager_SaveToNvm nvm (set_ss w ss') wheelPos) as [rv w2].
  cbn [snd ss set_cm] in *. now rewrite K.
Qed.

Lemma sound_apply nvm w wheelPos saveToNvm :
  coefficients_sound (ss w) ->
  coefficients_sound
    (ss (snd (CalibrationManager_ApplyCalibration nvm w wheelPos saveToNvm))).
Proof.
  intros H. unfold CalibrationManager_ApplyCalibration.
  destruct (_ && _); [|exact H].
  destruct (_ && _); [|exact H].
  destruct (SpeedSensor.SpeedSensor_GetCalibration (ss w) wheelPos) as [r cal0].
  destruct (r =? E_OK); [|exact H].
  match goal with
  | |- context [SpeedSensor.SpeedSensor_SetCalibration (ss w) wheelPos ?c] =>
      pose proof (sound_set_calibration (ss w) wheelPos c H) as S;
      destruct (SpeedSensor.SpeedSensor_SetCalibration (ss w) wheelPos c)
        as [r' ss']
  end.
  cbn [snd] in S. destruct (r' =? E_OK); [|exact H].
  destruct saveToNvm.
  - pose proof (CalibrationFacts.save_keeps_components nvm (set_ss w ss') wheelPos)
      as [K _].
    destruct (CalibrationManager_SaveToNvm nvm (set_ss w ss') wheelPos) as [rv w2].
    cbn [snd ss set_cm] in *. now rewrite K.
  - exact S.
Qed.

Lemma sound_load nvm w wheelPos :
  coefficients_sound (ss w) ->
  coefficients_sound (ss (snd (CalibrationManager_LoadFromNvm nvm w wheelPos))).
Proof.
  intros H. unfold CalibrationManager_LoadFromNvm.
  destruct (_ && _); [|exact H].
  destruct (ReadBlock nvm (CalibrationManager_GetNvmBlockId wheelPos)) as [r c].
  destruct (r =? NVM_REQ_OK).
  - destruct (_ && _).
    + pose proof (sound_set_calibration (ss w) wheelPos c H) as S.
      destruct (SpeedSensor.SpeedSensor_SetCalibration (ss w) wheelPos c)
        as [r' ss'].
      exact S.
    + now apply sound_reset.
  - now apply sound_reset.
Qed.

Lemma sound_manager_init nvm w :
  coefficients_sound (ss w) ->
  coefficients_sound (ss (snd (CalibrationManager_Init nvm w))).
Proof.
  intros H. unfold CalibrationManager_Init.
  destruct (negb _); [|exact H]. cbn [snd ss set_cm].
  match goal with
  | |- context [fold_left ?f wheels ?w0] =>
      assert (G : forall l w1, coefficients_sound (ss w1) ->
                               coefficients_sound (ss (fold_left f l w1)))
  end.
  { induction l as [|j l IH]; intros w1 H1; cbn [fold_left]; [exact H1|].
    apply IH. now apply sound_load. }
  apply G. exact H.
Qed.

Lemma ss_set_result w wheelPos res :
  ss (CalibrationManager_SetSessionResult w wheelPos res) = ss w.
Proof. destruct res; reflexivity. Qed.

Lemma ss_collect_sample w wheelPos :
  ss (snd (CalibrationManager_CollectSample w wheelPos)) = ss w.
Proof.
  unfold CalibrationManager_CollectSample.
  destruct (SpeedSensor.SpeedSensor_GetSpeedData (ss w) wheelPos) as [r sd].
  destruct (r =? E_OK); [|reflexivity]. destruct (_ && _); reflexivity.
Qed.

Lemma ss_process_session w wheelPos :
  ss (snd (CalibrationManager_ProcessCalibrationSession w wheelPos)) = ss w.
Proof.
  unfold CalibrationManager_ProcessCalibrationSession.
  destruct (state (session (cm w) wheelPos)); try reflexivity.
  pose proof (ss_collect_sample w wheelPos) as C.
  destruct (CalibrationManager_CollectSample w wheelPos) as [r w1].
  cbn [snd] in C.
  repeat match goal with
         | |- context [CalibrationManager_CalculateCalibration ?s ?p] =>
             destruct (CalibrationManager_CalculateCalibration s p)
         | |- context [if ?c then _ else _] => destruct c
         end;
    cbn [snd]; rewrite ?ss_set_result; exact C.
Qed.

Lemma ss_auto_check w :
  ss (snd (CalibrationManager_AutoCalibrationCheck w)) = ss w.
Proof.
  unfold CalibrationManager_AutoCalibrationCheck.
  destruct (_ <=? _); [|reflexivity]. cbn [snd].
  match goal with
  | |- ss (fold_left ?f wheels ?w0) = _ =>
      assert (G : forall l w1, ss (fold_left f l w1) = ss w1)
  end.
  { induction l as [|j l IH]; intros w1; cbn [fold_left]; [reflexivity|].
    rewrite IH.
    destruct (CalibrationManager_ValidateCalibration w1 j) as [[r v] a].
    destruct (r =? E_OK); [|reflexivity]. destruct (_ || _); reflexivity. }
  rewrite G. reflexivity.
Qed.

Lemma ss_manager_cycle w :
  ss (snd (CalibrationManager_MainFunction w)) = ss w.
Proof.
  unfold CalibrationManager_MainFunction.
  destruct (g_CalibrationManager_Initialized (cm w)); [|reflexivity].
  match goal with
  | |- context [fold_left ?f wheels w] =>
      assert (G : forall l w1, ss (fold_left f l w1) = ss w1)
  end.
  { induction l as [|j l IH]; intros w1; cbn [fold_left]; [reflexivity|].
    rewrite IH. destruct (sessionActive _); [|reflexivity].
    apply ss_process_session. }
  destruct (enableAutoCalibration _); cbn [snd];
    rewrite ?ss_auto_check; apply G.
Qed.

Lemma sound_step w w' :
  step w w' -> coefficients_sound (ss w) -> coefficients_sound (ss w').
Proof.
  intros S H. destruct S; cbn [ss set_ss set_cm]; auto.
  - now apply sound_init.
  - now apply sound_sensor_cycle.
  - now apply sound_set_calibration.
  - now apply sound_manager_init.
  - now apply sound_apply.
  - now apply sound_reset.
  - now apply sound_load.
  - now rewrite ss_manager_cycle.
Qed.

(** C9, as amended.  In every reachable state, whenever the coefficients
    of a wheel are marked valid, the correction factor lies strictly
    between 0.5 and 2.0, the band [SpeedSensor_SetCalibration] checks, and
    the pulses per revolution and the circumference are positive.  Every
    operation that stores coefficients (SetCalibration, applyCalibration,
    factory reset, load from persistence) keeps this, together with the
    other operations of the two components. *)
Theorem valid_coefficients_in_accepted_band w :
  reachable w -> coefficients_sound (ss w).
Proof.
  induction 1 as [|w w' R IH S].
  - split; [split; reflexivity|]. intros wheelPos Hw V. unfold WHEEL_MAX in Hw.
    destruct wheelPos as [|[|[|[|k]]]]; try lia; discriminate V.
  - now apply (sound_step w w').
Qed.

Lemma reachable_started : reachable started.
Proof.
  unfold started. cbv zeta.
  eapply reachable_step; [|apply step_sensor_cycle].
  eapply reachable_step; [|apply step_manager_init].
  eapply reachable_step; [|apply step_sensor_init].
  apply reachable_initial.
Qed.

Lemma reachable_factor_set_to_1_8 : reachable factor_set_to_1_8.
Proof.
  unfold factor_set_to_1_8.
  eapply reachable_step; [apply reachable_started|apply step_set_calibration].
Qed.

Lemma valid_coefficients_witness :
  coefficients_sound (ss factor_set_to_1_8).
Proof.
  apply (valid_coefficients_in_accepted_band factor_set_to_1_8).
  exact reachable_factor_set_to_1_8.
Defined.

(** C9, as stated, fails: [SpeedSensor_SetCalibration] accepts a
    correction factor of 1.8 and marks it valid, while the configured band
    of the calibration manager is [0.5, 1.5]. *)
Lemma valid_factor_outside_configured_band :
  let cal := SpeedSensor.calibration
               (SpeedSensor.sensor (ss factor_set_to_1_8) WHEEL_FRONT_LEFT) in
  reachable factor_set_to_1_8
  /\ SpeedSensor.calibrationValid cal = true
  /\ (SpeedSensor.correctionFactor cal == 9 # 5)%Q
  /\ (maxCorrectionFactor (g_CalibrationConfig (cm factor_set_to_1_8)) == 3 # 2)%Q
  /\ ~ configured_band (g_CalibrationConfig (cm factor_set_to_1_8)) cal.
Proof.
  cbv zeta. split; [exact reachable_factor_set_to_1_8|].
  split; [reflexivity|]. split; [reflexivity|]. split; [reflexivity|].
  intros [_ H]. vm_compute in H. apply H. reflexivity.
Qed.

End CoefficientFacts.

(** ** Diagnostic service: the DTC table *)

Module DiagnosticFacts.
Import DiagnosticService DiagnosticSpec.

Lemma clear_slot_idempotent e : clear_slot (clear_slot e) = clear_slot e.
Proof.
  unfold clear_slot. destruct (dtcNumber e =? 0) eqn:E; cbn [negb].
  - now rewrite E.
  - cbn [with_status dtcNumber]. now rewrite E.
Qed.

Lemma clear_slot_number e : dtcNumber (clear_slot e) = dtcNumber e.
Proof. unfold clear_slot. destruct (negb _); reflexivity. Qed.

Lemma clear_all_idempotent_table (t : list DTCInfo_t) :
  map clear_slot (map clear_slot t) = map clear_slot t.
Proof.
  induction t as [|e t IH]; cbn [map]; [reflexivity|].
  now rewrite clear_slot_idempotent, IH.
Qed.

(** What a successful search says. *)
Lemma find_from_some t n k i :
  find_from t n k = Some i ->
  (k <= i)%nat /\ (i - k < length t)%nat
  /\ dtcNumber (nth (i - k) t zero_dtc) = n.
Proof.
  revert k. induction t as [|e t IH]; intros k H; cbn [find_from] in H;
    [discriminate|].
  destruct (dtcNumber e =? n) eqn:E.
  - injection H as <-. apply Z.eqb_eq in E. rewrite Nat.sub_diag.
    cbn. repeat split; auto; lia.
  - apply IH in H. destruct H as (H1 & H2 & H3).
    replace (i - k)%nat with (S (i - S k)) by lia. cbn. repeat split; auto; lia.
Qed.

Lemma find_from_none t n k :
  find_from t n k = None <-> forall e, In e t -> dtcNumber e <> n.
Proof.
  revert k. induction t as [|e t IH]; intros k; cbn [find_from In].
  - split; [intros _ e []|reflexivity].
  - destruct (dtcNumber e =? n) eqn:E.
    + apply Z.eqb_eq in E. split; [discriminate|].
      intros H. exfalso. apply (H e); auto.
    + apply Z.eqb_neq in E. rewrite IH. split.
      * intros H e' [<-|H']; auto.
      * intros H e' H'. apply H. auto.
Qed.

(** The search does not look at the status byte. *)
Lemma find_from_map_clear t n k :
  find_from (map clear_slot t) n k = find_from t n k.
Proof.
  revert k. induction t as [|e t IH]; intros k; cbn [map find_from];
    [reflexivity|].
  rewrite clear_slot_number. destruct (_ =? _); auto.
Qed.

Lemma find_from_upd t n k i e' :
  find_from t n k = Some i -> dtcNumber e' = n ->
  find_from (upd (i - k) e' t) n k = Some i.
Proof.
  revert k. induction t as [|e t IH]; intros k H E'; cbn [find_from] in H;
    [discriminate|].
  destruct (dtcNumber e =? n) eqn:E.
  - injection H as <-. rewrite Nat.sub_diag. cbn [upd find_from].
    apply Z.eqb_eq in E'. now rewrite E'.
  - pose proof (find_from_some _ _ _ _ H) as (H1 & _).
    replace (i - k)%nat with (S (i - S k)) by lia. cbn [upd find_from].
    rewrite E. now apply IH.
Qed.

(** *** Clearing through the handler *)

(** Clearing the four records: every record is cleared, and clearing
    again changes nothing. *)
Lemma clear_malfunctions_spec abs :
  ABSSpec.wf abs -> ABS.g_ABS_Initialized abs = true ->
  (forall w, (w < WHEEL_MAX)%nat -> record_cleared (clear_malfunctions abs) w)
  /\ clear_malfunctions (clear_malfunctions abs) = clear_malfunctions abs.
Proof.
  intros (L1 & L2 & L3 & _) Hi.
  destruct abs as [ms p vd sys init dc ce]. cbn in *. subst init.
  destruct ms as [|m0 [|m1 [|m2 [|m3 [|m4 ms]]]]]; try discriminate L1.
  destruct dc as [|d0 [|d1 [|d2 [|d3 [|d4 dc]]]]]; try discriminate L2.
  destruct ce as [|c0 [|c1 [|c2 [|c3 [|c4 ce]]]]]; try discriminate L3.
  split.
  - intros w Hw. unfold WHEEL_MAX in Hw.
    destruct w as [|[|[|[|w]]]]; try lia; repeat split.
  - vm_compute. reflexivity.
Qed.

(** The handler on a clear-all request, past its guards. *)
Lemma clear_all_unfold abs st req response :
  g_DiagnosticService_Initialized st = true ->
  well_sized req response -> group_code req = CLEAR_ALL ->
  UDS_ClearDiagnosticInformation abs st req response
  = (E_OK, clear_malfunctions abs,
     set_table st (map clear_slot (g_DTCTable st)),
     positive_clear_response response).
Proof.
  intros Hi [S1 S2] G. unfold UDS_ClearDiagnosticInformation.
  apply Z.leb_le in S1, S2. rewrite S1, S2. cbn [andb].
  fold (group_code req). rewrite G. change (CLEAR_ALL =? 0xFFFFFF) with true.
  cbv iota beta. unfold DiagnosticService_ClearAllDTCs. rewrite Hi. reflexivity.
Qed.

(** Two clear-all requests in a row.  The first is
    answered positively, leaves every stored DTC with the cleared status
    byte and every wheel's malfunction record cleared; the second changes
    neither the DTC table nor the records nor the response. *)
Lemma clear_all_twice abs st req response :
  ABSSpec.wf abs -> ABS.g_ABS_Initialized abs = true ->
  g_DiagnosticService_Initialized st = true ->
  well_sized req response -> group_code req = CLEAR_ALL ->
  let r1 := UDS_ClearDiagnosticInformation abs st req response in
  let r2 := UDS_ClearDiagnosticInformation
              (abs_after r1) (diag_after r1) req (response_after r1) in
  responseData (response_after r1) = positive_response
  /\ (forall e, In e (g_DTCTable (diag_after r1)) -> dtcNumber e <> 0 ->
                status e = cleared_status)
  /\ (forall w, (w < WHEEL_MAX)%nat -> record_cleared (abs_after r1) w)
  /\ diag_after r2 = diag_after r1
  /\ abs_after r2 = abs_after r1
  /\ response_after r2 = response_after r1.
Proof.
  intros Hwf Ha Hi S G. cbv zeta.
  rewrite (clear_all_unfold abs st req response Hi S G).
  unfold abs_after, diag_after, response_after. cbn [fst snd].
  rewrite clear_all_unfold; [| exact Hi | exact S | exact G ].
  cbn [fst snd].
  destruct (clear_malfunctions_spec abs Hwf Ha) as [C1 C2].
  split; [reflexivity|]. split.
  - intros e He Hn. cbn in He. apply in_map_iff in He.
    destruct He as (e0 & <- & _). rewrite clear_slot_number in Hn.
    unfold clear_slot. apply Z.eqb_neq in Hn. rewrite Hn. reflexivity.
  - split; [exact C1|]. split; [|split; [exact C2|reflexivity]].
    unfold set_table. cbn. now rewrite clear_all_idempotent_table.
Qed.

(** A clear request whose code is carried by no slot of the table is
    answered with the negative response request-out-of-range, and changes
    nothing. *)
Lemma clear_unknown_code abs st req response :
  g_DiagnosticService_Initialized st = true ->
  well_sized req response -> group_code req <> CLEAR_ALL ->
  (forall e, In e (g_DTCTable st) -> dtcNumber e <> group_code req) ->
  let r := UDS_ClearDiagnosticInformation abs st req response in
  responseData (response_after r) = out_of_range_response
  /\ diag_after r = st /\ abs_after r = abs.
Proof.
  intros Hi [S1 S2] G N. cbv zeta. unfold UDS_ClearDiagnosticInformation.
  apply Z.leb_le in S1, S2. rewrite S1, S2. cbn [andb].
  fold (group_code req). apply Z.eqb_neq in G. unfold CLEAR_ALL in G.
  rewrite G. unfold DiagnosticService_ClearDTC, DiagnosticService_FindDTC.
  rewrite Hi. apply find_from_none with (k := 0%nat) in N. rewrite N.
  repeat split.
Qed.

(** C8: the code at the failing input.  The service is freshly
    initialised, so no DTC entry exists for any code; the clear request
    for code 0x000000 is nevertheless answered positively, because the
    search takes the first free slot (whose number is 0) for a match, and
    the status byte of that free slot is rewritten. *)
Theorem clear_of_code_zero_answered_positively :
  let abs := ABSSpec.cruising in
  let r := UDS_ClearDiagnosticInformation
             abs started (clear_request 0 0 0) response_buffer in
  (forall n, ~ entry_exists started n)
  /\ well_sized (clear_request 0 0 0) response_buffer
  /\ group_code (clear_request 0 0 0) = 0
  /\ responseData (response_after r) = positive_response
  /\ responseData (response_after r) <> out_of_range_response
  /\ status (entry (diag_after r) 0) = cleared_status
  /\ status (entry started 0) = zero_dtc_status.
Proof.
  cbv zeta. split.
  - intros n (e & He & Hn & _). apply Hn.
    cbn in He. repeat (destruct He as [<-|He]; [reflexivity|]). destruct He.
  - split; [split; cbn; lia|]. split; [reflexivity|].
    split; [reflexivity|]. split; [discriminate|]. split; reflexivity.
Qed.

(** A code other than 0 and 0xFFFFFF that no slot carries is rejected. *)
Example clear_of_unknown_code_rejected :
  let r := UDS_ClearDiagnosticInformation
             ABSSpec.cruising started (clear_request 0xC1 0x41 0x00)
             response_buffer in
  group_code (clear_request 0xC1 0x41 0x00) = DTC_SPEED_SENSOR_FL_MISCALIBRATED
  /\ responseData (response_after r) = out_of_range_response.
Proof. vm_compute. split; reflexivity. Qed.

(** *** What a clear keeps *)

Lemma entry_set_table_same st i e :
  (i < length (g_DTCTable st))%nat ->
  entry (set_table st (upd i e (g_DTCTable st))) i = e.
Proof. intros H. unfold entry; cbn. now apply get_upd_same. Qed.

Lemma find_dtc_some st n i :
  DiagnosticService_FindDTC st n = Some i ->
  (i < length (g_DTCTable st))%nat /\ dtcNumber (entry st i) = n.
Proof.
  intros H. apply find_from_some in H. rewrite Nat.sub_0_r in H.
  destruct H as (_ & H1 & H2). split; assumption.
Qed.

(** A re-observation of a stored DTC through
    [DiagnosticService_SetDTC]. *)
Lemma reobserve st n i wheelPos :
  g_DiagnosticService_Initialized st = true ->
  DiagnosticService_FindDTC st n = Some i ->
  let e' := entry (snd (DiagnosticService_SetDTC st n true wheelPos)) i in
  occurrenceCount e' = u32 (occurrenceCount (entry st i) + 1)
  /\ confirmedDTC (status e')
     = (if 3 <=? u32 (occurrenceCount (entry st i) + 1) then true
        else confirmedDTC (status (entry st i))).
Proof.
  intros Hi Hf. cbv zeta. destruct (find_dtc_some st n i Hf) as [L _].
  unfold DiagnosticService_SetDTC. rewrite Hi, Hf.
  unfold DiagnosticService_UpdateDTCStatus. rewrite Hf. cbn [snd].
  rewrite entry_set_table_same by exact L. split; reflexivity.
Qed.

Lemma clear_single_spec st n i :
  g_DiagnosticService_Initialized st = true ->
  DiagnosticService_FindDTC st n = Some i ->
  let st' := snd (DiagnosticService_ClearDTC st n) in
  entry st' i = with_status (entry st i) cleared_status
  /\ (forall j, j <> i -> entry st' j = entry st j)
  /\ g_DiagnosticService_Initialized st' = true
  /\ DiagnosticService_FindDTC st' n = Some i.
Proof.
  intros Hi Hf. cbv zeta. destruct (find_dtc_some st n i Hf) as [L E].
  unfold DiagnosticService_ClearDTC. rewrite Hi, Hf. cbn [snd].
  split; [now apply entry_set_table_same|]. split.
  - intros j Hj. unfold entry; cbn. apply get_upd_other. congruence.
  - split; [exact Hi|]. unfold DiagnosticService_FindDTC. cbn.
    rewrite <- (Nat.sub_0_r i) at 1. apply find_from_upd; [exact Hf|exact E].
Qed.

Lemma clear_all_spec st n i :
  g_DiagnosticService_Initialized st = true ->
  DiagnosticService_FindDTC st n = Some i -> n <> 0 ->
  let st' := snd (DiagnosticService_ClearAllDTCs st) in
  entry st' i = with_status (entry st i) cleared_status
  /\ g_DiagnosticService_Initialized st' = true
  /\ DiagnosticService_FindDTC st' n = Some i.
Proof.
  intros Hi Hf Hn. cbv zeta. destruct (find_dtc_some st n i Hf) as [L E].
  unfold DiagnosticService_ClearAllDTCs. rewrite Hi. cbn [snd]. split.
  - unfold entry, get; cbn.
    change zero_dtc with (clear_slot zero_dtc) at 1. rewrite map_nth.
    unfold clear_slot. fold (get zero_dtc (g_DTCTable st) i).
    fold (entry st i). rewrite E. apply Z.eqb_neq in Hn. now rewrite Hn.
  - split; [exact Hi|]. unfold DiagnosticService_FindDTC. cbn.
    rewrite find_from_map_clear. exact Hf.
Qed.

Lemma cleared_from_with_status e : cleared_from e (with_status e cleared_status).
Proof. repeat split. Qed.

(** What a clear keeps.  Clearing a stored DTC, by a single clear or by
    clear-all, rewrites only the status byte of its entry, which is left
    with just testNotCompletedSinceLastClear set; the number, occurrence
    count, severity, timestamps and the other fields are unchanged, and a
    single clear leaves every other slot alone.  An entry whose
    occurrence count had reached the confirmation threshold, and is below
    the largest 32-bit value (no [unsigned long] wraps there), is
    confirmed again by the very next re-observation after the clear,
    which also counts one more occurrence. *)
Theorem clear_keeps_entry_and_reconfirms st n i wheelPos :
  g_DiagnosticService_Initialized st = true ->
  DiagnosticService_FindDTC st n = Some i -> n <> 0 ->
  let e := entry st i in
  let single := snd (DiagnosticService_ClearDTC st n) in
  let all := snd (DiagnosticService_ClearAllDTCs st) in
  cleared_from e (entry single i)
  /\ cleared_from e (entry all i)
  /\ (forall j, j <> i -> entry single j = entry st j)
  /\ (CONFIRMATION_THRESHOLD <= occurrenceCount e < 2 ^ 32 - 1 ->
      let single' := snd (DiagnosticService_SetDTC single n true wheelPos) in
      let all' := snd (DiagnosticService_SetDTC all n true wheelPos) in
      confirmedDTC (status (entry single' i)) = true
      /\ occurrenceCount (entry single' i) = occurrenceCount e + 1
      /\ confirmedDTC (status (entry all' i)) = true
      /\ occurrenceCount (entry all' i) = occurrenceCount e + 1).
Proof.
  intros Hi Hf Hn. cbv zeta.
  destruct (clear_single_spec st n i Hi Hf) as (S1 & S2 & S3 & S4).
  destruct (clear_all_spec st n i Hi Hf Hn) as (A1 & A3 & A4).
  split; [rewrite S1; apply cleared_from_with_status|].
  split; [rewrite A1; apply cleared_from_with_status|].
  split; [exact S2|].
  unfold CONFIRMATION_THRESHOLD. intros R.
  destruct (reobserve _ n i wheelPos S3 S4) as [P1 P2].
  destruct (reobserve _ n i wheelPos A3 A4) as [Q1 Q2].
  rewrite S1 in P1, P2. rewrite A1 in Q1, Q2.
  cbn [occurrenceCount with_status] in *.
  assert (U : u32 (occurrenceCount (entry st i) + 1)
              = occurrenceCount (entry st i) + 1)
    by (unfold u32, wrap; apply Z.mod_small; lia).
  rewrite U in *.
  assert (T : (3 <=? occurrenceCount (entry st i) + 1) = true)
    by (apply Z.leb_le; lia).
  rewrite T in *. repeat split; assumption.
Qed.

Lemma clear_keeps_entry_witness :
  let n := DTC_SPEED_SENSOR_FL_MISCALIBRATED in
  let st := reported 32 n WHEEL_FRONT_LEFT 5 in
  let cleared := snd (DiagnosticService_ClearDTC st n) in
  occurrenceCount (entry cleared 0) = 5
  /\ confirmedDTC (status (entry st 0)) = true
  /\ confirmedDTC (status (entry cleared 0)) = false
  /\ confirmedDTC
       (status (entry (snd (DiagnosticService_SetDTC cleared n true
                               WHEEL_FRONT_LEFT)) 0)) = true.
Proof.
  cbv zeta.
  assert (N : DTC_SPEED_SENSOR_FL_MISCALIBRATED <> 0) by discriminate.
  destruct (clear_keeps_entry_and_reconfirms
              (reported 32 DTC_SPEED_SENSOR_FL_MISCALIBRATED WHEEL_FRONT_LEFT 5)
              DTC_SPEED_SENSOR_FL_MISCALIBRATED 0
              WHEEL_FRONT_LEFT eq_refl eq_refl N) as (C & _ & _ & R).
  destruct C as (C1 & _ & C2 & _).
  split; [exact C2|]. split; [reflexivity|]. split; [now rewrite C1|].
  assert (B : CONFIRMATION_THRESHOLD
              <= occurrenceCount
                   (entry (reported 32 DTC_SPEED_SENSOR_FL_MISCALIBRATED
                             WHEEL_FRONT_LEFT 5) 0) < 2 ^ 32 - 1)
    by (vm_compute; split; congruence).
  destruct (R B) as (R1 & _). exact R1.
Defined.

(** *** The occurrence counter at its maximum *)

(** At 32 bits the parametric call is [DiagnosticService_SetDTC]. *)
Lemma set_dtc_at_32 st n active wheelPos :
  DiagnosticService_SetDTC_at 32 st n active wheelPos
  = DiagnosticService_SetDTC st n active wheelPos.
Proof. reflexivity. Qed.

(** The table after [k] reports of one code on the initialised service,
    as long as the counter has not wrapped: the code sits in the first
    slot with [k] occurrences, confirmed from the third report on. *)
Lemma reported_succ bits n wheelPos k :
  reported bits n wheelPos (S k)
  = snd (DiagnosticService_SetDTC_at bits (reported bits n wheelPos k) n true
           wheelPos).
Proof. reflexivity. Qed.

Lemma reported_state bits n wheelPos k :
  n <> 0 -> (0 < k)%nat -> Z.of_nat k < 2 ^ bits ->
  reported bits n wheelPos k
  = mkState
      (upd 0 (mkDTC n (mkDTCStatus true true true (3 <=? Z.of_nat k)
                                   false false false false)
                    0 0 wheelPos (Z.of_nat k) 0 0 ABS.ABS_MALFUNCTION_NONE)
             (g_DTCTable started))
      1 DIAG_SESSION_DEFAULT true.
Proof.
  intros Hn Hk Hb. destruct k as [|k]; [lia|]. clear Hk.
  apply Z.eqb_neq in Hn. rewrite Z.eqb_sym in Hn.
  induction k as [|k IH].
  - rewrite reported_succ. change (reported bits n wheelPos 0) with started.
    unfold DiagnosticService_SetDTC_at, DiagnosticService_FindDTC.
    cbn [started DiagnosticService_Init initial snd negb
         g_DiagnosticService_Initialized g_DTCTable].
    replace (find_from (repeat zero_dtc (Z.to_nat DIAG_MAX_DTC_COUNT)) n 0)
      with (@None nat).
    2: { symmetry. apply find_from_none. intros e He.
         apply repeat_spec in He. subst e. cbn.
         apply Z.eqb_neq. exact Hn. }
    reflexivity.
  - rewrite reported_succ. rewrite IH by lia. clear IH.
    unfold DiagnosticService_SetDTC_at, DiagnosticService_FindDTC.
    cbn [g_DiagnosticService_Initialized g_DTCTable started
         DiagnosticService_Init initial snd negb].
    change (Z.to_nat DIAG_MAX_DTC_COUNT) with 32%nat.
    cbn [repeat upd find_from dtcNumber]. rewrite Z.eqb_refl.
    unfold DiagnosticService_UpdateDTCStatus_at, DiagnosticService_FindDTC.
    cbn [g_DTCTable find_from dtcNumber]. rewrite Z.eqb_refl.
    unfold entry, get, set_table.
    cbn [g_DTCTable nth status occurrenceCount pendingDTC confirmedDTC
         testNotCompletedSinceLastClear testFailedSinceLastClear
         testNotCompletedThisOperationCycle warningIndicatorRequested
         dtcNumber severity functionalUnit affectedWheel
         firstFailureTimestamp malfunctionType snd upd
         g_ActiveDTCCount g_CurrentSession g_DiagnosticService_Initialized].
    assert (wrap bits (Z.of_nat (S k) + 1) = Z.of_nat (S (S k))) as W.
    { unfold wrap. rewrite Z.mod_small by lia. lia. }
    rewrite W.
    assert ((if 3 <=? Z.of_nat (S (S k)) then true else 3 <=? Z.of_nat (S k))
            = (3 <=? Z.of_nat (S (S k)))) as C.
    { destruct (3 <=? Z.of_nat (S (S k))) eqn:E; [reflexivity|].
      apply Z.leb_gt in E. apply Z.leb_gt. lia. }
    rewrite C. reflexivity.
Qed.

(** A re-observation of a stored DTC, [unsigned long] being [bits]
    wide. *)
Lemma reobserve_at bits st n i wheelPos :
  g_DiagnosticService_Initialized st = true ->
  DiagnosticService_FindDTC st n = Some i ->
  let e' := entry (snd (DiagnosticService_SetDTC_at bits st n true wheelPos)) i in
  occurrenceCount e' = wrap bits (occurrenceCount (entry st i) + 1)
  /\ confirmedDTC (status e')
     = (if 3 <=? wrap bits (occurrenceCount (entry st i) + 1) then true
        else confirmedDTC (status (entry st i))).
Proof.
  intros Hi Hf. cbv zeta. destruct (find_dtc_some st n i Hf) as [L _].
  unfold DiagnosticService_SetDTC_at. rewrite Hi, Hf.
  unfold DiagnosticService_UpdateDTCStatus_at. rewrite Hf. cbn [snd].
  rewrite entry_set_table_same by exact L. split; reflexivity.
Qed.

(** C10.  The re-confirmation after a clear fails at the largest value of
    the occurrence counter, whatever the width of [unsigned long]: after
    [ULONG_MAX] reports of a code the entry is confirmed with that count;
    a clear (single or clear-all) keeps the count and resets the status;
    the very next re-observation wraps the count to 0, below the
    confirmation threshold, and the entry is not confirmed again. *)
Theorem confirmation_lost_at_counter_maximum bits n wheelPos :
  32 <= bits -> n <> 0 ->
  let st := reported bits n wheelPos (Z.to_nat (ULONG_MAX bits)) in
  let single := snd (DiagnosticService_ClearDTC st n) in
  let all := snd (DiagnosticService_ClearAllDTCs st) in
  let single' := snd (DiagnosticService_SetDTC_at bits single n true wheelPos) in
  let all' := snd (DiagnosticService_SetDTC_at bits all n true wheelPos) in
  DiagnosticService_FindDTC st n = Some 0%nat
  /\ occurrenceCount (entry st 0) = ULONG_MAX bits
  /\ CONFIRMATION_THRESHOLD <= occurrenceCount (entry st 0)
  /\ confirmedDTC (status (entry st 0)) = true
  /\ cleared_from (entry st 0) (entry single 0)
  /\ cleared_from (entry st 0) (entry all 0)
  /\ occurrenceCount (entry single' 0) = 0
  /\ confirmedDTC (status (entry single' 0)) = false
  /\ occurrenceCount (entry all' 0) = 0
  /\ confirmedDTC (status (entry all' 0)) = false.
Proof.
  intros Hb Hn. cbv zeta. unfold ULONG_MAX, CONFIRMATION_THRESHOLD.
  assert (2 ^ 32 <= 2 ^ bits) as P by (apply Z.pow_le_mono_r; lia).
  assert (2 ^ 32 = 4294967296) as P32 by reflexivity.
  set (k := Z.to_nat (2 ^ bits - 1)).
  assert (Z.of_nat k = 2 ^ bits - 1) as K by (unfold k; lia).
  rewrite (reported_state bits n wheelPos k Hn) by lia.
  rewrite K.
  replace (3 <=? 2 ^ bits - 1) with true by (symmetry; apply Z.leb_le; lia).
  set (st := mkState _ 1 DIAG_SESSION_DEFAULT true).
  assert (g_DiagnosticService_Initialized st = true) as Hi by reflexivity.
  assert (DiagnosticService_FindDTC st n = Some 0%nat) as Hf.
  { unfold DiagnosticService_FindDTC, st.
    cbn [g_DTCTable started DiagnosticService_Init initial snd negb
         g_DiagnosticService_Initialized].
    change (Z.to_nat DIAG_MAX_DTC_COUNT) with 32%nat.
    cbn [repeat upd find_from dtcNumber]. now rewrite Z.eqb_refl. }
  assert (occurrenceCount (entry st 0) = 2 ^ bits - 1) as Ec by reflexivity.
  assert (confirmedDTC (status (entry st 0)) = true) as Ek by reflexivity.
  assert (wrap bits (2 ^ bits - 1 + 1) = 0) as W.
  { unfold wrap. replace (2 ^ bits - 1 + 1) with (2 ^ bits) by lia.
    apply Z.mod_same. lia. }
  destruct (clear_single_spec st n 0 Hi Hf) as (S1 & _ & S3 & S4).
  destruct (clear_all_spec st n 0 Hi Hf Hn) as (A1 & A3 & A4).
  destruct (reobserve_at bits _ n 0 wheelPos S3 S4) as [P1 P2].
  destruct (reobserve_at bits _ n 0 wheelPos A3 A4) as [Q1 Q2].
  rewrite S1 in P1, P2. rewrite A1 in Q1, Q2.
  cbn [occurrenceCount status confirmedDTC with_status cleared_status]
    in P1, P2, Q1, Q2.
  rewrite Ec, W in P1, P2, Q1, Q2.
  split; [exact Hf|]. split; [exact Ec|]. split; [rewrite Ec; lia|].
  split; [exact Ek|].
  split; [rewrite S1; apply cleared_from_with_status|].
  split; [rewrite A1; apply cleared_from_with_status|].
  split; [exact P1|]. split; [exact P2|]. split; [exact Q1|exact Q2].
Qed.

Lemma confirmation_lost_at_counter_maximum_witness :
  let n := DTC_SPEED_SENSOR_FL_MISCALIBRATED in
  let st := reported 32 n WHEEL_FRONT_LEFT (Z.to_nat (ULONG_MAX 32)) in
  let cleared := snd (DiagnosticService_ClearDTC st n) in
  let again :=
    snd (DiagnosticService_SetDTC_at 32 cleared n true WHEEL_FRONT_LEFT) in
  occurrenceCount (entry st 0) = ULONG_MAX 32
  /\ confirmedDTC (status (entry st 0)) = true
  /\ occurrenceCount (entry again 0) = 0
  /\ confirmedDTC (status (entry again 0)) = false.
Proof.
  cbv zeta.
  assert (32 <= 32) as B by (apply Z.le_refl).
  assert (DTC_SPEED_SENSOR_FL_MISCALIBRATED <> 0) as N by discriminate.
  destruct (confirmation_lost_at_counter_maximum 32
              DTC_SPEED_SENSOR_FL_MISCALIBRATED WHEEL_FRONT_LEFT B N)
    as (_ & C & _ & D & _ & _ & E & F & _).
  split; [exact C|]. split; [exact D|]. split; [exact E|exact F].
Defined.

End DiagnosticFacts.

(** ** Speed sensor component: services, diagnostics and life cycle *)

Module SensorServiceFacts.
Import SpeedSensor SpeedSensorSpec SensorServiceSpec.

Lemma wf_update_diag st w : wf st -> wf (SpeedSensor_UpdateDiagnostics st w).
Proof. intros H. unfold SpeedSensor_UpdateDiagnostics. now apply SpeedSensorFacts.wf_set_sensor. Qed.

(** What the wheel loop of the main function leaves in a wheel is what
    the iteration of that wheel leaves: the iterations of the other wheels
    do not touch it. *)
Lemma main_function_wheel (P : SpeedSensorData_t -> Prop) rte st w :
  wf st -> (w < WHEEL_MAX)%nat ->
  (forall st', wf st' -> sensor st' w = sensor st w ->
               P (sensor (process_wheel rte st' w) w)) ->
  P (sensor (fold_left (process_wheel rte) wheels st) w).
Proof.
  intros Hwf Hw H. cbn [fold_left wheels].
  unfold WHEEL_FRONT_LEFT, WHEEL_FRONT_RIGHT, WHEEL_REAR_LEFT, WHEEL_REAR_RIGHT.
  pose proof (SpeedSensorFacts.wf_process_wheel rte st 0 Hwf) as W1.
  pose proof (SpeedSensorFacts.wf_process_wheel rte _ 1 W1) as W2.
  pose proof (SpeedSensorFacts.wf_process_wheel rte _ 2 W2) as W3.
  unfold WHEEL_MAX in Hw.
  destruct w as [|[|[|[|w]]]]; try lia.
  - rewrite !SpeedSensorFacts.process_wheel_other by lia. now apply H.
  - rewrite !SpeedSensorFacts.process_wheel_other by lia.
    apply H; [assumption|]. now rewrite SpeedSensorFacts.process_wheel_other by lia.
  - rewrite !SpeedSensorFacts.process_wheel_other by lia.
    apply H; [assumption|]. now rewrite !SpeedSensorFacts.process_wheel_other by lia.
  - apply H; [assumption|]. now rewrite !SpeedSensorFacts.process_wheel_other by lia.
Qed.

Lemma check_sensors_from_all st ws :
  check_sensors_from st ws = true <-> Forall (in_order st) ws.
Proof.
  induction ws as [|w ws IH]; simpl.
  - split; [constructor|reflexivity].
  - destruct (status (rawData (sensor st w))) eqn:Es;
    destruct (speedValid (speedData (sensor st w))) eqn:Ev; simpl;
      try (split; [discriminate|];
           intros F; inversion F as [|? ? [H1 H2] F']; subst;
           rewrite ?Es, ?Ev in *; discriminate).
    rewrite IH. split.
    + intros F. constructor; [|assumption]. now split.
    + intros F. now inversion F.
Qed.

(** X1.  On an initialised component [SpeedSensor_CheckAllSensors]
    succeeds, and it reports that all sensors are in order exactly when
    every wheel has hardware status OK and a valid sample; the early exit
    of its loop loses no wheel. *)
Theorem check_all_sensors_report st :
  g_SpeedSensor_Initialized st = true ->
  fst (SpeedSensor_CheckAllSensors st) = E_OK
  /\ (snd (SpeedSensor_CheckAllSensors st) = true <->
      forall w, (w < WHEEL_MAX)%nat -> in_order st w).
Proof.
  intros Hi. unfold SpeedSensor_CheckAllSensors. rewrite Hi. cbn [fst snd].
  split; [reflexivity|].
  rewrite check_sensors_from_all. unfold wheels, WHEEL_MAX. split.
  - intros F w Hw.
    inversion F as [|? ? H0 F1]; subst. inversion F1 as [|? ? H1 F2]; subst.
    inversion F2 as [|? ? H2 F3]; subst. inversion F3 as [|? ? H3 F4]; subst.
    destruct w as [|[|[|[|w]]]]; try lia; assumption.
  - intros H. repeat constructor; apply H; unfold WHEEL_FRONT_LEFT,
      WHEEL_FRONT_RIGHT, WHEEL_REAR_LEFT, WHEEL_REAR_RIGHT; lia.
Qed.

Lemma check_all_sensors_report_witness :
  fst (SpeedSensor_CheckAllSensors after_cruise_cycle) = E_OK
  /\ snd (SpeedSensor_CheckAllSensors after_cruise_cycle) = true
  /\ in_order after_cruise_cycle 2.
Proof.
  destruct (check_all_sensors_report after_cruise_cycle eq_refl) as [H1 H2].
  split; [exact H1|]. split; [reflexivity|].
  apply (proj1 H2); [reflexivity | unfold WHEEL_MAX; lia].
Defined.

(** The services refuse a sample that the main function would process:
    after [SpeedSensor_Init] and before the first cycle no sensor is in
    order. *)
Example sensors_not_in_order_before_first_cycle :
  SpeedSensor_CheckAllSensors started = (E_OK, false).
Proof. reflexivity. Qed.

(** The record [SpeedSensor_CalculateSpeed] leaves in its wheel. *)
Lemma calculate_fields st w :
  wf st -> (w < WHEEL_MAX)%nat ->
  let d := sensor st w in
  let d' := sensor (SpeedSensor_CalculateSpeed st w) w in
  rawData d' = rawData d
  /\ calibration d' = calibration d
  /\ speedValid (speedData d') = speedValid (speedData d)
  /\ errorCount (diagnostics d') = errorCount (diagnostics d)
  /\ (0 < timeInterval (rawData d) ->
      0 < pulsesPerRevolution (calibration d) ->
      (wheelSpeedRaw (speedData d')
       == pulses_to_kmh (pulseCount (rawData d))
                        (pulsesPerRevolution (calibration d))
                        (timeInterval (rawData d))
                        (wheelCircumference (calibration d)))%Q
      /\ (wheelSpeed (speedData d')
          == wheelSpeedRaw (speedData d') * correctionFactor (calibration d)
             + offsetValue (calibration d))%Q
      /\ (accelerationX (speedData d')
          == (wheelSpeed (speedData d') - get 0%Q (lastSpeed st) w) * 100)%Q
      /\ totalPulseCount (diagnostics d')
         = u32 (totalPulseCount (diagnostics d) + pulseCount (rawData d))).
Proof.
  intros [H1 H2] Hw d. unfold SpeedSensor_CalculateSpeed. fold d.
  destruct (0 <? timeInterval (rawData d)) eqn:E1;
  destruct (0 <? pulsesPerRevolution (calibration d)) eqn:E2; cbn [andb];
    cbv zeta.
  1: rewrite SpeedSensorFacts.sensor_mk_same by lia.
  2-4: rewrite SpeedSensorFacts.sensor_set_same by lia.
  all: cbn; repeat (split; [reflexivity|]).
  2-4: intros T P; apply Z.ltb_ge in E1 || apply Z.ltb_ge in E2; lia.
  intros T P. unfold pulses_to_kmh, SPEED_SENSOR_SAMPLE_RATE_MS.
  assert (~ (inject_Z (timeInterval (rawData d)) == 0)%Q) as NT.
  { intros E. unfold Qeq in E; simpl in E. lia. }
  assert (~ (inject_Z (pulsesPerRevolution (calibration d)) == 0)%Q) as NP.
  { intros E. unfold Qeq in E; simpl in E. lia. }
  split; [field; split; assumption|].
  split; [reflexivity|]. split; [|reflexivity].
  field; split; assumption.
Qed.

Lemma acceleration_bound (a : Q) :
  Qgtb a 20 || Qltb a (-20) = false <-> (Qabs a <= 20)%Q.
Proof.
  rewrite orb_false_iff. unfold Qgtb. rewrite !Qltb_false.
  rewrite Qabs_Qle_condition. split; intros [A B]; split; assumption.
Qed.

(** The record [SpeedSensor_ValidateSpeedData] leaves in its wheel: the
    verdict, and a quality grade of 100, 50, 30 or 0. *)
Lemma validate_fields st w :
  wf st -> (w < WHEEL_MAX)%nat ->
  let d := sensor st w in
  let d' := sensor (SpeedSensor_ValidateSpeedData st w) w in
  rawData d' = rawData d
  /\ calibration d' = calibration d
  /\ diagnostics d' = diagnostics d
  /\ wheelSpeed (speedData d') = wheelSpeed (speedData d)
  /\ wheelSpeedRaw (speedData d') = wheelSpeedRaw (speedData d)
  /\ accelerationX (speedData d') = accelerationX (speedData d)
  /\ speedValid (speedData d') = verdict d
  /\ (qualityFactor (speedData d') = 100 <->
      verdict d = true /\ (Qabs (accelerationX (speedData d)) <= 20)%Q)
  /\ (verdict d = true ->
      qualityFactor (speedData d') = 100 \/ qualityFactor (speedData d') = 30)
  /\ (verdict d = false -> qualityFactor (speedData d') <= 50)
  /\ 0 <= qualityFactor (speedData d') <= 100.
Proof.
  intros [H1 H2] Hw d. unfold SpeedSensor_ValidateSpeedData. cbv zeta. fold d.
  rewrite <- (acceleration_bound (accelerationX (speedData d))).
  unfold verdict.
  destruct (Qltb (wheelSpeed (speedData d)) 0
            || Qgtb (wheelSpeed (speedData d)) MAX_WHEEL_SPEED_KMH);
  destruct (status_is_ok (status (rawData d)));
  destruct (calibrationValid (calibration d));
  destruct (Qgtb (accelerationX (speedData d)) 20
            || Qltb (accelerationX (speedData d)) (-20));
    cbv beta iota zeta delta [negb];
    rewrite SpeedSensorFacts.sensor_set_same by lia; cbn;
    repeat (split; [reflexivity|]);
    (split; [split; [intros E; try discriminate E; split; reflexivity
                    | intros [A B]; try discriminate A; try discriminate B;
                      reflexivity]|]);
    (split; [intros E; try discriminate E; auto|]);
    (split; [intros E; try discriminate E; lia|]); lia.
Qed.

(** The record [SpeedSensor_UpdateDiagnostics] leaves in its wheel. *)
Lemma update_diagnostics_fields st w :
  wf st -> (w < WHEEL_MAX)%nat ->
  let d := sensor st w in
  let d' := sensor (SpeedSensor_UpdateDiagnostics st w) w in
  rawData d' = rawData d
  /\ calibration d' = calibration d
  /\ speedData d' = speedData d
  /\ errorCount (diagnostics d')
     = (if status_is_ok (status (rawData d)) && speedValid (speedData d)
        then errorCount (diagnostics d)
        else u16 (errorCount (diagnostics d) + 1))
  /\ lastStatus (diagnostics d') = status (rawData d)
  /\ totalPulseCount (diagnostics d') = totalPulseCount (diagnostics d)
  /\ calibrationCycles (diagnostics d') = calibrationCycles (diagnostics d).
Proof.
  intros [H1 H2] Hw d. unfold SpeedSensor_UpdateDiagnostics. fold d.
  rewrite SpeedSensorFacts.sensor_set_same by lia.
  destruct (status_is_ok (status (rawData d)));
  destruct (speedValid (speedData d)); cbn; repeat split; reflexivity.
Qed.

(** The state the wheel iteration works on once the raw data are stored. *)
Lemma raw_stored st w raw :
  wf st -> (w < WHEEL_MAX)%nat ->
  let st1 := set_sensor st w (set_raw (sensor st w) raw) in
  wf st1
  /\ rawData (sensor st1 w) = raw
  /\ calibration (sensor st1 w) = calibration (sensor st w)
  /\ speedData (sensor st1 w) = speedData (sensor st w)
  /\ diagnostics (sensor st1 w) = diagnostics (sensor st w).
Proof.
  intros Hwf Hw st1. split; [now apply SpeedSensorFacts.wf_set_sensor|].
  destruct Hwf as [H1 H2]. unfold st1.
  rewrite SpeedSensorFacts.sensor_set_same by lia. cbn. auto.
Qed.

(** What the iteration of a wheel whose read succeeded leaves in the
    wheel, in terms of the record its calculation step produced. *)
Lemma process_wheel_fields rte st w :
  wf st -> (w < WHEEL_MAX)%nat -> fst (rte w) = E_OK ->
  let d := sensor st w in
  let d' := sensor (process_wheel rte st w) w in
  rawData d' = snd (rte w)
  /\ calibration d' = calibration d
  /\ (qualityFactor (speedData d') = 100 <->
      speedValid (speedData d') = true
      /\ (Qabs (accelerationX (speedData d')) <= 20)%Q)
  /\ (speedValid (speedData d') = true ->
      qualityFactor (speedData d') = 100 \/ qualityFactor (speedData d') = 30)
  /\ (speedValid (speedData d') = false -> qualityFactor (speedData d') <= 50)
  /\ 0 <= qualityFactor (speedData d') <= 100
  /\ (speedValid (speedData d') = true -> status (snd (rte w)) = SENSOR_STATUS_OK)
  /\ errorCount (diagnostics d')
     = (if speedValid (speedData d') then errorCount (diagnostics d)
        else u16 (errorCount (diagnostics d) + 1))
  /\ lastStatus (diagnostics d') = status (snd (rte w)).
Proof.
  intros Hwf Hw Hr d d'. unfold d'.
  rewrite SpeedSensorFacts.process_wheel_unfold by assumption.
  destruct (raw_stored st w (snd (rte w)) Hwf Hw) as (W1 & R1 & C1 & _ & D1).
  set (st1 := set_sensor st w (set_raw (sensor st w) (snd (rte w)))) in *.
  destruct (calculate_fields st1 w W1 Hw) as (R2 & C2 & _ & E2 & _).
  pose proof (SpeedSensorFacts.wf_calculate st1 w W1) as W2.
  set (st2 := SpeedSensor_CalculateSpeed st1 w) in *.
  destruct (validate_fields st2 w W2 Hw)
    as (R3 & C3 & D3 & _ & _ & A3 & V3 & Q1 & Q2 & Q3 & Q4).
  pose proof (SpeedSensorFacts.wf_validate st2 w W2) as W3.
  set (st3 := SpeedSensor_ValidateSpeedData st2 w) in *.
  destruct (update_diagnostics_fields st3 w W3 Hw)
    as (R4 & C4 & S4 & E4 & L4 & _).
  rewrite R4, C4, S4, E4, L4, R3, C3, D3, E2, R2, C2, R1, C1, D1, A3, V3.
  repeat (split; [reflexivity || assumption|]).
  assert (verdict (sensor st2 w) = true -> status (snd (rte w)) = SENSOR_STATUS_OK)
    as Hok.
  { intros V. apply SpeedSensorFacts.verdict_true in V.
    destruct V as (_ & V & _). now rewrite R2, R1 in V. }
  split; [exact Hok|]. split; [|reflexivity].
  fold d. destruct (verdict (sensor st2 w)) eqn:V.
  - rewrite (Hok eq_refl). reflexivity.
  - now rewrite andb_false_r.
Qed.

(** X4.  A cycle counts one error (modulo 2^16) for a wheel whose read
    succeeded and whose sample it found invalid, and none for a valid
    sample; it records the hardware status it read. *)
Theorem error_counted_per_invalid_sample rte st w :
  wf st -> (w < WHEEL_MAX)%nat -> g_SpeedSensor_Initialized st = true ->
  fst (rte w) = E_OK ->
  let d := sensor st w in
  let d' := sensor (snd (SpeedSensor_MainFunction rte st)) w in
  errorCount (diagnostics d')
  = (if speedValid (speedData d') then errorCount (diagnostics d)
     else u16 (errorCount (diagnostics d) + 1))
  /\ lastStatus (diagnostics d') = status (snd (rte w)).
Proof.
  intros Hwf Hw Hi Hr d d'. unfold d', SpeedSensor_MainFunction.
  rewrite Hi. cbn [snd].
  apply (main_function_wheel
           (fun x =>
              errorCount (diagnostics x)
              = (if speedValid (speedData x) then errorCount (diagnostics d)
                 else u16 (errorCount (diagnostics d) + 1))
              /\ lastStatus (diagnostics x) = status (snd (rte w))));
    try assumption.
  intros st' Hwf' Hs.
  destruct (process_wheel_fields rte st' w Hwf' Hw Hr)
    as (_ & _ & _ & _ & _ & _ & _ & E & L).
  rewrite Hs in E. fold d in E. split; assumption.
Qed.

Lemma error_counted_per_invalid_sample_witness :
  errorCount (diagnostics
                (sensor (snd (SpeedSensor_MainFunction open_circuit_cycle started)) 3))
  = 1
  /\ lastStatus (diagnostics
                   (sensor (snd (SpeedSensor_MainFunction open_circuit_cycle started)) 3))
     = SENSOR_STATUS_OPEN_CIRCUIT.
Proof.
  destruct (error_counted_per_invalid_sample open_circuit_cycle started 3
              SpeedSensorFacts.wf_started (ltac:(unfold WHEEL_MAX; lia))
              eq_refl eq_refl) as [E L].
  split; [rewrite E; reflexivity | exact L].
Defined.

(** X5.  A wheel whose read fails in a cycle keeps its whole record: the
    sample of the earlier cycle stays as it was, valid or not, and no error
    is counted for the failed read. *)
Theorem failed_read_keeps_wheel_record rte st w :
  (w < WHEEL_MAX)%nat -> fst (rte w) <> E_OK ->
  sensor (snd (SpeedSensor_MainFunction rte st)) w = sensor st w.
Proof.
  intros Hw Hr. unfold SpeedSensor_MainFunction.
  destruct (g_SpeedSensor_Initialized st); [|reflexivity]. cbn [snd].
  assert (forall st', process_wheel rte st' w = st') as Hsame.
  { intros st'. unfold process_wheel, SpeedSensor_ProcessRawData.
    apply Nat.ltb_lt in Hw. rewrite Hw. destruct (rte w) as [r raw].
    simpl in Hr. apply Z.eqb_neq in Hr. rewrite Hr. cbn. now rewrite Hr. }
  cbn [fold_left wheels].
  unfold WHEEL_FRONT_LEFT, WHEEL_FRONT_RIGHT, WHEEL_REAR_LEFT, WHEEL_REAR_RIGHT.
  unfold WHEEL_MAX in Hw.
  destruct w as [|[|[|[|w]]]]; try lia;
    rewrite ?Hsame, ?SpeedSensorFacts.process_wheel_other by lia;
    rewrite ?Hsame, ?SpeedSensorFacts.process_wheel_other by lia;
    reflexivity.
Qed.

Lemma failed_read_keeps_wheel_record_witness :
  sensor (snd (SpeedSensor_MainFunction front_left_read_fails after_cruise_cycle)) 0
  = sensor after_cruise_cycle 0
  /\ speedValid
       (speedData
          (sensor (snd (SpeedSensor_MainFunction front_left_read_fails after_cruise_cycle)) 0))
     = true.
Proof.
  assert (fst (front_left_read_fails 0%nat) <> E_OK) as H by discriminate.
  pose proof (failed_read_keeps_wheel_record front_left_read_fails after_cruise_cycle 0
                (ltac:(unfold WHEEL_MAX; lia)) H) as E.
  split; [exact E|]. rewrite E. reflexivity.
Defined.

(** X7.  An accepted [SpeedSensor_SetCalibration] is read back by
    [SpeedSensor_GetCalibration] with the validity flag set, counts one
    calibration cycle (modulo 2^16) and touches neither the samples nor
    the other wheels; a rejected one changes nothing. *)
Theorem set_calibration_round_trip st w cal :
  wf st ->
  let r := fst (SpeedSensor_SetCalibration st w cal) in
  let st' := snd (SpeedSensor_SetCalibration st w cal) in
  (r = E_OK ->
   SpeedSensor_GetCalibration st' w
   = (E_OK, mkCal (correctionFactor cal) (offsetValue cal)
                  (pulsesPerRevolution cal) (wheelCircumference cal) true
                  (calibrationTimestamp cal))
   /\ calibrationCycles (diagnostics (sensor st' w))
      = u16 (calibrationCycles (diagnostics (sensor st w)) + 1)
   /\ speedData (sensor st' w) = speedData (sensor st w)
   /\ rawData (sensor st' w) = rawData (sensor st w)
   /\ forall w', w' <> w -> sensor st' w' = sensor st w')
  /\ (r <> E_OK -> r = E_NOT_OK /\ st' = st).
Proof.
  intros [H1 H2] r st'. unfold r, st', SpeedSensor_SetCalibration,
    SpeedSensor_GetCalibration.
  destruct (w <? WHEEL_MAX)%nat eqn:Ew;
  destruct (g_SpeedSensor_Initialized st) eqn:Ei; cbn [andb];
    try (split; [discriminate | intros _; split; reflexivity]).
  destruct (calibration_accepted cal);
    try (split; [discriminate | intros _; split; reflexivity]).
  cbn [fst snd]. split; [intros _ | intros C; now elim C].
  apply Nat.ltb_lt in Ew. cbn [g_SpeedSensor_Initialized set_sensor andb].
  rewrite Ei. rewrite SpeedSensorFacts.sensor_set_same by lia. cbn.
  repeat (split; [reflexivity|]).
  intros w' Hn. apply SpeedSensorFacts.sensor_set_other. congruence.
Qed.

Lemma set_calibration_round_trip_witness :
  let cal := mkCal (11 # 10) 0 48 2 false 7 in
  SpeedSensor_GetCalibration (snd (SpeedSensor_SetCalibration started 1 cal)) 1
  = (E_OK, mkCal (11 # 10) 0 48 2 true 7).
Proof.
  exact (proj1 (proj1 (set_calibration_round_trip started 1
                         (mkCal (11 # 10) 0 48 2 false 7)
                         SpeedSensorFacts.wf_started) eq_refl)).
Defined.

(** [SpeedSensor_ClearErrors] zeroes the error counter and the error
    timestamp of its wheel, as [SpeedSensor_GetDiagnostics] then reports,
    and keeps the pulse total, the calibration cycle count, the last
    status, the samples and the other wheels. *)
Theorem clear_errors_resets_error_counters st w :
  wf st -> (w < WHEEL_MAX)%nat -> g_SpeedSensor_Initialized st = true ->
  let g := diagnostics (sensor st w) in
  let st' := snd (SpeedSensor_ClearErrors st w) in
  fst (SpeedSensor_ClearErrors st w) = E_OK
  /\ SpeedSensor_GetDiagnostics st' w
     = (E_OK, mkDiag (totalPulseCount g) 0 (calibrationCycles g) (lastStatus g) 0)
  /\ speedData (sensor st' w) = speedData (sensor st w)
  /\ calibration (sensor st' w) = calibration (sensor st w)
  /\ forall w', w' <> w -> sensor st' w' = sensor st w'.
Proof.
  intros [H1 H2] Hw Hi g st'.
  unfold st', SpeedSensor_ClearErrors, SpeedSensor_GetDiagnostics.
  rewrite Hi, (proj2 (Nat.ltb_lt w WHEEL_MAX) Hw). cbn [andb fst snd].
  cbn [g_SpeedSensor_Initialized set_sensor]. rewrite Hi. cbn [andb].
  rewrite SpeedSensorFacts.sensor_set_same by lia. cbn.
  repeat (split; [reflexivity|]).
  intros w' Hn. apply SpeedSensorFacts.sensor_set_other. congruence.
Qed.

Lemma clear_errors_resets_error_counters_witness :
  let st := snd (SpeedSensor_MainFunction open_circuit_cycle started) in
  errorCount (diagnostics (sensor st 0)) = 1
  /\ SpeedSensor_GetDiagnostics (snd (SpeedSensor_ClearErrors st 0)) 0
     = (E_OK, mkDiag 10 0 0 SENSOR_STATUS_OPEN_CIRCUIT 0).
Proof.
  split; [reflexivity|].
  assert (wf (snd (SpeedSensor_MainFunction open_circuit_cycle started))) as W
    by (split; reflexivity).
  exact (proj1 (proj2 (clear_errors_resets_error_counters _ 0 W
                         (ltac:(unfold WHEEL_MAX; lia)) eq_refl))).
Defined.

Lemma sensor_after_init st w :
  g_SpeedSensor_Initialized st = false -> (w < WHEEL_MAX)%nat ->
  sensor (snd (SpeedSensor_Init st)) w = init_wheel w.
Proof.
  intros Hi Hw. unfold SpeedSensor_Init. rewrite Hi. cbn [negb snd].
  unfold WHEEL_MAX in Hw.
  destruct w as [|[|[|[|w]]]]; try lia; reflexivity.
Qed.

(** X8.  Life cycle of the component.  [SpeedSensor_Init] on an initialised
    component changes nothing, so a calibration in use survives it.  After
    [SpeedSensor_DeInit] a new [SpeedSensor_Init] puts every wheel back to
    the default coefficients (factor 1, offset 0, 60 pulses, 2.1 m) with an
    invalid sample and status, whatever was set before. *)
Theorem init_life_cycle st :
  (g_SpeedSensor_Initialized st = true -> SpeedSensor_Init st = (E_OK, st))
  /\ (let st' := snd (SpeedSensor_Init (snd (SpeedSensor_DeInit st))) in
      g_SpeedSensor_Initialized st' = true
      /\ SpeedSensor_Init st' = (E_OK, st')
      /\ forall w, (w < WHEEL_MAX)%nat ->
           SpeedSensor_GetCalibration st' w = (E_OK, default_cal)
           /\ speedValid (speedData (sensor st' w)) = false
           /\ status (rawData (sensor st' w)) = SENSOR_STATUS_INVALID
           /\ diagnostics (sensor st' w) = zero_diag).
Proof.
  split.
  - intros Hi. unfold SpeedSensor_Init. now rewrite Hi.
  - cbv zeta. split; [reflexivity|]. split; [reflexivity|].
    intros w Hw.
    assert (sensor (snd (SpeedSensor_Init (snd (SpeedSensor_DeInit st)))) w
            = init_wheel w) as E by (now apply sensor_after_init).
    unfold SpeedSensor_GetCalibration.
    rewrite (proj2 (Nat.ltb_lt w WHEEL_MAX) Hw), E.
    repeat split; reflexivity.
Qed.

(** Requests the component refuses.  With a wheel position outside
    the four wheels, or before initialisation (after [SpeedSensor_DeInit]),
    every wheel service returns [E_NOT_OK], and those that write keep the
    state as it is; the main function and the sensor check refuse an
    uninitialised component in the same way. *)
Theorem refused_requests_change_nothing st w cal :
  ((WHEEL_MAX <= w)%nat \/ g_SpeedSensor_Initialized st = false ->
   fst (SpeedSensor_ReadRawData st w) = E_NOT_OK
   /\ fst (SpeedSensor_GetSpeedData st w) = E_NOT_OK
   /\ fst (SpeedSensor_GetCalibration st w) = E_NOT_OK
   /\ fst (SpeedSensor_ValidateCalibration st w) = E_NOT_OK
   /\ fst (SpeedSensor_GetDiagnostics st w) = E_NOT_OK
   /\ SpeedSensor_SetCalibration st w cal = (E_NOT_OK, st)
   /\ SpeedSensor_ClearErrors st w = (E_NOT_OK, st))
  /\ (forall rte,
        let st0 := snd (SpeedSensor_DeInit st) in
        SpeedSensor_MainFunction rte st0 = (E_NOT_OK, st0)
        /\ fst (SpeedSensor_CheckAllSensors st0) = E_NOT_OK).
Proof.
  split.
  - intros H.
    assert ((w <? WHEEL_MAX)%nat && g_SpeedSensor_Initialized st = false) as G.
    { destruct H as [H|H].
      - apply Nat.ltb_ge in H. now rewrite H.
      - rewrite H. apply andb_false_r. }
    unfold SpeedSensor_ReadRawData, SpeedSensor_GetSpeedData,
      SpeedSensor_GetCalibration, SpeedSensor_ValidateCalibration,
      SpeedSensor_GetDiagnostics, SpeedSensor_SetCalibration,
      SpeedSensor_ClearErrors.
    rewrite G. repeat split; reflexivity.
  - intros rte st0. split; reflexivity.
Qed.

Lemma refused_requests_change_nothing_witness :
  SpeedSensor_SetCalibration after_cruise_cycle 4 default_cal = (E_NOT_OK, after_cruise_cycle)
  /\ fst (SpeedSensor_GetSpeedData after_cruise_cycle 4) = E_NOT_OK.
Proof.
  destruct (proj1 (refused_requests_change_nothing after_cruise_cycle 4 default_cal))
    as (_ & G & _ & _ & _ & S & _).
  - left. unfold WHEEL_MAX. lia.
  - split; [exact S | exact G].
Defined.

End SensorServiceFacts.

(** ** Malfunction detector: services, system state and debouncing *)

Module DetectorServiceFacts.
Import ABS ABSSpec DetectorServiceSpec.

(** X10.  [ABS_DetermineSeverity] never grades a malfunction as "none",
    and for every malfunction type a larger deviation never gets a lower
    severity. *)
Theorem severity_grows_with_deviation type (d1 d2 : Q) :
  (d1 <= d2)%Q ->
  severity_value (ABS_DetermineSeverity type d1)
  <= severity_value (ABS_DetermineSeverity type d2)
  /\ ABS_DetermineSeverity type d1 <> ABS_SEVERITY_NONE.
Proof.
  intros H. unfold ABS_DetermineSeverity.
  destruct type;
    repeat match goal with
    | |- context [Qgtb ?a ?b] => destruct (Qgtb a b) eqn:?
    end;
    qcmp; cbn; (split; [try lia; exfalso; lra | discriminate]).
Qed.

Lemma severity_grows_with_deviation_witness :
  severity_value (ABS_DetermineSeverity ABS_MALFUNCTION_SPEED_SENSOR_MISCALIBRATION 12)
  <= severity_value
       (ABS_DetermineSeverity ABS_MALFUNCTION_SPEED_SENSOR_MISCALIBRATION 16).
Proof.
  assert (12 <= 16)%Q as H by (unfold Qle; simpl; lia).
  exact (proj1 (severity_grows_with_deviation
                  ABS_MALFUNCTION_SPEED_SENSOR_MISCALIBRATION 12 16 H)).
Defined.

Lemma existsb_wheels (f : nat -> bool) :
  existsb f wheels = true <-> exists w, (w < WHEEL_MAX)%nat /\ f w = true.
Proof.
  rewrite existsb_exists. unfold wheels, WHEEL_MAX, WHEEL_FRONT_LEFT,
    WHEEL_FRONT_RIGHT, WHEEL_REAR_LEFT, WHEEL_REAR_RIGHT.
  split; intros (w & H1 & H2); exists w; (split; [|exact H2]).
  - simpl in H1. lia.
  - simpl. lia.
Qed.

Lemma existsb_wheels_false (f : nat -> bool) :
  existsb f wheels = false <-> forall w, (w < WHEEL_MAX)%nat -> f w = false.
Proof.
  split.
  - intros H w Hw. destruct (f w) eqn:E; [|reflexivity].
    assert (existsb f wheels = true) as T by (apply existsb_wheels; eauto).
    congruence.
  - intros H. destruct (existsb f wheels) eqn:E; [|reflexivity].
    apply existsb_wheels in E. destruct E as (w & Hw & E).
    rewrite H in E by assumption. discriminate.
Qed.

(** The counting loop of [ABS_UpdateSystemState] decides the state by
    whether a wheel is confirmed, and whether one is confirmed with a high
    severity. *)
Lemma update_system_state_decision st :
  g_SystemState (ABS_UpdateSystemState st)
  = if existsb (confirmed_high st) wheels then ABS_STATE_MALFUNCTION
    else if existsb (confirmed st) wheels then ABS_STATE_DEGRADED
    else ABS_STATE_MONITORING.
Proof.
  unfold ABS_UpdateSystemState, confirmed_high, confirmed. cbn [fold_left wheels existsb].
  unfold WHEEL_FRONT_LEFT, WHEEL_FRONT_RIGHT, WHEEL_REAR_LEFT, WHEEL_REAR_RIGHT.
  destruct (confirmedMalfunction (malfunction st 0));
  destruct (confirmedMalfunction (malfunction st 1));
  destruct (confirmedMalfunction (malfunction st 2));
  destruct (confirmedMalfunction (malfunction st 3));
  destruct (3 <=? severity_value (severity (malfunction st 0)));
  destruct (3 <=? severity_value (severity (malfunction st 1)));
  destruct (3 <=? severity_value (severity (malfunction st 2)));
  destruct (3 <=? severity_value (severity (malfunction st 3)));
    reflexivity.
Qed.

(** X11.  The state [ABS_UpdateSystemState] leaves: "malfunction" exactly
    when some wheel holds a confirmed malfunction of severity high or
    critical, "degraded" exactly when some wheel is confirmed and none of
    the confirmed ones is that severe, "monitoring" exactly when no wheel
    is confirmed.  Records that are active but not confirmed do not count. *)
Theorem system_state_after_update st :
  let s := g_SystemState (ABS_UpdateSystemState st) in
  (s = ABS_STATE_MALFUNCTION <->
   exists w, (w < WHEEL_MAX)%nat /\ confirmed_high st w = true)
  /\ (s = ABS_STATE_DEGRADED <->
      (exists w, (w < WHEEL_MAX)%nat /\ confirmed st w = true)
      /\ forall w, (w < WHEEL_MAX)%nat -> confirmed_high st w = false)
  /\ (s = ABS_STATE_MONITORING <->
      forall w, (w < WHEEL_MAX)%nat -> confirmed st w = false).
Proof.
  cbv zeta. rewrite update_system_state_decision.
  rewrite <- (existsb_wheels (confirmed_high st)),
          <- (existsb_wheels (confirmed st)),
          <- (existsb_wheels_false (confirmed_high st)),
          <- (existsb_wheels_false (confirmed st)).
  assert (existsb (confirmed_high st) wheels = true ->
          existsb (confirmed st) wheels = true) as Himp.
  { rewrite !existsb_wheels. intros (w & Hw & H). exists w. split; [exact Hw|].
    unfold confirmed_high in H. now apply andb_prop in H. }
  destruct (existsb (confirmed_high st) wheels);
  destruct (existsb (confirmed st) wheels);
    try (specialize (Himp eq_refl); discriminate Himp);
    repeat split; intros; try reflexivity; try discriminate;
    try (destruct H; discriminate).
Qed.

(** *** Frame of one wheel iteration *)

Lemma debounce_set_same st w c :
  (w < length (g_DebounceCounters st))%nat -> debounce (set_debounce st w c) w = c.
Proof. intros H. unfold debounce; simpl. now apply get_upd_same. Qed.

Lemma debounce_set_other st w w' c :
  w <> w' -> debounce (set_debounce st w c) w' = debounce st w'.
Proof. intros H. unfold debounce; simpl. now apply get_upd_other. Qed.

Lemma debounce_set_malfunction st w m w' :
  debounce (set_malfunction st w m) w' = debounce st w'.
Proof. reflexivity. Qed.

Lemma debounce_set_consecutive st w c w' :
  debounce (set_consecutive st w c) w' = debounce st w'.
Proof. reflexivity. Qed.

Lemma same_inputs_refl st : same_inputs st st.
Proof. repeat split. Qed.

Lemma same_inputs_trans st1 st2 st3 :
  same_inputs st1 st2 -> same_inputs st2 st3 -> same_inputs st1 st3.
Proof. unfold same_inputs. intros (A & B & C) (D & E & F). repeat split; congruence. Qed.

Lemma same_inputs_detection_step ss st w :
  same_inputs st (ABS_ProcessWheelMalfunctionDetection ss st w).
Proof.
  unfold ABS_ProcessWheelMalfunctionDetection.
  destruct (detect ss st w) as [[[det ty] sev] dev]. destruct det.
  - repeat split.
  - destruct (isActive _); repeat split.
Qed.

Lemma same_inputs_debouncing st w : same_inputs st (ABS_ProcessDebouncing st w).
Proof.
  unfold ABS_ProcessDebouncing. destruct (isActive _).
  - destruct (_ <=? _); repeat split.
  - repeat split.
Qed.

Lemma same_inputs_cycle_wheel ss st w : same_inputs st (cycle_wheel ss st w).
Proof.
  unfold cycle_wheel.
  eapply same_inputs_trans; [apply same_inputs_detection_step|].
  apply same_inputs_debouncing.
Qed.

Lemma same_inputs_update_system_state st :
  same_inputs st (ABS_UpdateSystemState st).
Proof.
  unfold ABS_UpdateSystemState.
  destruct (fold_left _ wheels (0, 0)) as [crit act].
  destruct (0 <? crit); [repeat split|]. destruct (0 <? act); repeat split.
Qed.

Lemma debounce_update_system_state st w :
  debounce (ABS_UpdateSystemState st) w = debounce st w.
Proof.
  unfold ABS_UpdateSystemState.
  destruct (fold_left _ wheels (0, 0)) as [crit act].
  destruct (0 <? crit); [reflexivity|]. destruct (0 <? act); reflexivity.
Qed.

Lemma wf_update_system_state st : wf st -> wf (ABS_UpdateSystemState st).
Proof.
  intros H. unfold ABS_UpdateSystemState.
  destruct (fold_left _ wheels (0, 0)) as [crit act].
  destruct (0 <? crit); [exact H|]. destruct (0 <? act); exact H.
Qed.

(** The checks read the parameters and the vehicle data only. *)
Lemma detect_same_inputs ss st st' w :
  same_inputs st st' -> detect ss st' w = detect ss st w.
Proof.
  intros (P & V & _). unfold detect, ABS_CheckCalibrationDrift,
    ABS_CheckSpeedPlausibility, ABS_CheckAccelerationPlausibility,
    ABS_CalculateMedianSpeed, wheel_speed.
  now rewrite P, V.
Qed.

Lemma debounce_cycle_wheel_other ss st w w' :
  w <> w' -> debounce (cycle_wheel ss st w) w' = debounce st w'.
Proof.
  intros H. unfold cycle_wheel.
  assert (P : debounce (ABS_ProcessWheelMalfunctionDetection ss st w) w'
              = debounce st w').
  { unfold ABS_ProcessWheelMalfunctionDetection.
    destruct (detect ss st w) as [[[det ty] sev] dev]. destruct det.
    - reflexivity.
    - destruct (isActive _); [|reflexivity].
      now rewrite debounce_set_other. }
  rewrite <- P. unfold ABS_ProcessDebouncing. destruct (isActive _).
  - destruct (_ <=? _); [rewrite debounce_set_malfunction|];
      now rewrite debounce_set_other.
  - rewrite debounce_set_malfunction. now rewrite debounce_set_other.
Qed.

(** What a detection cycle leaves in the record and the debounce counter
    of a wheel is what the iteration of that wheel leaves. *)
Lemma detection_cycle_wheel (P : ABS_MalfunctionStatus_t -> Z -> Prop) ss st w :
  wf st -> (w < WHEEL_MAX)%nat ->
  (forall st', wf st' -> same_inputs st st' ->
     malfunction st' w = malfunction st w -> debounce st' w = debounce st w ->
     P (malfunction (cycle_wheel ss st' w) w) (debounce (cycle_wheel ss st' w) w)) ->
  P (malfunction (fold_left (cycle_wheel ss) wheels st) w)
    (debounce (fold_left (cycle_wheel ss) wheels st) w).
Proof.
  intros Hwf Hw H. cbn [fold_left wheels].
  unfold WHEEL_FRONT_LEFT, WHEEL_FRONT_RIGHT, WHEEL_REAR_LEFT, WHEEL_REAR_RIGHT.
  pose proof (ABSFacts.wf_cycle_wheel ss st 0 Hwf) as W1.
  pose proof (ABSFacts.wf_cycle_wheel ss _ 1 W1) as W2.
  pose proof (ABSFacts.wf_cycle_wheel ss _ 2 W2) as W3.
  pose proof (same_inputs_cycle_wheel ss st 0) as I1.
  pose proof (same_inputs_trans _ _ _ I1 (same_inputs_cycle_wheel ss _ 1)) as I2.
  pose proof (same_inputs_trans _ _ _ I2 (same_inputs_cycle_wheel ss _ 2)) as I3.
  unfold WHEEL_MAX in Hw.
  destruct w as [|[|[|[|w]]]]; try lia.
  - rewrite !ABSFacts.cycle_wheel_other, !debounce_cycle_wheel_other by lia.
    apply H; auto using same_inputs_refl.
  - rewrite !ABSFacts.cycle_wheel_other, !debounce_cycle_wheel_other by lia.
    apply H; auto;
      now rewrite ?ABSFacts.cycle_wheel_other, ?debounce_cycle_wheel_other by lia.
  - rewrite !ABSFacts.cycle_wheel_other, !debounce_cycle_wheel_other by lia.
    apply H; auto;
      now rewrite ?ABSFacts.cycle_wheel_other, ?debounce_cycle_wheel_other by lia.
  - apply H; auto;
      now rewrite ?ABSFacts.cycle_wheel_other, ?debounce_cycle_wheel_other by lia.
Qed.

Lemma wf_cycle_wheels ss l st : wf st -> wf (fold_left (cycle_wheel ss) l st).
Proof.
  revert st. induction l as [|j l IH]; intros st H; cbn [fold_left]; [exact H|].
  apply IH. now apply ABSFacts.wf_cycle_wheel.
Qed.

Lemma same_inputs_cycle_wheels ss l st :
  same_inputs st (fold_left (cycle_wheel ss) l st).
Proof.
  revert st. induction l as [|j l IH]; intros st; cbn [fold_left].
  - apply same_inputs_refl.
  - eapply same_inputs_trans; [apply same_inputs_cycle_wheel|apply IH].
Qed.

(** The same for the main function of an initialised detector. *)
Lemma detection_main_function_wheel (P : ABS_MalfunctionStatus_t -> Z -> Prop) ss st w :
  wf st -> (w < WHEEL_MAX)%nat -> g_ABS_Initialized st = true ->
  (forall st', wf st' -> same_inputs st st' ->
     malfunction st' w = malfunction st w -> debounce st' w = debounce st w ->
     P (malfunction (cycle_wheel ss st' w) w) (debounce (cycle_wheel ss st' w) w)) ->
  let st1 := snd (ABS_MalfunctionDetection_MainFunction ss st) in
  P (malfunction st1 w) (debounce st1 w) /\ wf st1 /\ same_inputs st st1.
Proof.
  intros Hwf Hw Hi H. cbv zeta. unfold ABS_MalfunctionDetection_MainFunction.
  rewrite Hi. cbn [snd].
  rewrite ABSFacts.malfunction_update_system_state, debounce_update_system_state.
  split; [now apply detection_cycle_wheel|].
  split; [now apply wf_update_system_state, wf_cycle_wheels|].
  eapply same_inputs_trans; [apply same_inputs_cycle_wheels|].
  apply same_inputs_update_system_state.
Qed.

(** *** One wheel iteration *)

Lemma cycle_wheel_detected ss st w :
  wf st -> (w < WHEEL_MAX)%nat -> detected ss st w = true ->
  let m := malfunction st w in
  let m' := malfunction (cycle_wheel ss st w) w in
  let d' := debounce (cycle_wheel ss st w) w in
  isActive m' = true
  /\ d' = u16 (debounce st w + ABS_DETECTION_CYCLE_MS)
  /\ confirmedMalfunction m'
     = (confirmedMalfunction m || (debounceTimeMs (g_DetectionParams st) <=? d'))
  /\ occurrenceCount m' = u16 (occurrenceCount m + 1).
Proof.
  intros Hwf Hw Hd. destruct Hwf as (L1 & L2 & L3 & L4).
  unfold detected in Hd. cbv zeta.
  unfold cycle_wheel, ABS_ProcessWheelMalfunctionDetection.
  destruct (detect ss st w) as [[[det ty] sev] dev]. cbn in Hd. subst det.
  unfold ABS_UpdateMalfunctionStatus, ABS_ProcessDebouncing.
  rewrite !ABSFacts.malfunction_set_consecutive,
    !ABSFacts.malfunction_set_same by lia.
  cbn [isActive]. rewrite debounce_set_same
    by (cbn [set_consecutive set_malfunction g_DebounceCounters]; lia).
  cbn [set_debounce set_consecutive set_malfunction g_DetectionParams].
  rewrite debounce_set_consecutive, debounce_set_malfunction.
  set (d1 := u16 (debounce st w + ABS_DETECTION_CYCLE_MS)) in *.
  destruct (debounceTimeMs (g_DetectionParams st) <=? d1) eqn:E.
  - rewrite ABSFacts.malfunction_set_same
      by (cbn; rewrite ?length_upd; lia).
    rewrite debounce_set_malfunction.
    rewrite debounce_set_same by (cbn; lia).
    cbn [isActive confirmedMalfunction occurrenceCount]. rewrite E, orb_true_r.
    repeat split; reflexivity.
  - rewrite ABSFacts.malfunction_set_debounce,
      ABSFacts.malfunction_set_consecutive,
      ABSFacts.malfunction_set_same by lia.
    rewrite debounce_set_same by (cbn; lia).
    cbn [isActive confirmedMalfunction occurrenceCount]. rewrite E, orb_false_r.
    repeat split; reflexivity.
Qed.

Lemma cycle_wheel_quiet ss st w :
  wf st -> (w < WHEEL_MAX)%nat -> detected ss st w = false ->
  isActive (malfunction st w) = false ->
  let m := malfunction st w in
  let m' := malfunction (cycle_wheel ss st w) w in
  isActive m' = false
  /\ confirmedMalfunction m' = false
  /\ malfunctionType m' = malfunctionType m
  /\ severity m' = severity m
  /\ occurrenceCount m' = occurrenceCount m
  /\ debounce (cycle_wheel ss st w) w = 0.
Proof.
  intros Hwf Hw Hd Ha. destruct Hwf as (L1 & L2 & L3 & L4).
  unfold detected in Hd. cbv zeta.
  unfold cycle_wheel, ABS_ProcessWheelMalfunctionDetection.
  destruct (detect ss st w) as [[[det ty] sev] dev]. cbn in Hd. subst det.
  rewrite ABSFacts.malfunction_set_consecutive, Ha.
  unfold ABS_ProcessDebouncing.
  rewrite ABSFacts.malfunction_set_consecutive, Ha.
  rewrite ABSFacts.malfunction_set_same by (cbn; rewrite ?length_upd; lia).
  rewrite debounce_set_malfunction, debounce_set_same by (cbn; lia).
  cbn [isActive confirmedMalfunction malfunctionType severity occurrenceCount].
  rewrite ?Ha. repeat split; reflexivity.
Qed.

(** After its iteration a wheel that is confirmed is active. *)
Lemma cycle_wheel_confirmed_active ss st w :
  wf st -> (w < WHEEL_MAX)%nat ->
  confirmedMalfunction (malfunction (cycle_wheel ss st w) w) = true ->
  isActive (malfunction (cycle_wheel ss st w) w) = true.
Proof.
  intros Hwf Hw. unfold cycle_wheel.
  pose proof (ABSFacts.wf_detection_step ss st w Hwf) as (L1 & L2 & L3 & L4).
  set (st1 := ABS_ProcessWheelMalfunctionDetection ss st w) in *.
  unfold ABS_ProcessDebouncing.
  destruct (isActive (malfunction st1 w)) eqn:Ha.
  - destruct (_ <=? _).
    + rewrite ABSFacts.malfunction_set_same by (cbn; rewrite ?length_upd; lia).
      cbn. intros _. reflexivity.
    + rewrite ABSFacts.malfunction_set_debounce. intros _. exact Ha.
  - rewrite ABSFacts.malfunction_set_same by (cbn; rewrite ?length_upd; lia).
    cbn. discriminate.
Qed.

(** *** Health, published records *)

Lemma health_count st :
  (fold_left
     (fun count wheelIdx =>
        if isActive (malfunction st wheelIdx) then u8 (count + 1) else count)
     wheels 0 =? 0)
  = negb (existsb (fun w => isActive (malfunction st w)) wheels).
Proof.
  cbn [fold_left wheels existsb].
  unfold WHEEL_FRONT_LEFT, WHEEL_FRONT_RIGHT, WHEEL_REAR_LEFT, WHEEL_REAR_RIGHT.
  destruct (isActive (malfunction st 0)); destruct (isActive (malfunction st 1));
  destruct (isActive (malfunction st 2)); destruct (isActive (malfunction st 3));
    reflexivity.
Qed.

Lemma confirmed_active_after_cycle ss st w :
  wf st -> (w < WHEEL_MAX)%nat -> g_ABS_Initialized st = true ->
  let st' := snd (ABS_MalfunctionDetection_MainFunction ss st) in
  confirmed st' w = true -> isActive (malfunction st' w) = true.
Proof.
  intros Hwf Hw Hi.
  apply (detection_main_function_wheel
           (fun m _ => confirmedMalfunction m = true -> isActive m = true)
           ss st w Hwf Hw Hi).
  intros st' Hwf' _ _ _. now apply cycle_wheel_confirmed_active.
Qed.

Lemma system_state_after_cycle ss st :
  g_ABS_Initialized st = true ->
  let st' := snd (ABS_MalfunctionDetection_MainFunction ss st) in
  g_SystemState st'
  = if existsb (confirmed_high st') wheels then ABS_STATE_MALFUNCTION
    else if existsb (confirmed st') wheels then ABS_STATE_DEGRADED
    else ABS_STATE_MONITORING.
Proof.
  intros Hi. cbv zeta. unfold ABS_MalfunctionDetection_MainFunction.
  rewrite Hi. cbn [snd]. rewrite update_system_state_decision.
  unfold confirmed_high, confirmed. cbn [existsb wheels].
  now rewrite !ABSFacts.malfunction_update_system_state.
Qed.

Lemma initialized_after_cycle ss st :
  g_ABS_Initialized (snd (ABS_MalfunctionDetection_MainFunction ss st))
  = g_ABS_Initialized st.
Proof.
  unfold ABS_MalfunctionDetection_MainFunction.
  destruct (g_ABS_Initialized st) eqn:Hi; [|exact Hi]. cbn [snd].
  destruct (same_inputs_trans _ _ _ (same_inputs_cycle_wheels ss wheels st)
              (same_inputs_update_system_state _)) as (_ & _ & I).
  now rewrite I.
Qed.

(** X12.  After a detection cycle every confirmed wheel is active, so the
    health report of [ABS_CheckSystemHealth] and the system state agree: the
    report is "healthy" exactly when no wheel is active, and then the system
    state is "monitoring". *)
Theorem healthy_report_means_monitoring ss st :
  wf st -> g_ABS_Initialized st = true ->
  let st' := snd (ABS_MalfunctionDetection_MainFunction ss st) in
  let healthy := snd (fst (ABS_CheckSystemHealth st')) in
  fst (fst (ABS_CheckSystemHealth st')) = E_OK
  /\ (forall w, (w < WHEEL_MAX)%nat ->
        confirmedMalfunction (malfunction st' w) = true ->
        isActive (malfunction st' w) = true)
  /\ (healthy = true <->
      forall w, (w < WHEEL_MAX)%nat -> isActive (malfunction st' w) = false)
  /\ (healthy = true -> snd (ABS_CheckSystemHealth st') = ABS_STATE_MONITORING).
Proof.
  intros Hwf Hi st' healthy.
  assert (g_ABS_Initialized st' = true) as Hi'
    by (unfold st'; now rewrite initialized_after_cycle).
  assert (forall w, (w < WHEEL_MAX)%nat ->
            confirmedMalfunction (malfunction st' w) = true ->
            isActive (malfunction st' w) = true) as CA.
  { intros w Hw. now apply confirmed_active_after_cycle. }
  assert (healthy = true <->
          forall w, (w < WHEEL_MAX)%nat -> isActive (malfunction st' w) = false)
    as HH.
  { unfold healthy, ABS_CheckSystemHealth. rewrite Hi'. cbn [fst snd].
    rewrite health_count, negb_true_iff. apply existsb_wheels_false. }
  split; [unfold ABS_CheckSystemHealth; now rewrite Hi'|].
  split; [exact CA|]. split; [exact HH|].
  intros Hh. unfold ABS_CheckSystemHealth. rewrite Hi'. cbn [snd].
  unfold st'. rewrite system_state_after_cycle by assumption. fold st'.
  assert (existsb (confirmed st') wheels = false) as E.
  { apply existsb_wheels_false. intros w Hw. unfold confirmed.
    destruct (confirmedMalfunction (malfunction st' w)) eqn:C; [|reflexivity].
    specialize (CA w Hw C). rewrite (proj1 HH Hh w Hw) in CA. discriminate. }
  assert (existsb (confirmed_high st') wheels = false) as E'.
  { apply existsb_wheels_false. intros w Hw. unfold confirmed_high.
    rewrite (proj1 (existsb_wheels_false _) E w Hw). reflexivity. }
  now rewrite E, E'.
Qed.

Lemma healthy_report_means_monitoring_witness :
  ABS_CheckSystemHealth
    (snd (ABS_MalfunctionDetection_MainFunction ss_nominal cruising))
  = (E_OK, true, ABS_STATE_MONITORING).
Proof.
  assert (wf cruising) as W by (apply ABSFacts.wf_started_with; reflexivity).
  destruct (healthy_report_means_monitoring ss_nominal cruising W eq_refl)
    as (H1 & _ & _ & H4).
  assert (snd (fst (ABS_CheckSystemHealth
                      (snd (ABS_MalfunctionDetection_MainFunction
                              ss_nominal cruising)))) = true) as Hh
    by (vm_compute; reflexivity).
  specialize (H4 Hh).
  destruct (ABS_CheckSystemHealth
              (snd (ABS_MalfunctionDetection_MainFunction ss_nominal cruising)))
    as [[r h] s].
  cbn in H1, H4, Hh. now subst.
Defined.

Lemma publish_status_initialised st w written :
  g_ABS_Initialized st = true -> (w < WHEEL_MAX)%nat ->
  publish_status st w written = written ++ [(w, malfunction st w)].
Proof.
  intros Hi Hw. unfold publish_status, ABS_GetMalfunctionStatus.
  now rewrite Hi, (proj2 (Nat.ltb_lt w WHEEL_MAX) Hw).
Qed.

(** X13.  [RE_ABS_MalfunctionDetection_MainCyclic] on an initialised
    detector writes one record per wheel, in wheel order, and the system
    state; the two agree: the state written is "malfunction" exactly when
    a written record is confirmed with severity high or critical, and
    "monitoring" exactly when no written record is confirmed.  Before
    initialisation it writes no record, and the state it writes is the
    stale one. *)
Theorem published_state_matches_records ss st :
  wf st ->
  let r := RE_ABS_MalfunctionDetection_MainCyclic ss st in
  let written := snd (fst r) in
  let state := snd r in
  (g_ABS_Initialized st = true ->
   written = map (fun w => (w, malfunction (fst (fst r)) w)) wheels
   /\ (state = ABS_STATE_MALFUNCTION <->
       exists w m, In (w, m) written /\ confirmedMalfunction m = true
                   /\ 3 <= severity_value (severity m))
   /\ (state = ABS_STATE_MONITORING <->
       forall w m, In (w, m) written -> confirmedMalfunction m = false))
  /\ (g_ABS_Initialized st = false ->
      written = [] /\ state = g_SystemState st /\ fst (fst r) = st).
Proof.
  intros Hwf r written state. split.
  - intros Hi.
    set (st' := snd (ABS_MalfunctionDetection_MainFunction ss st)).
    assert (g_ABS_Initialized st' = true) as Hi'
      by (unfold st'; now rewrite initialized_after_cycle).
    assert (written = map (fun w => (w, malfunction st' w)) wheels) as Ew.
    { unfold written, r, RE_ABS_MalfunctionDetection_MainCyclic. cbn [fst snd].
      fold st'. unfold WHEEL_FRONT_LEFT, WHEEL_FRONT_RIGHT, WHEEL_REAR_LEFT,
        WHEEL_REAR_RIGHT.
      rewrite !publish_status_initialised
        by (assumption || unfold WHEEL_MAX; lia).
      reflexivity. }
    assert (forall w m, In (w, m) written <->
                        (w < WHEEL_MAX)%nat /\ m = malfunction st' w) as Hin.
    { intros w m. rewrite Ew, in_map_iff. split.
      - intros (w0 & E & Hw0). inversion E; subst. split; [|reflexivity].
        unfold wheels, WHEEL_FRONT_LEFT, WHEEL_FRONT_RIGHT, WHEEL_REAR_LEFT,
          WHEEL_REAR_RIGHT, WHEEL_MAX in *. simpl in Hw0. lia.
      - intros [Hw ->]. exists w. split; [reflexivity|].
        unfold wheels, WHEEL_FRONT_LEFT, WHEEL_FRONT_RIGHT, WHEEL_REAR_LEFT,
          WHEEL_REAR_RIGHT, WHEEL_MAX in *. simpl. lia. }
    split; [exact Ew|].
    assert (state = g_SystemState st') as Es by reflexivity.
    rewrite Es. unfold st'. rewrite system_state_after_cycle by assumption.
    fold st'. split.
    + split.
      * intros H. destruct (existsb (confirmed_high st') wheels) eqn:E.
        -- apply existsb_wheels in E. destruct E as (w & Hw & E).
           unfold confirmed_high, confirmed in E. apply andb_prop in E.
           destruct E as [E1 E2]. exists w, (malfunction st' w).
           split; [apply Hin; auto|]. split; [exact E1|now apply Z.leb_le].
        -- destruct (existsb (confirmed st') wheels); discriminate.
      * intros (w & m & Hm & C & S). apply Hin in Hm. destruct Hm as [Hw ->].
        assert (existsb (confirmed_high st') wheels = true) as E.
        { apply existsb_wheels. exists w. split; [exact Hw|].
          unfold confirmed_high, confirmed. rewrite C. now apply Z.leb_le. }
        now rewrite E.
    + split.
      * intros H w m Hm. apply Hin in Hm. destruct Hm as [Hw ->].
        destruct (existsb (confirmed_high st') wheels); [discriminate|].
        destruct (existsb (confirmed st') wheels) eqn:E; [discriminate|].
        exact (proj1 (existsb_wheels_false _) E w Hw).
      * intros H.
        assert (existsb (confirmed st') wheels = false) as E.
        { apply existsb_wheels_false. intros w Hw. apply (H w).
          apply Hin. auto. }
        assert (existsb (confirmed_high st') wheels = false) as E'.
        { apply existsb_wheels_false. intros w Hw. unfold confirmed_high.
          rewrite (proj1 (existsb_wheels_false _) E w Hw). reflexivity. }
        now rewrite E, E'.
  - intros Hi. unfold written, state, r, RE_ABS_MalfunctionDetection_MainCyclic,
      ABS_MalfunctionDetection_MainFunction, publish_status,
      ABS_GetMalfunctionStatus.
    rewrite Hi. cbn. rewrite Hi. repeat split; reflexivity.
Qed.

Lemma published_state_matches_records_witness :
  snd (fst (RE_ABS_MalfunctionDetection_MainCyclic ss_nominal cruising))
  = map (fun w => (w, malfunction
                        (fst (fst (RE_ABS_MalfunctionDetection_MainCyclic
                                     ss_nominal cruising))) w)) wheels.
Proof.
  assert (wf cruising) as W by (apply ABSFacts.wf_started_with; reflexivity).
  exact (proj1 (proj1 (published_state_matches_records ss_nominal cruising W)
                  eq_refl)).
Defined.

(** *** Speed differences *)

Lemma speed_difference_step st w ws a :
  speed_difference_from st (ABS_CalculateMedianSpeed st) (w :: ws) a
  = if exceeds st w then (true, w)
    else speed_difference_from st (ABS_CalculateMedianSpeed st) ws a.
Proof.
  cbn [speed_difference_from]. unfold exceeds.
  destruct (SpeedSensor.speedValid (wheel_speed st w)); [|reflexivity].
  cbn [andb]. destruct (Qgtb _ _); reflexivity.
Qed.

(** X14.  [ABS_DetectSpeedDifferences] on an initialised detector reports
    an excessive difference exactly when some valid wheel differs from the
    reference speed by more than the threshold, and then names the first
    such wheel in wheel order; otherwise it leaves the wheel it was given
    untouched.  For a valid wheel the verdict of
    [ABS_ValidateSpeedPlausibility] is the opposite of "exceeds". *)
Theorem speed_difference_report st (e0 : bool) (a0 : nat) :
  g_ABS_Initialized st = true ->
  let r := ABS_DetectSpeedDifferences st e0 a0 in
  let e := snd (fst r) in
  let a := snd r in
  fst (fst r) = E_OK
  /\ (e = true ->
      (a < WHEEL_MAX)%nat /\ exceeds st a = true
      /\ forall w, (w < a)%nat -> exceeds st w = false)
  /\ (e = false ->
      a = a0 /\ forall w, (w < WHEEL_MAX)%nat -> exceeds st w = false)
  /\ (forall w, (w < WHEEL_MAX)%nat ->
        SpeedSensor.speedValid (wheel_speed st w) = true ->
        ABS_ValidateSpeedPlausibility st w = (E_OK, negb (exceeds st w))).
Proof.
  intros Hi r e a. unfold e, a, r, ABS_DetectSpeedDifferences. rewrite Hi.
  cbv zeta. unfold wheels, WHEEL_FRONT_LEFT, WHEEL_FRONT_RIGHT, WHEEL_REAR_LEFT,
    WHEEL_REAR_RIGHT, WHEEL_MAX.
  rewrite !speed_difference_step. cbn [speed_difference_from].
  split; [destruct (exceeds st 0); [reflexivity|];
          destruct (exceeds st 1); [reflexivity|];
          destruct (exceeds st 2); [reflexivity|];
          destruct (exceeds st 3); reflexivity|].
  split; [|split].
  - destruct (exceeds st 0) eqn:E0; [|destruct (exceeds st 1) eqn:E1;
      [|destruct (exceeds st 2) eqn:E2; [|destruct (exceeds st 3) eqn:E3]]];
      cbn [fst snd]; intros H; try discriminate H;
      (split; [lia|]); (split; [assumption|]);
      intros w Hw; destruct w as [|[|[|[|w]]]]; try lia; assumption.
  - destruct (exceeds st 0) eqn:E0; [|destruct (exceeds st 1) eqn:E1;
      [|destruct (exceeds st 2) eqn:E2; [|destruct (exceeds st 3) eqn:E3]]];
      cbn [fst snd]; intros H; try discriminate H.
    split; [reflexivity|].
    intros w Hw; destruct w as [|[|[|[|w]]]]; try lia; assumption.
  - intros w Hw Hv. unfold ABS_ValidateSpeedPlausibility,
      ABS_CheckSpeedPlausibility, exceeds.
    rewrite Hi, Hv. rewrite (proj2 (Nat.ltb_lt w WHEEL_MAX) Hw).
    reflexivity.
Qed.

Lemma speed_difference_report_witness :
  ABS_DetectSpeedDifferences rear_right_fast false 0 = (E_OK, true, 3%nat)
  /\ exceeds rear_right_fast 3 = true.
Proof.
  destruct (speed_difference_report rear_right_fast false 0 eq_refl)
    as (_ & H & _).
  split; [vm_compute; reflexivity|].
  assert (snd (fst (ABS_DetectSpeedDifferences rear_right_fast false 0)) = true)
    as E by (vm_compute; reflexivity).
  destruct (H E) as (_ & X & _).
  replace (snd (ABS_DetectSpeedDifferences rear_right_fast false 0)) with 3%nat
    in X by (vm_compute; reflexivity).
  exact X.
Defined.

(** *** Clearing and debouncing *)

Lemma clear_status_effect st w :
  wf st -> (w < WHEEL_MAX)%nat -> g_ABS_Initialized st = true ->
  let st1 := snd (ABS_ClearMalfunctionStatus st w) in
  fst (ABS_ClearMalfunctionStatus st w) = E_OK
  /\ wf st1 /\ same_inputs st st1
  /\ malfunction st1 w
     = mkStatus ABS_MALFUNCTION_NONE ABS_SEVERITY_NONE
                (affectedWheel (malfunction st w)) false
                (detectionTimestamp (malfunction st w))
                (occurrenceCount (malfunction st w))
                (deviationValue (malfunction st w)) false
  /\ debounce st1 w = 0
  /\ forall w', w' <> w ->
       malfunction st1 w' = malfunction st w' /\ debounce st1 w' = debounce st w'.
Proof.
  intros Hwf Hw Hi. cbv zeta. unfold ABS_ClearMalfunctionStatus.
  rewrite Hi, (proj2 (Nat.ltb_lt w WHEEL_MAX) Hw). cbn [andb fst snd].
  split; [reflexivity|].
  split; [now apply ABSFacts.wf_set_consecutive, ABSFacts.wf_set_debounce,
            ABSFacts.wf_set_malfunction|].
  destruct Hwf as (L1 & L2 & L3 & L4).
  split; [repeat split|].
  rewrite ABSFacts.malfunction_set_consecutive, ABSFacts.malfunction_set_debounce,
    ABSFacts.malfunction_set_same by lia.
  split; [reflexivity|].
  rewrite debounce_set_consecutive, debounce_set_same by (cbn; lia).
  split; [reflexivity|].
  intros w' Hn. rewrite ABSFacts.malfunction_set_consecutive,
    ABSFacts.malfunction_set_debounce, ABSFacts.malfunction_set_other by congruence.
  rewrite debounce_set_consecutive, debounce_set_other by congruence.
  split; reflexivity.
Qed.

(** X15.  The way back from a confirmed malfunction.  After
    [ABS_ClearMalfunctionStatus] on a wheel, a detection cycle in which no
    check detects a fault on that wheel leaves its record inactive and
    unconfirmed, of type and severity "none", with the debounce counter at
    0; the occurrence count is kept, and the clear does not touch the other
    wheels. *)
Theorem cleared_wheel_stays_clear ss st w :
  wf st -> (w < WHEEL_MAX)%nat -> g_ABS_Initialized st = true ->
  detected ss st w = false ->
  let st1 := snd (ABS_ClearMalfunctionStatus st w) in
  let st2 := snd (ABS_MalfunctionDetection_MainFunction ss st1) in
  fst (ABS_ClearMalfunctionStatus st w) = E_OK
  /\ isActive (malfunction st2 w) = false
  /\ confirmedMalfunction (malfunction st2 w) = false
  /\ malfunctionType (malfunction st2 w) = ABS_MALFUNCTION_NONE
  /\ severity (malfunction st2 w) = ABS_SEVERITY_NONE
  /\ occurrenceCount (malfunction st2 w) = occurrenceCount (malfunction st w)
  /\ debounce st2 w = 0
  /\ forall w', w' <> w -> malfunction st1 w' = malfunction st w'.
Proof.
  intros Hwf Hw Hi Hd st1 st2.
  destruct (clear_status_effect st w Hwf Hw Hi) as (R & W1 & I1 & M1 & D1 & O1).
  fold st1 in W1, I1, M1, D1, O1.
  split; [exact R|].
  assert (g_ABS_Initialized st1 = true) as Hi1
    by (destruct I1 as (_ & _ & ->); exact Hi).
  destruct (detection_main_function_wheel
              (fun m d =>
                 isActive m = false /\ confirmedMalfunction m = false
                 /\ malfunctionType m = ABS_MALFUNCTION_NONE
                 /\ severity m = ABS_SEVERITY_NONE
                 /\ occurrenceCount m = occurrenceCount (malfunction st w)
                 /\ d = 0)
              ss st1 w W1 Hw Hi1) as (P & _).
  - intros st' Hwf' I' M' D'.
    assert (detected ss st' w = false) as Hd'.
    { unfold detected. rewrite (detect_same_inputs ss st st' w); [exact Hd|].
      eapply same_inputs_trans; eassumption. }
    assert (isActive (malfunction st' w) = false) as Ha'
      by (rewrite M', M1; reflexivity).
    destruct (cycle_wheel_quiet ss st' w Hwf' Hw Hd' Ha')
      as (A & C & T & S & O & D).
    rewrite M', M1 in T, S, O. cbn in T, S, O. repeat split; assumption.
  - fold st2 in P. destruct P as (A & C & T & S & O & D).
    repeat (split; [assumption|]). intros w' Hn. now apply O1.
Qed.

Lemma cleared_wheel_stays_clear_witness :
  let st5 := run (repeat ss_drift 5) cruising in
  let st1 := snd (ABS_ClearMalfunctionStatus st5 0) in
  let st2 := snd (ABS_MalfunctionDetection_MainFunction ss_nominal st1) in
  confirmedMalfunction (malfunction st5 0) = true
  /\ confirmedMalfunction (malfunction st2 0) = false
  /\ isActive (malfunction st2 0) = false.
Proof.
  cbv zeta. split; [vm_compute; reflexivity|].
  assert (wf (run (repeat ss_drift 5) cruising)) as W
    by (repeat split; vm_compute; reflexivity).
  assert (detected ss_nominal (run (repeat ss_drift 5) cruising) 0 = false) as D
    by (vm_compute; reflexivity).
  destruct (cleared_wheel_stays_clear ss_nominal _ 0 W
              (ltac:(unfold WHEEL_MAX; lia)) (ltac:(vm_compute; reflexivity)) D)
    as (_ & A & C & _).
  split; [exact C | exact A].
Defined.

Lemma main_function_detected ss st w :
  wf st -> g_ABS_Initialized st = true -> (w < WHEEL_MAX)%nat ->
  detected ss st w = true ->
  let st1 := snd (ABS_MalfunctionDetection_MainFunction ss st) in
  let d1 := u16 (debounce st w + ABS_DETECTION_CYCLE_MS) in
  wf st1 /\ same_inputs st st1
  /\ isActive (malfunction st1 w) = true
  /\ debounce st1 w = d1
  /\ confirmed st1 w
     = (confirmed st w || (debounceTimeMs (g_DetectionParams st) <=? d1)).
Proof.
  intros Hwf Hi Hw Hd st1 d1.
  destruct (detection_main_function_wheel
              (fun m d =>
                 isActive m = true /\ d = d1
                 /\ confirmedMalfunction m
                    = (confirmed st w
                       || (debounceTimeMs (g_DetectionParams st) <=? d1)))
              ss st w Hwf Hw Hi) as (P & W & I).
  - intros st' Hwf' I' M' D'.
    assert (detected ss st' w = true) as Hd'.
    { unfold detected. now rewrite (detect_same_inputs ss st st' w). }
    destruct (cycle_wheel_detected ss st' w Hwf' Hw Hd') as (A & D & C & _).
    destruct I' as (I1 & _). rewrite D' in D. rewrite D, M', I1 in C.
    fold d1 in D, C. rewrite D. repeat split; assumption.
  - fold st1 in P, W, I. destruct P as (A & D & C).
    split; [exact W|]. split; [exact I|]. split; [exact A|].
    split; [exact D|exact C].
Qed.

Lemma run_detected w sss :
  forall st,
  wf st -> g_ABS_Initialized st = true -> (w < WHEEL_MAX)%nat ->
  (forall ss, In ss sss -> detected ss st w = true) ->
  0 <= debounce st w ->
  debounce st w + ABS_DETECTION_CYCLE_MS * Z.of_nat (length sss) < 2 ^ 16 ->
  let st' := run sss st in
  wf st' /\ same_inputs st st'
  /\ debounce st' w
     = debounce st w + ABS_DETECTION_CYCLE_MS * Z.of_nat (length sss)
  /\ (sss <> [] -> isActive (malfunction st' w) = true)
  /\ (confirmed st' w = true <->
      confirmed st w = true
      \/ (sss <> []
          /\ debounceTimeMs (g_DetectionParams st)
             <= debounce st w + ABS_DETECTION_CYCLE_MS * Z.of_nat (length sss))).
Proof.
  induction sss as [|ss sss IH]; intros st Hwf Hi Hw Hd H0 Hb; cbv zeta.
  - cbn [run fold_left length Z.of_nat]. rewrite Z.mul_0_r, Z.add_0_r.
    split; [exact Hwf|]. split; [apply same_inputs_refl|].
    split; [reflexivity|]. split; [congruence|]. split; [auto|].
    intros [H|[H _]]; [exact H|congruence].
  - unfold run. cbn [fold_left]. fold (run sss (snd (ABS_MalfunctionDetection_MainFunction ss st))).
    assert (detected ss st w = true) as Hd0 by (apply Hd; now left).
    destruct (main_function_detected ss st w Hwf Hi Hw Hd0)
      as (W1 & I1 & A1 & D1 & C1).
    set (st1 := snd (ABS_MalfunctionDetection_MainFunction ss st)) in *.
    unfold ABS_DETECTION_CYCLE_MS in *.
    cbn [length] in *. rewrite Nat2Z.inj_succ in Hb.
    assert (u16 (debounce st w + 20) = debounce st w + 20) as Eu.
    { unfold u16, wrap. apply Z.mod_small. lia. }
    rewrite Eu in D1, C1.
    assert (g_ABS_Initialized st1 = true) as Hi1
      by (destruct I1 as (_ & _ & ->); exact Hi).
    destruct (IH st1 W1 Hi1 Hw) as (W2 & I2 & D2 & A2 & C2).
    { intros ss' Hin. unfold detected.
      rewrite (detect_same_inputs ss' st st1 w I1). apply Hd. now right. }
    { lia. }
    { unfold ABS_DETECTION_CYCLE_MS. lia. }
    unfold ABS_DETECTION_CYCLE_MS in *.
    split; [exact W2|]. split; [eapply same_inputs_trans; eassumption|].
    split; [rewrite D2, D1, Nat2Z.inj_succ; lia|].
    split.
    + intros _. destruct sss as [|ss' sss']; [exact A1|].
      apply A2. discriminate.
    + rewrite C2, C1, orb_true_iff, Z.leb_le, D1.
      destruct I1 as (I1 & _). rewrite I1, Nat2Z.inj_succ.
      split.
      * intros [[H|H]|[Hn H]]; [now left| |]; right;
          (split; [discriminate|lia]).
      * intros [H|[_ H]]; [now left; left|].
        destruct sss as [|ss' sss'].
        -- left; right. cbn [length Z.of_nat] in H. lia.
        -- right. split; [discriminate|]. lia.
Qed.

(** X16.  Debouncing of a continuous fault.  Starting from a wheel record
    that is inactive and unconfirmed with its debounce counter at 0 (as
    after initialisation or a clear), a run of n >= 1 detection cycles that
    each detect a fault on the wheel leaves the record active with the
    counter at n x 20 ms, and confirmed exactly when n x 20 ms has reached
    the configured debounce time (the counter is 16 bits wide: n x 20 below
    65536). *)
Theorem confirmation_after_debounce_time sss st w :
  wf st -> g_ABS_Initialized st = true -> (w < WHEEL_MAX)%nat ->
  isActive (malfunction st w) = false ->
  confirmedMalfunction (malfunction st w) = false ->
  debounce st w = 0 ->
  (forall ss, In ss sss -> detected ss st w = true) ->
  sss <> [] ->
  ABS_DETECTION_CYCLE_MS * Z.of_nat (length sss) < 2 ^ 16 ->
  let st' := run sss st in
  isActive (malfunction st' w) = true
  /\ debounce st' w = ABS_DETECTION_CYCLE_MS * Z.of_nat (length sss)
  /\ (confirmedMalfunction (malfunction st' w) = true <->
      debounceTimeMs (g_DetectionParams st)
      <= ABS_DETECTION_CYCLE_MS * Z.of_nat (length sss)).
Proof.
  intros Hwf Hi Hw Ha Hc Hd0 Hd Hn Hb st'.
  destruct (run_detected w sss st Hwf Hi Hw Hd) as (_ & _ & D & A & C).
  - rewrite Hd0. lia.
  - rewrite Hd0. exact Hb.
  - fold st' in D, A, C. rewrite Hd0 in D, C. cbn [Z.add] in D, C.
    split; [now apply A|]. split; [exact D|].
    unfold confirmed in C. rewrite C, Hc. split.
    + intros [H|[_ H]]; [discriminate|exact H].
    + intros H. right. split; assumption.
Qed.

Lemma confirmation_after_debounce_time_witness :
  confirmedMalfunction (malfunction (run (repeat ss_drift 5) cruising) 0) = true
  /\ debounce (run (repeat ss_drift 5) cruising) 0 = 100.
Proof.
  assert (wf cruising) as W by (apply ABSFacts.wf_started_with; reflexivity).
  assert (forall ss, In ss (repeat ss_drift 5) -> detected ss cruising 0 = true)
    as D.
  { intros ss Hin. apply repeat_spec in Hin. subst ss. vm_compute. reflexivity. }
  assert (repeat ss_drift 5 <> []) as N by discriminate.
  assert (ABS_DETECTION_CYCLE_MS * Z.of_nat (length (repeat ss_drift 5)) < 2 ^ 16)
    as B by (vm_compute; reflexivity).
  destruct (confirmation_after_debounce_time (repeat ss_drift 5) cruising 0 W
              eq_refl (ltac:(unfold WHEEL_MAX; lia)) eq_refl eq_refl eq_refl
              D N B) as (_ & H2 & H3).
  split; [|exact H2].
  apply H3. vm_compute. discriminate.
Defined.

(** X17.  With the brake pedal pressed the acceleration check accepts every
    valid wheel, whatever its acceleration; a valid wheel whose coefficient
    has not drifted and whose speed is within the threshold of the
    reference is then not detected as faulty by any check. *)
Theorem braking_suppresses_acceleration_fault ss st w :
  brakePedalPressed (g_VehicleData st) = true ->
  SpeedSensor.speedValid (wheel_speed st w) = true ->
  fst (ABS_CheckAccelerationPlausibility st w) = true
  /\ (fst (ABS_CheckCalibrationDrift ss st w 0) = false ->
      exceeds st w = false ->
      detected ss st w = false).
Proof.
  intros Hb Hv.
  assert (fst (ABS_CheckAccelerationPlausibility st w) = true) as A.
  { unfold ABS_CheckAccelerationPlausibility. rewrite Hv, Hb. cbn.
    now rewrite andb_false_r. }
  split; [exact A|].
  intros Hd He. unfold detected, detect.
  assert (fst (ABS_CheckSpeedPlausibility st w) = true) as P.
  { unfold ABS_CheckSpeedPlausibility. unfold exceeds in He.
    rewrite Hv in *. cbn [andb] in He. cbn [fst]. now rewrite He. }
  destruct (ABS_CheckCalibrationDrift ss st w 0) as [dr dv].
  destruct (ABS_CheckSpeedPlausibility st w) as [pl pv].
  destruct (ABS_CheckAccelerationPlausibility st w) as [ap av].
  cbn [fst] in Hd, P, A. subst dr pl ap.
  destruct (enableMiscalibrationDetection (g_DetectionParams st));
  destruct (enableSpeedPlausibilityCheck (g_DetectionParams st));
  destruct (enableAccelerationCheck (g_DetectionParams st)); reflexivity.
Qed.

Lemma braking_suppresses_acceleration_fault_witness :
  fst (ABS_CheckAccelerationPlausibility braking_hard 0) = true
  /\ detected ss_nominal braking_hard 0 = false.
Proof.
  destruct (braking_suppresses_acceleration_fault ss_nominal braking_hard 0
              eq_refl eq_refl) as [H1 H2].
  split; [exact H1|].
  apply H2; vm_compute; reflexivity.
Defined.

End DetectorServiceFacts.

(** ** Calibration manager: history, life cycle, persistence and timing *)

Module ManagerServiceFacts.
Import CalibrationManager CalibrationSpec ManagerServiceSpec.

Lemma history_set_same st w h n :
  wf st -> (w < WHEEL_MAX)%nat ->
  history (set_history st w h n) w = h
  /\ history_count (set_history st w h n) w = n.
Proof.
  intros (L1 & L2 & L3 & L4) Hw. unfold history, history_count, set_history.
  cbn. split; apply get_upd_same; lia.
Qed.

(** The ring discipline of the history buffer, on the buffer itself. *)
Lemma add_entry_buffer (h : list CalibrationHistoryEntry_t) (n : Z) e :
  length h = Z.to_nat CALIBRATION_HISTORY_SIZE ->
  0 <= n <= CALIBRATION_HISTORY_SIZE ->
  let h' :=
    if n <? CALIBRATION_HISTORY_SIZE then upd (Z.to_nat n) e h
    else upd (Z.to_nat (CALIBRATION_HISTORY_SIZE - 1)) e
           (fold_left (fun a i => upd i (get zero_entry a (S i)) a)
                      (seq 0 (Z.to_nat (CALIBRATION_HISTORY_SIZE - 1))) h) in
  let n' := if n <? CALIBRATION_HISTORY_SIZE then u8 (n + 1) else n in
  map (get zero_entry h') (seq 0 (Z.to_nat n'))
  = latest (map (get zero_entry h) (seq 0 (Z.to_nat n)) ++ [e])
  /\ length h' = Z.to_nat CALIBRATION_HISTORY_SIZE
  /\ 0 <= n' <= CALIBRATION_HISTORY_SIZE.
Proof.
  unfold CALIBRATION_HISTORY_SIZE. intros L Hn.
  destruct h as [|a0 [|a1 [|a2 [|a3 [|a4 [|a5 [|a6 [|a7 [|a8 [|a9 [|a10 h]]]]]]]]]]];
    try discriminate L.
  assert (n = Z.of_nat (Z.to_nat n)) as Hc by lia.
  assert (Z.to_nat n <= 10)%nat as Hk by lia.
  revert Hc Hk. generalize (Z.to_nat n) as k. intros k -> Hk.
  do 11 (destruct k as [|k];
         [(split; [reflexivity|]); (split; [reflexivity|]); vm_compute;
          split; discriminate|]).
  lia.
Qed.

(** X18.  The calibration history of a wheel keeps the latest ten entries
    in order: after an entry is added, [CalibrationManager_GetHistory]
    hands out the ten last entries of the earlier entries followed by the
    new one, and their number; after [CalibrationManager_ClearHistory] it
    hands out none. *)
Theorem history_keeps_latest_entries st w e :
  wf st -> (w < WHEEL_MAX)%nat -> g_CalibrationManager_Initialized st = true ->
  history_wf st w ->
  let st' := CalibrationManager_AddHistoryEntry st w e in
  CalibrationManager_GetHistory st' w
  = (E_OK, latest (recorded st w ++ [e]),
     Z.of_nat (length (latest (recorded st w ++ [e]))))
  /\ history_wf st' w
  /\ CalibrationManager_GetHistory (snd (CalibrationManager_ClearHistory st' w)) w
     = (E_OK, [], 0).
Proof.
  intros Hwf Hw Hi [HL HN] st'.
  destruct (add_entry_buffer (history st w) (history_count st w) e HL HN)
    as (E & L' & N').
  assert (g_CalibrationManager_Initialized st' = true) as Hi'.
  { unfold st', CalibrationManager_AddHistoryEntry.
    destruct (_ <? _); exact Hi. }
  assert (wf st') as Hwf'.
  { destruct Hwf as (L1 & L2 & L3 & L4).
    unfold st', CalibrationManager_AddHistoryEntry.
    destruct (_ <? _); repeat split; cbn; rewrite ?length_upd; assumption. }
  assert (history st' w
          = (if history_count st w <? CALIBRATION_HISTORY_SIZE
             then upd (Z.to_nat (history_count st w)) e (history st w)
             else upd (Z.to_nat (CALIBRATION_HISTORY_SIZE - 1)) e
                    (fold_left (fun a i => upd i (get zero_entry a (S i)) a)
                       (seq 0 (Z.to_nat (CALIBRATION_HISTORY_SIZE - 1)))
                       (history st w)))
          /\ history_count st' w
             = (if history_count st w <? CALIBRATION_HISTORY_SIZE
                then u8 (history_count st w + 1) else history_count st w))
    as [EH EN].
  { unfold st', CalibrationManager_AddHistoryEntry.
    destruct (history_count st w <? CALIBRATION_HISTORY_SIZE);
      apply history_set_same; assumption. }
  cbv zeta in E, L', N'. rewrite <- EH, <- EN in E. rewrite <- EH in L'.
  rewrite <- EN in N'.
  assert (recorded st w
          = map (get zero_entry (history st w))
                (seq 0 (Z.to_nat (history_count st w)))) as ER.
  { unfold recorded, CalibrationManager_GetHistory.
    now rewrite Hi, (proj2 (Nat.ltb_lt w WHEEL_MAX) Hw). }
  split; [|split; [split; assumption|]].
  - unfold CalibrationManager_GetHistory.
    rewrite Hi', (proj2 (Nat.ltb_lt w WHEEL_MAX) Hw). cbn [andb].
    rewrite ER, <- E, length_map, length_seq, Z2Nat.id by lia. reflexivity.
  - unfold CalibrationManager_ClearHistory.
    rewrite Hi', (proj2 (Nat.ltb_lt w WHEEL_MAX) Hw). cbn [andb snd].
    destruct (history_set_same st' w zero_history 0 Hwf' Hw) as [_ E0].
    set (st2 := set_history st' w zero_history 0) in *.
    assert (g_CalibrationManager_Initialized st2 = true) as Hi2 by exact Hi'.
    unfold CalibrationManager_GetHistory.
    rewrite Hi2, (proj2 (Nat.ltb_lt w WHEEL_MAX) Hw), E0. reflexivity.
Qed.

Lemma history_keeps_latest_entries_witness :
  let e := mkEntry 7 CALIBRATION_METHOD_MANUAL CALIBRATION_RESULT_OK 1 (11 # 10) 99 in
  CalibrationManager_GetHistory
    (CalibrationManager_AddHistoryEntry (cm started) 1 e) 1
  = (E_OK, latest (recorded (cm started) 1 ++ [e]),
     Z.of_nat (length (latest (recorded (cm started) 1 ++ [e])))).
Proof.
  cbv zeta.
  assert (wf (cm started)) as W by (repeat split; reflexivity).
  assert (history_wf (cm started) 1) as H
    by (split; [reflexivity | vm_compute; split; discriminate]).
  exact (proj1 (history_keeps_latest_entries (cm started) 1 _ W
                  (ltac:(unfold WHEEL_MAX; lia)) eq_refl H)).
Defined.

(** A full buffer drops its oldest entry. *)
Example full_history_drops_oldest_entry :
  let e k := mkEntry k CALIBRATION_METHOD_MANUAL CALIBRATION_RESULT_OK 1 1 100 in
  let st := fold_left (fun st k => CalibrationManager_AddHistoryEntry st 0 (e k))
                      [1; 2; 3; 4; 5; 6; 7; 8; 9; 10; 11; 12] (cm started) in
  map timestamp (recorded st 0) = [3; 4; 5; 6; 7; 8; 9; 10; 11; 12]
  /\ history_count st 0 = 10.
Proof. vm_compute. split; reflexivity. Qed.

(** *** Initialisation and shutdown *)

Lemma load_refused_before_initialisation nvm w wheelPos :
  g_CalibrationManager_Initialized (cm w) = false ->
  CalibrationManager_LoadFromNvm nvm w wheelPos = (E_NOT_OK, w).
Proof.
  intros Hi. unfold CalibrationManager_LoadFromNvm.
  now rewrite Hi, andb_false_r.
Qed.

(** X19.  [CalibrationManager_Init] never restores a stored calibration:
    its loads run before the manager is marked initialised and are all
    refused, so whatever the persistence service holds, initialisation
    leaves the speed sensor component and the DTC port untouched.  It
    leaves the manager initialised with the default configuration, idle
    sessions and empty histories. *)
Theorem manager_init_ignores_persistence nvm w :
  g_CalibrationManager_Initialized (cm w) = false ->
  let w' := snd (CalibrationManager_Init nvm w) in
  ss w' = ss w
  /\ dtc_calls w' = dtc_calls w
  /\ g_CalibrationManager_Initialized (cm w') = true
  /\ g_CalibrationConfig (cm w') = CalibrationManager_InitDefaultConfig
  /\ forall wheelPos, (wheelPos < WHEEL_MAX)%nat ->
       session (cm w') wheelPos = zero_session
       /\ CalibrationManager_GetHistory (cm w') wheelPos = (E_OK, [], 0).
Proof.
  intros Hi. cbv zeta. unfold CalibrationManager_Init. rewrite Hi.
  cbn [negb snd fold_left wheels].
  set (w1 := set_cm w _).
  assert (g_CalibrationManager_Initialized (cm w1) = false) as Hi1 by reflexivity.
  rewrite !(load_refused_before_initialisation nvm w1) by exact Hi1.
  cbn [snd]. repeat (split; [reflexivity|]).
  intros wheelPos Hw. unfold WHEEL_MAX in Hw.
  unfold CalibrationManager_GetHistory.
  rewrite (proj2 (Nat.ltb_lt wheelPos WHEEL_MAX) Hw).
  destruct wheelPos as [|[|[|[|k]]]]; try lia; split; reflexivity.
Qed.

Lemma manager_init_ignores_persistence_witness :
  ss (snd (CalibrationManager_Init nvm_factor_1_2 initial_world))
  = ss initial_world
  /\ g_CalibrationManager_Initialized
       (cm (snd (CalibrationManager_Init nvm_factor_1_2 initial_world))) = true.
Proof.
  destruct (manager_init_ignores_persistence nvm_factor_1_2 initial_world eq_refl)
    as (H1 & _ & H3 & _).
  split; [exact H1 | exact H3].
Defined.

Lemma cancel_step_effect st j :
  wf st -> (j < WHEEL_MAX)%nat -> g_CalibrationManager_Initialized st = true ->
  let st' := if sessionActive (session st j)
             then snd (CalibrationManager_CancelCalibration st j) else st in
  wf st'
  /\ g_CalibrationManager_Initialized st' = true
  /\ g_CalibrationConfig st' = g_CalibrationConfig st
  /\ g_SampleData st' = g_SampleData st
  /\ session st' j
     = (if sessionActive (session st j)
        then with_end (with_result (with_state (session st j)
                                      CALIBRATION_STATE_CANCELLED)
                                   CALIBRATION_RESULT_NOT_OK) false 0
        else session st j)
  /\ forall w, w <> j -> session st' w = session st w.
Proof.
  intros Hwf Hj Hi. cbv zeta. unfold CalibrationManager_CancelCalibration.
  rewrite Hi, (proj2 (Nat.ltb_lt j WHEEL_MAX) Hj). cbn [andb].
  destruct (sessionActive (session st j)) eqn:Ea; cbn [snd].
  - split; [now apply CalibrationFacts.wf_set_session|].
    split; [exact Hi|]. split; [reflexivity|]. split; [reflexivity|].
    split.
    + apply CalibrationFacts.session_set_same. destruct Hwf as (-> & _). exact Hj.
    + intros w Hn. apply CalibrationFacts.session_set_other. congruence.
  - split; [exact Hwf|]. split; [exact Hi|]. split; [reflexivity|].
    split; [reflexivity|]. split; [reflexivity|]. intros; reflexivity.
Qed.

(** X20.  [CalibrationManager_DeInit] on an initialised manager cancels
    every active session (state "cancelled", result "not ok", no longer
    active), leaves the sessions that were not active as they are, and
    marks the manager uninitialised, so that a new session is then refused. *)
Theorem deinit_cancels_active_sessions st req :
  wf st -> g_CalibrationManager_Initialized st = true ->
  let st' := snd (CalibrationManager_DeInit st) in
  fst (CalibrationManager_DeInit st) = E_OK
  /\ g_CalibrationManager_Initialized st' = false
  /\ CalibrationManager_StartCalibration st' req = (E_NOT_OK, st')
  /\ forall w, (w < WHEEL_MAX)%nat ->
       sessionActive (session st' w) = false
       /\ (sessionActive (session st w) = true ->
           state (session st' w) = CALIBRATION_STATE_CANCELLED
           /\ result (session st' w) = CALIBRATION_RESULT_NOT_OK
           /\ request (session st' w) = request (session st w))
       /\ (sessionActive (session st w) = false -> session st' w = session st w).
Proof.
  intros Hwf Hi. cbv zeta. unfold CalibrationManager_DeInit. rewrite Hi.
  cbn [fst snd fold_left wheels].
  unfold WHEEL_FRONT_LEFT, WHEEL_FRONT_RIGHT, WHEEL_REAR_LEFT, WHEEL_REAR_RIGHT.
  assert (0 < WHEEL_MAX /\ 1 < WHEEL_MAX /\ 2 < WHEEL_MAX /\ 3 < WHEEL_MAX)%nat
    as (B0 & B1 & B2 & B3) by (unfold WHEEL_MAX; lia).
  destruct (cancel_step_effect st 0 Hwf B0 Hi) as (W1 & I1 & _ & _ & S1 & O1).
  set (st1 := if sessionActive (session st 0)
              then snd (CalibrationManager_CancelCalibration st 0) else st) in *.
  destruct (cancel_step_effect st1 1 W1 B1 I1) as (W2 & I2 & _ & _ & S2 & O2).
  set (st2 := if sessionActive (session st1 1)
              then snd (CalibrationManager_CancelCalibration st1 1) else st1) in *.
  destruct (cancel_step_effect st2 2 W2 B2 I2) as (W3 & I3 & _ & _ & S3 & O3).
  set (st3 := if sessionActive (session st2 2)
              then snd (CalibrationManager_CancelCalibration st2 2) else st2) in *.
  destruct (cancel_step_effect st3 3 W3 B3 I3) as (W4 & I4 & _ & _ & S4 & O4).
  set (st4 := if sessionActive (session st3 3)
              then snd (CalibrationManager_CancelCalibration st3 3) else st3) in *.
  split; [reflexivity|]. split; [reflexivity|]. split; [reflexivity|].
  intros w Hw. unfold WHEEL_MAX in Hw.
  change (session (set_initialized st4 false) w) with (session st4 w).
  assert (session st4 w
          = if sessionActive (session st w)
            then with_end (with_result (with_state (session st w)
                                          CALIBRATION_STATE_CANCELLED)
                                       CALIBRATION_RESULT_NOT_OK) false 0
            else session st w) as E.
  { destruct w as [|[|[|[|k]]]]; try lia.
    - rewrite O4, O3, O2 by lia. exact S1.
    - rewrite O4, O3 by lia. rewrite S2, O1 by lia. reflexivity.
    - rewrite O4 by lia. rewrite S3, O2, O1 by lia. reflexivity.
    - rewrite S4, O3, O2, O1 by lia. reflexivity. }
  rewrite E. destruct (sessionActive (session st w)) eqn:Ea; cbn.
  - split; [reflexivity|]. split; [auto|discriminate].
  - split; [exact Ea|]. split; [discriminate|reflexivity].
Qed.

Lemma deinit_cancels_active_sessions_witness :
  state (session (snd (CalibrationManager_DeInit (cm timed_session))) 0)
  = CALIBRATION_STATE_CANCELLED
  /\ sessionActive (session (snd (CalibrationManager_DeInit (cm timed_session))) 0)
     = false.
Proof.
  assert (wf (cm timed_session)) as W by (repeat split; vm_compute; reflexivity).
  destruct (deinit_cancels_active_sessions (cm timed_session) timed_request W
              (ltac:(vm_compute; reflexivity))) as (_ & _ & _ & H).
  destruct (H 0%nat (ltac:(unfold WHEEL_MAX; lia))) as (A & C & _).
  split; [|exact A].
  apply C. vm_compute. reflexivity.
Defined.

(** *** Loading from the persistence service *)

Lemma wf_world_started_sensor :
  SpeedSensorSpec.wf (ss started)
  /\ g_CalibrationManager_Initialized (cm started) = true.
Proof. split; [split; reflexivity | reflexivity]. Qed.

Lemma save_dtc_calls nvm w wheelPos :
  dtc_calls (snd (CalibrationManager_SaveToNvm nvm w wheelPos)) = dtc_calls w
  \/ dtc_calls (snd (CalibrationManager_SaveToNvm nvm w wheelPos))
     = (u16 DTC_CALIBRATION_NVM_ERROR, true) :: dtc_calls w.
Proof.
  unfold CalibrationManager_SaveToNvm.
  destruct (_ && _); [|now left].
  destruct (SpeedSensor.SpeedSensor_GetCalibration (ss w) wheelPos) as [r c].
  destruct (r =? E_OK); [|now left].
  destruct (_ =? NVM_REQ_OK); [now left|now right].
Qed.

Lemma reset_to_factory_effect nvm w wheelPos :
  SpeedSensorSpec.wf (ss w) -> (wheelPos < WHEEL_MAX)%nat ->
  g_CalibrationManager_Initialized (cm w) = true ->
  SpeedSensor.g_SpeedSensor_Initialized (ss w) = true ->
  let w' := snd (CalibrationManager_ResetToFactory nvm w wheelPos) in
  live w' wheelPos = factory_calibration
  /\ forall c, In c (dtc_calls w) -> In c (dtc_calls w').
Proof.
  intros Hwf Hw Hi Hs. cbv zeta. unfold CalibrationManager_ResetToFactory.
  rewrite Hi, (proj2 (Nat.ltb_lt wheelPos WHEEL_MAX) Hw). cbn [andb].
  destruct (CalibrationFacts.set_calibration_result
              (ss w) wheelPos factory_calibration Hwf Hw)
    as [(R & _ & _ & C)|(_ & [F|F] & _)];
    [|rewrite Hs in F; discriminate F|discriminate F].
  destruct (SpeedSensor.SpeedSensor_SetCalibration (ss w) wheelPos factory_calibration)
    as [r ss'].
  cbn [fst snd] in R, C. subst r. cbn [Z.eqb E_OK].
  pose proof (CalibrationFacts.save_keeps_components nvm (set_ss w ss') wheelPos)
    as [K1 _].
  pose proof (save_dtc_calls nvm (set_ss w ss') wheelPos) as D.
  destruct (CalibrationManager_SaveToNvm nvm (set_ss w ss') wheelPos) as [rv w2].
  cbn [fst snd] in *. unfold live. cbn [set_cm ss dtc_calls].
  rewrite K1. cbn [set_ss ss]. split; [exact C|].
  intros c Hc. destruct D as [-> | ->]; [exact Hc | now right].
Qed.

(** X22.  Outcomes of [CalibrationManager_LoadFromNvm] with both components
    initialised.  A block that was read, lies in the configured band and is
    marked valid becomes the live coefficient set when the speed sensor
    accepts it; when the speed sensor refuses it the call fails and
    nothing changes.  A block that is out of the band or not marked valid
    is replaced by the factory coefficients.  A failed read signals the
    NVM error code (truncated to the 16 bits of the port) and installs the
    factory coefficients. *)
Theorem load_from_nvm_outcomes nvm w wheelPos :
  SpeedSensorSpec.wf (ss w) -> (wheelPos < WHEEL_MAX)%nat ->
  g_CalibrationManager_Initialized (cm w) = true ->
  SpeedSensor.g_SpeedSensor_Initialized (ss w) = true ->
  let r := fst (CalibrationManager_LoadFromNvm nvm w wheelPos) in
  let w' := snd (CalibrationManager_LoadFromNvm nvm w wheelPos) in
  let block := stored nvm wheelPos in
  (read_ok nvm wheelPos = true ->
   loadable (g_CalibrationConfig (cm w)) block = true ->
   (SpeedSensor.calibration_accepted block = true ->
    r = E_OK /\ live w' wheelPos = block /\ dtc_calls w' = dtc_calls w)
   /\ (SpeedSensor.calibration_accepted block = false ->
       r = E_NOT_OK /\ w' = w))
  /\ (read_ok nvm wheelPos = true ->
      loadable (g_CalibrationConfig (cm w)) block = false ->
      live w' wheelPos = factory_calibration)
  /\ (read_ok nvm wheelPos = false ->
      live w' wheelPos = factory_calibration
      /\ In (u16 DTC_CALIBRATION_NVM_ERROR, true) (dtc_calls w')).
Proof.
  intros Hwf Hw Hi Hs. cbv zeta.
  unfold CalibrationManager_LoadFromNvm, read_ok, stored, loadable.
  rewrite Hi, (proj2 (Nat.ltb_lt wheelPos WHEEL_MAX) Hw). cbn [andb].
  destruct (ReadBlock nvm (CalibrationManager_GetNvmBlockId wheelPos))
    as [rr block].
  cbn [fst snd].
  destruct (rr =? NVM_REQ_OK) eqn:Er.
  - split; [|split; [|discriminate]].
    + intros _ L. rewrite L.
      destruct (CalibrationFacts.set_calibration_result
                  (ss w) wheelPos block Hwf Hw)
        as [(R & _ & A & C)|(R & [F|F] & S)].
      * split; [|intros F; rewrite F in A; discriminate A].
        intros _.
        destruct (SpeedSensor.SpeedSensor_SetCalibration (ss w) wheelPos block)
          as [r ss'].
        cbn [fst snd] in *. split; [exact R|]. split; [|reflexivity].
        unfold live. cbn [set_ss ss]. rewrite C.
        apply andb_prop in L. destruct L as [_ V].
        destruct block; cbn in *. now rewrite V.
      * rewrite Hs in F. discriminate F.
      * split; [intros A; rewrite A in F; discriminate F|].
        intros _.
        destruct (SpeedSensor.SpeedSensor_SetCalibration (ss w) wheelPos block)
          as [r ss'].
        cbn [fst snd] in *. subst. split; [reflexivity|].
        destruct w; reflexivity.
    + intros _ L. rewrite L.
      now apply reset_to_factory_effect.
  - split; [discriminate|]. split; [discriminate|]. intros _.
    destruct (reset_to_factory_effect nvm
                (Rte_Call_DiagnosticService_SetDTC w DTC_CALIBRATION_NVM_ERROR true)
                wheelPos Hwf Hw Hi Hs) as [L D].
    split; [exact L|]. apply D. now left.
Qed.

Lemma load_from_nvm_outcomes_witness :
  live (snd (CalibrationManager_LoadFromNvm nvm_factor_1_2 started 2)) 2
  = stored nvm_factor_1_2 2
  /\ live (snd (CalibrationManager_LoadFromNvm nvm_failing started 2)) 2
     = factory_calibration.
Proof.
  destruct wf_world_started_sensor as [W Hi].
  destruct (load_from_nvm_outcomes nvm_factor_1_2 started 2 W
              (ltac:(unfold WHEEL_MAX; lia)) Hi eq_refl) as (H1 & _ & _).
  destruct (load_from_nvm_outcomes nvm_failing started 2 W
              (ltac:(unfold WHEEL_MAX; lia)) Hi eq_refl) as (_ & _ & H3).
  split.
  - apply H1; reflexivity.
  - exact (proj1 (H3 eq_refl)).
Defined.

(** *** Sessions with a sampling time *)

















End ManagerServiceFacts.

(** ** Diagnostic service: listing, reports and the request dispatcher *)

Module DiagnosticProtocolFacts.
Import DiagnosticService DiagnosticSpec DiagnosticProtocolSpec DiagnosticFacts.

(** *** The table under a write *)

(** The search reads the codes only. *)
Lemma find_from_numbers t t' n k :
  map dtcNumber t' = map dtcNumber t -> find_from t' n k = find_from t n k.
Proof.
  revert t' k. induction t as [|e t IH]; intros [|e' t'] k H; cbn in H;
    try discriminate; [reflexivity|].
  injection H as H1 H2. cbn [find_from]. rewrite H1.
  destruct (_ =? _); [reflexivity|]. now apply IH.
Qed.

Lemma numbers_upd t i e' :
  dtcNumber e' = dtcNumber (nth i t zero_dtc) ->
  map dtcNumber (upd i e' t) = map dtcNumber t.
Proof.
  revert i. induction t as [|e t IH]; intros [|i] H; cbn in *;
    try reflexivity.
  - now rewrite H.
  - f_equal. now apply IH.
Qed.

(** A code that was absent and is written into a slot is found there. *)
Lemma find_from_upd_new t n k j e' :
  find_from t n k = None -> (j < length t)%nat -> dtcNumber e' = n ->
  find_from (upd j e' t) n k = Some (k + j)%nat.
Proof.
  revert k j. induction t as [|e t IH]; intros k j H L E'; cbn in L; [lia|].
  cbn [find_from] in H. destruct (dtcNumber e =? n) eqn:E; [discriminate|].
  destruct j as [|j]; cbn [upd find_from].
  - apply Z.eqb_eq in E'. rewrite E'. f_equal. lia.
  - rewrite E. rewrite (IH (S k) j H) by (auto; lia). f_equal. lia.
Qed.

(** A write of another code into a slot that held another code leaves a
    found code where it was. *)
Lemma find_from_upd_other t n k i j e' :
  find_from t n k = Some i -> dtcNumber e' <> n ->
  dtcNumber (nth j t zero_dtc) <> n ->
  find_from (upd j e' t) n k = Some i.
Proof.
  revert k j. induction t as [|e t IH]; intros k j H E' Ej;
    cbn [find_from] in H; [discriminate|].
  destruct j as [|j]; cbn [upd find_from nth] in *.
  - apply Z.eqb_neq in E', Ej. rewrite Ej in H. rewrite E'. exact H.
  - destruct (dtcNumber e =? n); [exact H|]. now apply IH.
Qed.

Lemma find_from_bound t n k i :
  find_from t n k = Some i -> (k <= i < k + length t)%nat.
Proof.
  intros H. apply find_from_some in H. lia.
Qed.

(** *** Setting a code *)

Lemma update_status_effect st n i active :
  DiagnosticService_FindDTC st n = Some i ->
  let st' := snd (DiagnosticService_UpdateDTCStatus st n active) in
  fst (DiagnosticService_UpdateDTCStatus st n active) = E_OK
  /\ map dtcNumber (g_DTCTable st') = map dtcNumber (g_DTCTable st)
  /\ g_DiagnosticService_Initialized st' = g_DiagnosticService_Initialized st
  /\ (forall j, j <> i -> entry st' j = entry st j)
  /\ testFailed (status (entry st' i)) = active
  /\ (active = true -> testFailedThisOperationCycle (status (entry st' i)) = true).
Proof.
  intros Hf. cbv zeta. destruct (find_dtc_some st n i Hf) as [L E].
  unfold DiagnosticService_UpdateDTCStatus. rewrite Hf.
  destruct active; cbn [fst snd].
  - split; [reflexivity|]. split; [apply numbers_upd; reflexivity|].
    split; [reflexivity|]. split.
    + intros j Hj. unfold entry; cbn. apply get_upd_other. congruence.
    + rewrite entry_set_table_same by exact L. split; reflexivity.
  - split; [reflexivity|]. split; [apply numbers_upd; reflexivity|].
    split; [reflexivity|]. split.
    + intros j Hj. unfold entry; cbn. apply get_upd_other. congruence.
    + rewrite entry_set_table_same by exact L. split; [reflexivity|discriminate].
Qed.

Lemma add_dtc_effect st n wheelPos type j :
  DiagnosticService_FindDTC st 0 = Some j ->
  let st' := snd (DiagnosticService_AddDTC st n wheelPos type) in
  fst (DiagnosticService_AddDTC st n wheelPos type) = E_OK
  /\ g_DTCTable st' =
     upd j (mkDTC n (mkDTCStatus true true true
                       (confirmedDTC (status (entry st j)))
                       (testNotCompletedSinceLastClear (status (entry st j)))
                       (testFailedSinceLastClear (status (entry st j)))
                       (testNotCompletedThisOperationCycle (status (entry st j)))
                       (warningIndicatorRequested (status (entry st j))))
                  (severity (entry st j)) (functionalUnit (entry st j))
                  wheelPos 1 0 0 type)
         (g_DTCTable st)
  /\ g_DiagnosticService_Initialized st' = g_DiagnosticService_Initialized st.
Proof.
  intros Hf. cbv zeta. unfold DiagnosticService_AddDTC.
  unfold DiagnosticService_FindDTC in Hf. rewrite Hf. cbn [fst snd].
  split; [reflexivity|]. split; reflexivity.
Qed.

Lemma set_dtc_initialized st n active wheelPos :
  g_DiagnosticService_Initialized (snd (DiagnosticService_SetDTC st n active wheelPos))
  = g_DiagnosticService_Initialized st.
Proof.
  unfold DiagnosticService_SetDTC.
  destruct (g_DiagnosticService_Initialized st) eqn:Hi; [|exact Hi].
  destruct (DiagnosticService_FindDTC st n) as [i|] eqn:Hf.
  - destruct (update_status_effect st n i active Hf) as (_ & _ & I & _).
    rewrite I. exact Hi.
  - destruct active; [|exact Hi].
    destruct (DiagnosticService_FindDTC st 0) as [j|] eqn:H0.
    + destruct (add_dtc_effect st n wheelPos ABS.ABS_MALFUNCTION_NONE j H0)
        as (_ & _ & I). rewrite I. exact Hi.
    + unfold DiagnosticService_AddDTC. unfold DiagnosticService_FindDTC in H0.
      rewrite H0. exact Hi.
Qed.

(** The outcome of reporting a code as failed. *)
Lemma set_dtc_outcome st n wheelPos :
  g_DiagnosticService_Initialized st = true ->
  let r := fst (DiagnosticService_SetDTC st n true wheelPos) in
  let st' := snd (DiagnosticService_SetDTC st n true wheelPos) in
  (r = E_OK /\ stored_failed st' n)
  \/ (r = E_NOT_OK /\ st' = st /\ DiagnosticService_FindDTC st n = None
      /\ table_full st).
Proof.
  intros Hi. cbv zeta. unfold DiagnosticService_SetDTC. rewrite Hi.
  destruct (DiagnosticService_FindDTC st n) as [i|] eqn:Hf.
  - left. destruct (update_status_effect st n i true Hf)
      as (R & N & _ & _ & T & C).
    split; [exact R|]. exists i. split.
    + unfold DiagnosticService_FindDTC.
      rewrite (find_from_numbers _ _ _ _ N). exact Hf.
    + split; [exact T|now apply C].
  - destruct (DiagnosticService_FindDTC st 0) as [j|] eqn:H0.
    + left. destruct (add_dtc_effect st n wheelPos ABS.ABS_MALFUNCTION_NONE j H0)
        as (R & T & _).
      destruct (find_dtc_some st 0 j H0) as [L _].
      split; [exact R|]. exists j.
      assert (DiagnosticService_FindDTC
                (snd (DiagnosticService_AddDTC st n wheelPos ABS.ABS_MALFUNCTION_NONE))
                n = Some j) as F.
      { unfold DiagnosticService_FindDTC. rewrite T.
        rewrite (find_from_upd_new _ n 0 j); [reflexivity|exact Hf|exact L|
                                               reflexivity]. }
      split; [exact F|]. unfold entry. rewrite T.
      rewrite get_upd_same by exact L. split; reflexivity.
    + right. unfold DiagnosticService_AddDTC.
      unfold DiagnosticService_FindDTC in H0. rewrite H0.
      split; [reflexivity|]. split; [reflexivity|]. split; [reflexivity|].
      exact H0.
Qed.

(** X24.  [DiagnosticService_GetActiveDTCs] of an initialised service
    hands out the codes of the active slots in table order, cut to the
    first [maxDtcs], with their number as count; before initialisation it
    reports [E_NOT_OK]. *)
Theorem active_dtcs_listing st maxDtcs :
  0 <= maxDtcs ->
  DiagnosticService_GetActiveDTCs st maxDtcs =
  if g_DiagnosticService_Initialized st then
    (E_OK, firstn (Z.to_nat maxDtcs) (active_numbers st),
     Z.min maxDtcs (Z.of_nat (length (active_numbers st))))
  else (E_NOT_OK, [], 0).
Proof.
  intros Hm. unfold DiagnosticService_GetActiveDTCs.
  destruct (g_DiagnosticService_Initialized st); [|reflexivity].
  assert (forall t dtcList,
            Z.of_nat (length dtcList) <= maxDtcs ->
            active_dtcs_from t maxDtcs dtcList
            = dtcList ++ firstn (Z.to_nat maxDtcs - length dtcList)
                                (map dtcNumber (filter active t))) as G.
  { induction t as [|e t IH]; intros acc Ha; cbn [active_dtcs_from filter map].
    - now rewrite firstn_nil, app_nil_r.
    - destruct (Z.of_nat (length acc) <? maxDtcs) eqn:E.
      + apply Z.ltb_lt in E. fold (active e).
        destruct (active e); cbn [map].
        * rewrite IH by (rewrite length_app; cbn [length]; lia).
          rewrite length_app. cbn [length].
          replace (Z.to_nat maxDtcs - length acc)%nat
            with (S (Z.to_nat maxDtcs - (length acc + 1))) by lia.
          cbn [firstn]. now rewrite <- app_assoc.
        * now apply IH.
      + apply Z.ltb_ge in E.
        replace (Z.to_nat maxDtcs - length acc)%nat with 0%nat by lia.
        cbn [firstn]. now rewrite app_nil_r. }
  rewrite G by (cbn [length]; lia). cbn [app length]. rewrite Nat.sub_0_r.
  fold (active_numbers st). f_equal. rewrite length_firstn. lia.
Qed.

Lemma active_dtcs_listing_witness :
  DiagnosticService_GetActiveDTCs three_codes 1
  = (E_OK, [DTC_SPEED_SENSOR_FL_MISCALIBRATED], 1)
  /\ DiagnosticService_GetActiveDTCs three_codes 32
     = (E_OK, [DTC_SPEED_SENSOR_FL_MISCALIBRATED; DTC_SPEED_PLAUSIBILITY_ERROR], 2).
Proof.
  split.
  - rewrite (active_dtcs_listing three_codes 1) by lia. vm_compute. reflexivity.
  - rewrite (active_dtcs_listing three_codes 32) by lia. vm_compute. reflexivity.
Defined.

(** X25.  Reporting a code as failed through [DiagnosticService_SetDTC]
    and reading it back: either the call returns [E_OK] and
    [DiagnosticService_GetDTCInfo] then finds the code with its
    test-failed flags set, or the code was absent and no slot was free,
    the call returns [E_NOT_OK] and the service is unchanged. *)
Theorem set_dtc_then_get_info st n wheelPos :
  g_DiagnosticService_Initialized st = true ->
  let r := fst (DiagnosticService_SetDTC st n true wheelPos) in
  let st' := snd (DiagnosticService_SetDTC st n true wheelPos) in
  (r = E_OK
   /\ fst (DiagnosticService_GetDTCInfo st' n) = E_OK
   /\ dtcNumber (snd (DiagnosticService_GetDTCInfo st' n)) = n
   /\ testFailed (status (snd (DiagnosticService_GetDTCInfo st' n))) = true
   /\ testFailedThisOperationCycle
        (status (snd (DiagnosticService_GetDTCInfo st' n))) = true)
  \/ (r = E_NOT_OK /\ st' = st
      /\ DiagnosticService_FindDTC st n = None /\ table_full st
      /\ fst (DiagnosticService_GetDTCInfo st' n) = E_NOT_OK).
Proof.
  intros Hi. cbv zeta.
  destruct (set_dtc_outcome st n wheelPos Hi) as [(R & i & F & T & C)|(R & S & F & U)].
  - left. split; [exact R|].
    unfold DiagnosticService_GetDTCInfo.
    rewrite set_dtc_initialized, Hi, F. cbn [fst snd].
    destruct (find_dtc_some _ _ _ F) as [_ E].
    repeat split; assumption.
  - right. split; [exact R|]. split; [exact S|]. split; [exact F|].
    split; [exact U|]. rewrite S. unfold DiagnosticService_GetDTCInfo.
    rewrite Hi, F. reflexivity.
Qed.

Lemma set_dtc_then_get_info_witness :
  fst (DiagnosticService_GetDTCInfo
         (snd (DiagnosticService_SetDTC started DTC_SPEED_SENSOR_RL_FAILURE true
                 WHEEL_REAR_LEFT))
         DTC_SPEED_SENSOR_RL_FAILURE) = E_OK.
Proof.
  destruct (set_dtc_then_get_info started DTC_SPEED_SENSOR_RL_FAILURE
              WHEEL_REAR_LEFT eq_refl) as [(_ & G & _)|(R & _)].
  - exact G.
  - vm_compute in R. discriminate R.
Defined.

(** *** The reports of service 0x19 *)

Lemma mask_loop_bound (c : nat) (m : Z) :
  (Z.of_nat (3 + 4 * c) <? m - 4) = (c <? Z.to_nat ((m - 4) / 4))%nat.
Proof.
  pose proof (Z.div_mod (m - 4) 4 ltac:(lia)) as D.
  pose proof (Z.mod_pos_bound (m - 4) 4 ltac:(lia)) as B.
  destruct (c <? Z.to_nat ((m - 4) / 4))%nat eqn:E.
  - apply Nat.ltb_lt in E. apply Z.ltb_lt. lia.
  - apply Nat.ltb_ge in E. apply Z.ltb_ge. lia.
Qed.

Lemma supported_loop_bound (c : nat) (m : Z) :
  (Z.of_nat (2 + 3 * c) <? m - 3) = (c <? Z.to_nat ((m - 3) / 3))%nat.
Proof.
  pose proof (Z.div_mod (m - 3) 3 ltac:(lia)) as D.
  pose proof (Z.mod_pos_bound (m - 3) 3 ltac:(lia)) as B.
  destruct (c <? Z.to_nat ((m - 3) / 3))%nat eqn:E.
  - apply Nat.ltb_lt in E. apply Z.ltb_lt. lia.
  - apply Nat.ltb_ge in E. apply Z.ltb_ge. lia.
Qed.

Lemma report_by_mask_records t statusMask m out c :
  length out = (3 + 4 * c)%nat ->
  report_by_mask t statusMask m out
  = out ++ flat_map status_record
             (firstn (Z.to_nat ((m - 4) / 4) - c) (filter (matches statusMask) t)).
Proof.
  revert out c. induction t as [|e t IH]; intros out c L;
    cbn [report_by_mask filter].
  - now rewrite firstn_nil, app_nil_r.
  - rewrite L, mask_loop_bound.
    destruct (c <? Z.to_nat ((m - 4) / 4))%nat eqn:E.
    + apply Nat.ltb_lt in E. unfold matches at 1. unfold in_use.
      destruct (negb (dtcNumber e =? 0)); cbn [andb]; [|now apply IH].
      destruct (negb (Z.land (status_byte (status e)) statusMask =? 0));
        [|now apply IH].
      rewrite (IH _ (S c)) by (rewrite !length_app, L; cbn [length dtc_bytes]; lia).
      replace (Z.to_nat ((m - 4) / 4) - c)%nat
        with (S (Z.to_nat ((m - 4) / 4) - S c)) by lia.
      cbn [firstn flat_map]. unfold status_record at 2.
      now rewrite <- !app_assoc.
    + apply Nat.ltb_ge in E.
      replace (Z.to_nat ((m - 4) / 4) - c)%nat with 0%nat by lia.
      cbn [firstn flat_map]. now rewrite app_nil_r.
Qed.

Lemma report_supported_records t m out c :
  length out = (2 + 3 * c)%nat ->
  report_supported t m out
  = out ++ flat_map code_record
             (firstn (Z.to_nat ((m - 3) / 3) - c) (filter in_use t)).
Proof.
  revert out c. induction t as [|e t IH]; intros out c L;
    cbn [report_supported filter].
  - now rewrite firstn_nil, app_nil_r.
  - rewrite L, supported_loop_bound.
    destruct (c <? Z.to_nat ((m - 3) / 3))%nat eqn:E.
    + apply Nat.ltb_lt in E. unfold in_use at 1.
      destruct (negb (dtcNumber e =? 0)); [|now apply IH].
      rewrite (IH _ (S c)) by (rewrite !length_app, L; cbn [length dtc_bytes]; lia).
      replace (Z.to_nat ((m - 3) / 3) - c)%nat
        with (S (Z.to_nat ((m - 3) / 3) - S c)) by lia.
      cbn [firstn flat_map]. unfold code_record at 2.
      now rewrite <- !app_assoc.
    + apply Nat.ltb_ge in E.
      replace (Z.to_nat ((m - 3) / 3) - c)%nat with 0%nat by lia.
      cbn [firstn flat_map]. now rewrite app_nil_r.
Qed.

Lemma length_status_records l :
  length (flat_map status_record l) = (4 * length l)%nat.
Proof.
  induction l as [|e l IH]; [reflexivity|].
  cbn [flat_map]. rewrite length_app, IH. cbn [status_record dtc_bytes app length].
  lia.
Qed.

Lemma length_code_records l :
  length (flat_map code_record l) = (3 * length l)%nat.
Proof.
  induction l as [|e l IH]; [reflexivity|].
  cbn [flat_map]. rewrite length_app, IH. cbn [code_record dtc_bytes app length].
  lia.
Qed.

(** X26.  The report of DTCs by status mask (service 0x19, sub-function
    0x02): with at least two request bytes and a response buffer of at
    least three, the response is [59 02 mask] followed by the three code
    bytes and the status byte of the slots in use whose status shares a
    bit with the mask, in table order, cut to the first
    [(maxResponseLength - 4) / 4] of them; its length field is the number
    of bytes written, which stays within the buffer. *)
Theorem report_by_status_mask st req response :
  2 <= requestDataLength req -> 3 <= maxResponseLength response ->
  get 0 (requestData req) 0 = 0x02 ->
  let statusMask := get 0 (requestData req) 1 in
  let reported :=
    firstn (Z.to_nat ((maxResponseLength response - 4) / 4))
           (filter (matches statusMask) (g_DTCTable st)) in
  let out := [0x59; 0x02; statusMask] ++ flat_map status_record reported in
  UDS_ReadDTCInformation st req response
  = (E_OK, mkResponse out (3 + 4 * Z.of_nat (length reported))
                      (maxResponseLength response))
  /\ 3 + 4 * Z.of_nat (length reported) <= maxResponseLength response.
Proof.
  intros Hl Hm Hs. cbv zeta. split.
  - unfold UDS_ReadDTCInformation.
    replace (1 <=? requestDataLength req) with true by (symmetry; apply Z.leb_le; lia).
    replace (3 <=? maxResponseLength response) with true
      by (symmetry; apply Z.leb_le; lia).
    cbn [andb]. rewrite Hs. cbn [Z.eqb Pos.eqb].
    replace (2 <=? requestDataLength req) with true by (symmetry; apply Z.leb_le; lia).
    rewrite (report_by_mask_records _ _ _ _ 0) by reflexivity.
    rewrite Nat.sub_0_r. f_equal. f_equal.
    rewrite length_app, length_status_records. cbn [app length]. lia.
  - rewrite length_firstn.
    pose proof (Z.div_mod (maxResponseLength response - 4) 4 ltac:(lia)) as D.
    pose proof (Z.mod_pos_bound (maxResponseLength response - 4) 4 ltac:(lia)) as B.
    lia.
Qed.

Lemma report_by_status_mask_witness :
  UDS_ReadDTCInformation three_codes (mkRequest [0x02; 0x08] 2) response_buffer
  = (E_OK, mkResponse [0x59; 0x02; 0x08; 0xC1; 0x44; 0x00; 0x2F] 7 4095).
Proof.
  destruct (report_by_status_mask three_codes (mkRequest [0x02; 0x08] 2)
              response_buffer ltac:(cbn; lia) ltac:(cbn; lia) eq_refl) as [H _].
  rewrite H. vm_compute. reflexivity.
Defined.

(** X27.  The report of supported DTCs (service 0x19, sub-function 0x0A):
    with a request byte and a response buffer of at least three, the
    response is [59 0A] followed by the three code bytes of the slots in
    use, in table order, cut to the first [(maxResponseLength - 3) / 3] of
    them; it is complete when three bytes per stored code and the two
    header bytes leave a byte of the buffer free. *)
Theorem report_supported_dtcs st req response :
  1 <= requestDataLength req -> 3 <= maxResponseLength response ->
  get 0 (requestData req) 0 = 0x0A ->
  let reported :=
    firstn (Z.to_nat ((maxResponseLength response - 3) / 3)) (stored_entries st) in
  let out := [0x59; 0x0A] ++ flat_map code_record reported in
  UDS_ReadDTCInformation st req response
  = (E_OK, mkResponse out (2 + 3 * Z.of_nat (length reported))
                      (maxResponseLength response))
  /\ 2 + 3 * Z.of_nat (length reported) < maxResponseLength response
  /\ (2 + 3 * Z.of_nat (length (stored_entries st)) < maxResponseLength response ->
      reported = stored_entries st).
Proof.
  intros Hl Hm Hs. cbv zeta.
  pose proof (Z.div_mod (maxResponseLength response - 3) 3 ltac:(lia)) as D.
  pose proof (Z.mod_pos_bound (maxResponseLength response - 3) 3 ltac:(lia)) as B.
  split; [|split].
  - unfold UDS_ReadDTCInformation.
    replace (1 <=? requestDataLength req) with true by (symmetry; apply Z.leb_le; lia).
    replace (3 <=? maxResponseLength response) with true
      by (symmetry; apply Z.leb_le; lia).
    cbn [andb]. rewrite Hs. cbn [Z.eqb Pos.eqb].
    rewrite (report_supported_records _ _ _ 0) by reflexivity.
    rewrite Nat.sub_0_r. fold (stored_entries st). f_equal. f_equal.
    rewrite length_app, length_code_records. cbn [app length]. lia.
  - rewrite length_firstn. lia.
  - intros H. apply firstn_all2. lia.
Qed.

Lemma report_supported_dtcs_witness :
  UDS_ReadDTCInformation three_codes (mkRequest [0x0A] 1) response_buffer
  = (E_OK, mkResponse [0x59; 0x0A; 0xC1; 0x41; 0x00; 0xC1; 0x42; 0x01;
                       0xC1; 0x44; 0x00] 11 4095).
Proof.
  destruct (report_supported_dtcs three_codes (mkRequest [0x0A] 1)
              response_buffer ltac:(cbn; lia) ltac:(cbn; lia) eq_refl) as [H _].
  rewrite H. vm_compute. reflexivity.
Defined.

(** *** The dispatcher *)

Lemma session_control_effect st req response :
  let '(r, st', _) := UDS_DiagnosticSessionControl st req response in
  r = E_OK
  /\ g_DTCTable st' = g_DTCTable st
  /\ g_ActiveDTCCount st' = g_ActiveDTCCount st
  /\ g_DiagnosticService_Initialized st' = g_DiagnosticService_Initialized st.
Proof.
  unfold UDS_DiagnosticSessionControl.
  destruct (_ && _); [|repeat split].
  destruct (_ && _); repeat split.
Qed.

Lemma clear_information_effect abs st req response :
  let '(r, _, st', _) := UDS_ClearDiagnosticInformation abs st req response in
  r = E_OK
  /\ g_CurrentSession st' = g_CurrentSession st
  /\ g_ActiveDTCCount st' = g_ActiveDTCCount st
  /\ g_DiagnosticService_Initialized st' = g_DiagnosticService_Initialized st.
Proof.
  unfold UDS_ClearDiagnosticInformation.
  destruct (_ && _); [|repeat split].
  destruct (_ =? 0xFFFFFF).
  - unfold DiagnosticService_ClearAllDTCs.
    destruct (g_DiagnosticService_Initialized st) eqn:Hi; cbn; repeat split;
      exact Hi.
  - unfold DiagnosticService_ClearDTC.
    destruct (g_DiagnosticService_Initialized st) eqn:Hi; [|cbn; repeat split; exact Hi].
    destruct (DiagnosticService_FindDTC st _); cbn; repeat split; exact Hi.
Qed.

Lemma read_data_hand_over req response r :
  UDS_ReadDataByIdentifier req response = HandedOver r -> reads_only r = true.
Proof.
  unfold UDS_ReadDataByIdentifier.
  repeat match goal with
         | |- context [if ?c then _ else _] => destruct c
         end; intros H; try discriminate H; injection H as <-; reflexivity.
Qed.

Lemma write_data_needs_extended st req response r :
  UDS_WriteDataByIdentifier st req response = HandedOver r ->
  g_CurrentSession st = DIAG_SESSION_EXTENDED.
Proof.
  unfold UDS_WriteDataByIdentifier.
  destruct (_ && _); [|discriminate].
  destruct (g_CurrentSession st); cbn; try discriminate. reflexivity.
Qed.

Lemma routine_needs_extended st req response r :
  UDS_RoutineControl st req response = HandedOver r ->
  g_CurrentSession st = DIAG_SESSION_EXTENDED.
Proof.
  unfold UDS_RoutineControl.
  destruct (_ && _); [|discriminate].
  destruct (g_CurrentSession st); cbn; try discriminate. reflexivity.
Qed.

(** X28.  What a request to the initialised service can do.  A service
    identifier outside the table of eight is answered [7F sid 11] with the
    detector and the service unchanged.  An answered request changes the
    detector and the DTC table only through service 0x14, the session only
    through service 0x10, and never the initialisation flag or the DTC
    counter.  A request is handed over to a writing data function or to a
    routine only in the extended session. *)
Theorem dispatcher_effects abs st serviceId req response :
  g_DiagnosticService_Initialized st = true ->
  (~ In serviceId supported_services ->
   DiagnosticService_ProcessUDSRequest abs st serviceId req response
   = Answered (E_OK, abs, st,
               mkResponse [0x7F; serviceId; UDS_NRC_SERVICE_NOT_SUPPORTED] 3
                          (maxResponseLength response)))
  /\ (forall r abs' st' response',
        DiagnosticService_ProcessUDSRequest abs st serviceId req response
        = Answered (r, abs', st', response') ->
        (serviceId <> UDS_SID_CLEAR_DIAGNOSTIC_INFORMATION ->
         abs' = abs /\ g_DTCTable st' = g_DTCTable st)
        /\ (serviceId <> UDS_SID_DIAGNOSTIC_SESSION_CONTROL ->
            g_CurrentSession st' = g_CurrentSession st)
        /\ g_ActiveDTCCount st' = g_ActiveDTCCount st
        /\ g_DiagnosticService_Initialized st' = true)
  /\ (forall routine,
        DiagnosticService_ProcessUDSRequest abs st serviceId req response
        = HandedOver routine ->
        reads_only routine = true
        \/ g_CurrentSession st = DIAG_SESSION_EXTENDED).
Proof.
  intros Hi. unfold DiagnosticService_ProcessUDSRequest. rewrite Hi.
  unfold DiagnosticService_GetServiceHandler, g_UDSServiceTable.
  cbn [find_handler].
  destruct (UDS_SID_DIAGNOSTIC_SESSION_CONTROL =? serviceId) eqn:E1.
  { apply Z.eqb_eq in E1. subst serviceId.
    split; [intros N; exfalso; apply N; cbn; auto|].
    pose proof (session_control_effect st req response) as S.
    destruct (UDS_DiagnosticSessionControl st req response) as [[r0 st0] resp0].
    destruct S as (_ & T & C & I). split; [|intros ?; discriminate].
    intros r abs' st' response' H. injection H as <- <- <- <-.
    split; [intros _; split; [reflexivity|exact T]|].
    split; [intros N; congruence|]. split; [exact C|congruence]. }
  destruct (UDS_SID_ECU_RESET =? serviceId) eqn:E2.
  { apply Z.eqb_eq in E2. subst serviceId.
    split; [intros N; exfalso; apply N; cbn; auto|].
    destruct (UDS_ECUReset st req response) as [r0 resp0].
    split; [|intros ?; discriminate].
    intros r abs' st' response' H. injection H as <- <- <- <-.
    repeat split; auto. }
  destruct (UDS_SID_CLEAR_DIAGNOSTIC_INFORMATION =? serviceId) eqn:E3.
  { apply Z.eqb_eq in E3. subst serviceId.
    split; [intros N; exfalso; apply N; cbn; auto|]. split; [|intros ?; discriminate].
    pose proof (clear_information_effect abs st req response) as S.
    destruct (UDS_ClearDiagnosticInformation abs st req response)
      as [[[r0 abs0] st0] resp0].
    destruct S as (_ & T & C & I).
    intros r abs' st' response' H. injection H as <- <- <- <-.
    split; [intros N; congruence|].
    split; [intros _; exact T|]. split; [exact C|congruence]. }
  destruct (UDS_SID_READ_DTC_INFORMATION =? serviceId) eqn:E4.
  { apply Z.eqb_eq in E4. subst serviceId.
    split; [intros N; exfalso; apply N; cbn; auto|].
    destruct (UDS_ReadDTCInformation st req response) as [r0 resp0].
    split; [|intros ?; discriminate].
    intros r abs' st' response' H. injection H as <- <- <- <-.
    repeat split; auto. }
  destruct (UDS_SID_READ_DATA_BY_IDENTIFIER =? serviceId) eqn:E5.
  { apply Z.eqb_eq in E5. subst serviceId.
    split; [intros N; exfalso; apply N; cbn; auto 10|].
    destruct (UDS_ReadDataByIdentifier req response) as [[r0 resp0]|r0] eqn:R;
      cbn [lift_handled].
    - split; [|intros ?; discriminate].
      intros r abs' st' response' H. injection H as <- <- <- <-.
      repeat split; auto.
    - split; [intros ? ? ? ?; discriminate|].
      intros routine H. injection H as <-. left.
      exact (read_data_hand_over _ _ _ R). }
  destruct (UDS_SID_WRITE_DATA_BY_IDENTIFIER =? serviceId) eqn:E6.
  { apply Z.eqb_eq in E6. subst serviceId.
    split; [intros N; exfalso; apply N; cbn; auto 10|].
    destruct (UDS_WriteDataByIdentifier st req response) as [[r0 resp0]|r0] eqn:R;
      cbn [lift_handled].
    - split; [|intros ?; discriminate].
      intros r abs' st' response' H. injection H as <- <- <- <-.
      repeat split; auto.
    - split; [intros ? ? ? ?; discriminate|].
      intros routine H. right.
      exact (write_data_needs_extended _ _ _ _ R). }
  destruct (UDS_SID_IO_CONTROL_BY_IDENTIFIER =? serviceId) eqn:E7.
  { apply Z.eqb_eq in E7. subst serviceId.
    split; [intros N; exfalso; apply N; cbn; auto 10|].
    split; [|intros ?; discriminate].
    intros r abs' st' response' H. cbn in H. injection H as <- <- <- <-.
    repeat split; auto. }
  destruct (UDS_SID_ROUTINE_CONTROL =? serviceId) eqn:E8.
  { apply Z.eqb_eq in E8. subst serviceId.
    split; [intros N; exfalso; apply N; cbn; auto 10|].
    destruct (UDS_RoutineControl st req response) as [[r0 resp0]|r0] eqn:R;
      cbn [lift_handled].
    - split; [|intros ?; discriminate].
      intros r abs' st' response' H. injection H as <- <- <- <-.
      repeat split; auto.
    - split; [intros ? ? ? ?; discriminate|].
      intros routine H. right.
      exact (routine_needs_extended _ _ _ _ R). }
  split; [intros _; reflexivity|]. split; [|intros ?; discriminate].
  intros r abs' st' response' H. injection H as <- <- <- <-.
  repeat split; auto.
Qed.

Lemma dispatcher_effects_witness :
  DiagnosticService_ProcessUDSRequest ABSSpec.cruising started 0x27
    (mkRequest [0x01] 1) response_buffer
  = Answered (E_OK, ABSSpec.cruising, started, mkResponse [0x7F; 0x27; 0x11] 3 4095).
Proof.
  destruct (dispatcher_effects ABSSpec.cruising started 0x27 (mkRequest [0x01] 1)
              response_buffer eq_refl) as [H _].
  apply H. cbn. intros [E|[E|[E|[E|[E|[E|[E|[E|[]]]]]]]]]; discriminate E.
Defined.

(** X29.  Session control and reset compose: after a session-control
    request for a session 1 to 4 has been processed, the service is in that
    session, and a following hard-reset request is answered positively
    ([51 01]) exactly when that session is the programming session;
    otherwise it is answered [7F 11 22]. *)
Theorem reset_follows_session_control abs st session response response2 :
  g_DiagnosticService_Initialized st = true ->
  1 <= session <= 4 ->
  6 <= maxResponseLength response -> 3 <= maxResponseLength response2 ->
  exists st1,
    DiagnosticService_ProcessUDSRequest abs st UDS_SID_DIAGNOSTIC_SESSION_CONTROL
      (mkRequest [session] 1) response
    = Answered (E_OK, abs, st1,
                mkResponse [0x50; session; 0x00; 0x32; 0x01; 0xF4] 6
                           (maxResponseLength response))
    /\ session_value (g_CurrentSession st1) = session
    /\ DiagnosticService_ProcessUDSRequest abs st1 UDS_SID_ECU_RESET
         (mkRequest [0x01] 1) response2
       = Answered (E_OK, abs, st1,
                   if session =? 0x02
                   then mkResponse [0x51; 0x01] 2 (maxResponseLength response2)
                   else mkResponse [0x7F; 0x11; 0x22] 3
                                   (maxResponseLength response2)).
Proof.
  intros Hi Hs Hm Hm2.
  exists (set_current_session st (session_of_value session)).
  assert (session = 1 \/ session = 2 \/ session = 3 \/ session = 4) as C by lia.
  unfold DiagnosticService_ProcessUDSRequest. rewrite Hi.
  cbn [set_current_session g_DiagnosticService_Initialized]. rewrite Hi.
  unfold DiagnosticService_GetServiceHandler, g_UDSServiceTable.
  cbn [find_handler]. cbn [Z.eqb Pos.eqb UDS_SID_DIAGNOSTIC_SESSION_CONTROL
                            UDS_SID_ECU_RESET].
  unfold UDS_DiagnosticSessionControl, UDS_ECUReset.
  cbn [requestDataLength requestData get nth g_CurrentSession].
  replace (6 <=? maxResponseLength response) with true
    by (symmetry; apply Z.leb_le; lia).
  replace (2 <=? maxResponseLength response2) with true
    by (symmetry; apply Z.leb_le; lia).
  destruct C as [-> | [-> | [-> | ->]]]; cbn; repeat split; reflexivity.
Qed.

Lemma reset_follows_session_control_witness :
  exists st1,
    DiagnosticService_ProcessUDSRequest ABSSpec.cruising started 0x10
      (mkRequest [0x02] 1) response_buffer
    = Answered (E_OK, ABSSpec.cruising, st1,
                mkResponse [0x50; 0x02; 0x00; 0x32; 0x01; 0xF4] 6 4095)
    /\ DiagnosticService_ProcessUDSRequest ABSSpec.cruising st1 0x11
         (mkRequest [0x01] 1) response_buffer
       = Answered (E_OK, ABSSpec.cruising, st1, mkResponse [0x51; 0x01] 2 4095).
Proof.
  destruct (reset_follows_session_control ABSSpec.cruising started 0x02
              response_buffer response_buffer eq_refl ltac:(lia)
              ltac:(cbn; lia) ltac:(cbn; lia)) as (st1 & H1 & _ & H2).
  exists st1. split; [exact H1|exact H2].
Defined.

(** *** Monitoring the detector *)

Lemma set_dtc_keeps_full st n active wheelPos :
  table_full st -> table_full (snd (DiagnosticService_SetDTC st n active wheelPos)).
Proof.
  unfold table_full. intros U. unfold DiagnosticService_SetDTC.
  destruct (g_DiagnosticService_Initialized st); [|exact U].
  destruct (DiagnosticService_FindDTC st n) as [i|] eqn:Hf.
  - destruct (update_status_effect st n i active Hf) as (_ & N & _).
    unfold DiagnosticService_FindDTC. rewrite (find_from_numbers _ _ _ _ N).
    exact U.
  - destruct active; [|exact U]. unfold DiagnosticService_AddDTC.
    unfold DiagnosticService_FindDTC in U. rewrite U. exact U.
Qed.

Lemma set_dtc_keeps_stored_failed st n m wheelPos :
  n <> 0 -> g_DiagnosticService_Initialized st = true ->
  stored_failed st n ->
  stored_failed (snd (DiagnosticService_SetDTC st m true wheelPos)) n.
Proof.
  intros Hn Hi (i & F & T & C).
  destruct (Z.eq_dec m n) as [->|Hm].
  - destruct (set_dtc_outcome st n wheelPos Hi) as [(_ & S)|(_ & _ & N & _)];
      [exact S|congruence].
  - destruct (find_dtc_some st n i F) as [L E].
    unfold DiagnosticService_SetDTC. rewrite Hi.
    destruct (DiagnosticService_FindDTC st m) as [j|] eqn:Hf.
    + destruct (update_status_effect st m j true Hf) as (_ & N & _ & O & _).
      destruct (find_dtc_some st m j Hf) as [_ Ej].
      assert (i <> j) as Hij by (intros ->; congruence).
      exists i. unfold DiagnosticService_FindDTC.
      rewrite (find_from_numbers _ _ _ _ N). split; [exact F|].
      rewrite (O i Hij). split; assumption.
    + destruct (DiagnosticService_FindDTC st 0) as [j|] eqn:H0.
      * destruct (add_dtc_effect st m wheelPos ABS.ABS_MALFUNCTION_NONE j H0)
          as (_ & Tb & _).
        destruct (find_dtc_some st 0 j H0) as [_ Ej].
        assert (i <> j) as Hij by (intros ->; congruence).
        exists i. unfold DiagnosticService_FindDTC, entry. rewrite Tb. split.
        -- apply find_from_upd_other; [exact F|exact Hm|].
           fold (get zero_dtc (g_DTCTable st) j). fold (entry st j).
           rewrite Ej. congruence.
        -- rewrite get_upd_other by congruence. split; assumption.
      * unfold DiagnosticService_AddDTC.
        unfold DiagnosticService_FindDTC in H0. rewrite H0.
        exists i. split; [exact F|]. split; assumption.
Qed.

Lemma code_of_wheel_not_zero type wheelPos :
  (wheelPos < WHEEL_MAX)%nat ->
  DiagnosticService_GetDTCForMalfunction type wheelPos <> 0.
Proof.
  unfold WHEEL_MAX. intros H.
  destruct wheelPos as [|[|[|[|k]]]]; try lia; destruct type; discriminate.
Qed.

(** X30.  A cycle of the initialised service records the confirmed
    malfunctions of the detector: for a wheel whose record is confirmed
    and names an affected wheel, the code of its type and affected wheel is
    stored with its test-failed flags set after
    [DiagnosticService_MainFunction], unless the table has no free slot
    left. *)
Theorem confirmed_malfunction_recorded abs st w :
  g_DiagnosticService_Initialized st = true ->
  ABS.g_ABS_Initialized abs = true ->
  (w < WHEEL_MAX)%nat ->
  ABS.confirmedMalfunction (ABS.malfunction abs w) = true ->
  (ABS.affectedWheel (ABS.malfunction abs w) < WHEEL_MAX)%nat ->
  let st' := snd (DiagnosticService_MainFunction abs st) in
  stored_failed st' (code_of abs w) \/ table_full st'.
Proof.
  intros Hi Ha Hw Hc Hv. cbv zeta.
  pose proof (code_of_wheel_not_zero (ABS.malfunctionType (ABS.malfunction abs w))
                _ Hv) as Hn. fold (code_of abs w) in Hn.
  unfold DiagnosticService_MainFunction. rewrite Hi. cbn [snd].
  unfold DiagnosticService_MonitorMalfunctions.
  set (f := fun (st' : State) (wheelIdx : nat) =>
              let '(r, malfunctionStatus) :=
                ABS.ABS_GetMalfunctionStatus abs wheelIdx in
              if r =? E_OK then
                if ABS.confirmedMalfunction malfunctionStatus then
                  let n :=
                    DiagnosticService_GetDTCForMalfunction
                      (ABS.malfunctionType malfunctionStatus)
                      (ABS.affectedWheel malfunctionStatus) in
                  if negb (n =? 0)
                  then snd (DiagnosticService_SetDTC st' n true
                              (ABS.affectedWheel malfunctionStatus))
                  else st'
                else st'
              else st').
  (* Every iteration keeps the flag, a stored code and a full table. *)
  assert (forall s j,
            g_DiagnosticService_Initialized s = true ->
            g_DiagnosticService_Initialized (f s j) = true
            /\ (stored_failed s (code_of abs w) -> stored_failed (f s j) (code_of abs w))
            /\ (table_full s -> table_full (f s j))) as Keep.
  { intros s j Hs. unfold f.
    destruct (ABS.ABS_GetMalfunctionStatus abs j) as [r m].
    destruct (r =? E_OK); [|auto].
    destruct (ABS.confirmedMalfunction m); [|auto]. cbv zeta.
    destruct (negb (_ =? 0)); [|auto].
    split; [rewrite set_dtc_initialized; exact Hs|]. split.
    - now apply set_dtc_keeps_stored_failed.
    - apply set_dtc_keeps_full. }
  (* The iteration of the wheel itself stores its code. *)
  assert (forall s,
            g_DiagnosticService_Initialized s = true ->
            stored_failed (f s w) (code_of abs w) \/ table_full (f s w)) as Own.
  { intros s Hs. unfold f, ABS.ABS_GetMalfunctionStatus.
    rewrite (proj2 (Nat.ltb_lt w WHEEL_MAX) Hw), Ha. cbn [andb].
    cbn [Z.eqb E_OK]. rewrite Hc. cbv zeta. fold (code_of abs w).
    rewrite (proj2 (Z.eqb_neq _ _) Hn). cbn [negb].
    destruct (set_dtc_outcome s (code_of abs w)
                (ABS.affectedWheel (ABS.malfunction abs w)) Hs)
      as [(_ & S)|(_ & E & _ & U)]; [left; exact S|right].
    rewrite E. exact U. }
  assert (forall l s,
            g_DiagnosticService_Initialized s = true ->
            stored_failed s (code_of abs w) \/ table_full s ->
            stored_failed (fold_left f l s) (code_of abs w)
            \/ table_full (fold_left f l s)) as Rest.
  { induction l as [|j l IH]; intros s Hs H; cbn [fold_left]; [exact H|].
    destruct (Keep s j Hs) as (I & S & U).
    apply IH; [exact I|]. destruct H as [H|H]; [left; now apply S|right; now apply U]. }
  assert (forall l s,
            In w l -> g_DiagnosticService_Initialized s = true ->
            stored_failed (fold_left f l s) (code_of abs w)
            \/ table_full (fold_left f l s)) as All.
  { induction l as [|j l IH]; intros s Hin Hs; [destruct Hin|].
    cbn [fold_left]. destruct (Keep s j Hs) as (I & _).
    destruct (Nat.eq_dec j w) as [->|Hj].
    - apply Rest; [exact I|]. now apply Own.
    - apply IH; [|exact I]. destruct Hin as [Hin|Hin]; [congruence|exact Hin]. }
  apply All; [|exact Hi].
  unfold wheels, WHEEL_FRONT_LEFT, WHEEL_FRONT_RIGHT, WHEEL_REAR_LEFT,
    WHEEL_REAR_RIGHT. unfold WHEEL_MAX in Hw. cbn [In]. lia.
Qed.

Lemma confirmed_malfunction_recorded_witness :
  stored_failed (snd (DiagnosticService_MainFunction rear_left_failed started))
                DTC_SPEED_SENSOR_RL_FAILURE
  \/ table_full (snd (DiagnosticService_MainFunction rear_left_failed started)).
Proof.
  pose proof (confirmed_malfunction_recorded rear_left_failed started
                WHEEL_REAR_LEFT eq_refl eq_refl
                ltac:(unfold WHEEL_REAR_LEFT, WHEEL_MAX; lia) eq_refl
                ltac:(vm_compute; lia)) as H.
  exact H.
Defined.

End DiagnosticProtocolFacts.

(** * Properties at the binary32 level *)

(** ** Comparisons of binary32 values *)

Module Float32Facts.
Import Float32.

(** Swapping the operands of a comparison swaps its result. *)
Lemma compare_swap (x y : float32) :
  SFcompare y x = option_map CompOpp (SFcompare x y).
Proof.
  destruct x as [sx|sx| |sx mx ex], y as [sy|sy| |sy my ey];
    try reflexivity;
    try (destruct sx; reflexivity); try (destruct sy; reflexivity);
    try (destruct sx, sy; reflexivity).
  destruct sx, sy; cbn [SFcompare option_map]; try reflexivity;
    rewrite (Z.compare_antisym ex ey);
    destruct (ex ?= ey) eqn:E; cbn [CompOpp]; try reflexivity;
    change (Pos.compare_cont Eq my mx) with (Pos.compare my mx);
    change (Pos.compare_cont Eq mx my) with (Pos.compare mx my);
    rewrite (Pos.compare_antisym mx my); destruct (mx ?= my)%positive;
    reflexivity.
Qed.

(** A comparison with a NaN operand is false. *)
Lemma fltb_nan_l x : fltb S754_nan x = false.
Proof. reflexivity. Qed.

Lemma fltb_nan_r x : fltb x S754_nan = false.
Proof. destruct x as [s|s| |s m e]; reflexivity. Qed.

Lemma fleb_nan_l x : fleb S754_nan x = false.
Proof. reflexivity. Qed.

Lemma fleb_nan_r x : fleb x S754_nan = false.
Proof. destruct x as [s|s| |s m e]; reflexivity. Qed.

(** A comparison that holds has operands that are numbers. *)
Lemma fleb_numbers x y : fleb x y = true -> is_nan x = false /\ is_nan y = false.
Proof.
  destruct x as [s|s| |s m e], y as [s'|s'| |s' m' e']; cbn;
    intros H; try discriminate H; split; reflexivity.
Qed.

(** On numbers, [x < y] fails exactly when [y <= x] holds. *)
Lemma fltb_false_fleb x y :
  is_nan x = false -> is_nan y = false ->
  (fltb x y = false <-> fleb y x = true).
Proof.
  intros Hx Hy. unfold fltb, fleb, SFltb, SFleb. rewrite (compare_swap x y).
  destruct (SFcompare x y) as [[| |]|] eqn:E; cbn; try tauto;
    try (split; congruence).
  destruct x as [s|s| |s m e], y as [s'|s'| |s' m' e']; cbn in *;
    discriminate.
Qed.

(** The constants of the two calibration checks, with [x], in the
    order that makes the check of the setter the wider one. *)
Lemma above_0_8_above_0_5 x :
  fgeb x (literal 8 10) = true -> fgtb x (literal 1 2) = true.
Proof.
  unfold fgeb, fgtb, SFleb, SFltb.
  change (literal 8 10) with (S754_finite false 13421773 (-24)).
  change (literal 1 2) with (S754_finite false 8388608 (-24)).
  destruct x as [s|s| |s m e]; cbn [SFcompare]; try discriminate;
    destruct s; try discriminate; try reflexivity.
  destruct (-24 ?= e) eqn:E; try discriminate; [|reflexivity].
  change (Pos.compare_cont Eq 13421773 m) with (13421773 ?= m)%positive.
  change (Pos.compare_cont Eq 8388608 m) with (8388608 ?= m)%positive.
  destruct (13421773 ?= m)%positive eqn:M; try discriminate; intros _.
  - apply Pos.compare_eq_iff in M. subst m. reflexivity.
  - change (13421773 < m)%positive in M.
    replace (8388608 ?= m)%positive with Lt; [reflexivity|].
    symmetry. change (8388608 < m)%positive. lia.
Qed.

Lemma up_to_1_2_below_2 x :
  fleb x (literal 12 10) = true -> fltb x (of_int 2) = true.
Proof.
  unfold fleb, fltb, SFleb, SFltb.
  change (literal 12 10) with (S754_finite false 10066330 (-23)).
  change (of_int 2) with (S754_finite false 8388608 (-22)).
  destruct x as [s|s| |s m e]; cbn [SFcompare]; try discriminate;
    destruct s; try discriminate; try reflexivity.
  destruct (e ?= -23) eqn:E; try discriminate; intros _.
  - apply Z.compare_eq_iff in E. subst e. reflexivity.
  - change (e < -23) in E.
    replace (e ?= -22) with Lt; [reflexivity|].
    symmetry. change (e < -22). lia.
Qed.

Lemma above_1_5_above_0 x :
  fgeb x (literal 15 10) = true -> fgtb x fzero = true.
Proof.
  unfold fgeb, fgtb, SFleb, SFltb.
  change (literal 15 10) with (S754_finite false 12582912 (-23)).
  destruct x as [s|s| |s m e]; cbn [SFcompare]; try discriminate;
    destruct s; try discriminate; reflexivity.
Qed.

(** The literals of the code, as binary32 values: [0.8f], [1.2f], [1.5f],
    [0.5f], [2.1f] and [300.0f]. *)
Example literal_values :
  literal 8 10 = S754_finite false 13421773 (-24)
  /\ literal 12 10 = S754_finite false 10066330 (-23)
  /\ literal 15 10 = S754_finite false 12582912 (-23)
  /\ literal 1 2 = S754_finite false 8388608 (-24)
  /\ literal 21 10 = S754_finite false 8808038 (-22)
  /\ of_int 300 = S754_finite false 9830400 (-15).
Proof. vm_compute. repeat split; reflexivity. Qed.

End Float32Facts.

(** ** Speed sensor component over binary32 *)

Module SpeedSensorFloatFacts.
Import Float32 SpeedSensor SpeedSensorFloat SpeedSensorFloatSpec.

Lemma float_sensor_set_same st w d :
  (w < length (g_SpeedSensorData st))%nat -> sensor (set_sensor st w d) w = d.
Proof. intros H. unfold sensor, set_sensor; cbn. now apply get_upd_same. Qed.

Lemma float_sensor_set_other st w w' d :
  w <> w' -> sensor (set_sensor st w d) w' = sensor st w'.
Proof. intros H. unfold sensor, set_sensor; cbn. now apply get_upd_other. Qed.

Lemma float_sensor_mk_same st w d i ls :
  (w < length (g_SpeedSensorData st))%nat ->
  sensor (mkState (upd w d (g_SpeedSensorData st)) i ls) w = d.
Proof. intros H. unfold sensor; cbn. now apply get_upd_same. Qed.

Lemma float_wf_set_sensor st w d : wf st -> wf (set_sensor st w d).
Proof. unfold wf, set_sensor; cbn. now rewrite length_upd. Qed.

Lemma float_wf_started : wf started.
Proof. split; reflexivity. Qed.

Lemma float_wf_calculate st w : wf st -> wf (SpeedSensor_CalculateSpeed st w).
Proof.
  intros [H1 H2]. unfold SpeedSensor_CalculateSpeed.
  destruct (_ && _); [|now apply float_wf_set_sensor].
  split; cbn; now rewrite length_upd.
Qed.

Lemma float_calculate_other st w w' :
  w <> w' -> sensor (SpeedSensor_CalculateSpeed st w) w' = sensor st w'.
Proof.
  intros H. unfold SpeedSensor_CalculateSpeed.
  destruct (_ && _); [|now apply float_sensor_set_other].
  unfold sensor; cbn. now apply get_upd_other.
Qed.

(** The record [SpeedSensor_CalculateSpeed] leaves in its wheel: with a
    zero elapsed time or pulse count per revolution the three speed values
    are [0.0f]. *)
Lemma float_calculate_fields st w :
  wf st -> (w < WHEEL_MAX)%nat ->
  let d := sensor st w in
  let d' := sensor (SpeedSensor_CalculateSpeed st w) w in
  rawData d' = rawData d
  /\ calibration d' = calibration d
  /\ speedValid (speedData d') = speedValid (speedData d)
  /\ errorCount (diagnostics d') = errorCount (diagnostics d)
  /\ (timeInterval (rawData d) <= 0 \/ pulsesPerRevolution (calibration d) <= 0 ->
      wheelSpeed (speedData d') = fzero
      /\ wheelSpeedRaw (speedData d') = fzero
      /\ accelerationX (speedData d') = fzero).
Proof.
  intros [H1 H2] Hw d. unfold SpeedSensor_CalculateSpeed. fold d.
  destruct (0 <? timeInterval (rawData d)) eqn:E1;
  destruct (0 <? pulsesPerRevolution (calibration d)) eqn:E2; cbn [andb];
    cbv zeta.
  1: rewrite float_sensor_mk_same by lia.
  2-4: rewrite float_sensor_set_same by lia.
  all: cbn [rawData calibration speedData diagnostics set_diag set_speed
            speedValid errorCount wheelSpeed wheelSpeedRaw accelerationX];
    repeat (split; [reflexivity|]).
  1: apply Z.ltb_lt in E1, E2; intros [H|H]; lia.
  all: reflexivity.
Qed.

(** The record [SpeedSensor_ValidateSpeedData] leaves in its wheel: the
    verdict, and a quality grade of 100, 50, 30 or 0. *)
Lemma float_validate_fields st w :
  wf st -> (w < WHEEL_MAX)%nat ->
  let d := sensor st w in
  let d' := sensor (SpeedSensor_ValidateSpeedData st w) w in
  rawData d' = rawData d
  /\ calibration d' = calibration d
  /\ diagnostics d' = diagnostics d
  /\ wheelSpeed (speedData d') = wheelSpeed (speedData d)
  /\ wheelSpeedRaw (speedData d') = wheelSpeedRaw (speedData d)
  /\ accelerationX (speedData d') = accelerationX (speedData d)
  /\ speedValid (speedData d') = verdict d
  /\ (qualityFactor (speedData d') = 100 <->
      verdict d = true /\ unreasonable (accelerationX (speedData d)) = false)
  /\ (verdict d = true ->
      qualityFactor (speedData d') = 100 \/ qualityFactor (speedData d') = 30)
  /\ (verdict d = false -> qualityFactor (speedData d') <= 50)
  /\ 0 <= qualityFactor (speedData d') <= 100.
Proof.
  intros [H1 H2] Hw d. unfold SpeedSensor_ValidateSpeedData. cbv zeta. fold d.
  unfold verdict.
  fold (out_of_range (wheelSpeed (speedData d))).
  fold (unreasonable (accelerationX (speedData d))).
  destruct (out_of_range (wheelSpeed (speedData d)));
  destruct (status_is_ok (status (rawData d)));
  destruct (calibrationValid (calibration d));
  destruct (unreasonable (accelerationX (speedData d)));
    cbv beta iota zeta delta [negb];
    rewrite float_sensor_set_same by lia; cbn;
    repeat (split; [reflexivity|]);
    (split; [split; [intros E; try discriminate E; split; reflexivity
                    | intros [A B]; try discriminate A; try discriminate B;
                      reflexivity]|]);
    (split; [intros E; try discriminate E; auto|]);
    (split; [intros E; try discriminate E; lia|]); lia.
Qed.

Lemma float_wf_validate st w : wf st -> wf (SpeedSensor_ValidateSpeedData st w).
Proof.
  intros H. unfold SpeedSensor_ValidateSpeedData. cbv zeta.
  destruct (_ || _); destruct (negb (status_is_ok _));
    destruct (negb (calibrationValid _)); now apply float_wf_set_sensor.
Qed.

Lemma float_validate_other st w w' :
  w <> w' -> sensor (SpeedSensor_ValidateSpeedData st w) w' = sensor st w'.
Proof.
  intros H. unfold SpeedSensor_ValidateSpeedData. cbv zeta.
  destruct (_ || _); destruct (negb (status_is_ok _));
    destruct (negb (calibrationValid _)); now apply float_sensor_set_other.
Qed.

(** The record [SpeedSensor_UpdateDiagnostics] leaves in its wheel. *)
Lemma float_update_diagnostics_fields st w :
  wf st -> (w < WHEEL_MAX)%nat ->
  let d := sensor st w in
  let d' := sensor (SpeedSensor_UpdateDiagnostics st w) w in
  rawData d' = rawData d
  /\ calibration d' = calibration d
  /\ speedData d' = speedData d.
Proof.
  intros [H1 H2] Hw d. unfold SpeedSensor_UpdateDiagnostics. fold d.
  rewrite float_sensor_set_same by lia. cbn. repeat split.
Qed.

(** The state the wheel iteration works on once the raw data are stored. *)
Lemma float_raw_stored st w raw :
  wf st -> (w < WHEEL_MAX)%nat ->
  let st1 := set_sensor st w (set_raw (sensor st w) raw) in
  wf st1
  /\ rawData (sensor st1 w) = raw
  /\ calibration (sensor st1 w) = calibration (sensor st w)
  /\ speedData (sensor st1 w) = speedData (sensor st w).
Proof.
  intros Hwf Hw st1. split; [now apply float_wf_set_sensor|].
  destruct Hwf as [H1 H2]. unfold st1.
  rewrite float_sensor_set_same by lia. cbn. auto.
Qed.

Lemma float_process_wheel_unfold rte st w :
  (w < WHEEL_MAX)%nat -> fst (rte w) = E_OK ->
  process_wheel rte st w =
  SpeedSensor_UpdateDiagnostics
    (SpeedSensor_ValidateSpeedData
       (SpeedSensor_CalculateSpeed
          (set_sensor st w (set_raw (sensor st w) (snd (rte w)))) w) w) w.
Proof.
  intros Hw Hr. unfold process_wheel, SpeedSensor_ProcessRawData.
  apply Nat.ltb_lt in Hw. rewrite Hw.
  destruct (rte w) as [r raw]. cbn in Hr. subst r. reflexivity.
Qed.

Lemma float_wf_process_wheel rte st w : wf st -> wf (process_wheel rte st w).
Proof.
  intros H. unfold process_wheel, SpeedSensor_ProcessRawData.
  destruct (if (w <? WHEEL_MAX)%nat then rte w else (E_NOT_OK, zero_raw))
    as [r raw].
  destruct (r =? E_OK) eqn:E; rewrite ?E; [|exact H].
  unfold SpeedSensor_UpdateDiagnostics. apply float_wf_set_sensor.
  apply float_wf_validate, float_wf_calculate. now apply float_wf_set_sensor.
Qed.

(** Processing a wheel leaves the data of every other wheel alone, and
    the initialisation flag as it is. *)
Lemma float_process_wheel_other rte st w w' :
  w <> w' -> sensor (process_wheel rte st w) w' = sensor st w'.
Proof.
  intros H. unfold process_wheel, SpeedSensor_ProcessRawData.
  destruct (if (w <? WHEEL_MAX)%nat then rte w else (E_NOT_OK, zero_raw))
    as [r raw].
  destruct (r =? E_OK) eqn:E; rewrite ?E; [|reflexivity].
  unfold SpeedSensor_UpdateDiagnostics.
  rewrite float_sensor_set_other by exact H.
  rewrite float_validate_other by exact H.
  rewrite float_calculate_other by exact H.
  now apply float_sensor_set_other.
Qed.

Lemma float_initialized_process_wheel rte st w :
  g_SpeedSensor_Initialized (process_wheel rte st w)
  = g_SpeedSensor_Initialized st.
Proof.
  unfold process_wheel, SpeedSensor_ProcessRawData.
  destruct (if (w <? WHEEL_MAX)%nat then rte w else (E_NOT_OK, zero_raw))
    as [r raw].
  destruct (r =? E_OK) eqn:E; rewrite ?E; [|reflexivity].
  unfold SpeedSensor_UpdateDiagnostics, SpeedSensor_ValidateSpeedData.
  cbv zeta.
  destruct (_ || _); destruct (negb (status_is_ok _));
    destruct (negb (calibrationValid _));
    cbn [set_sensor g_SpeedSensor_Initialized];
    unfold SpeedSensor_CalculateSpeed; destruct (_ && _); reflexivity.
Qed.

(** What the iteration of a wheel whose read succeeded leaves in the
    wheel. *)
Lemma float_process_wheel_fields rte st w :
  wf st -> (w < WHEEL_MAX)%nat -> fst (rte w) = E_OK ->
  let d := sensor st w in
  let d' := sensor (process_wheel rte st w) w in
  rawData d' = snd (rte w)
  /\ calibration d' = calibration d
  /\ speedValid (speedData d') = verdict d'
  /\ (timeInterval (snd (rte w)) <= 0 \/ pulsesPerRevolution (calibration d) <= 0 ->
      wheelSpeed (speedData d') = fzero
      /\ wheelSpeedRaw (speedData d') = fzero
      /\ accelerationX (speedData d') = fzero)
  /\ (qualityFactor (speedData d') = 100 <->
      speedValid (speedData d') = true
      /\ unreasonable (accelerationX (speedData d')) = false)
  /\ (speedValid (speedData d') = true ->
      qualityFactor (speedData d') = 100 \/ qualityFactor (speedData d') = 30)
  /\ (speedValid (speedData d') = false -> qualityFactor (speedData d') <= 50)
  /\ 0 <= qualityFactor (speedData d') <= 100.
Proof.
  intros Hwf Hw Hr d d'. unfold d'.
  rewrite float_process_wheel_unfold by assumption.
  destruct (float_raw_stored st w (snd (rte w)) Hwf Hw) as (W1 & R1 & C1 & _).
  set (st1 := set_sensor st w (set_raw (sensor st w) (snd (rte w)))) in *.
  destruct (float_calculate_fields st1 w W1 Hw) as (R2 & C2 & _ & _ & Z2).
  pose proof (float_wf_calculate st1 w W1) as W2.
  set (st2 := SpeedSensor_CalculateSpeed st1 w) in *.
  destruct (float_validate_fields st2 w W2 Hw)
    as (R3 & C3 & _ & S3 & T3 & A3 & V3 & Q1 & Q2 & Q3 & Q4).
  pose proof (float_wf_validate st2 w W2) as W3.
  set (st3 := SpeedSensor_ValidateSpeedData st2 w) in *.
  destruct (float_update_diagnostics_fields st3 w W3 Hw) as (R4 & C4 & S4).
  assert (verdict (sensor (SpeedSensor_UpdateDiagnostics st3 w) w)
          = verdict (sensor st2 w)) as EV.
  { unfold verdict. now rewrite R4, C4, S4, R3, C3, S3. }
  rewrite EV, R4, C4, S4, R3, C3, S3, T3, A3, V3, R2, C2, R1, C1.
  split; [reflexivity|]. split; [reflexivity|]. split; [reflexivity|].
  split; [intros H; apply Z2; now rewrite R1, C1|].
  split; [exact Q1|]. split; [exact Q2|]. split; [exact Q3|exact Q4].
Qed.

(** What the wheel loop of the main function leaves in a wheel is what
    the iteration of that wheel leaves. *)
Lemma float_main_function_wheel (P : SpeedSensorData_t -> Prop) rte st w :
  wf st -> (w < WHEEL_MAX)%nat ->
  (forall st', wf st' -> sensor st' w = sensor st w ->
               P (sensor (process_wheel rte st' w) w)) ->
  P (sensor (fold_left (process_wheel rte) wheels st) w).
Proof.
  intros Hwf Hw H. cbn [fold_left wheels].
  unfold WHEEL_FRONT_LEFT, WHEEL_FRONT_RIGHT, WHEEL_REAR_LEFT, WHEEL_REAR_RIGHT.
  pose proof (float_wf_process_wheel rte st 0 Hwf) as W1.
  pose proof (float_wf_process_wheel rte _ 1 W1) as W2.
  pose proof (float_wf_process_wheel rte _ 2 W2) as W3.
  unfold WHEEL_MAX in Hw.
  destruct w as [|[|[|[|w]]]]; try lia.
  - rewrite !float_process_wheel_other by lia. now apply H.
  - rewrite !float_process_wheel_other by lia.
    apply H; [assumption|]. now rewrite float_process_wheel_other by lia.
  - rewrite !float_process_wheel_other by lia.
    apply H; [assumption|]. now rewrite !float_process_wheel_other by lia.
  - apply H; [assumption|]. now rewrite !float_process_wheel_other by lia.
Qed.

(** What a cycle leaves in a wheel whose read succeeded. *)
Lemma float_main_function_fields rte st w :
  wf st -> (w < WHEEL_MAX)%nat -> fst (rte w) = E_OK ->
  let d := sensor st w in
  let d' := sensor (fold_left (process_wheel rte) wheels st) w in
  rawData d' = snd (rte w)
  /\ calibration d' = calibration d
  /\ speedValid (speedData d') = verdict d'
  /\ (timeInterval (snd (rte w)) <= 0 \/ pulsesPerRevolution (calibration d) <= 0 ->
      wheelSpeed (speedData d') = fzero
      /\ wheelSpeedRaw (speedData d') = fzero
      /\ accelerationX (speedData d') = fzero)
  /\ (qualityFactor (speedData d') = 100 <->
      speedValid (speedData d') = true
      /\ unreasonable (accelerationX (speedData d')) = false)
  /\ (speedValid (speedData d') = true ->
      qualityFactor (speedData d') = 100 \/ qualityFactor (speedData d') = 30)
  /\ (speedValid (speedData d') = false -> qualityFactor (speedData d') <= 50)
  /\ 0 <= qualityFactor (speedData d') <= 100.
Proof.
  intros Hwf Hw Hr. cbv zeta.
  apply (float_main_function_wheel
           (fun d' =>
              rawData d' = snd (rte w)
              /\ calibration d' = calibration (sensor st w)
              /\ speedValid (speedData d') = verdict d'
              /\ (timeInterval (snd (rte w)) <= 0
                  \/ pulsesPerRevolution (calibration (sensor st w)) <= 0 ->
                  wheelSpeed (speedData d') = fzero
                  /\ wheelSpeedRaw (speedData d') = fzero
                  /\ accelerationX (speedData d') = fzero)
              /\ (qualityFactor (speedData d') = 100 <->
                  speedValid (speedData d') = true
                  /\ unreasonable (accelerationX (speedData d')) = false)
              /\ (speedValid (speedData d') = true ->
                  qualityFactor (speedData d') = 100
                  \/ qualityFactor (speedData d') = 30)
              /\ (speedValid (speedData d') = false ->
                  qualityFactor (speedData d') <= 50)
              /\ 0 <= qualityFactor (speedData d') <= 100)); try assumption.
  intros st' Hwf' Es.
  pose proof (float_process_wheel_fields rte st' w Hwf' Hw Hr) as F.
  cbv zeta in F. rewrite Es in F. exact F.
Qed.

(** The verdict, on a speed that is a number: valid exactly with the
    speed within the range, the status OK and the calibration marked
    valid. *)
Lemma float_range_check v :
  is_nan v = false -> (out_of_range v = false <-> in_speed_range v).
Proof.
  intros Hv. unfold out_of_range, in_speed_range, fgtb.
  rewrite orb_false_iff.
  change (SFltb MAX_WHEEL_SPEED_KMH v) with (fltb MAX_WHEEL_SPEED_KMH v).
  rewrite (Float32Facts.fltb_false_fleb v fzero Hv eq_refl).
  rewrite (Float32Facts.fltb_false_fleb MAX_WHEEL_SPEED_KMH v eq_refl Hv).
  reflexivity.
Qed.

Lemma float_verdict_true d :
  is_nan (wheelSpeed (speedData d)) = false ->
  (verdict d = true <->
   in_speed_range (wheelSpeed (speedData d))
   /\ status (rawData d) = SENSOR_STATUS_OK
   /\ calibrationValid (calibration d) = true).
Proof.
  intros Hv. unfold verdict.
  rewrite !andb_true_iff, negb_true_iff, (float_range_check _ Hv).
  destruct (status (rawData d)); cbn; intuition congruence.
Qed.

Lemma float_verdict_zero d :
  wheelSpeed (speedData d) = fzero ->
  (verdict d = true <->
   status (rawData d) = SENSOR_STATUS_OK
   /\ calibrationValid (calibration d) = true).
Proof.
  intros Hz. unfold verdict. rewrite Hz.
  change (out_of_range fzero) with false. cbn [negb andb].
  rewrite andb_true_iff.
  destruct (status (rawData d)); cbn; intuition congruence.
Qed.

(** C2, as amended.  After a cycle of the speed sensor component, for a
    wheel whose raw sample was read and whose calibrated speed is a
    number: the validity flag is false exactly when the calibrated wheel
    speed lies outside [0, MAX_WHEEL_SPEED_KMH], the hardware status is
    not OK, or the calibration is not marked valid.  A zero elapsed time
    or a zero pulses-per-revolution does not clear the flag: the raw
    speed, the calibrated speed and the acceleration are then set to 0,
    and the sample is valid exactly when the status is OK and the
    calibration is marked valid. *)
Theorem validity_after_cycle rte st w :
  wf st -> (w < WHEEL_MAX)%nat -> g_SpeedSensor_Initialized st = true ->
  fst (rte w) = E_OK ->
  let d := sensor (snd (SpeedSensor_MainFunction rte st)) w in
  rawData d = snd (rte w)
  /\ calibration d = calibration (sensor st w)
  /\ (is_nan (wheelSpeed (speedData d)) = false ->
      (speedValid (speedData d) = false <->
       ~ in_speed_range (wheelSpeed (speedData d))
       \/ status (rawData d) <> SENSOR_STATUS_OK
       \/ calibrationValid (calibration d) = false))
  /\ (timeInterval (snd (rte w)) = 0
      \/ pulsesPerRevolution (calibration (sensor st w)) = 0 ->
      wheelSpeed (speedData d) = fzero
      /\ wheelSpeedRaw (speedData d) = fzero
      /\ accelerationX (speedData d) = fzero
      /\ (speedValid (speedData d) = true <->
          status (rawData d) = SENSOR_STATUS_OK
          /\ calibrationValid (calibration d) = true)).
Proof.
  intros Hwf Hw Hi Hr. unfold SpeedSensor_MainFunction. rewrite Hi. cbn [snd].
  destruct (float_main_function_fields rte st w Hwf Hw Hr)
    as (R & C & V & Z0 & _).
  cbv zeta. split; [exact R|]. split; [exact C|]. split.
  - intros Hn. rewrite V.
    pose proof (float_verdict_true _ Hn) as T.
    destruct (verdict (sensor (fold_left (process_wheel rte) wheels st) w)).
    + split; [discriminate|]. intros [N|[N|N]].
      * exfalso. apply N. now apply T.
      * exfalso. apply N. now apply T.
      * destruct (proj1 T eq_refl) as (_ & _ & T3). congruence.
    + split; [|reflexivity]. intros _.
      destruct (calibrationValid
                  (calibration (sensor (fold_left (process_wheel rte) wheels st) w)))
        eqn:Ec; [|now auto].
      destruct (status (rawData (sensor (fold_left (process_wheel rte) wheels st) w)))
        eqn:Es; try (right; left; discriminate).
      left. intros Hin.
      assert (false = true) as F by (apply T; split; [exact Hin|split; reflexivity]).
      discriminate F.
  - intros H0.
    destruct Z0 as (Z1 & Z2 & Z3); [lia|].
    split; [exact Z1|]. split; [exact Z2|]. split; [exact Z3|].
    rewrite V. now apply float_verdict_zero.
Qed.

Lemma validity_after_cycle_witness :
  (let d := sensor (snd (SpeedSensor_MainFunction
                           SpeedSensorSpec.zero_interval_cycle started)) 0 in
   wheelSpeed (speedData d) = fzero
   /\ wheelSpeedRaw (speedData d) = fzero
   /\ accelerationX (speedData d) = fzero
   /\ (speedValid (speedData d) = true <->
       status (rawData d) = SENSOR_STATUS_OK
       /\ calibrationValid (calibration d) = true))
  /\ (let d := sensor (snd (SpeedSensor_MainFunction
                              SpeedSensorSpec.cruise_cycle started)) 0 in
      speedValid (speedData d) = false <->
      ~ in_speed_range (wheelSpeed (speedData d))
      \/ status (rawData d) <> SENSOR_STATUS_OK
      \/ calibrationValid (calibration d) = false).
Proof.
  assert (0 < WHEEL_MAX)%nat as L by (unfold WHEEL_MAX; lia).
  split.
  - destruct (validity_after_cycle SpeedSensorSpec.zero_interval_cycle started 0
                float_wf_started L eq_refl eq_refl) as (_ & _ & _ & Z).
    apply Z. left. reflexivity.
  - destruct (validity_after_cycle SpeedSensorSpec.cruise_cycle started 0
                float_wf_started L eq_refl eq_refl) as (_ & _ & R & _).
    apply R. vm_compute. reflexivity.
Defined.

(** C2, as stated, fails: a raw sample with a zero elapsed time and status
    OK yields a valid speed sample (of speed 0). *)
Lemma zero_interval_sample_is_valid :
  let raw := snd (SpeedSensorSpec.zero_interval_cycle 0%nat) in
  let d := sensor (snd (SpeedSensor_MainFunction
                          SpeedSensorSpec.zero_interval_cycle started)) 0 in
  timeInterval raw = 0
  /\ status raw = SENSOR_STATUS_OK
  /\ wheelSpeed (speedData d) = fzero
  /\ speedValid (speedData d) = true.
Proof. vm_compute. repeat split; reflexivity. Qed.

(** A raw speed above the maximum does not clear the flag either: the
    range check reads the calibrated speed.  With a correction factor of
    [0.6f], 60 pulses in 21 ms give a raw speed of 360 km/h and a valid
    sample of about 216 km/h. *)
Example raw_speed_above_max_is_valid :
  let st := snd (SpeedSensor_SetCalibration started 0 factor_0_6) in
  let d := sensor (snd (SpeedSensor_MainFunction fast_cycle st)) 0 in
  wheelSpeedRaw (speedData d) = of_int 360
  /\ fgtb (wheelSpeedRaw (speedData d)) MAX_WHEEL_SPEED_KMH = true
  /\ wheelSpeed (speedData d) = S754_finite false 14155777 (-16)
  /\ in_speed_range (wheelSpeed (speedData d))
  /\ speedValid (speedData d) = true.
Proof. vm_compute. repeat split; reflexivity. Qed.

(** A calibrated speed that is not a number passes both comparisons of
    the range check.  [SpeedSensor_SetCalibration] does not look at the
    offset; with an offset that is not a number the next sample has a NaN
    speed and acceleration, is flagged valid and is graded 100. *)
Example nan_speed_is_flagged_valid :
  let d := sensor (snd (SpeedSensor_MainFunction SpeedSensorSpec.cruise_cycle
                          with_nan_offset)) 0 in
  fst (SpeedSensor_SetCalibration started WHEEL_FRONT_LEFT nan_offset) = E_OK
  /\ is_nan (wheelSpeed (speedData d)) = true
  /\ is_nan (accelerationX (speedData d)) = true
  /\ speedValid (speedData d) = true
  /\ qualityFactor (speedData d) = 100.
Proof. vm_compute. repeat split; reflexivity. Qed.

(** The acceleration check, on an acceleration that is a number: passed
    exactly within [-20, 20]. *)
Lemma float_acceleration_bound a :
  is_nan a = false ->
  (unreasonable a = false <->
   fleb (fneg (of_int 20)) a = true /\ fleb a (of_int 20) = true).
Proof.
  intros Ha. unfold unreasonable, fgtb.
  change (SFltb (of_int 20) a) with (fltb (of_int 20) a).
  rewrite orb_false_iff.
  rewrite (Float32Facts.fltb_false_fleb (of_int 20) a eq_refl Ha).
  rewrite (Float32Facts.fltb_false_fleb a (fneg (of_int 20)) Ha eq_refl).
  tauto.
Qed.

(** X3.  After a cycle in which the read of a wheel succeeded, the quality
    factor of its sample is 100 exactly when the sample is valid and
    neither comparison of the acceleration check ([a > 20.0f],
    [a < -20.0f]) holds, which for an acceleration that is a number means
    that it lies within [-20, 20]; a valid sample is graded 100 or 30, an
    invalid one at most 50. *)
Theorem quality_factor_after_cycle rte st w :
  wf st -> (w < WHEEL_MAX)%nat -> g_SpeedSensor_Initialized st = true ->
  fst (rte w) = E_OK ->
  let s := speedData (sensor (snd (SpeedSensor_MainFunction rte st)) w) in
  (qualityFactor s = 100 <->
   speedValid s = true /\ unreasonable (accelerationX s) = false)
  /\ (is_nan (accelerationX s) = false ->
      (qualityFactor s = 100 <->
       speedValid s = true
       /\ fleb (fneg (of_int 20)) (accelerationX s) = true
       /\ fleb (accelerationX s) (of_int 20) = true))
  /\ (speedValid s = true -> qualityFactor s = 100 \/ qualityFactor s = 30)
  /\ (speedValid s = false -> qualityFactor s <= 50)
  /\ 0 <= qualityFactor s <= 100.
Proof.
  intros Hwf Hw Hi Hr. unfold SpeedSensor_MainFunction. rewrite Hi. cbn [snd].
  destruct (float_main_function_fields rte st w Hwf Hw Hr)
    as (_ & _ & _ & _ & Q1 & Q2 & Q3 & Q4).
  cbv zeta. split; [exact Q1|]. split; [|auto].
  intros Ha. rewrite Q1, (float_acceleration_bound _ Ha). tauto.
Qed.

Lemma quality_factor_after_cycle_witness :
  (let s := speedData (sensor (snd (SpeedSensor_MainFunction
                                      SpeedSensorSpec.zero_interval_cycle
                                      started)) 0) in
   qualityFactor s = 100 <->
   speedValid s = true
   /\ fleb (fneg (of_int 20)) (accelerationX s) = true
   /\ fleb (accelerationX s) (of_int 20) = true)
  /\ (let s := speedData (sensor after_cruise_cycle 0) in
      qualityFactor s = 100 \/ qualityFactor s = 30).
Proof.
  assert (0 < WHEEL_MAX)%nat as L by (unfold WHEEL_MAX; lia).
  split.
  - destruct (quality_factor_after_cycle SpeedSensorSpec.zero_interval_cycle
                started 0 float_wf_started L eq_refl eq_refl)
      as (_ & Q & _).
    apply Q. vm_compute. reflexivity.
  - destruct (quality_factor_after_cycle SpeedSensorSpec.cruise_cycle
                started 0 float_wf_started L eq_refl eq_refl)
      as (_ & _ & Q & _).
    apply Q. vm_compute. reflexivity.
Defined.

(** The first cycle from standstill at 60 km/h is an acceleration far
    above 20: the sample is valid and graded 30. *)
Example first_cruise_sample_graded_30 :
  let s := speedData (sensor after_cruise_cycle 0) in
  speedValid s = true /\ qualityFactor s = 30
  /\ unreasonable (accelerationX s) = true.
Proof. vm_compute. repeat split; reflexivity. Qed.

Lemma float_validate_calibration_plausible st w :
  snd (SpeedSensor_ValidateCalibration st w) = true ->
  ((w <? WHEEL_MAX)%nat && g_SpeedSensor_Initialized st = true)
  /\ plausible (calibration (sensor st w)).
Proof.
  unfold SpeedSensor_ValidateCalibration.
  destruct ((w <? WHEEL_MAX)%nat && g_SpeedSensor_Initialized st);
    cbn [snd]; [|discriminate].
  intros H. split; [reflexivity|].
  repeat (apply andb_prop in H; destruct H as [H ?]).
  unfold plausible, fgeb in *.
  repeat split; try assumption; apply Z.leb_le; assumption.
Qed.

(** X6.  A coefficient set that [SpeedSensor_ValidateCalibration] reports
    as valid passes the parameter check of [SpeedSensor_SetCalibration]:
    setting it again is accepted.  The reverse does not hold, the check of
    the setter is the wider one. *)
Theorem validated_calibration_is_accepted st w :
  snd (SpeedSensor_ValidateCalibration st w) = true ->
  fst (SpeedSensor_SetCalibration st w (calibration (sensor st w))) = E_OK
  /\ plausible (calibration (sensor st w)).
Proof.
  intros H. destruct (float_validate_calibration_plausible st w H) as [G P].
  split; [|exact P].
  unfold SpeedSensor_SetCalibration. rewrite G.
  destruct P as (F1 & F2 & [P1 P2] & C1 & C2 & V).
  assert (calibration_accepted (calibration (sensor st w)) = true) as A.
  { unfold calibration_accepted.
    repeat (apply andb_true_intro; split).
    - now apply Float32Facts.above_0_8_above_0_5.
    - now apply Float32Facts.up_to_1_2_below_2.
    - apply Z.ltb_lt. lia.
    - now apply Float32Facts.above_1_5_above_0. }
  rewrite A. reflexivity.
Qed.

Lemma validated_calibration_is_accepted_witness :
  fst (SpeedSensor_SetCalibration started 2 (calibration (sensor started 2))) = E_OK.
Proof.
  exact (proj1 (validated_calibration_is_accepted started 2 eq_refl)).
Defined.

(** A factor of [1.5f] is accepted by the setter and reported as not valid
    by the validation service. *)
Example accepted_calibration_not_validated :
  let cal := mkCal (literal 15 10) fzero 60 (literal 21 10) true 0 in
  let st := snd (SpeedSensor_SetCalibration started 0 cal) in
  fst (SpeedSensor_SetCalibration started 0 cal) = E_OK
  /\ SpeedSensor_ValidateCalibration st 0 = (E_OK, false).
Proof. split; reflexivity. Qed.

Lemma float_publish_speed_initialised st w written :
  g_SpeedSensor_Initialized st = true -> (w < WHEEL_MAX)%nat ->
  publish_speed st w written = written ++ [(w, speedData (sensor st w))].
Proof.
  intros Hi Hw. unfold publish_speed, SpeedSensor_GetSpeedData.
  now rewrite Hi, (proj2 (Nat.ltb_lt w WHEEL_MAX) Hw).
Qed.

(** X9.  [RE_SpeedSensor_MainCyclic] on an initialised component writes
    one sample per wheel, in wheel order, each the sample the cycle left;
    when all four reads of the cycle succeeded, every sample it writes as
    valid passed both comparisons of the range check, so that its speed,
    when it is a number, lies between 0 and 300 km/h, and comes from a
    wheel whose hardware status is OK.  Before initialisation it writes
    nothing. *)
Theorem published_samples rte st :
  wf st ->
  let st' := fst (RE_SpeedSensor_MainCyclic rte st) in
  let written := snd (RE_SpeedSensor_MainCyclic rte st) in
  (g_SpeedSensor_Initialized st = true ->
   written = map (fun w => (w, speedData (sensor st' w))) wheels
   /\ ((forall w, (w < WHEEL_MAX)%nat -> fst (rte w) = E_OK) ->
       forall w s, In (w, s) written -> speedValid s = true ->
         out_of_range (wheelSpeed s) = false
         /\ (is_nan (wheelSpeed s) = false -> in_speed_range (wheelSpeed s))
         /\ status (rawData (sensor st' w)) = SENSOR_STATUS_OK))
  /\ (g_SpeedSensor_Initialized st = false -> written = [] /\ st' = st).
Proof.
  intros Hwf st' written. split.
  - intros Hi.
    assert (g_SpeedSensor_Initialized st' = true) as Hi'.
    { unfold st', RE_SpeedSensor_MainCyclic, SpeedSensor_MainFunction.
      rewrite Hi. cbn [fst snd fold_left wheels].
      now rewrite !float_initialized_process_wheel. }
    assert (written = map (fun w => (w, speedData (sensor st' w))) wheels) as Ew.
    { unfold written, RE_SpeedSensor_MainCyclic. cbn [snd].
      fold st'. unfold WHEEL_FRONT_LEFT, WHEEL_FRONT_RIGHT, WHEEL_REAR_LEFT,
        WHEEL_REAR_RIGHT.
      rewrite !float_publish_speed_initialised
        by (assumption || unfold WHEEL_MAX; lia).
      reflexivity. }
    split; [exact Ew|].
    intros Hr w s Hin Hv. rewrite Ew in Hin.
    apply in_map_iff in Hin. destruct Hin as (w0 & E & Hw0).
    inversion E; subst w0 s. clear E.
    assert (w < WHEEL_MAX)%nat as Hw.
    { unfold wheels, WHEEL_FRONT_LEFT, WHEEL_FRONT_RIGHT, WHEEL_REAR_LEFT,
        WHEEL_REAR_RIGHT, WHEEL_MAX in *. simpl in Hw0. lia. }
    destruct (float_main_function_fields rte st w Hwf Hw (Hr w Hw))
      as (_ & _ & V & _).
    assert (st' = fold_left (process_wheel rte) wheels st) as Es.
    { unfold st', RE_SpeedSensor_MainCyclic, SpeedSensor_MainFunction.
      now rewrite Hi. }
    rewrite <- Es in V. rewrite V in Hv.
    assert (out_of_range (wheelSpeed (speedData (sensor st' w))) = false
            /\ status (rawData (sensor st' w)) = SENSOR_STATUS_OK) as [O S].
    { unfold verdict in Hv.
      apply andb_prop in Hv. destruct Hv as [Hv _].
      apply andb_prop in Hv. destruct Hv as [Ho Hs].
      apply negb_true_iff in Ho. split; [exact Ho|].
      destruct (status (rawData (sensor st' w))); cbn in Hs;
        congruence. }
    split; [exact O|]. split; [|exact S].
    intros Hn. now apply float_range_check.
  - intros Hi. unfold written, st', RE_SpeedSensor_MainCyclic,
      SpeedSensor_MainFunction, publish_speed, SpeedSensor_GetSpeedData.
    rewrite Hi. cbn. rewrite Hi. split; reflexivity.
Qed.

Lemma published_samples_witness :
  snd (RE_SpeedSensor_MainCyclic SpeedSensorSpec.cruise_cycle started)
  = map (fun w => (w, speedData (sensor after_cruise_cycle w))) wheels
  /\ in_speed_range (wheelSpeed (speedData (sensor after_cruise_cycle 0)))
  /\ status (rawData (sensor after_cruise_cycle 0)) = SENSOR_STATUS_OK.
Proof.
  destruct (proj1 (published_samples SpeedSensorSpec.cruise_cycle started
                     float_wf_started) eq_refl) as [Ew Hv].
  split; [exact Ew|].
  destruct (Hv (fun _ _ => eq_refl) 0%nat
              (speedData (sensor after_cruise_cycle 0)))
    as (_ & R & S).
  - rewrite Ew. left. reflexivity.
  - vm_compute. reflexivity.
  - split; [apply R; vm_compute; reflexivity | exact S].
Defined.

End SpeedSensorFloatFacts.

(** ** Calibration sessions over binary32 *)

Module CalibrationFloatFacts.
Import Float32 CalibrationManager CalibrationManagerFloat CalibrationFloatSpec.



(** *** The validation gate *)









(** A cycle that computes with a live speed of 60 km/h against a
    reference of 50 km/h: the factor, the [float32] nearest to 5/6, is
    within the band, the accuracy 80 % is below 98 %, and the session ends
    failed with the validation-failed result and the DTC. *)
Example inaccurate_calibration_fails :
  let w := computed at_60_kmh 1 (of_int 50) in
  calculation_due (sampling at_60_kmh 1 (of_int 50)) 0
  /\ state (session (cm w) 0) = CALIBRATION_STATE_FAILED
  /\ result (session (cm w) 0) = CALIBRATION_RESULT_VALIDATION_FAILED
  /\ calculatedCorrectionFactor (session (cm w) 0) = literal 5 6
  /\ measuredAccuracy (session (cm w) 0) = of_int 80
  /\ dtc_calls w = [(u16 DTC_CALIBRATION_FAILED, true)].
Proof. vm_compute. repeat split; reflexivity || discriminate. Qed.

(** With a configured minimum of 0 samples and no usable sample (the
    wheel at standstill: a valid sample of speed 0), the two averages are
    [0.0f / 0.0f]: the factor and the accuracy are not numbers, the gate
    fails, and the session ends failed. *)
Example no_usable_sample_fails :
  let w := computed standstill 0 (of_int 50) in
  calculation_due (sampling standstill 0 (of_int 50)) 0
  /\ sum_samples (samples (cm w) 0) = (fzero, fzero, 0)
  /\ is_nan (calculatedCorrectionFactor (session (cm w) 0)) = true
  /\ is_nan (measuredAccuracy (session (cm w) 0)) = true
  /\ state (session (cm w) 0) = CALIBRATION_STATE_FAILED
  /\ result (session (cm w) 0) = CALIBRATION_RESULT_VALIDATION_FAILED
  /\ dtc_calls w = [(u16 DTC_CALIBRATION_FAILED, true)].
Proof. vm_compute. repeat split; reflexivity || discriminate. Qed.

End CalibrationFloatFacts.
